(* ===== verification/_CoqProject ===== *)
-Q . S2P
Prelude.v
GoLib.v
Config.v
Lifecycle.v
LifecycleTheorems.v
Paging.v
Pgx.v
Grpc.v
DocPb.v
DocDomain.v
DocService.v
DocServer.v
DocSql.v
DocRepository.v
DocSpec.v
DocRefine.v
DocLawful.v
DocContract.v
DocRpc.v
DocListing.v
Examples.v
DocTheorems.v
DocInterleaving.v
DocRpcTheorems.v
UserDomain.v
UserSql.v
UserRepository.v
UserSpec.v
UserServer.v
UserRpc.v
UserTheorems.v
UserWire.v
DocClient.v
Http.v
Gateway.v
Mux.v
Router.v
GatewayRules.v
RouterRules.v
GatewayExamples.v
GatewayTheorems.v
RouterTheorems.v
UserWireTheorems.v
SystemReplies.v
SystemSteps.v
SystemSharing.v
SystemListing.v
SharingTheorems.v
SystemTheorems.v
UserSystemTheorems.v
