(* ===== verification/Prelude.v ===== *)
(** * Verification of reed: documents, permissions, users and the API gateway

    The repository is a document-sharing back end in Go: a document service and
    a user service, each a gRPC server over PostgreSQL, and an API gateway that
    speaks HTTP to clients and gRPC to the two services.  The development
    translates the three programs, from the SQL statements to the HTTP
    handlers, and proves what they promise each other and their clients.

    ** The parts and how they interact

    An HTTP request is decoded by a handler of the gateway, which calls a
    client, which calls a gRPC handler of a service, which calls the method of
    the service layer, which calls the repository, which runs statements on the
    database in a transaction or on the connection pool.  Errors travel back:
    database errors become domain errors, domain errors become gRPC statuses,
    statuses become HTTP statuses.

    - [Prelude]: a Go computation [go W E A] is a function of the state of the
      world that returns, fails with an error or panics; [defer], pointers,
      loops, early returns; weakest preconditions [wp] and their rules; lemmas
      on lists and strings.
    - [GoLib]: UUIDs as sixteen bytes with the order of PostgreSQL; package
      uuid as a parameter with its documented round trips.
    - [Pgx]: the database client: a world with the tables, an open transaction,
      a clock and an environment that chooses, interaction by interaction,
      whether it succeeds, is lost, or is executed although the client sees an
      error.  The rules for statements, [Begin] and [Commit] are proved once and
      used by both repositories.
    - [Paging]: pages of a list ordered by a key, and that following the cursors
      visits every element below the first cursor once, in order.
    - [Grpc]: status codes, statuses, timestamps, the errors of a client.
    - [Config]: the environment the three programs read
      (internal/util/env.go, internal/config/constants.go, and
      internal/config/postgres.go of the services).
    - [Lifecycle], [LifecycleTheorems]: start and end of the two services
      (internal/config/otel.go, postgres.go and cmd/server/main.go): the
      telemetry pipeline with its exporters, providers and clean-up functions,
      the pool of connections, and what is held when the program ends.

    The document service (src/document_service):
    - [DocDomain], [DocService]: internal/service (errors.go,
      document_service.go): errors, data, the interface [DocumentRepository] as
      a typeclass, the twelve methods of [DocumentService] over it.
    - [DocSql]: internal/repository/sqlc/sql: the tables documents, guests and
      permissions as finite maps with their keys, foreign keys and enumerations,
      and the statements of query.sql.
    - [DocRepository]: internal/repository/document_repository.go, all methods
      with their transactions, an instance of the interface.
    - [DocPb], [DocServer], [DocClient]: api/v1/document.proto,
      internal/server/document_server.go, pkg/client/client.go.
    - [DocSpec]: the abstract specification: a state maps a document to its
      fields, permissions and guests; [ok_step] is what each call does and
      answers, given the random id that is drawn for it, [step] adds lost and
      late interactions.  [DocRefine] relates
      states and tables, [DocLawful] proves that each method of the repository
      is a step, as an instance of the class [LawfulRepository].
    - [DocContract], [DocRpc], [DocListing]: proved against that class alone:
      which calls the service layer forwards or refuses, how a gRPC handler
      decodes, answers and chooses a status, what a paging client collects.
    - [DocTheorems], [DocRpcTheorems]: the properties, of the service and its
      repository, and of the gRPC layer; [DocInterleaving]: what other clients may
      do between the statements of the one method that runs several of them
      without a transaction.

    The user service (src/user_service): [UserDomain] (internal/service,
    internal/config), [UserSql] (internal/repository/sqlc), [UserRepository]
    (internal/repository/user_repository.go), [UserServer]
    (internal/server/user_server.go, api/user.proto, the dispatch of
    api/user_grpc.pb.go, pkg/client/client.go); [UserSpec] holds the
    specification and the proof that the repository implements it, [UserRpc]
    the contract of the RPCs, [UserTheorems] the properties.  [UserWire] is the
    generated gRPC code (api/user_grpc.pb.go: client stubs, method handlers,
    service description) with the interceptors of pkg/middleware, over a
    connection that carries encoded messages; [UserWireTheorems] shows that a
    client cannot tell it from calling the handlers directly.

    The API gateway (src/api_gateway/internal/server): [Http] (the response
    being written, requests, the types of api_gateway.gen.go, http_response.go),
    [Gateway] (auth.go, auth_middleware.go, custom_validation.go, user.go,
    document.go, permission.go), [GatewayRules] (the operations as one type, and
    the rules for one response per request) and [GatewayTheorems] (the gateway
    alone).  [Mux] is the request multiplexer of net/http, [Router] the
    generated router, and server.go and cmd/server/main.go over it: wrappers that read parameters,
    middlewares, the registration of the routes, the embedded specification;
    [RouterRules] states the API as a table, and [RouterTheorems] relates the
    program to it.

    The gateway and the services together: [SystemReplies] (what the gateway
    makes of the replies of the document service), [SystemSteps] (what a request
    asks of the document service, and the step of its specification that becomes
    of it), [SystemSharing] (the operations on permissions when nothing fails)
    and [SystemListing] (a client that pages over HTTP), with the properties in
    [SharingTheorems], [SystemTheorems] and [UserSystemTheorems].

    [Examples] and [GatewayExamples] hold concrete values of all parameters;
    every theorem with hypotheses is applied to them.

    ** What the theorems show

    - Refinement: with any faults of the database each repository method returns
      and makes a step of its specification: effects are complete or absent,
      and exact without faults ([repository_refines_specification],
      [user_repository_refines_specification]); gRPC handlers make the step
      their decoded request names, with the documented status codes
      ([rpc_contract], [user_rpc_contract]); and so does a request over HTTP,
      with the documented responses ([gateway_refines_specification], with two
      exceptions that it names).  What is drawn at random, ids and salts, comes
      from the environment of the world, and the specifications are indexed by
      it: a creation fails for a taken id only when the id that was drawn is
      taken.
    - Invariants of the tables over all runs ([tables_invariant_kept],
      [user_table_invariant]), atomicity ([delete_documents_atomic],
      [guest_update_interleaves]), exactly one response per request ([gateway_answers_once]), refusal of guests
      ([guests_are_refused]).
    - The program of the gateway runs the operation its specification lists for
      the method and the path, and answers 404 or 405 to all else
      ([gateway_serves_the_api]); the generated gRPC code and the interceptors
      of the user service change nothing ([user_wire_is_transparent]).
    - Every document and permission operation of the gateway ends with one
      response and no crash, whatever the database does, outside the cases a
      theorem names ([document_operations_answer]); what the service answers has
      a translation ([replies_are_translated]); pages are bounded
      ([listings_are_bounded]).
    - Listings are complete and ordered ([list_documents_complete],
      [list_permissions_complete], [list_documents_from_now]), also for a client
      of the gateway ([http_listing_complete]); cursors and levels survive the
      wire ([cursor_string_round_trip], [permission_level_round_trip]).
    - End to end: [post_document_creates], [registered_user_logs_in],
      [create_document_then_read], [changed_password_validates],
      [sharing_and_revoking], [guest_is_shared_with].
    - Behaviour the code has and does not mean to have, stated as theorems:
      [first_page_crashes], [get_document_is_not_found],
      [put_document_reports_400_and_updates], [every_token_is_refused],
      [deployed_gateway_is_closed], [what_services_release],
      [login_is_answered_twice], [passwords_never_change],
      [deactivated_user_validates], [short_password_echoed],
      [permissions_by_last_change_skip_rows], [upsert_removes_the_owner],
      [any_user_deletes_any_document].

    ** Bounds and fuel

    Every function of the code terminates structurally, so [wp] is total
    correctness and no fuel is needed; the one fuel is that of a client that
    follows cursors, and its theorems need only more fuel than there are
    matching rows.  Page sizes and enumerations are integers at the values the
    code compares them with; an [int32] from the wire is a [Z], which the code
    only compares and passes on.  Times are nanoseconds since the epoch.

    ** What is not modelled, and why

    - Interleaving of two transactions: a call runs to its end before the next
      one starts ([guest_update_interleaves] is the exception), with one clock
      for client and server.
    - Text that PostgreSQL refuses (NUL, invalid UTF-8), and rounding of times to
      microseconds.
    - Log messages and spans (a start-up message is its text), listening on a
      port, and the timeouts of calls (a timeout is a status the client may
      return).
    - Patterns of [ServeMux] that no route uses: [{name...}], [{$}], a trailing
      slash.
    - Packages are parameters, with their documented laws as hypotheses: uuid
      ([UuidLaws]), bcrypt ([BcryptLaws]), golang-jwt ([JwtLaws]), the JSON
      decoder ([JsonDecode]), base64 with the wire format of a cursor
      ([CursorCodecLaws], [CursorCodecTotal]), protobuf ([ProtoLaws], of which
      the real package keeps the round trip for valid UTF-8 and integers of the
      width of their field), gRPC
      ([GrpcChainLaws], [Dial], [TimestampLaws]), pgx ([PgxPool], [PgTypes]),
      OpenTelemetry ([Platform]), the OpenAPI loader and validator
      ([OpenApiLaws]) and the runtime that reads parameters ([RuntimeBinding]).
    - The message types the protobuf compiler generates, with their reflection:
      the messages are modelled from the .proto files.  db.go of the user
      service, an interface without code.  The manual test clients.
    - The message proxy (src/message_proxy), a Rust program that shares no code
      with these services.

    ** Plan

    Next: paging of permissions over HTTP, and transactions that interleave. *)

From stdpp Require Export base list gmap strings sorting pretty vector.

(** * Go computations

    A Go function of the program is a state-passing function.  It ends in one
    of three ways: it returns, it returns a non-nil [error], or it panics
    (nil-pointer dereference).  The value returned next to a non-nil error is
    read only where it is written out (an update of a document goes on with the
    nil UUID, and two error texts print the bytes that were parsed), so a pair [(T, error)] of Go is the sum [Ret]/[Err] here. *)

Inductive outcome (E A : Type) : Type :=
  | Ret (a : A)
  | Err (e : E)
  | Panic (why : string).
Arguments Ret {_ _} _.
Arguments Err {_ _} _.
Arguments Panic {_ _} _.

Definition go (W E A : Type) : Type := W → outcome E A * W.

#[global] Instance go_ret {W E} : MRet (go W E) := λ _ a w, (Ret a, w).

#[global] Instance go_bind {W E} : MBind (go W E) := λ _ _ k m w,
  match m w with
  | (Ret a, w') => k a w'
  | (Err e, w') => (Err e, w')
  | (Panic p, w') => (Panic p, w')
  end.

(** [return zero, err] *)
Definition throw {W E A} (e : E) : go W E A := λ w, (Err e, w).

(** a run-time panic *)
Definition go_panic {W E A} (why : string) : go W E A := λ w, (Panic why, w).

(** [x, err := m; if err != nil { return zero, f(err) }] *)
Definition map_err {W E1 E2 A} (m : go W E1 A) (f : E1 → E2) : go W E2 A := λ w,
  match m w with
  | (Ret a, w') => (Ret a, w')
  | (Err e, w') => (Err (f e), w')
  | (Panic p, w') => (Panic p, w')
  end.

(** [x, err := m; if err != nil { h(err); return }], where the handler [h]
    has effects of its own *)
Definition or_do {W E1 E2 A B} (m : go W E1 A) (h : E1 → go W E2 B) (stop : B → E2)
    : go W E2 A := λ w,
  match m w with
  | (Ret a, w') => (Ret a, w')
  | (Err e, w') =>
      match h e w' with
      | (Ret b, w'') => (Err (stop b), w'')
      | (Err e', w'') => (Err e', w'')
      | (Panic p, w'') => (Panic p, w'')
      end
  | (Panic p, w') => (Panic p, w')
  end.

(** [defer d(); m]: the deferred call runs however [m] ends *)
Definition defer {W E A} (d : W → W) (m : go W E A) : go W E A := λ w,
  match m w with (o, w') => (o, d w') end.

(** a pointer that is dereferenced *)
Definition deref {W E A} (p : option A) : go W E A :=
  match p with
  | Some a => mret a
  | None => go_panic "invalid memory address or nil pointer dereference"
  end.

(** a pure function of Go that returns [(T, error)] *)
Definition lift {W E A} (r : E + A) : go W E A :=
  match r with
  | inl e => throw e
  | inr a => mret a
  end.

(** [if b { return zero, e }] *)
Definition return_if {W E} (b : bool) (e : E) : go W E unit :=
  if b then throw e else mret ().

(** [for _, x := range l { if err := f(x); err != nil { return err } }] *)
Fixpoint for_each {W E A} (f : A → go W E unit) (l : list A) : go W E unit :=
  match l with
  | [] => mret ()
  | x :: l' => _ ← f x; for_each f l'
  end.

(** [result := make([]B, len(l)); for i, x := range l { y, err := f(x); ... }]
    for a pure [f] *)
Fixpoint collect {E A B} (f : A → E + B) (l : list A) : E + list B :=
  match l with
  | [] => inr []
  | x :: l' =>
      match f x with
      | inl e => inl e
      | inr y =>
          match collect f l' with
          | inl e => inl e
          | inr ys => inr (y :: ys)
          end
      end
  end.

Declare Scope go_scope.
Delimit Scope go_scope with go.
Notation "m 'or_return' f" := (map_err m f)
  (at level 95, f at level 94, no associativity) : go_scope.
#[global] Open Scope go_scope.
#[global] Open Scope stdpp_scope.

(** ** Weakest preconditions

    [wp m Q w]: running [m] in the world [w] ends in an outcome and a world
    that satisfy [Q].  Every Go computation of the model terminates, so this
    is total correctness. *)
Definition wp {W E A} (m : go W E A) (Q : outcome E A → W → Prop) (w : W) : Prop :=
  match m w with (o, w') => Q o w' end.

Section wp_rules.
Context {W : Type}.

Lemma wp_run {E A} (m : go W E A) Q w o w' : m w = (o, w') → wp m Q w → Q o w'.
Proof. unfold wp. intros ->. done. Qed.

Lemma wp_intro {E A} (m : go W E A) (Q : outcome E A → W → Prop) w :
  (∀ o w', m w = (o, w') → Q o w') → wp m Q w.
Proof. unfold wp. destruct (m w). auto. Qed.

Lemma wp_mono {E A} (m : go W E A) (Q Q' : outcome E A → W → Prop) w :
  wp m Q w → (∀ o w', Q o w' → Q' o w') → wp m Q' w.
Proof. unfold wp. destruct (m w). auto. Qed.

Lemma wp_ret {E A} (a : A) (Q : outcome E A → W → Prop) w :
  Q (Ret a) w → wp (mret a) Q w.
Proof. done. Qed.

Lemma wp_throw {E A} (e : E) (Q : outcome E A → W → Prop) w :
  Q (Err e) w → wp (throw e) Q w.
Proof. done. Qed.

Lemma wp_bind {E A B} (m : go W E A) (k : A → go W E B) Q w :
  wp m (λ o w', match o with
                | Ret a => wp (k a) Q w'
                | Err e => Q (Err e) w'
                | Panic p => Q (Panic p) w'
                end) w →
  wp (m ≫= k) Q w.
Proof. unfold wp, mbind, go_bind. destruct (m w) as [[]]; done. Qed.

Lemma wp_unbind {E A B} (m : go W E A) (k : A → go W E B) Q w :
  wp (m ≫= k) Q w →
  wp m (λ o w', match o with
                | Ret a => wp (k a) Q w'
                | Err e => Q (Err e) w'
                | Panic p => Q (Panic p) w'
                end) w.
Proof. unfold wp, mbind, go_bind. destruct (m w) as [[]]; done. Qed.

Lemma wp_map_err {E1 E2 A} (m : go W E1 A) (f : E1 → E2) Q w :
  wp m (λ o w', match o with
                | Ret a => Q (Ret a) w'
                | Err e => Q (Err (f e)) w'
                | Panic p => Q (Panic p) w'
                end) w →
  wp (map_err m f) Q w.
Proof. unfold wp, map_err. destruct (m w) as [[]]; done. Qed.

Lemma wp_defer {E A} (d : W → W) (m : go W E A) Q w :
  wp m (λ o w', Q o (d w')) w → wp (defer d m) Q w.
Proof. unfold wp, defer. destruct (m w); done. Qed.

Lemma wp_for_each {E A} (f : A → go W E unit) (I : list A → W → Prop)
    (Q : outcome E unit → W → Prop) l w :
  I l w →
  (∀ x l' w, I (x :: l') w →
     wp (f x) (λ o w', match o with
                       | Ret _ => I l' w'
                       | Err e => Q (Err e) w'
                       | Panic p => Q (Panic p) w'
                       end) w) →
  (∀ w, I [] w → Q (Ret ()) w) →
  wp (for_each f l) Q w.
Proof.
  intros Hi Hstep Hend. revert w Hi.
  induction l as [|x l IH]; intros w Hi; simpl; [by apply wp_ret, Hend|].
  apply wp_bind. eapply wp_mono; [by apply Hstep|].
  intros [?|?|?] w'; simpl; auto.
Qed.

End wp_rules.

Lemma collect_inr {E A B} (f : A → E + B) l ys :
  collect f l = inr ys ↔ Forall2 (λ x y, f x = inr y) l ys.
Proof.
  revert ys. induction l as [|x l IH]; intros ys; simpl.
  - split; [by intros [= <-]; constructor | by inversion 1].
  - split.
    + destruct (f x) eqn:Hx; [done|]. destruct (collect f l); [done|].
      intros [= <-]. constructor; [done|]. by apply IH.
    + inversion 1 as [|? y ? ys' Hx Hl]; subst. rewrite Hx.
      by rewrite (proj2 (IH _) Hl).
Qed.

Lemma collect_length {E A B} (f : A → E + B) l ys :
  collect f l = inr ys → length ys = length l.
Proof. intros H%collect_inr. symmetry. by eapply Forall2_length. Qed.

Lemma collect_total {E A B} (f : A → E + B) (g : A → B) l :
  (∀ x, x ∈ l → f x = inr (g x)) → collect f l = inr (g <$> l).
Proof.
  induction l as [|x l IH]; intros Hf; [done|]. simpl.
  rewrite Hf by set_solver. rewrite IH; [done|]. intros; apply Hf; set_solver.
Qed.

Lemma collect_fmap {E A B C} (f : B → E + C) (h : A → B) (g : A → C) l :
  (∀ x, f (h x) = inr (g x)) → collect f (h <$> l) = inr (g <$> l).
Proof.
  intros Hf. induction l as [|x l IH]; [done|].
  rewrite !fmap_cons. cbn [collect]. by rewrite Hf, IH.
Qed.

(** ** Lists *)

Lemma NoDup_omap_key {A B K} (f : A → option B) (key : B → K) l :
  NoDup l →
  (∀ x y u v, x ∈ l → y ∈ l → f x = Some u → f y = Some v → key u = key v → x = y) →
  NoDup (key <$> omap f l).
Proof.
  induction 1 as [|x l Hx Hnd IH]; intros Hinj; [constructor|]. simpl.
  assert (NoDup (key <$> omap f l)).
  { apply IH. intros y z u v Hy Hz. apply Hinj; by right. }
  destruct (f x) as [u|] eqn:Hu; [|done]. rewrite fmap_cons. constructor; [|done].
  intros (v & Hk & (y & Hy & Hv)%list_elem_of_omap)%list_elem_of_fmap.
  apply Hx. rewrite (Hinj x y u v); [done|by left|by right|done..].
Qed.

Lemma NoDup_fmap_coarser {A K L} (f : A → K) (g : A → L) l :
  (∀ x y, g x = g y → f x = f y) → NoDup (f <$> l) → NoDup (g <$> l).
Proof.
  intros Hfg. induction l as [|x l IH]; [constructor|]. rewrite !fmap_cons, !NoDup_cons.
  intros [Hx Hnd]. split; [|by apply IH]. intros (y & Hy & Hin)%list_elem_of_fmap.
  apply Hx, list_elem_of_fmap. exists y. auto.
Qed.

Lemma list_filter_all {A} (P : A → Prop) `{∀ x, Decision (P x)} l :
  Forall P l → filter P l = l.
Proof.
  induction 1 as [|x l Hx _ IH]; [done|]. by rewrite filter_cons_True, IH.
Qed.

Lemma list_filter_none {A} (P : A → Prop) `{∀ x, Decision (P x)} l :
  Forall (λ x, ¬ P x) l → filter P l = [].
Proof.
  induction 1 as [|x l Hx _ IH]; [done|]. by rewrite filter_cons_False.
Qed.

Lemma list_elem_of_take {A} (x : A) n l : x ∈ take n l → x ∈ l.
Proof. intros (i & Hi & _)%elem_of_take. by eapply list_elem_of_lookup_2. Qed.

(** ** Strings *)

Lemma string_app_assoc (s1 s2 s3 : string) : s1 +:+ s2 +:+ s3 = (s1 +:+ s2) +:+ s3.
Proof. induction s1 as [|c s1 IH]; [done|]. simpl. unfold String.append in *. by rewrite IH. Qed.

(** every type of outcome but a panic *)
Definition no_panic {E A} (o : outcome E A) : Prop :=
  match o with Panic _ => False | _ => True end.
