(* ===== verification/GoLib.v ===== *)
(** The library types the services share: [uuid.UUID] as sixteen bytes with
    the order PostgreSQL gives it, the parts of package uuid the code calls
    (parameters), and the two [Countable] instances the tables are keyed by. *)

From S2P Require Import Prelude.
From Stdlib Require Import Strings.Byte.

(** * Bytes and UUIDs *)

#[global] Instance byte_eq_dec : EqDecision byte := Byte.byte_eq_dec.

#[global] Program Instance byte_countable : Countable byte :=
  inj_countable Byte.to_N Byte.of_N _.
Next Obligation. intros b. apply Byte.of_to_N. Qed.

(** [type UUID [16]byte] *)
Definition uuid : Type := vec byte 16.
#[global] Instance uuid_eq_dec : EqDecision uuid := vec_dec.

(** sixteen bytes in a row *)
Fixpoint to_vec (n : nat) (l : list byte) : option (vec byte n) :=
  match n, l with
  | O, [] => Some [#]
  | S n', b :: l' =>
      match to_vec n' l' with
      | Some v => Some (b ::: v)
      | None => None
      end
  | _, _ => None
  end.

Lemma to_vec_to_list n (v : vec byte n) : to_vec n (vec_to_list v) = Some v.
Proof. induction v as [|b n v IH]; simpl; [done|]. by rewrite IH. Qed.

#[global] Instance uuid_countable : Countable uuid :=
  inj_countable (vec_to_list (n:=16)) (to_vec 16) (to_vec_to_list 16).

(** [uuid.Nil] *)
Definition uuid_Nil : uuid := vreplicate 16 x00.

(** The value of a byte string read big-endian.  PostgreSQL compares two
    UUIDs byte by byte from the left, which on strings of one length is the
    order of these numbers ([be_num_lex]). *)
Definition byte_num (b : byte) : Z := Z.of_N (Byte.to_N b).

Fixpoint be_num (l : list byte) : Z :=
  match l with
  | [] => 0
  | b :: l' => byte_num b * 256 ^ Z.of_nat (length l') + be_num l'
  end%Z.

Definition uuid_num (u : uuid) : Z := be_num (vec_to_list u).

(** * Package github.com/google/uuid

    The package is not part of the repository: its functions are parameters,
    and what the code relies on is the documented round trip. *)
Class UuidLib := {
  uuid_String : uuid → string;
  (** the error of [Parse] is its text *)
  uuid_Parse : string → string + uuid;
  (** what [Parse] returns along with an error: the bytes read so far *)
  uuid_Parse_read : string → uuid;
  uuid_FromBytes : list byte → string + uuid;
}.

Class UuidLaws `{UuidLib} : Prop := {
  uuid_Parse_String u : uuid_Parse (uuid_String u) = inr u;
  uuid_FromBytes_array u : uuid_FromBytes (vec_to_list u) = inr u;
}.

(** * Facts *)

Lemma byte_num_bound b : (0 ≤ byte_num b < 256)%Z.
Proof. unfold byte_num. pose proof (Byte.to_N_bounded b). lia. Qed.

Lemma byte_num_inj b c : byte_num b = byte_num c → b = c.
Proof.
  unfold byte_num. intros H%N2Z.inj.
  apply (f_equal Byte.of_N) in H. rewrite !Byte.of_to_N in H. by injection H.
Qed.

Lemma pow256_pos n : (0 < 256 ^ Z.of_nat n)%Z.
Proof. lia. Qed.

Lemma be_num_bound l : (0 ≤ be_num l < 256 ^ Z.of_nat (length l))%Z.
Proof.
  induction l as [|b l IH]; simpl be_num; [simpl; lia|].
  pose proof (byte_num_bound b). cbn [length]. rewrite Nat2Z.inj_succ, Z.pow_succ_r by lia.
  nia.
Qed.

Lemma be_num_inj l1 l2 : length l1 = length l2 → be_num l1 = be_num l2 → l1 = l2.
Proof.
  revert l2. induction l1 as [|b l1 IH]; intros [|c l2]; try done.
  intros [= Hlen] Hnum. simpl be_num in Hnum. rewrite <- Hlen in Hnum.
  pose proof (be_num_bound l1). pose proof (be_num_bound l2) as H2. rewrite <- Hlen in H2.
  assert (byte_num b = byte_num c) as Hbc by nia.
  rewrite Hbc in Hnum. apply byte_num_inj in Hbc as ->.
  f_equal. apply IH; [done|lia].
Qed.

(** the order of the numbers is the byte-wise order of the strings *)
Lemma be_num_lex b c l1 l2 :
  length l1 = length l2 →
  (be_num (b :: l1) < be_num (c :: l2))%Z ↔
  (byte_num b < byte_num c ∨ (b = c ∧ be_num l1 < be_num l2))%Z.
Proof.
  intros Hlen. simpl be_num. rewrite <- Hlen.
  pose proof (be_num_bound l1). pose proof (be_num_bound l2) as H2. rewrite <- Hlen in H2.
  split.
  - intros Hlt. destruct (decide (byte_num b = byte_num c)) as [Heq|Hne]; [|nia].
    right. split; [by apply byte_num_inj|]. rewrite Heq in Hlt. lia.
  - intros [Hlt|[-> Hlt]]; nia.
Qed.

Lemma uuid_num_inj u v : uuid_num u = uuid_num v → u = v.
Proof.
  unfold uuid_num. intros H%be_num_inj; [|by rewrite !length_vec_to_list].
  by apply vec_to_list_inj2.
Qed.
#[global] Instance uuid_num_injective : Inj (=) (=) uuid_num.
Proof. exact uuid_num_inj. Qed.

Lemma uuid_num_bound u : (0 ≤ uuid_num u < 2 ^ 128)%Z.
Proof.
  unfold uuid_num. pose proof (be_num_bound (vec_to_list u)) as H.
  rewrite length_vec_to_list in H. apply H.
Qed.
