(* ===== verification/Config.v ===== *)
(** What the three programs read from their environment: [GetEnvWithDefault],
    of which each program has a copy, the constants of the gateway
    (api_gateway/internal/config/constants.go) and the text of the connection
    to PostgreSQL (internal/config/postgres.go of the two services). *)

From Stdlib Require Import Ascii.
From stdpp Require Import pretty.
From S2P Require Import Prelude.

(** [os.Getenv]: the empty string for a variable that is not set *)
Class Environment := Getenv : string → string.

(** ** strconv *)
Definition digit_value (c : ascii) : option Z :=
  let n := Z.of_N (N_of_ascii c) in
  if (48 <=? n)%Z && (n <=? 57)%Z then Some (n - 48)%Z else None.

Fixpoint digits_value (acc : Z) (s : string) : option Z :=
  match s with
  | EmptyString => Some acc
  | String c s' => d ← digit_value c; digits_value (10 * acc + d)%Z s'
  end.

(** [strconv.Atoi]: a sign and digits, within 64 bits; the error is not used *)
Definition Atoi (s : string) : option Z :=
  let magnitude := match s with
                   | String "+" s' | String "-" s' => s'
                   | _ => s
                   end in
  let negative := match s with String "-" _ => true | _ => false end in
  if bool_decide (magnitude = EmptyString) then None else
  n ← digits_value 0 magnitude;
  let n := if negative then (- n)%Z else n in
  if (- 2 ^ 63 <=? n)%Z && (n <? 2 ^ 63)%Z then Some n else None.

(** ** The gateway *)
Module gateway_config.
Section gateway_config.
Context `{Environment}.

Definition GetEnvWithDefault (key defaultValue : string) : string :=
  let value := Getenv key in
  if bool_decide (value = EmptyString) then defaultValue else value.

Definition UserServiceAddr : string := GetEnvWithDefault "USER_SERVICE_ADDRESS" "user-service:50051".
Definition DocumentServiceAddr : string :=
  GetEnvWithDefault "DOCUMENT_SERVICE_ADDRESS" "document-service:50051".
Definition JWTSecretKey : string := GetEnvWithDefault "JWT_SIGNING_KEY" "asdf".

End gateway_config.
End gateway_config.

(** ** The two services *)
Definition connection_string (host : string) (port : Z) (user password dbName poolMaxCons : string)
    : string :=
  "host=" +:+ host +:+ " port=" +:+ pretty port +:+ " user=" +:+ user +:+ " password=" +:+ password
    +:+ " dbname=" +:+ dbName +:+ " pool_max_conns=" +:+ poolMaxCons.

(** Package pgxpool, a parameter: the parser of connection strings, whose
    error is its text; a [Config] carries the tracer and the hook the programs
    set *)
Record PoolConfig := mkPoolConfig {
  ConnString : string;
  Tracer : bool;
  AfterConnect : bool;
}.
Class PgxPool := pgxpool_ParseConfig : string → string + PoolConfig.

Definition with_tracer (cfg : PoolConfig) : PoolConfig :=
  mkPoolConfig (ConnString cfg) true (AfterConnect cfg).

Module document_config.
Section document_config.
Context `{Environment} `{PgxPool}.

Definition GetEnvWithDefault (key defaultValue : string) : string :=
  let value := Getenv key in
  if bool_decide (value = EmptyString) then defaultValue else value.

Definition GetConfiguration : string + PoolConfig :=
  let portEnv := GetEnvWithDefault "POSTGRES_PORT" "5432" in
  let port := match Atoi portEnv with Some port => port | None => 5432%Z end in
  let host := GetEnvWithDefault "POSTGRES_HOST" "localhost" in
  let dbName := GetEnvWithDefault "POSTGRES_DB" "postgres" in
  let user := GetEnvWithDefault "POSTGRES_USER" "admin" in
  let password := GetEnvWithDefault "POSTGRES_PASSWORD" "password" in
  let poolMaxCons := GetEnvWithDefault "POOL_MAX_CONS" "25" in
  match pgxpool_ParseConfig (connection_string host port user password dbName poolMaxCons) with
  | inl err => inl err
  | inr cfg => inr (with_tracer cfg)
  end.

End document_config.
End document_config.

Module user_config.
Section user_config.
Context `{Environment} `{PgxPool}.

Definition GetEnvWithDefault (key defaultValue : string) : string :=
  let value := Getenv key in
  if bool_decide (value = EmptyString) then defaultValue else value.

Definition GetConfiguration : string + PoolConfig :=
  let portEnv := GetEnvWithDefault "POSTGRES_PORT" "5432" in
  let port := match Atoi portEnv with Some port => port | None => 5432%Z end in
  let host := GetEnvWithDefault "POSTGRES_HOST" "localhost" in
  let dbName := GetEnvWithDefault "POSTGRES_DB" "postgres" in
  let user := GetEnvWithDefault "POSTGRES_USER" "admin" in
  let password := GetEnvWithDefault "POSTGRES_PASSWORD" "password" in
  let poolMaxCons := GetEnvWithDefault "POOL_MAX_CONS" "25" in
  match pgxpool_ParseConfig (connection_string host port user password dbName poolMaxCons) with
  | inl err => inl err
  | inr cfg => inr (with_tracer cfg)
  end.

End user_config.
End user_config.
