(* ===== verification/Lifecycle.v ===== *)
(** The start and the end of the two services
    (internal/config/otel.go, internal/config/postgres.go and cmd/server/main.go
    of document_service and user_service): the telemetry pipeline with its list
    of functions to call at the end, the pool of connections to the database,
    and the programs, which run until the gRPC server stops.  What the packages
    of OpenTelemetry, pgx and gRPC answer is a parameter; the state is the list
    of what has happened. *)

From S2P Require Import Prelude Config.

Module Lifecycle.

(** ** What happens *)
Inductive provider := TracerProvider | MeterProvider | LoggerProvider.
Inductive exporter := OtlpTrace | OtlpMetric | OtlpLog | StdoutLog.

(** a provider is created with the exporters it exports to *)
Inductive event :=
  | ExporterCreated (e : exporter)
  | ProviderCreated (p : provider) (service : string) (exporters : list exporter)
  | ProviderShutdown (p : provider)
  | PropagatorSet
  | ProviderSet (p : provider)
  | DefaultLogger (name : string)
  | PoolOpened (config : PoolConfig)
  | PoolClosed
  | ServerCreated (interceptors : list string)
  | ServiceRegistered (service : string)
  | Logged (message : string).

#[global] Instance provider_eq_dec : EqDecision provider.
Proof. solve_decision. Defined.
#[global] Instance exporter_eq_dec : EqDecision exporter.
Proof. solve_decision. Defined.
#[global] Instance PoolConfig_eq_dec : EqDecision PoolConfig.
Proof. solve_decision. Defined.
#[global] Instance event_eq_dec : EqDecision event.
Proof. solve_decision. Defined.

(** the events so far, and the variable [shutdownFuncs] that the function
    [SetupOTelSDK] returns shares with it *)
Record Process := mkProcess { events : list event; shutdownFuncs : list provider }.

(** What the packages answer: the error's text, or none *)
Class Platform := {
  resource_Merge : string → option string;
  exporter_New : exporter → option string;
  provider_Shutdown : provider → option string;
  pgxpool_NewWithConfig : PoolConfig → option string;
  otelpgx_RecordStats : option string;
  pool_Ping : option string;
  net_Listen : Z → option string;
  grpc_Serve : option string;
}.

(** [errors.Join] of two errors, of which either may be [nil] *)
Definition newline : string := String (Ascii.ascii_of_nat 10) EmptyString.
Definition errors_Join (a b : option string) : option string :=
  match a, b with
  | None, e | e, None => e
  | Some a, Some b => Some (a +:+ newline +:+ b)
  end.

Definition happens {E} (e : event) : go Process E unit := λ s,
  (Ret (), mkProcess (events s ++ [e]) (shutdownFuncs s)).

(** ** Telemetry *)
Module otel.
Section otel.
Context `{Platform}.

(** [tracerProvider.Shutdown] and its like *)
Definition Shutdown {E} (p : provider) : go Process E (option string) :=
  _ ← happens (ProviderShutdown p); mret (provider_Shutdown p).

(** the loop of [shutdown] *)
Fixpoint shutdown_each {E} (fns : list provider) (err : option string) : go Process E (option string) :=
  match fns with
  | [] => mret err
  | fn :: fns' => e ← Shutdown fn; shutdown_each fns' (errors_Join err e)
  end.

Definition shutdown {E} : go Process E (option string) := λ s,
  match shutdown_each (shutdownFuncs s) None s with
  | (Ret err, s') => (Ret err, mkProcess (events s') [])
  | (o, s') => (o, s')
  end.

(** [shutdownFuncs = append(shutdownFuncs, p.Shutdown)] *)
Definition append_shutdown {E} (p : provider) : go Process E unit := λ s,
  (Ret (), mkProcess (events s) (shutdownFuncs s ++ [p])).

Definition handleErr {E} (inErr : string) : go Process E (option string) :=
  e ← shutdown; mret (errors_Join (Some inErr) e).

Definition New (e : exporter) : go Process string unit :=
  match exporter_New e with
  | Some err => throw err
  | None => happens (ExporterCreated e)
  end.

Definition newTracerProvider (res : string) : go Process string provider :=
  _ ← New OtlpTrace;
  _ ← happens (ProviderCreated TracerProvider res [OtlpTrace]);
  mret TracerProvider.
Definition newMeterProvider (res : string) : go Process string provider :=
  _ ← New OtlpMetric;
  _ ← happens (ProviderCreated MeterProvider res [OtlpMetric]);
  mret MeterProvider.
Definition newLoggerProvider (res : string) : go Process string provider :=
  _ ← New OtlpLog;
  _ ← New StdoutLog;
  _ ← happens (ProviderCreated LoggerProvider res [OtlpLog; StdoutLog]);
  mret LoggerProvider.

(** [handleErr(err); return shutdown, err] *)
Definition or_handleErr {A} (m : go Process string A) (k : A → go Process Empty_set (option string))
    : go Process Empty_set (option string) := λ s,
  match m s with
  | (Ret a, s') => k a s'
  | (Err err, s') => handleErr err s'
  | (Panic why, s') => (Panic why, s')
  end.

(** [SetupOTelSDK]: the error; the function it returns is [shutdown] *)
Definition SetupOTelSDK (serviceName : string) : go Process Empty_set (option string) :=
  match resource_Merge serviceName with
  | Some err => mret (Some err)
  | None =>
      _ ← happens PropagatorSet;
      or_handleErr (newTracerProvider serviceName) (λ tracerProvider,
      _ ← append_shutdown tracerProvider;
      _ ← happens (ProviderSet tracerProvider);
      or_handleErr (newMeterProvider serviceName) (λ meterProvider,
      _ ← append_shutdown meterProvider;
      _ ← happens (ProviderSet meterProvider);
      or_handleErr (newLoggerProvider serviceName) (λ loggerProvider,
      _ ← append_shutdown loggerProvider;
      _ ← happens (ProviderSet loggerProvider);
      _ ← happens (DefaultLogger "user_service");
      mret None)))
  end.

End otel.
End otel.

(** the same file of the user service, under the name of that service *)
Definition user_SetupOTelSDK `{Platform} : go Process Empty_set (option string) :=
  otel.SetupOTelSDK "user-service".

(** ** The pool of connections *)
Section pool.
Context `{Platform}.

Definition CreateDBConnectionPool (config : PoolConfig) : go Process string unit :=
  match pgxpool_NewWithConfig config with
  | Some err => throw ("failed to create a database connection pool: " +:+ err)
  | None =>
      _ ← happens (PoolOpened config);
      match otelpgx_RecordStats with
      | Some err =>
          _ ← happens PoolClosed;
          throw ("failed to set up database connection pool observability: " +:+ err)
      | None =>
          match pool_Ping with
          | Some err =>
              _ ← happens PoolClosed; throw ("failed to ping the new connection pool: " +:+ err)
          | None => mret ()
          end
      end
  end.

(** the same function of the user service *)
Definition user_CreateDBConnectionPool (config : PoolConfig) : go Process string unit :=
  CreateDBConnectionPool config.

End pool.

(** package pgx, a parameter: the types of the database, which the connection's
    type map takes *)
Class PgTypes := { pgtype : Type; conn_LoadTypes : list string → string + list pgtype }.

Definition RegisterTypes `{PgTypes} : go (list pgtype) string unit :=
  match conn_LoadTypes ["permission_level"; "_permission_level"; "recipient_type"; "_recipient_type"] with
  | inl err => throw ("failed to read types from database: " +:+ err)
  | inr t => λ typeMap, (Ret (), typeMap ++ t)
  end.

(** ** The programs *)

(** a program that ended by [os.Exit]: the deferred calls do not run *)
Inductive exited := Exit (code : Z).

Definition fatal {A} (message : string) : go Process exited A :=
  _ ← happens (Logged message); throw (Exit 1).

(** [defer]: at the return of the function, or at a panic *)
Definition defer_call {A} (d : go Process exited unit) (m : go Process exited A) : go Process exited A :=
  λ s, match m s with
       | (Ret a, s') => (_ ← d; mret a) s'
       | (Err (Exit code), s') => (Err (Exit code), s')
       | (Panic why, s') => (_ ← d; go_panic why) s'
       end.

(** a function that does not exit *)
Definition call {A} (m : go Process Empty_set A) : go Process exited A :=
  m or_return (λ e, match e with end).
Definition or_fatal {A} (m : go Process string A) (message : string) : go Process exited A := λ s,
  match m s with
  | (Ret a, s') => (Ret a, s')
  | (Err _, s') => fatal message s'
  | (Panic why, s') => (Panic why, s')
  end.

Section programs.
Context `{Platform} `{Environment} `{PgxPool}.

(** the server, from the listener on *)
Definition serve_grpc (interceptors : list string) (service : string) : go Process exited unit :=
  match net_Listen 50051 with
  | Some _ => fatal "failed to listen"
  | None =>
      _ ← happens (ServerCreated interceptors);
      _ ← happens (ServiceRegistered service);
      _ ← happens (Logged "server listening");
      match grpc_Serve with
      | Some _ => fatal "failed to serve"
      | None => mret ()
      end
  end.

(** [pool, err := CreateDBConnectionPool(...); ...; defer pool.Close()] *)
Definition with_pool (create : go Process string unit) (rest : go Process exited unit)
    : go Process exited unit :=
  _ ← or_fatal create "failed to create database connection pool";
  defer_call (happens PoolClosed) rest.

Definition document_main : go Process exited unit :=
  err ← call (otel.SetupOTelSDK "document-service");
  _ ← match err with
      | Some _ => fatal "failed to bootstrap the otel sdk: "
      | None => mret ()
      end;
  defer_call (_ ← otel.shutdown; mret ()) (
    cfg ← or_fatal (lift document_config.GetConfiguration)
            "failed to get database connection configuration";
    let cfg := mkPoolConfig (ConnString cfg) (Tracer cfg) true in
    with_pool (CreateDBConnectionPool cfg) (serve_grpc ["LoggingInterceptor"] "DocumentService")).

Definition user_main : go Process exited unit :=
  err ← call user_SetupOTelSDK;
  _ ← match err with
      | Some err => fatal ("failed to bootstrap OTEL SDK: " +:+ err)
      | None => mret ()
      end;
  defer_call (_ ← otel.shutdown; mret ()) (
    cfg ← or_fatal (lift user_config.GetConfiguration)
            "failed to get database connection configuration";
    with_pool (user_CreateDBConnectionPool cfg) (serve_grpc ["TraceIdInterceptor"; "LoggingInterceptor"] "UserService")).

End programs.
End Lifecycle.
