(* ===== verification/LifecycleTheorems.v ===== *)
(** What the two services release: the theorem on their start and their end. *)

From S2P Require Import Prelude Config Lifecycle.
Import Lifecycle.

(** ** What is held *)
Definition start : Process := mkProcess [] [].

(** the providers created and those shut down, in order *)
Definition created (s : Process) : list provider :=
  omap (λ e, match e with ProviderCreated p _ _ => Some p | _ => None end) (events s).
Definition shut (s : Process) : list provider :=
  omap (λ e, match e with ProviderShutdown p => Some p | _ => None end) (events s).
(** the exporters created, and those of the providers that were shut down: the
    shutdown of a provider shuts its exporters down *)
Definition exporters (s : Process) : list exporter :=
  omap (λ e, match e with ExporterCreated x => Some x | _ => None end) (events s).
Definition released (s : Process) : list exporter :=
  concat (omap (λ e, match e with
                     | ProviderCreated p _ xs => if decide (p ∈ shut s) then Some xs else None
                     | _ => None
                     end) (events s)).
(** the exporters that are still held *)
Definition held (s : Process) : list exporter := filter (λ x, x ∉ released s) (exporters s).

(** the pools opened and not closed *)
Definition open_pools (s : Process) : nat :=
  length (omap (λ e, match e with PoolOpened c => Some c | _ => None end) (events s))
  - length (omap (λ e, match e with PoolClosed => Some () | _ => None end) (events s)).

Definition all_providers : list provider := [TracerProvider; MeterProvider; LoggerProvider].
Definition all_exporters : list exporter := [OtlpTrace; OtlpMetric; OtlpLog; StdoutLog].

Section lifecycle.
Context `{Platform} `{Environment} `{PgxPool}.

(** ** Which part of the start succeeds *)
Definition telemetry_starts (service : string) : Prop :=
  resource_Merge service = None ∧ ∀ e, exporter_New e = None.
Definition pool_starts (configuration : string + PoolConfig) (hook : bool) : Prop :=
  ∃ cfg, configuration = inr cfg ∧
    let cfg := mkPoolConfig (ConnString cfg) (Tracer cfg) (hook || AfterConnect cfg) in
    pgxpool_NewWithConfig cfg = None ∧ otelpgx_RecordStats = None ∧ pool_Ping = None.
Definition server_stops : Prop := net_Listen 50051 = None ∧ grpc_Serve = None.

(** all of telemetry but the exporter to standard output *)
Definition stdout_alone_fails (service : string) : Prop :=
  resource_Merge service = None ∧ ∀ e, exporter_New e = None ↔ e ≠ StdoutLog.

#[local] Instance telemetry_starts_dec service : Decision (telemetry_starts service).
Proof.
  destruct (decide (resource_Merge service = None ∧ exporter_New OtlpTrace = None ∧
    exporter_New OtlpMetric = None ∧ exporter_New OtlpLog = None ∧ exporter_New StdoutLog = None))
    as [(? & ? & ? & ? & ?)|Hno].
  - left. split; [done|]. by intros [].
  - right. intros [Hr He]. apply Hno. by rewrite Hr, !He.
Defined.

(** ** Telemetry *)
Ltac open_setup := unfold otel.SetupOTelSDK, otel.or_handleErr, otel.newTracerProvider,
  otel.newMeterProvider, otel.newLoggerProvider, otel.New, mbind, go_bind.

(** calling the returned function shuts every provider down once, and calling
    it again does nothing *)
Lemma shutdown_once {E} s :
  ∃ err s', otel.shutdown (E:=E) s = (Ret err, s') ∧ events s' = events s ++ (ProviderShutdown <$> shutdownFuncs s) ∧
    shutdownFuncs s' = [] ∧ otel.shutdown (E:=E) s' = (Ret None, s').
Proof.
  assert (∀ fns err s, ∃ err', otel.shutdown_each (E:=E) fns err s =
    (Ret err', mkProcess (events s ++ (ProviderShutdown <$> fns)) (shutdownFuncs s))) as Heach.
  { clear. induction fns as [|p fns IH]; intros err s.
    - exists err. rewrite app_nil_r. by destruct s.
    - simpl. unfold mbind, go_bind. simpl. destruct (IH (errors_Join err (provider_Shutdown p))
        (mkProcess (events s ++ [ProviderShutdown p]) (shutdownFuncs s))) as [err' ->].
      exists err'. simpl. by rewrite <- app_assoc. }
  destruct (Heach (shutdownFuncs s) None s) as [err Herr]. unfold otel.shutdown at 1. rewrite Herr.
  by eexists _, _.
Qed.

Lemma handleErr_releases {E} inErr s :
  ∃ err s', otel.handleErr (E:=E) inErr s = (Ret (Some err), s') ∧
    events s' = events s ++ (ProviderShutdown <$> shutdownFuncs s) ∧ shutdownFuncs s' = [].
Proof.
  destruct (shutdown_once (E:=E) s) as (err & s' & Hs & He & Hf & _).
  unfold otel.handleErr, mbind, go_bind. rewrite Hs. destruct err; by eexists _, _.
Qed.

Definition set_up (service : string) : Process := mkProcess
  [PropagatorSet;
   ExporterCreated OtlpTrace; ProviderCreated TracerProvider service [OtlpTrace];
   ProviderSet TracerProvider;
   ExporterCreated OtlpMetric; ProviderCreated MeterProvider service [OtlpMetric];
   ProviderSet MeterProvider;
   ExporterCreated OtlpLog; ExporterCreated StdoutLog;
   ProviderCreated LoggerProvider service [OtlpLog; StdoutLog];
   ProviderSet LoggerProvider; DefaultLogger "user_service"] all_providers.

Lemma setup_succeeds service :
  telemetry_starts service → otel.SetupOTelSDK service start = (Ret None, set_up service).
Proof. intros [Hr He]. open_setup. by rewrite Hr, !He. Qed.

(** what a failed start of telemetry has released *)
Definition taken_down (service : string) (s : Process) : Prop :=
  shut s = created s ∧ open_pools s = 0 ∧
  (stdout_alone_fails service → held s = [OtlpLog]) ∧
  (¬ stdout_alone_fails service → held s = []).

(** a pipeline that could not be set up is taken down again, but for the log
    exporter that was created before the one that failed *)
Lemma setup_fails service :
  ¬ telemetry_starts service → ∃ err s, otel.SetupOTelSDK service start = (Ret (Some err), s) ∧
    taken_down service s.
Proof.
  intros Hno. open_setup. destruct (resource_Merge service) eqn:Hr.
  { eexists _, _. split; [done|]. split_and!; [done..| |done]. intros [Hr' _]. congruence. }
  destruct (exporter_New OtlpTrace) eqn:He1; [|destruct (exporter_New OtlpMetric) eqn:He2;
    [|destruct (exporter_New OtlpLog) eqn:He3; [|destruct (exporter_New StdoutLog) eqn:He4]]]; simpl.
  5:{ destruct Hno. split; [done|]. by intros []. }
  all: match goal with |- context [otel.handleErr ?e ?s] =>
    destruct (handleErr_releases (E:=Empty_set) e s) as (err & s' & -> & Hev & _) end.
  all: eexists _, _; split; [done|].
  all: unfold taken_down, held, released, exporters, shut, created, open_pools; rewrite Hev.
  all: split_and!; [done..|intros [_ He]|intros Hmore]; try done.
  1-3: match goal with Hx : exporter_New ?e = Some _ |- _ =>
         rewrite (proj2 (He e)) in Hx by done; done end.
  destruct Hmore. split; [done|]. intros []; split; congruence || done.
Qed.

(** ** The programs *)

(** how a program ends, given what it holds at the end: by returning, with all
    released, or by an exit with the status 1, which releases nothing but what
    the failed part of the start has taken itself *)
Definition ends (service : string) (configuration : string + PoolConfig) (hook : bool)
    (o : outcome exited unit) (s : Process) : Prop :=
  match o with
  | Ret _ => telemetry_starts service ∧ pool_starts configuration hook ∧ server_stops ∧
             created s = all_providers ∧ shut s = all_providers ∧ held s = [] ∧ open_pools s = 0
  | Err (Exit code) => code = 1%Z ∧
      (¬ telemetry_starts service ∧ taken_down service s ∨
       telemetry_starts service ∧ created s = all_providers ∧ shut s = [] ∧ held s = all_exporters ∧
       (¬ pool_starts configuration hook ∧ open_pools s = 0 ∨
        pool_starts configuration hook ∧ ¬ server_stops ∧ open_pools s = 1))
  | Panic _ => False
  end.

(** from the set-up on *)
Lemma set_up_ends service configuration hook interceptors name message
    (configured : PoolConfig → PoolConfig) :
  telemetry_starts service →
  (∀ cfg, configured cfg = mkPoolConfig (ConnString cfg) (Tracer cfg) (hook || AfterConnect cfg)) →
  wp (defer_call (_ ← otel.shutdown; mret ())
        (cfg ← or_fatal (lift configuration) message;
         with_pool (CreateDBConnectionPool (configured cfg)) (serve_grpc interceptors name)))
    (ends service configuration hook) (set_up service).
Proof.
  intros Ht Hcfg. unfold wp, defer_call, with_pool, defer_call, serve_grpc, CreateDBConnectionPool, or_fatal,
    fatal, mbind, go_bind.
  destruct configuration as [err|cfg]; simpl.
  { split; [done|]. right. split_and!; try done. left. split; [|done]. by intros (? & ? & _). }
  rewrite Hcfg. set (cfg' := mkPoolConfig _ _ _).
  assert (pool_starts (inr cfg) hook ↔
    pgxpool_NewWithConfig cfg' = None ∧ otelpgx_RecordStats = None ∧ pool_Ping = None) as Hpool.
  { split; [|by exists cfg]. by intros (? & [= <-] & Hp). }
  destruct (pgxpool_NewWithConfig cfg') eqn:Hn; simpl.
  { split; [done|]. right. split_and!; try done. left. split; [|done]. rewrite Hpool. by intros []. }
  destruct otelpgx_RecordStats eqn:Hrs; simpl.
  { split; [done|]. right. split_and!; try done. left. split; [|done]. rewrite Hpool. by intros (_ & ? & _). }
  destruct pool_Ping eqn:Hp; simpl.
  { split; [done|]. right. split_and!; try done. left. split; [|done]. rewrite Hpool. by intros (_ & _ & ?). }
  destruct (net_Listen 50051) eqn:Hl; simpl.
  { split; [done|]. right. split_and!; try done. right. split_and!; [by apply Hpool| |done].
    unfold server_stops. rewrite Hl. by intros []. }
  destruct grpc_Serve eqn:Hs; simpl.
  { split; [done|]. right. split_and!; try done. right. split_and!; [by apply Hpool| |done].
    unfold server_stops. rewrite Hs. by intros []. }
  split_and!; try done. by apply Hpool.
Qed.

Lemma program_ends service (report : string → string) configuration hook rest :
  (telemetry_starts service → wp rest (ends service configuration hook) (set_up service)) →
  wp (err ← call (otel.SetupOTelSDK service);
      _ ← match err with Some err => fatal (report err) | None => mret () end;
      rest) (ends service configuration hook) start.
Proof.
  intros Hrest.
  destruct (decide (telemetry_starts service)) as [Ht|Ht]; apply wp_bind; unfold wp at 1, call, map_err.
  - rewrite setup_succeeds by done. apply wp_bind, wp_ret. by apply Hrest.
  - destruct (setup_fails service Ht) as (err & s & -> & Hdown). unfold fatal, wp, mbind, go_bind. simpl.
    split; [done|]. left. split; [done|]. revert Hdown.
    unfold taken_down, held, released, exporters, shut, created, open_pools. simpl.
    by rewrite !omap_app, !app_nil_r.
Qed.

(** C25: However a service ends, what it holds is known. When its server stops
    without an error, every telemetry provider is shut down once, in the order
    of their creation, no exporter is held and the pool is closed. When the pool
    cannot be started, the pool is closed, but telemetry stays as it is. When
    telemetry cannot be started, every provider that was created is shut down
    and no exporter is held, with one exception: when only the exporter to
    standard output fails, the OTLP log exporter created before it stays. A
    service that cannot listen or whose server fails exits with the status 1
    with the pool open and its telemetry not shut down. *)
Theorem what_services_release :
  wp document_main (ends "document-service" document_config.GetConfiguration true) start ∧
  wp user_main (ends "user-service" user_config.GetConfiguration false) start.
Proof.
  split.
  - apply (program_ends "document-service" (λ _, "failed to bootstrap the otel sdk: ")).
    intros Ht. by apply (set_up_ends _ _ _ _ _ _ (λ cfg, mkPoolConfig (ConnString cfg) (Tracer cfg) true)).
  - apply (program_ends "user-service" (λ err, "failed to bootstrap OTEL SDK: " +:+ err)).
    intros Ht. apply (set_up_ends _ _ _ _ _ _ (λ cfg, cfg)); [done|]. by intros [].
Qed.

End lifecycle.
