(* ===== verification/Paging.v ===== *)
(** Cursor pagination over a keyed list: [ORDER BY (key) DESC], the row
    comparison [(t, id) < (t0, id0)] and [LIMIT], and the theorem that
    following the key of the last row of each page visits every row exactly
    once. *)

From S2P Require Import Prelude.

(** ** Keys: a timestamp and the number of a UUID *)
Definition key : Type := Z * Z.

(** [t < t0 OR (t = t0 AND id < id0)] *)
Definition key_ltb (a b : key) : bool :=
  (a.1 <? b.1)%Z || ((a.1 =? b.1)%Z && (a.2 <? b.2)%Z).
Definition key_lt (a b : key) : Prop := key_ltb a b = true.
Definition key_le (a b : key) : Prop := key_ltb b a = false.

#[global] Instance key_le_dec a b : Decision (key_le a b).
Proof. unfold key_le. apply _. Defined.
#[global] Instance key_lt_dec a b : Decision (key_lt a b).
Proof. unfold key_lt. apply _. Defined.

Lemma key_ltb_spec a b :
  key_ltb a b = true ↔ (a.1 < b.1 ∨ (a.1 = b.1 ∧ a.2 < b.2))%Z.
Proof. unfold key_ltb. rewrite orb_true_iff, andb_true_iff. lia. Qed.

Lemma key_le_spec a b : key_le a b ↔ (a.1 < b.1 ∨ (a.1 = b.1 ∧ a.2 ≤ b.2))%Z.
Proof.
  unfold key_le. rewrite <- not_true_iff_false, key_ltb_spec. lia.
Qed.

Lemma key_lt_spec a b : key_lt a b ↔ (a.1 < b.1 ∨ (a.1 = b.1 ∧ a.2 < b.2))%Z.
Proof. apply key_ltb_spec. Qed.

Lemma key_lt_trans a b c : key_lt a b → key_lt b c → key_lt a c.
Proof. rewrite !key_lt_spec. lia. Qed.
Lemma key_lt_irrefl a : ¬ key_lt a a.
Proof. rewrite key_lt_spec. lia. Qed.
Lemma key_le_antisym a b : key_le a b → key_le b a → a = b.
Proof. rewrite !key_le_spec. destruct a, b; simpl. intros; f_equal; lia. Qed.
Lemma key_le_lt a b : key_le a b → a ≠ b → key_lt a b.
Proof.
  rewrite key_le_spec, key_lt_spec. destruct a as [x y], b as [x' y']; simpl.
  intros H Hne. destruct (decide (x = x')), (decide (y = y')); subst; [done|lia..].
Qed.

(** ** Listing *)
Section listing.
Context {A : Type} (keyof : A → key).

Definition desc (x y : A) : Prop := key_le (keyof y) (keyof x).

#[global] Instance desc_dec x y : Decision (desc x y).
Proof. unfold desc. apply _. Defined.
#[global] Instance desc_total : Total desc.
Proof. intros x y. unfold desc. rewrite !key_le_spec. lia. Qed.
#[global] Instance desc_trans : Transitive desc.
Proof. intros x y z. unfold desc. rewrite !key_le_spec. lia. Qed.

Definition order_desc (l : list A) : list A := merge_sort desc l.

(** the rows below the cursor *)
Definition below (c : key) (l : list A) : list A :=
  filter (λ x, key_ltb (keyof x) c = true) l.

(** [SELECT ... WHERE (key) < (cursor) ORDER BY key DESC LIMIT n] *)
Definition page (c : key) (n : nat) (l : list A) : list A :=
  take n (order_desc (below c l)).

(** what a client sees that asks again with the cursor of the last row of each
    page until a page is empty *)
Fixpoint pages_by (cursorof : A → key) (fuel : nat) (c : key) (n : nat) (l : list A) : list A :=
  match fuel with
  | O => []
  | S fuel' =>
      let p := page c n l in
      match last p with
      | None => p
      | Some x => p ++ pages_by cursorof fuel' (cursorof x) n l
      end
  end.

(** where the cursor of a row is its key *)
Definition pages := pages_by keyof.

Lemma order_desc_sorted l : StronglySorted desc (order_desc l).
Proof. apply StronglySorted_merge_sort; apply _. Qed.

Lemma order_desc_perm l : order_desc l ≡ₚ l.
Proof. apply merge_sort_Permutation. Qed.

Lemma elem_of_order_desc x l : x ∈ order_desc l ↔ x ∈ l.
Proof. by rewrite order_desc_perm. Qed.

Lemma elem_of_below x c l : x ∈ below c l ↔ key_lt (keyof x) c ∧ x ∈ l.
Proof. unfold below. rewrite list_elem_of_filter. done. Qed.

Lemma keys_distinct l x y :
  NoDup (keyof <$> l) → x ∈ l → y ∈ l → keyof x = keyof y → x = y.
Proof.
  intros Hnd (i & Hi)%list_elem_of_lookup (j & Hj)%list_elem_of_lookup Hk.
  assert (i = j) as ->; [|congruence].
  eapply (NoDup_lookup _ i j (keyof x)); [exact Hnd|..];
    rewrite list_lookup_fmap; [by rewrite Hi|by rewrite Hj, Hk].
Qed.

Lemma sorted_unique l l1 l2 :
  NoDup (keyof <$> l) → l1 ⊆ l → l2 ⊆ l →
  StronglySorted desc l1 → StronglySorted desc l2 → l1 ≡ₚ l2 → l1 = l2.
Proof.
  intros Hnd H1 H2 S1 S2 Hp. eapply StronglySorted_unique_strong; [|exact S1|exact S2|done].
  intros x y Hx Hy Hxy Hyx. eapply keys_distinct; [exact Hnd|auto..].
  by apply key_le_antisym.
Qed.

Lemma StronglySorted_filter (P : A → Prop) `{∀ x, Decision (P x)} (R : relation A) l :
  StronglySorted R l → StronglySorted R (filter P l).
Proof.
  induction 1 as [|x l Hs IH Hf]; [constructor|].
  rewrite filter_cons. case_decide; [|done].
  constructor; [done|]. rewrite Forall_forall in *.
  intros y [_ Hy]%list_elem_of_filter. auto.
Qed.

Lemma order_desc_filter (P : A → Prop) `{∀ x, Decision (P x)} l :
  NoDup (keyof <$> l) → order_desc (filter P l) = filter P (order_desc l).
Proof.
  intros Hnd. apply (sorted_unique l); [done|..].
  - intros x. rewrite elem_of_order_desc, list_elem_of_filter. tauto.
  - intros x. rewrite list_elem_of_filter, elem_of_order_desc. tauto.
  - apply order_desc_sorted.
  - apply StronglySorted_filter, order_desc_sorted.
  - by rewrite !order_desc_perm.
Qed.

Lemma below_below c c' l : key_lt c' c → below c' (below c l) = below c' l.
Proof.
  intros Hlt. unfold below. rewrite list_filter_filter.
  apply list_filter_iff. intros x.
  split; [tauto|]. intros Hx. split; [done|].
  by eapply key_lt_trans.
Qed.

(** cutting a sorted list at one of its elements *)
Lemma below_drop l n x :
  NoDup (keyof <$> l) → StronglySorted desc l →
  last (take n l) = Some x → below (keyof x) l = drop n l.
Proof.
  intros Hnd Hs Hlast. rewrite <- (take_drop n l) at 1. unfold below.
  rewrite filter_app. apply last_Some in Hlast as [l' Hl'].
  rewrite <- (take_drop n l), Hl' in Hnd, Hs. rewrite Hl'.
  rewrite fmap_app, NoDup_app in Hnd. destruct Hnd as (Hnd1 & Hsep & _).
  apply StronglySorted_app in Hs as (Hcross & Hs1 & _).
  apply StronglySorted_app in Hs1 as (Hin & _ & _).
  replace (filter _ (l' ++ [x])) with (@nil A).
  - simpl. apply list_filter_all. apply Forall_forall. intros y Hy.
    apply key_le_lt.
    + apply (Hcross x y); [set_solver|done].
    + intros Heq. apply (Hsep (keyof x)).
      * apply list_elem_of_fmap. exists x. set_solver.
      * rewrite <- Heq. by apply list_elem_of_fmap_2.
  - symmetry. apply list_filter_none. apply Forall_forall.
    intros y [Hy|Hy]%elem_of_app.
    + intros Hlt. apply (key_lt_irrefl (keyof x)).
      specialize (Hin y x Hy ltac:(set_solver)). unfold desc in Hin.
      rewrite key_le_spec in Hin. unfold key_lt in Hlt. rewrite key_ltb_spec in Hlt. lia.
    + apply list_elem_of_singleton in Hy as ->. apply key_lt_irrefl.
Qed.

Lemma keys_NoDup_filter (P : A → Prop) `{∀ x, Decision (P x)} l :
  NoDup (keyof <$> l) → NoDup (keyof <$> filter P l).
Proof.
  induction l as [|x l IH]; [done|]. rewrite fmap_cons, NoDup_cons.
  intros [Hx Hnd]. rewrite filter_cons. case_decide; [|auto].
  rewrite fmap_cons, NoDup_cons. split; [|auto].
  intros (y & Hy & [_ Hin]%list_elem_of_filter)%list_elem_of_fmap.
  apply Hx. rewrite Hy. by apply list_elem_of_fmap_2.
Qed.

Lemma keys_NoDup_order l : NoDup (keyof <$> l) → NoDup (keyof <$> order_desc l).
Proof. by rewrite order_desc_perm. Qed.

(** the rest of a listing after a page is the listing from its last row *)
Lemma page_rest c n l x :
  NoDup (keyof <$> l) → last (page c n l) = Some x →
  order_desc (below c l) = page c n l ++ order_desc (below (keyof x) l).
Proof.
  intros Hnd Hlast. unfold page in *.
  rewrite <- (take_drop n (order_desc (below c l))) at 1. f_equal.
  assert (key_lt (keyof x) c) as Hlt.
  { apply last_Some in Hlast as [l' Hl'].
    assert (x ∈ below c l) as [? _]%elem_of_below; [|done].
    apply elem_of_order_desc, (list_elem_of_take _ n). rewrite Hl'. set_solver. }
  rewrite <- (below_below c (keyof x)) by done. unfold below at 2.
  rewrite order_desc_filter by (by apply keys_NoDup_filter).
  symmetry. apply below_drop; [|apply order_desc_sorted|done].
  by apply keys_NoDup_order, keys_NoDup_filter.
Qed.

Theorem pages_complete fuel c n l :
  NoDup (keyof <$> l) → (0 < n)%nat → (length (below c l) < fuel)%nat →
  pages fuel c n l = order_desc (below c l).
Proof.
  intros Hnd Hn. unfold pages. revert c. induction fuel as [|fuel IH]; intros c Hfuel; [lia|].
  simpl. destruct (last (page c n l)) as [x|] eqn:Hlast.
  - rewrite (page_rest c n l x) by done. f_equal. apply IH.
    pose proof (page_rest c n l x Hnd Hlast) as Hrest.
    apply (f_equal length) in Hrest. rewrite length_app, !order_desc_perm in Hrest.
    destruct (page c n l); [done|]. simpl in Hrest. lia.
  - apply last_None in Hlast. rewrite Hlast. unfold page in Hlast.
    destruct (order_desc (below c l)); [done|]. destruct n; [lia|done].
Qed.

(** Cursors that lie below the keys of their rows lose rows: nothing at or
    above a cursor comes after it. *)
Lemma pages_by_skip cursorof fuel c n l y :
  (∀ x, x ∈ l → key_le (cursorof x) (keyof x)) → key_le c (keyof y) →
  y ∉ pages_by cursorof fuel c n l.
Proof.
  intros Hc. revert c. induction fuel as [|fuel IH]; intros c Hy; simpl; [by intros ?%elem_of_nil|].
  assert (∀ x, x ∈ page c n l → key_lt (keyof x) c ∧ x ∈ l) as Hpage.
  { unfold page. intros x Hx%list_elem_of_take. by rewrite elem_of_order_desc, elem_of_below in Hx. }
  assert (y ∉ page c n l) as Hout.
  { intros [Hlt _]%Hpage. revert Hlt Hy. rewrite key_lt_spec, key_le_spec. lia. }
  destruct (last (page c n l)) as [x|] eqn:Hlast; [|done].
  apply not_elem_of_app. split; [done|]. apply IH.
  assert (x ∈ page c n l) as [Hlt Hx]%Hpage by (by apply last_Some_elem_of).
  specialize (Hc x Hx). revert Hlt Hc Hy. rewrite key_lt_spec, !key_le_spec. lia.
Qed.

End listing.

(** A page depends on the set of rows only, and commutes with a change of
    representation of the rows. *)
Section page_facts.
Context {A B : Type} (keyof : A → key).

Lemma page_perm c n (l1 l2 : list A) :
  NoDup (keyof <$> l1) → l1 ≡ₚ l2 → page keyof c n l1 = page keyof c n l2.
Proof.
  intros Hnd Hp. unfold page. f_equal.
  assert (below keyof c l1 ≡ₚ below keyof c l2) as Hb by (unfold below; by rewrite Hp).
  apply (sorted_unique keyof l1); [done|..].
  - intros x. rewrite elem_of_order_desc, elem_of_below. tauto.
  - intros x. rewrite elem_of_order_desc, elem_of_below, <- Hp. tauto.
  - apply order_desc_sorted.
  - apply order_desc_sorted.
  - by rewrite !order_desc_perm.
Qed.

Lemma below_fmap (f : B → A) c l : below keyof c (f <$> l) = f <$> below (keyof ∘ f) c l.
Proof.
  unfold below. induction l as [|x l IH]; [done|].
  rewrite fmap_cons, !filter_cons. simpl. case_decide; [|done].
  by rewrite fmap_cons, IH.
Qed.

Lemma StronglySorted_desc_fmap (f : B → A) l :
  StronglySorted (desc (keyof ∘ f)) l → StronglySorted (desc keyof) (f <$> l).
Proof.
  induction 1 as [|x l _ IH Hf]; [constructor|]. rewrite fmap_cons. constructor; [done|].
  apply Forall_fmap. eapply Forall_impl; [exact Hf|]. done.
Qed.

Lemma page_fmap (f : B → A) c n l :
  NoDup (keyof <$> (f <$> l)) →
  page keyof c n (f <$> l) = f <$> page (keyof ∘ f) c n l.
Proof.
  intros Hnd. unfold page. rewrite fmap_take. f_equal. rewrite below_fmap.
  apply (sorted_unique keyof (f <$> l)); [done|..].
  - intros x. rewrite elem_of_order_desc, <- below_fmap, elem_of_below. tauto.
  - intros x (y & -> & Hy)%list_elem_of_fmap. apply list_elem_of_fmap_2.
    rewrite elem_of_order_desc, elem_of_below in Hy. tauto.
  - apply order_desc_sorted.
  - apply StronglySorted_desc_fmap, order_desc_sorted.
  - by rewrite !order_desc_perm.
Qed.

Lemma elem_of_page x c n (l : list A) : x ∈ page keyof c n l → x ∈ l.
Proof.
  unfold page. intros Hx%list_elem_of_take.
  rewrite elem_of_order_desc, elem_of_below in Hx. tauto.
Qed.

Lemma page_length c n (l : list A) : (length (page keyof c n l) ≤ n)%nat.
Proof. unfold page. rewrite length_take. lia. Qed.
End page_facts.
