(* ===== verification/Pgx.v ===== *)
(** The database connection: what the repositories use of package pgx and of
    PostgreSQL, over any type of table state.

    A [World] is what a request runs in: the committed tables, the open
    transaction if there is one (its private tables and its start time, which
    is what [NOW()] returns inside it), and an environment that decides, per
    interaction, the clock, the next random UUID and whether the interaction
    fails.  A failing interaction is [Lost], it had no effect, or
    [Acknowledged_late], it had its effect but the client got an error (the
    connection dropped after the server executed the statement).  Requests are
    run one at a time: two transactions that overlap are not modelled. *)

From S2P Require Import Prelude GoLib.

(** [error] values of package pgx *)
Inductive db_error :=
  | ErrNoRows
  | PgError (Code : string) (ConstraintName : string) (Detail : string)
  | DriverError (text : string).

#[global] Instance db_error_eq_dec : EqDecision db_error.
Proof. solve_decision. Defined.

(** the SQLSTATE codes the statements of the repository can raise *)
Definition unique_violation : string := "23505".
Definition foreign_key_violation : string := "23503".
Definition invalid_enum_label : string := "22P02".
Definition string_data_right_truncation : string := "22001".
Definition invalid_limit : string := "2201W".

Inductive fault := Lost (text : string) | Acknowledged_late (text : string).

Record Env := mkEnv {
  env_uuid : nat → uuid;
  env_now : nat → Z;
  env_fault : nat → option fault;
}.

(** [pgx.TxOptions{IsoLevel}] *)
Inductive IsoLevel := ReadCommitted | RepeatableRead.

Record Tx (Db : Type) := mkTx { tx_db : Db; tx_now : Z; tx_iso : IsoLevel }.
Arguments mkTx {_} _ _ _.
Arguments tx_db {_} _.
Arguments tx_now {_} _.
Arguments tx_iso {_} _.

Record World (Db : Type) := mkWorld {
  w_db : Db;
  w_tx : option (Tx Db);
  w_tick : nat;
  w_env : Env;
}.
Arguments mkWorld {_} _ _ _ _.
Arguments w_db {_} _.
Arguments w_tx {_} _.
Arguments w_tick {_} _.
Arguments w_env {_} _.

Section pgx.
Context {Db : Type}.
Implicit Types w : World Db.

Definition tick w : World Db := mkWorld (w_db w) (w_tx w) (S (w_tick w)) (w_env w).
Definition set_db (d : Db) w : World Db := mkWorld d (w_tx w) (w_tick w) (w_env w).
Definition set_tx (t : option (Tx Db)) w : World Db :=
  mkWorld (w_db w) t (w_tick w) (w_env w).

(** one interaction with the server that would return [a] and lead to [w'] *)
Definition interact {A} (w : World Db) (a : A) (w' : World Db)
    : outcome db_error A * World Db :=
  match env_fault (w_env w) (w_tick w) with
  | None => (Ret a, tick w')
  | Some (Lost text) => (Err (DriverError text), tick w)
  | Some (Acknowledged_late text) => (Err (DriverError text), tick w')
  end.

(** [pool.Begin] and [pool.BeginTx] *)
Definition Begin (iso : IsoLevel) : go (World Db) db_error unit := λ w,
  let tx := mkTx (w_db w) (env_now (w_env w) (w_tick w)) iso in
  match env_fault (w_env w) (w_tick w) with
  | None => (Ret (), tick (set_tx (Some tx) w))
  | Some (Lost text) | Some (Acknowledged_late text) => (Err (DriverError text), tick w)
  end.

(** [tx.Commit] *)
Definition Commit : go (World Db) db_error unit := λ w,
  match w_tx w with
  | None => (Err (DriverError "tx is closed"), tick w)
  | Some tx => interact w () (set_tx None (set_db (tx_db tx) w))
  end.

(** [tx.Rollback]; after a [Commit] it does nothing *)
Definition Rollback (w : World Db) : World Db := set_tx None w.

(** the handle a [sqlc.Queries] runs its statements on: the pool, where each
    statement commits by itself, or the open transaction *)
Inductive conn := OnPool | OnTx.

(** a statement: given [NOW()] and the tables, its error or its result and
    the tables it leaves *)
Definition stmt (A : Type) : Type := Z → Db → db_error + (A * Db).

Definition exec {A} (c : conn) (q : stmt A) : go (World Db) db_error A := λ w,
  match c with
  | OnPool =>
      match q (env_now (w_env w) (w_tick w)) (w_db w) with
      | inl e => match env_fault (w_env w) (w_tick w) with
                 | None => (Err e, tick w)
                 | Some (Lost text) | Some (Acknowledged_late text) =>
                     (Err (DriverError text), tick w)
                 end
      | inr (a, d) => interact w a (set_db d w)
      end
  | OnTx =>
      match w_tx w with
      | None => (Err (DriverError "tx is closed"), tick w)
      | Some tx =>
          match q (tx_now tx) (tx_db tx) with
          | inl e => match env_fault (w_env w) (w_tick w) with
                     | None => (Err e, tick w)
                     | Some (Lost text) | Some (Acknowledged_late text) =>
                         (Err (DriverError text), tick w)
                     end
          | inr (a, d) =>
              interact w a (set_tx (Some (mkTx d (tx_now tx) (tx_iso tx))) w)
          end
      end
  end.

(** [uuid.New()] *)
Definition uuid_New {E} : go (World Db) E uuid := λ w,
  (Ret (env_uuid (w_env w) (w_tick w)), tick w).

(** [time.Now()] *)
Definition time_Now {E} : go (World Db) E Z := λ w,
  (Ret (env_now (w_env w) (w_tick w)), tick w).

(** ** Rules *)

(** no interaction from here on fails *)
Definition healthy w : Prop := ∀ n, (w_tick w ≤ n)%nat → env_fault (w_env w) n = None.

Lemma healthy_tick w : healthy w → healthy (tick w).
Proof. intros H n Hn. apply H. simpl in Hn. lia. Qed.
Lemma healthy_set_db d w : healthy w → healthy (set_db d w).
Proof. done. Qed.
Lemma healthy_set_tx t w : healthy w → healthy (set_tx t w).
Proof. done. Qed.
Lemma healthy_now w : healthy w → env_fault (w_env w) (w_tick w) = None.
Proof. intros H. by apply H. Qed.

Lemma wp_Begin iso (Q : outcome db_error unit → World Db → Prop) w :
  Q (Ret ()) (tick (set_tx (Some (mkTx (w_db w) (env_now (w_env w) (w_tick w)) iso)) w)) →
  (¬ healthy w → ∀ text, Q (Err (DriverError text)) (tick w)) →
  wp (Begin iso) Q w.
Proof.
  intros Hok Hko. unfold wp, Begin.
  destruct (env_fault _ _) as [[text|text]|] eqn:Hf; [| |done];
    apply Hko; intros Hh; by rewrite healthy_now in Hf.
Qed.

Lemma wp_exec_pool {A} (q : stmt A) (Q : outcome db_error A → World Db → Prop) w :
  (∀ e, q (env_now (w_env w) (w_tick w)) (w_db w) = inl e → Q (Err e) (tick w)) →
  (∀ a d, q (env_now (w_env w) (w_tick w)) (w_db w) = inr (a, d) →
     Q (Ret a) (tick (set_db d w)) ∧
     (¬ healthy w → ∀ text, Q (Err (DriverError text)) (tick (set_db d w)))) →
  (¬ healthy w → ∀ text, Q (Err (DriverError text)) (tick w)) →
  wp (exec OnPool q) Q w.
Proof.
  intros Herr Hok Hlost. unfold wp, exec, interact.
  destruct (q _ _) as [e|[a d]] eqn:Hq;
    destruct (env_fault _ _) as [[text|text]|] eqn:Hf;
    try (assert (¬ healthy w) as Hn by (intros Hh; by rewrite healthy_now in Hf));
    try (destruct (Hok _ _ eq_refl)); auto.
Qed.

Lemma wp_exec_tx {A} (q : stmt A) (Q : outcome db_error A → World Db → Prop) w tx :
  w_tx w = Some tx →
  (∀ e, q (tx_now tx) (tx_db tx) = inl e → Q (Err e) (tick w)) →
  (∀ a d, q (tx_now tx) (tx_db tx) = inr (a, d) →
     Q (Ret a) (tick (set_tx (Some (mkTx d (tx_now tx) (tx_iso tx))) w)) ∧
     (¬ healthy w → ∀ text,
        Q (Err (DriverError text)) (tick (set_tx (Some (mkTx d (tx_now tx) (tx_iso tx))) w)))) →
  (¬ healthy w → ∀ text, Q (Err (DriverError text)) (tick w)) →
  wp (exec OnTx q) Q w.
Proof.
  intros Htx Herr Hok Hlost. unfold wp, exec, interact. rewrite Htx.
  destruct (q _ _) as [e|[a d]] eqn:Hq;
    destruct (env_fault _ _) as [[text|text]|] eqn:Hf;
    try (assert (¬ healthy w) as Hn by (intros Hh; by rewrite healthy_now in Hf));
    try (destruct (Hok _ _ eq_refl)); auto.
Qed.

Lemma wp_Commit (Q : outcome db_error unit → World Db → Prop) w tx :
  w_tx w = Some tx →
  Q (Ret ()) (tick (set_tx None (set_db (tx_db tx) w))) →
  (¬ healthy w → ∀ text,
     Q (Err (DriverError text)) (tick w) ∧
     Q (Err (DriverError text)) (tick (set_tx None (set_db (tx_db tx) w)))) →
  wp Commit Q w.
Proof.
  intros Htx Hok Hko. unfold wp, Commit, interact. rewrite Htx.
  destruct (env_fault _ _) as [[text|text]|] eqn:Hf; [| |done];
    apply Hko; intros Hh; by rewrite healthy_now in Hf.
Qed.

Lemma wp_uuid_New {E} (Q : outcome E uuid → World Db → Prop) w :
  Q (Ret (env_uuid (w_env w) (w_tick w))) (tick w) → wp uuid_New Q w.
Proof. done. Qed.

Lemma wp_time_Now {E} (Q : outcome E Z → World Db → Prop) w :
  Q (Ret (env_now (w_env w) (w_tick w))) (tick w) → wp time_Now Q w.
Proof. done. Qed.

End pgx.

Create HintDb pgx.
#[export] Hint Resolve healthy_tick healthy_set_db healthy_set_tx healthy_now : pgx.

(** an unhealthy world below a healthy one is absurd *)
Ltac sick := intros ?; match goal with H : ¬ healthy _ |- _ => apply H end; eauto 8 with pgx.

(** opens the next construct of the program *)
Ltac go_step :=
  match goal with
  | |- wp (_ ≫= _) _ _ => apply wp_bind
  | |- wp (map_err _ _) _ _ => apply wp_map_err
  | |- wp (defer _ _) _ _ => apply wp_defer
  | |- wp (mret _) _ _ => apply wp_ret
  | |- wp (throw _) _ _ => apply wp_throw
  | |- wp (return_if _ _) _ _ => unfold return_if; simpl
  | |- wp (lift (inl _)) _ _ => apply wp_throw
  | |- wp (lift (inr _)) _ _ => apply wp_ret
  | |- wp uuid_New _ _ => apply wp_uuid_New
  end; cbn beta iota.
Ltac go := repeat go_step.

(** ** Statements whose result is known

    On the pool the statement commits by itself; in a transaction it acts on
    the private tables. *)
Section known.
Context {Db : Type}.
Implicit Types w : World Db.

Lemma wp_pool_err {A} (q : stmt A) e (Q : outcome db_error A → World Db → Prop) w :
  (∀ now, q now (w_db w) = inl e) →
  Q (Err e) (tick w) → (¬ healthy w → ∀ text, Q (Err (DriverError text)) (tick w)) →
  wp (exec OnPool q) Q w.
Proof.
  intros Hq He Hlost. apply wp_exec_pool; [|intros a d Hq'|done]; [|by rewrite Hq in Hq'].
  intros e' Hq'. rewrite Hq in Hq'. by injection Hq' as <-.
Qed.

Lemma wp_pool_ok {A} (q : stmt A) (P : A → Db → Prop)
    (Q : outcome db_error A → World Db → Prop) w :
  (∀ now, ∃ a d, q now (w_db w) = inr (a, d) ∧ P a d) →
  (∀ a d, P a d → Q (Ret a) (tick (set_db d w)) ∧
     (¬ healthy w → ∀ text, Q (Err (DriverError text)) (tick (set_db d w)))) →
  (¬ healthy w → ∀ text, Q (Err (DriverError text)) (tick w)) →
  wp (exec OnPool q) Q w.
Proof.
  intros Hq Hok Hlost. destruct (Hq (env_now (w_env w) (w_tick w))) as (a & d & Heq & HP).
  apply wp_exec_pool; [intros e He; congruence| |done].
  intros a' d' Hq'. rewrite Heq in Hq'. injection Hq' as <- <-. by apply Hok.
Qed.

Lemma wp_tx_err {A} (q : stmt A) e (Q : outcome db_error A → World Db → Prop) w tx :
  w_tx w = Some tx → (∀ now, q now (tx_db tx) = inl e) →
  Q (Err e) (tick w) → (¬ healthy w → ∀ text, Q (Err (DriverError text)) (tick w)) →
  wp (exec OnTx q) Q w.
Proof.
  intros Htx Hq He Hlost. apply (wp_exec_tx _ _ _ tx); [done| |intros a d Hq'|done];
    [|by rewrite Hq in Hq'].
  intros e' Hq'. rewrite Hq in Hq'. by injection Hq' as <-.
Qed.

(** a statement in a transaction: the committed tables stay, the transaction
    stays open, and an error other than the expected ones is a lost one *)
Lemma wp_tx_at {A} (q : stmt A) (P : A → Db → Prop)
    (Q : outcome db_error A → World Db → Prop) w tx :
  w_tx w = Some tx →
  (∃ a d, q (tx_now tx) (tx_db tx) = inr (a, d) ∧ P a d) →
  (∀ a w' tx', P a (tx_db tx') → w_tx w' = Some tx' → tx_now tx' = tx_now tx →
     w_db w' = w_db w → (healthy w → healthy w') → w_tick w' = S (w_tick w) → Q (Ret a) w') →
  (¬ healthy w → ∀ text w', w_db w' = w_db w → Q (Err (DriverError text)) w') →
  wp (exec OnTx q) Q w.
Proof.
  intros Htx (a & d & Heq & HP) Hok Hlost.
  apply (wp_exec_tx _ _ _ tx); [done|intros e He; congruence| |by auto].
  intros a' d' Hq'. rewrite Heq in Hq'. injection Hq' as <- <-. split; [|by auto].
  eapply Hok; [|done..| |done]; [done|]. intros. auto with pgx.
Qed.

Lemma wp_tx_ok {A} (q : stmt A) (P : A → Db → Prop)
    (Q : outcome db_error A → World Db → Prop) w tx :
  w_tx w = Some tx →
  (∃ a d, q (tx_now tx) (tx_db tx) = inr (a, d) ∧ P a d) →
  (∀ a w' tx', P a (tx_db tx') → w_tx w' = Some tx' → tx_now tx' = tx_now tx →
     w_db w' = w_db w → (healthy w → healthy w') → Q (Ret a) w') →
  (¬ healthy w → ∀ text w', w_db w' = w_db w → Q (Err (DriverError text)) w') →
  wp (exec OnTx q) Q w.
Proof. intros Htx Hq Hok Hlost. eapply wp_tx_at; eauto. Qed.

(** with the number of the next interaction, which is what is drawn by *)
Lemma wp_Begin_at iso (Q : outcome db_error unit → World Db → Prop) w :
  (∀ w' tx, w_tx w' = Some tx → tx_db tx = w_db w → w_db w' = w_db w →
     (healthy w → healthy w') → w_tick w' = S (w_tick w) → w_env w' = w_env w →
     Q (Ret ()) w') →
  (¬ healthy w → ∀ text, Q (Err (DriverError text)) (tick w)) →
  wp (Begin iso) Q w.
Proof.
  intros Hok Hlost. apply wp_Begin; [|done]. eapply Hok; [done..| |done|done]. auto with pgx.
Qed.

Lemma wp_Begin' iso (Q : outcome db_error unit → World Db → Prop) w :
  (∀ w' tx, w_tx w' = Some tx → tx_db tx = w_db w → w_db w' = w_db w →
     (healthy w → healthy w') → Q (Ret ()) w') →
  (¬ healthy w → ∀ text, Q (Err (DriverError text)) (tick w)) →
  wp (Begin iso) Q w.
Proof. intros Hok Hlost. apply wp_Begin_at; eauto. Qed.

Lemma wp_Commit' (Q : outcome db_error unit → World Db → Prop) w tx :
  w_tx w = Some tx →
  (∀ w', w_db w' = tx_db tx → (healthy w → healthy w') → Q (Ret ()) w') →
  (¬ healthy w → ∀ text w', w_db w' = w_db w ∨ w_db w' = tx_db tx →
     Q (Err (DriverError text)) w') →
  wp Commit Q w.
Proof.
  intros Htx Hok Hlost. apply (wp_Commit _ _ tx); [done|apply Hok; [done|auto with pgx]|].
  intros Hw text. split; apply Hlost; auto.
Qed.
End known.
