(* ===== verification/Grpc.v ===== *)
(** What the services use of gRPC: status codes and errors, timestamps, and
    the two interceptors' view of a handler.  The packages are not part of the
    repository: the codes are the published enumeration, the conversion of
    timestamps is a parameter with its documented laws. *)

From S2P Require Import Prelude.

(** google.golang.org/grpc/codes *)
Inductive Code :=
  | OK | Canceled | Unknown | InvalidArgument | DeadlineExceeded | NotFound_ | AlreadyExists
  | PermissionDenied | ResourceExhausted | FailedPrecondition | Aborted | OutOfRange
  | Unimplemented | Internal | Unavailable | DataLoss | Unauthenticated.

#[global] Instance Code_eq_dec : EqDecision Code.
Proof. solve_decision. Defined.

(** the error a handler returns: [status.Error(code, message)] *)
Record Status := mkStatus { status_Code : Code; status_Message : string }.

(** google.protobuf.Timestamp *)
Record Timestamp := mkTimestamp { Seconds : Z; Nanos : Z }.

(** [timestamppb.New] and [AsTime]; a time is a number of nanoseconds *)
Class TimestampLib := {
  timestamppb_New : Z → Timestamp;
  timestamppb_AsTime : Timestamp → Z;
}.

Class TimestampLaws `{TimestampLib} : Prop := {
  AsTime_New t : timestamppb_AsTime (timestamppb_New t) = t;
  Seconds_New t : Seconds (timestamppb_New t) = (t / 10 ^ 9)%Z;
}.

(** the error of a client call: a status that came over the wire or an error
    of the client's own *)
Inductive client_error :=
  | RpcError (st : Status)
  | PlainError (text : string).

(** [Error()] of a status is a parameter *)
Class GrpcText := status_Error : Status → string.

Definition client_error_Error `{GrpcText} (err : client_error) : string :=
  match err with
  | RpcError st => status_Error st
  | PlainError text => text
  end.
