(* ===== verification/DocPb.v ===== *)
(** The messages of the document service (document_service/api/v1/document.proto)
    as the Go structs the protobuf compiler makes of them: an enum is an open
    integer, an optional field and a message field are pointers. *)

From S2P Require Import Prelude Grpc.

Module pb.

Definition PermissionLevel : Type := Z.
Definition PERMISSION_VIEWER : PermissionLevel := 0%Z.
Definition PERMISSION_EDITOR : PermissionLevel := 1%Z.
Definition PERMISSION_OWNER : PermissionLevel := 2%Z.

Definition SortField : Type := Z.
Definition SORT_FIELD_CREATED_AT : SortField := 0%Z.
Definition SORT_FIELD_LAST_MODIFIED_AT : SortField := 1%Z.

Definition PrincipalType : Type := Z.
Definition USER : PrincipalType := 0%Z.
Definition GUEST : PrincipalType := 1%Z.

Record Document := mkDocument {
  Document_DocumentId : string;
  Document_DocumentName : option string;
  Document_Description : option string;
  Document_CreatedAt : option Timestamp;
  Document_LastModifiedAt : option Timestamp;
}.

Record Cursor := mkCursor {
  Cursor_SortField : SortField;
  Cursor_LastSeenTime : option Timestamp;
  Cursor_LastSeenDocumentId : option string;
}.

Record Principal := mkPrincipal {
  Principal_PrincipalId : string;
  Principal_PrincipalType : PrincipalType;
}.

Record Permission := mkPermission {
  Permission_Recipient : option Principal;
  Permission_DocumentId : string;
  Permission_PermissionLevel : PermissionLevel;
  Permission_CreatedBy : string;
  Permission_CreatedAt : option Timestamp;
  Permission_LastModifiedAt : option Timestamp;
}.

Record ClientContext := mkClientContext {
  ClientContext_PrincipalId : string;
  ClientContext_PrincipalType : option PrincipalType;
}.

Record DocumentPermission := mkDocumentPermission {
  DocumentPermission_Document : option Document;
  DocumentPermission_PermissionLevel : PermissionLevel;
}.

(** ** Requests *)
Record CreateDocumentRequest := mkCreateDocumentRequest {
  CreateDocument_OwnerUserId : string;
  CreateDocument_DocumentName : option string;
  CreateDocument_DocumentDescription : option string;
  CreateDocument_ClientContext : option ClientContext;
}.
Record GetDocumentRequest := mkGetDocumentRequest {
  GetDocument_DocumentId : string;
  GetDocument_ClientContext : option ClientContext;
}.
Record UpdateDocumentRequest := mkUpdateDocumentRequest {
  UpdateDocument_DocumentId : string;
  UpdateDocument_Name : option string;
  UpdateDocument_Description : option string;
  UpdateDocument_ClientContext : option ClientContext;
}.
Record DeleteDocumentRequest := mkDeleteDocumentRequest {
  DeleteDocument_DocumentId : string;
  DeleteDocument_ClientContext : option ClientContext;
}.
Record DeleteDocumentsRequest := mkDeleteDocumentsRequest {
  DeleteDocuments_DocumentIds : list string;
  DeleteDocuments_ClientContext : option ClientContext;
}.
Record ListDocumentByPrincipalRequest := mkListDocumentByPrincipalRequest {
  ListDocuments_PrincipalId : string;
  ListDocuments_PermissionsFilter : list PermissionLevel;
  ListDocuments_Cursor : option Cursor;
  ListDocuments_PageSize : option Z;
  ListDocuments_ClientContext : option ClientContext;
}.
Record GetPermissionsRequest := mkGetPermissionsRequest {
  GetPermissions_DocumentId : string;
  GetPermissions_PrincipalId : string;
  GetPermissions_ClientContext : option ClientContext;
}.
Record ListPermissionsOnDocumentRequest := mkListPermissionsOnDocumentRequest {
  ListPermissions_DocumentId : string;
  ListPermissions_PermissionsFilter : list PermissionLevel;
  ListPermissions_Cursor : option Cursor;
  ListPermissions_PageSize : option Z;
  ListPermissions_ClientContext : option ClientContext;
}.
Record CreateGuestRequest := mkCreateGuestRequest {
  CreateGuest_DocumentId : string;
  CreateGuest_PermissionLevel : PermissionLevel;
  CreateGuest_ClientContext : option ClientContext;
}.
Record UpsertPermissionUserRequest := mkUpsertPermissionUserRequest {
  Upsert_UserId : string;
  Upsert_DocumentId : string;
  Upsert_PermissionLevel : PermissionLevel;
  Upsert_ClientContext : option ClientContext;
}.
Record UpdatePermissionGuestRequest := mkUpdatePermissionGuestRequest {
  UpdateGuest_GuestId : string;
  UpdateGuest_PermissionLevel : PermissionLevel;
  UpdateGuest_ClientContext : option ClientContext;
}.
Record DeletePermissionsPrincipalRequest := mkDeletePermissionsPrincipalRequest {
  DeletePermissions_PrincipalId : string;
  DeletePermissions_DocumentId : string;
  DeletePermissions_ClientContext : option ClientContext;
}.

(** ** Replies *)
Record CreateDocumentReply := mkCreateDocumentReply { CreateDocumentReply_DocumentId : string }.
Record GetDocumentReply := mkGetDocumentReply { GetDocumentReply_Document : option Document }.
Record ListDocumentsByPrincipalReply := mkListDocumentsByPrincipalReply {
  ListDocumentsReply_DocumentPermissions : list DocumentPermission;
  ListDocumentsReply_Cursor : option Cursor;
}.
Record GetPermissionsReply := mkGetPermissionsReply {
  GetPermissionsReply_Permission : option Permission;
}.
Record ListPermissionsOnDocumentReply := mkListPermissionsOnDocumentReply {
  ListPermissionsReply_RecipientPermissions : list Permission;
  ListPermissionsReply_Cursor : option Cursor;
}.
Record CreateGuestReply := mkCreateGuestReply { CreateGuestReply_GuestId : string }.

End pb.
