(* ===== verification/DocDomain.v ===== *)
(** The domain of the document service
    (document_service/internal/service): the error values of errors.go, the
    data types of document_service.go, and the [DocumentRepository] interface
    the service is written against. *)

From S2P Require Import Prelude GoLib Pgx.
From stdpp Require Import finite.
#[local] Set Warnings "-register-all".

(** * errors.go *)

(** The text of an error of package pgx ([Error()]) and of a protobuf enum
    value (its generated [String()]), and the text of a UUID of package pgtype,
    come from libraries. *)
Class ErrorText := {
  db_error_Error : db_error → string;
  pb_enum_String : string → Z → string;
  pgtype_UUID_String : uuid → string;
}.

(** The [error] values that occur in the service.  [Err] of the Go structs is
    the wrapped cause, nil when [None]. *)
Inductive error :=
  | DbErr (e : db_error)
  | OtherErr (text : string)
  | ErrNilPointer
  | RepoImplError (Msg : string) (Cause : option error)
  | NotFoundError (Msg : string) (Cause : option error)
  | InvalidInputError (Msg : string) (Cause : option error)
  | UniqueConflictError (Msg : string) (Cause : option error).

Definition RepoImpl (msg : string) (err : option error) : error := RepoImplError msg err.
Definition NotFound (msg : string) (err : option error) : error := NotFoundError msg err.
Definition InvalidInput (msg : string) (err : option error) : error := InvalidInputError msg err.
Definition UniqueConflict (msg : string) (err : option error) : error :=
  UniqueConflictError msg err.

(** the type assertion [err.(DomainError)] *)
Definition isDomainError (err : error) : bool :=
  match err with
  | RepoImplError _ _ | NotFoundError _ _ | InvalidInputError _ _
  | UniqueConflictError _ _ => true
  | DbErr _ | OtherErr _ | ErrNilPointer => false
  end.

(** [Unwrap()] *)
Definition Unwrap (err : error) : option error :=
  match err with
  | RepoImplError _ c | NotFoundError _ c | InvalidInputError _ c
  | UniqueConflictError _ c => c
  | DbErr _ | OtherErr _ | ErrNilPointer => None
  end.

(** [errors.As(err, &target)]: the first error of the [Unwrap] chain of the
    wanted type *)
Fixpoint errors_As (target : error → bool) (err : error) : bool :=
  target err ||
  match err with
  | RepoImplError _ (Some c) | NotFoundError _ (Some c)
  | InvalidInputError _ (Some c) | UniqueConflictError _ (Some c) => errors_As target c
  | _ => false
  end.

Definition is_NotFoundError (err : error) : bool :=
  match err with NotFoundError _ _ => true | _ => false end.
Definition is_InvalidInputError (err : error) : bool :=
  match err with InvalidInputError _ _ => true | _ => false end.
Definition is_UniqueConflictError (err : error) : bool :=
  match err with UniqueConflictError _ _ => true | _ => false end.

Section error_text.
Context `{ErrorText}.

(** [Error()] *)
Fixpoint Error (err : error) : string :=
  match err with
  | DbErr e => db_error_Error e
  | OtherErr text => text
  | ErrNilPointer => "pointer must not be nil"
  | RepoImplError m c =>
      "repository implementation error, msg: " +:+ m +:+ ", err: " +:+
      match c with Some e => Error e | None => "<nil>" end
  | NotFoundError m c =>
      "this resource was not found, msg: " +:+ m +:+ ", err: " +:+
      match c with Some e => Error e | None => "<nil>" end
  | InvalidInputError m c =>
      "received an invalid input: " +:+ m +:+ ", err: " +:+
      match c with Some e => Error e | None => "<nil>" end
  | UniqueConflictError m c =>
      m +:+ ", " +:+ match c with Some e => Error e | None => "<nil>" end
  end.
End error_text.

(** the kind of an error, which is what the gRPC server branches on: a wrapped
    error counts *)
Inductive kind := KRepoImpl | KNotFound | KInvalidInput | KUniqueConflict | KOther.

#[global] Instance kind_eq_dec : EqDecision kind.
Proof. solve_decision. Defined.

Definition kind_of (err : error) : kind :=
  if errors_As is_NotFoundError err then KNotFound
  else if errors_As is_UniqueConflictError err then KUniqueConflict
  else if errors_As is_InvalidInputError err then KInvalidInput
  else if isDomainError err then KRepoImpl
  else KOther.

(** * document_service.go: data *)

(** The Go enumerations are [int32] types: any number is a value of the type,
    the constants are the first ones. *)
Definition PermissionLevel : Type := Z.
Definition Viewer : PermissionLevel := 0%Z.
Definition Editor : PermissionLevel := 1%Z.
Definition Owner : PermissionLevel := 2%Z.
Definition AllPermissions : list PermissionLevel := [Viewer; Editor; Owner].

Definition RecipientType : Type := Z.
Definition User : RecipientType := 0%Z.
Definition Guest : RecipientType := 1%Z.

Definition SortField : Type := Z.
Definition CreatedAt : SortField := 0%Z.
Definition LastModifiedAt : SortField := 1%Z.

(** [time.Time] is an instant: the number of nanoseconds since the Unix epoch *)
Definition Time : Type := Z.

(** [time.Time{}], January 1 of year 1 *)
Definition zero_Time : Time := (-62135596800 * 10 ^ 9)%Z.

Record Document := mkDocument {
  Document_ID : uuid;
  Document_Name : option string;
  Document_Description : option string;
  Document_CreatedAt : Time;
  Document_LastModifiedAt : Time;
}.

Record Permission := mkPermission {
  Permission_RecipientID : uuid;
  Permission_RecipientType : RecipientType;
  Permission_DocumentID : uuid;
  Permission_PermissionLevel : PermissionLevel;
  Permission_CreatedBy : uuid;
  Permission_CreatedAt : Time;
  Permission_LastModifiedAt : Time;
}.

Record Cursor := mkCursor {
  Cursor_SortField : SortField;
  Cursor_LastSeenTime : Time;
  Cursor_LastSeenID : uuid;
}.

Record DocumentPermission := mkDocumentPermission {
  DocumentPermission_Document : Document;
  DocumentPermission_Permission : PermissionLevel;
}.

Definition DefaultPageSize : Z := 10%Z.
Definition MaxPageSize : Z := 100%Z.

(** [for i := range maxUUID { maxUUID[i] = 0xff }] *)
Definition MaxDocumentID : uuid :=
  foldl (λ maxUUID i, vinsert i Byte.xff maxUUID) uuid_Nil (enum (fin 16)).

(** the clock of the process *)
Class Clock (W : Type) := Now : ∀ E, go W E Time.
#[global] Instance World_Clock Db : Clock (World Db) := λ E, time_Now.

Definition NewBeginningCursor {W E} `{Clock W} (sortField : SortField) : go W E Cursor :=
  now ← Now E;
  mret (mkCursor sortField now MaxDocumentID).

(** [type DocumentRepository interface]: [W] is the state of the world the
    implementation runs in *)
Class DocumentRepository (W : Type) := {
  repo_CreateDocument : uuid → option string → option string → go W error uuid;
  repo_GetDocument : uuid → go W error Document;
  repo_UpdateDocument : uuid → option string → option string → go W error unit;
  repo_DeleteDocument : uuid → go W error unit;
  repo_DeleteDocuments : list uuid → uuid → go W error unit;
  repo_ListDocumentsByPrincipal :
    uuid → list PermissionLevel → option Cursor → Z →
    go W error (list DocumentPermission * option Cursor);
  repo_GetPermissionOfPrincipalOnDocument : uuid → uuid → go W error Permission;
  repo_ListPermissionsOnDocument :
    uuid → list PermissionLevel → option Cursor → Z →
    go W error (list Permission * option Cursor);
  repo_CreateGuest : uuid → uuid → PermissionLevel → go W error uuid;
  repo_UpsertPermissionUser : uuid → uuid → PermissionLevel → go W error unit;
  repo_UpdatePermissionGuest : uuid → PermissionLevel → go W error unit;
  repo_DeletePermissionsPrincipal : uuid → uuid → go W error unit;
}.

(** * Facts *)

Lemma MaxDocumentID_num : uuid_num MaxDocumentID = (2 ^ 128 - 1)%Z.
Proof. vm_compute. reflexivity. Qed.

(** no UUID is above [MaxDocumentID] *)
Lemma MaxDocumentID_max u : (uuid_num u ≤ uuid_num MaxDocumentID)%Z.
Proof. rewrite MaxDocumentID_num. pose proof (uuid_num_bound u). lia. Qed.

Lemma errors_As_self target err : target err = true → errors_As target err = true.
Proof. destruct err; simpl; intros ->; done. Qed.

(** an error of another package is not wrapped around anything *)
Lemma kind_of_foreign err : isDomainError err = false → kind_of err = KOther.
Proof. by destruct err. Qed.

Lemma kind_of_domain err : isDomainError err = true → kind_of err ≠ KOther.
Proof. unfold kind_of. intros ->. by repeat case_match. Qed.

(** a repository error takes the kind of the domain error it is wrapped around *)
Lemma kind_of_RepoImpl msg err :
  kind_of (RepoImpl msg (Some err)) = match kind_of err with KOther => KRepoImpl | k => k end.
Proof. unfold kind_of. simpl. by repeat case_match. Qed.
