(* ===== verification/DocService.v ===== *)
(** The service layer of the document service
    (document_service/internal/service/document_service.go): the methods of
    [DocumentService], over any implementation of the [DocumentRepository]
    interface. *)

From S2P Require Import Prelude GoLib DocDomain.

Module DocumentService.
Section service.
Context {W : Type} `{Clock W} {documentRepo : DocumentRepository W}.

(** [if _, ok := err.(DomainError); !ok { err = RepoImpl(msg, err) }] *)
Definition as_domain (msg : string) (err : error) : error :=
  if isDomainError err then err else RepoImpl msg (Some err).

Definition CreateDocument (ownerUserId : uuid) (documentName documentDescription : option string)
    : go W error uuid :=
  repo_CreateDocument ownerUserId documentName documentDescription
    or_return as_domain "unexpected error encountered when creating document".

Definition GetDocument (documentId : uuid) : go W error Document :=
  repo_GetDocument documentId
    or_return as_domain "unexpected error encountered when getting document".

Definition UpdateDocument (documentId : uuid) (documentName documentDescription : option string)
    : go W error unit :=
  _ ← return_if (bool_decide (documentName = None) && bool_decide (documentDescription = None))
        (InvalidInput "at least one of documentName or documentDescription must be provided to update document" None);
  repo_UpdateDocument documentId documentName documentDescription
    or_return as_domain "unexpected error when updating document".

Definition DeleteDocument (documentId : uuid) : go W error unit :=
  repo_DeleteDocument documentId
    or_return as_domain "unexpected error when deleting document".

Definition DeleteDocuments (documentIds : list uuid) (userId : uuid) : go W error unit :=
  repo_DeleteDocuments documentIds userId
    or_return as_domain "unexpected error when deleting documents".

(** the three defaults the list methods apply to their arguments *)
Definition default_permissions (permissions : list PermissionLevel) : list PermissionLevel :=
  if (length permissions <? 1)%nat then AllPermissions else permissions.

Definition default_cursor (cursor : option Cursor) : go W error (option Cursor) :=
  match cursor with
  | None => c ← NewBeginningCursor CreatedAt; mret (Some c)
  | Some c => mret (Some c)
  end.

Definition default_pageSize (pageSize : Z) : Z :=
  if (pageSize <? 1)%Z || (MaxPageSize <? pageSize)%Z then DefaultPageSize else pageSize.

Definition ListDocumentsByPrincipal (principalId : uuid) (permissions : list PermissionLevel)
    (cursor : option Cursor) (pageSize : Z)
    : go W error (list DocumentPermission * option Cursor) :=
  let permissions := default_permissions permissions in
  cursor ← default_cursor cursor;
  let pageSize := default_pageSize pageSize in
  repo_ListDocumentsByPrincipal principalId permissions cursor pageSize
    or_return as_domain "unexpected error found when listing documents by principal".

Definition GetPermissionOfPrincipalOnDocument (documentId principalId : uuid)
    : go W error Permission :=
  repo_GetPermissionOfPrincipalOnDocument documentId principalId
    or_return as_domain "unexpected error found when getting permission".

Definition ListPermissionsOnDocument (documentId : uuid) (permissions : list PermissionLevel)
    (cursor : option Cursor) (pageSize : Z) : go W error (list Permission * option Cursor) :=
  let permissions := default_permissions permissions in
  cursor ← default_cursor cursor;
  let pageSize := default_pageSize pageSize in
  repo_ListPermissionsOnDocument documentId permissions cursor pageSize
    or_return as_domain "unexpected error found when listing permissions on document".

Definition CreateGuest (creatorId documentId : uuid) (permissionLevel : PermissionLevel)
    : go W error uuid :=
  _ ← return_if (permissionLevel =? Owner)%Z
        (InvalidInput ("failed to create guest because guests cannot have this permission level: "
                         +:+ pretty permissionLevel) None);
  repo_CreateGuest creatorId documentId permissionLevel
    or_return as_domain "failed to create guest with unknown error".

Definition UpsertPermissionUser (userId documentId : uuid) (permissionLevel : PermissionLevel)
    : go W error unit :=
  _ ← return_if (permissionLevel =? Owner)%Z
        (InvalidInput "cannot grant owner permission to user other than by creating a document with that user" None);
  repo_UpsertPermissionUser userId documentId permissionLevel
    or_return as_domain "failed to upsert permission on user with unknown error".

Definition UpdatePermissionGuest (guestId : uuid) (permissionLevel : PermissionLevel)
    : go W error unit :=
  _ ← return_if (permissionLevel =? Owner)%Z
        (InvalidInput "cannot grant owner permission to a guest" None);
  repo_UpdatePermissionGuest guestId permissionLevel
    or_return as_domain "unknown error found when updating guest permission level".

Definition DeletePermissionPrincipal (recipientId documentId : uuid) : go W error unit :=
  repo_DeletePermissionsPrincipal recipientId documentId
    or_return as_domain "unexpected error encountered when deleting permission of principal".

End service.
End DocumentService.
