(* ===== verification/DocServer.v ===== *)
(** The gRPC layer of the document service
    (document_service/internal/server/document_server.go): the translations
    between protobuf messages and the domain, the choice of the status code of
    an error, and the twelve handlers, over any repository. *)

From S2P Require Import Prelude GoLib Grpc DocPb DocDomain DocService.

Module DocumentServer.
Section server.
Context `{UuidLib} `{ErrorText} `{TimestampLib}.

(** ** Errors *)

(** for a non-nil error *)
Definition serviceToGRPCError (err : error) : Status :=
  if errors_As is_NotFoundError err then mkStatus NotFound_ (Error err)
  else if errors_As is_UniqueConflictError err then mkStatus AlreadyExists (Error err)
  else if errors_As is_InvalidInputError err then mkStatus InvalidArgument (Error err)
  else mkStatus Internal "internal server error encountered".

(** [status.Error(code, err.Error())] for an error that is only a text *)
Definition with_code (code : Code) (err : string) : Status := mkStatus code err.

(** ** Translations; an error is its text *)
Definition pbToServicePermissionLevel (permissionLevel : pb.PermissionLevel)
    : string + PermissionLevel :=
  if (permissionLevel =? pb.PERMISSION_VIEWER)%Z then inr Viewer
  else if (permissionLevel =? pb.PERMISSION_EDITOR)%Z then inr Editor
  else if (permissionLevel =? pb.PERMISSION_OWNER)%Z then inr Owner
  else inl ("failed to match any valid service permission levels for permission: "
              +:+ pb_enum_String "PermissionLevel" permissionLevel).

Definition pbToServicePermissionLevelList (permissions : list pb.PermissionLevel)
    : string + list PermissionLevel :=
  collect pbToServicePermissionLevel permissions.

Definition serviceToPbPermissionLevel (permissionLevel : PermissionLevel)
    : string + pb.PermissionLevel :=
  if (permissionLevel =? Viewer)%Z then inr pb.PERMISSION_VIEWER
  else if (permissionLevel =? Editor)%Z then inr pb.PERMISSION_EDITOR
  else if (permissionLevel =? Owner)%Z then inr pb.PERMISSION_OWNER
  else inl ("failed to map a valid pb permission level to: " +:+ pretty permissionLevel).

Definition serviceToPbDocument (document : Document) : pb.Document :=
  pb.mkDocument (uuid_String (Document_ID document)) (Document_Name document)
    (Document_Description document)
    (Some (timestamppb_New (Document_CreatedAt document)))
    (Some (timestamppb_New (Document_LastModifiedAt document))).

Definition serviceToPbDocumentPermissionList (documentPermissions : list DocumentPermission)
    : string + list pb.DocumentPermission :=
  collect (λ elem,
    let document := serviceToPbDocument (DocumentPermission_Document elem) in
    match serviceToPbPermissionLevel (DocumentPermission_Permission elem) with
    | inl err => inl err
    | inr permissionLevel => inr (pb.mkDocumentPermission (Some document) permissionLevel)
    end) documentPermissions.

Definition pbToServiceSortField (sortField : pb.SortField) : string + SortField :=
  if (sortField =? pb.SORT_FIELD_CREATED_AT)%Z then inr CreatedAt
  else if (sortField =? pb.SORT_FIELD_LAST_MODIFIED_AT)%Z then inr LastModifiedAt
  else inl ("failed to match any valid service sort fields for sort field: "
              +:+ pb_enum_String "Cursor_SortField" sortField).

Definition serviceToPbSortField (sortField : SortField) : string + pb.SortField :=
  if (sortField =? CreatedAt)%Z then inr pb.SORT_FIELD_CREATED_AT
  else if (sortField =? LastModifiedAt)%Z then inr pb.SORT_FIELD_LAST_MODIFIED_AT
  else inl ("failed to find a valid pb sort field for: " +:+ pretty sortField).

Definition serviceToPbCursor (cursor : Cursor) : string + pb.Cursor :=
  match serviceToPbSortField (Cursor_SortField cursor) with
  | inl err => inl err
  | inr sortField =>
      inr (pb.mkCursor sortField (Some (timestamppb_New (Cursor_LastSeenTime cursor)))
             (Some (uuid_String (Cursor_LastSeenID cursor))))
  end.

Definition serviceToPbRecipientType (recipientType : RecipientType) : string + pb.PrincipalType :=
  if (recipientType =? Guest)%Z then inr pb.GUEST
  else if (recipientType =? User)%Z then inr pb.USER
  else inl ("failed to map service recipient type to pb principal type: "
              +:+ pretty recipientType).

Definition serviceToPbPermission (permission : Permission) : string + pb.Permission :=
  match serviceToPbRecipientType (Permission_RecipientType permission) with
  | inl err => inl ("error encountered when serializing permission: " +:+ err)
  | inr principalType =>
  match serviceToPbPermissionLevel (Permission_PermissionLevel permission) with
  | inl err => inl ("error encountered when serializing permission: " +:+ err)
  | inr permissionLevel =>
      inr (pb.mkPermission
             (Some (pb.mkPrincipal (uuid_String (Permission_RecipientID permission)) principalType))
             (uuid_String (Permission_DocumentID permission)) permissionLevel
             (uuid_String (Permission_CreatedBy permission))
             (Some (timestamppb_New (Permission_CreatedAt permission)))
             (Some (timestamppb_New (Permission_LastModifiedAt permission))))
  end end.

Definition serviceToPbPermissionList (recipientPermissions : list Permission)
    : string + list pb.Permission :=
  collect serviceToPbPermission recipientPermissions.

(** ** Handlers *)
Context {W : Type} `{Clock W} {documentRepo : DocumentRepository W}.

(** reads the sort field through the pointer it is given *)
Definition parseServiceCursor (reqCursor : option pb.Cursor) : go W string (option Cursor) :=
  reqCursor ← deref reqCursor;
  sortField ← lift (pbToServiceSortField (pb.Cursor_SortField reqCursor));
  match pb.Cursor_LastSeenTime reqCursor with
  | None => c ← NewBeginningCursor sortField; mret (Some c)
  | Some lastSeenTime =>
      docId ← match pb.Cursor_LastSeenDocumentId reqCursor with
              | Some id =>
                  lift (uuid_Parse id)
                    or_return λ _, "failed to parse documentId as a uuid: " +:+ id
              | None => mret MaxDocumentID
              end;
      mret (Some (mkCursor sortField (timestamppb_AsTime lastSeenTime) docId))
  end.

Definition CreateDocument (createDocReq : pb.CreateDocumentRequest)
    : go W Status pb.CreateDocumentReply :=
  userId ← lift (uuid_Parse (pb.CreateDocument_OwnerUserId createDocReq))
    or_return λ _, mkStatus InvalidArgument "unable to parse owner user Id as uuid";
  documentId ← DocumentService.CreateDocument userId
                 (pb.CreateDocument_DocumentName createDocReq)
                 (pb.CreateDocument_DocumentDescription createDocReq)
    or_return serviceToGRPCError;
  mret (pb.mkCreateDocumentReply (uuid_String documentId)).

Definition GetDocument (getDocReq : pb.GetDocumentRequest) : go W Status pb.GetDocumentReply :=
  documentId ← lift (uuid_Parse (pb.GetDocument_DocumentId getDocReq))
    or_return λ _, mkStatus InvalidArgument "unable to parse documentId as uuid";
  document ← DocumentService.GetDocument documentId or_return serviceToGRPCError;
  mret (pb.mkGetDocumentReply (Some (pb.mkDocument
    (uuid_String (Document_ID document)) (Document_Name document)
    (Document_Description document)
    (Some (timestamppb_New (Document_CreatedAt document)))
    (Some (timestamppb_New (Document_LastModifiedAt document)))))).

Definition UpdateDocument (updateDocReq : pb.UpdateDocumentRequest) : go W Status unit :=
  documentId ← lift (uuid_Parse (pb.UpdateDocument_DocumentId updateDocReq))
    or_return λ _, mkStatus InvalidArgument "failed to parse document id as uuid";
  DocumentService.UpdateDocument documentId (pb.UpdateDocument_Name updateDocReq)
    (pb.UpdateDocument_Description updateDocReq)
    or_return serviceToGRPCError.

Definition DeleteDocument (deleteDocReq : pb.DeleteDocumentRequest) : go W Status unit :=
  documentId ← lift (uuid_Parse (pb.DeleteDocument_DocumentId deleteDocReq))
    or_return λ _, mkStatus InvalidArgument "failed to parse documentId as uuid";
  DocumentService.DeleteDocument documentId or_return serviceToGRPCError.

Definition DeleteDocuments (deleteDocsReq : pb.DeleteDocumentsRequest) : go W Status unit :=
  parsedDocumentIds ← lift (collect (λ documentId,
    match uuid_Parse documentId with
    | inl _ => inl (mkStatus InvalidArgument ("failed to parse document id: " +:+ documentId))
    | inr parsedId => inr parsedId
    end) (pb.DeleteDocuments_DocumentIds deleteDocsReq));
  clientContext ← deref (pb.DeleteDocuments_ClientContext deleteDocsReq);
  parsedUserId ← lift (uuid_Parse (pb.ClientContext_PrincipalId clientContext))
    or_return λ _, mkStatus InvalidArgument
      ("failed to parse user id: " +:+ pb.ClientContext_PrincipalId clientContext);
  DocumentService.DeleteDocuments parsedDocumentIds parsedUserId or_return serviceToGRPCError.

Definition page_size (req : option Z) : Z :=
  match req with None => DefaultPageSize | Some n => n end.

Definition ListDocumentsByPrincipal (listDocReq : pb.ListDocumentByPrincipalRequest)
    : go W Status pb.ListDocumentsByPrincipalReply :=
  principalId ← lift (uuid_Parse (pb.ListDocuments_PrincipalId listDocReq))
    or_return λ _, mkStatus InvalidArgument
      ("unable to parse documentId: " +:+ pb.ListDocuments_PrincipalId listDocReq +:+ " as uuid");
  permissionFilter ← lift (pbToServicePermissionLevelList
                             (pb.ListDocuments_PermissionsFilter listDocReq))
    or_return with_code InvalidArgument;
  cursor ← parseServiceCursor (pb.ListDocuments_Cursor listDocReq)
    or_return with_code InvalidArgument;
  let pageSize := page_size (pb.ListDocuments_PageSize listDocReq) in
  answer ← DocumentService.ListDocumentsByPrincipal principalId permissionFilter cursor pageSize
    or_return serviceToGRPCError;
  pbDocumentPermissions ← lift (serviceToPbDocumentPermissionList answer.1)
    or_return with_code Internal;
  responseCursor ← deref answer.2;
  pbRespCursor ← lift (serviceToPbCursor responseCursor) or_return with_code Internal;
  mret (pb.mkListDocumentsByPrincipalReply pbDocumentPermissions (Some pbRespCursor)).

Definition GetPermissionsOfPrincipalOnDocument (req : pb.GetPermissionsRequest)
    : go W Status pb.GetPermissionsReply :=
  documentId ← lift (uuid_Parse (pb.GetPermissions_DocumentId req))
    or_return λ _, mkStatus InvalidArgument
      ("unable to parse document ID as a uuid: " +:+ pb.GetPermissions_DocumentId req);
  principalId ← lift (uuid_Parse (pb.GetPermissions_PrincipalId req))
    or_return λ _, mkStatus InvalidArgument
      ("unable to parse principalId as a uuid: " +:+ pb.GetPermissions_PrincipalId req);
  permission ← DocumentService.GetPermissionOfPrincipalOnDocument documentId principalId
    or_return serviceToGRPCError;
  pbPermission ← lift (serviceToPbPermission permission) or_return with_code Internal;
  mret (pb.mkGetPermissionsReply (Some pbPermission)).

Definition ListPermissionsOnDocument (req : pb.ListPermissionsOnDocumentRequest)
    : go W Status pb.ListPermissionsOnDocumentReply :=
  documentId ← lift (uuid_Parse (pb.ListPermissions_DocumentId req))
    or_return λ _, mkStatus InvalidArgument
      ("failed to parse documentID as a uuid: " +:+ pb.ListPermissions_DocumentId req);
  permissionFilter ← lift (pbToServicePermissionLevelList
                             (pb.ListPermissions_PermissionsFilter req))
    or_return with_code InvalidArgument;
  cursor ← parseServiceCursor (pb.ListPermissions_Cursor req)
    or_return with_code InvalidArgument;
  let pageSize := page_size (pb.ListPermissions_PageSize req) in
  answer ← DocumentService.ListPermissionsOnDocument documentId permissionFilter cursor pageSize
    or_return serviceToGRPCError;
  pbRecipientPermissions ← lift (serviceToPbPermissionList answer.1)
    or_return with_code Internal;
  respCursor ← deref answer.2;
  pbRespCursor ← lift (serviceToPbCursor respCursor) or_return with_code Internal;
  mret (pb.mkListPermissionsOnDocumentReply pbRecipientPermissions (Some pbRespCursor)).

Definition CreateGuest (req : pb.CreateGuestRequest) : go W Status pb.CreateGuestReply :=
  documentId ← lift (uuid_Parse (pb.CreateGuest_DocumentId req))
    or_return λ _, mkStatus InvalidArgument
      ("failed to parse document id as uuid: " +:+ pb.CreateGuest_DocumentId req);
  clientContext ← deref (pb.CreateGuest_ClientContext req);
  userId ← lift (uuid_Parse (pb.ClientContext_PrincipalId clientContext))
    or_return λ _, mkStatus InvalidArgument
      ("failed to parse user Id as uuid: " +:+ pb.ClientContext_PrincipalId clientContext);
  permissionLevel ← lift (pbToServicePermissionLevel (pb.CreateGuest_PermissionLevel req))
    or_return with_code InvalidArgument;
  guestId ← DocumentService.CreateGuest userId documentId permissionLevel
    or_return serviceToGRPCError;
  mret (pb.mkCreateGuestReply (uuid_String guestId)).

Definition UpsertPermissionUser (req : pb.UpsertPermissionUserRequest) : go W Status unit :=
  userId ← lift (uuid_Parse (pb.Upsert_UserId req))
    or_return λ _, mkStatus InvalidArgument
      ("failed to parse user Id as uuid: " +:+ pb.Upsert_UserId req);
  documentId ← lift (uuid_Parse (pb.Upsert_DocumentId req))
    or_return λ _, mkStatus InvalidArgument
      ("failed to parse document id as uuid: " +:+ pb.Upsert_DocumentId req);
  permissionLevel ← lift (pbToServicePermissionLevel (pb.Upsert_PermissionLevel req))
    or_return with_code InvalidArgument;
  DocumentService.UpsertPermissionUser userId documentId permissionLevel
    or_return serviceToGRPCError.

Definition UpdatePermissionGuest (req : pb.UpdatePermissionGuestRequest) : go W Status unit :=
  guestId ← lift (uuid_Parse (pb.UpdateGuest_GuestId req))
    or_return λ _, mkStatus InvalidArgument
      ("failed to parse guestId as uuid: " +:+ pb.UpdateGuest_GuestId req);
  permissionLevel ← lift (pbToServicePermissionLevel (pb.UpdateGuest_PermissionLevel req))
    or_return with_code InvalidArgument;
  DocumentService.UpdatePermissionGuest guestId permissionLevel or_return serviceToGRPCError.

Definition DeletePermissionsPrincipal (req : pb.DeletePermissionsPrincipalRequest)
    : go W Status unit :=
  recipientId ← lift (uuid_Parse (pb.DeletePermissions_PrincipalId req))
    or_return λ _, mkStatus InvalidArgument
      ("failed to parse recipient id as uuid: " +:+ pb.DeletePermissions_PrincipalId req);
  documentId ← lift (uuid_Parse (pb.DeletePermissions_DocumentId req))
    or_return λ _, mkStatus InvalidArgument
      ("failed to parse document id as uuid: " +:+ pb.DeletePermissions_DocumentId req);
  DocumentService.DeletePermissionPrincipal recipientId documentId or_return serviceToGRPCError.

End server.
End DocumentServer.
