(* ===== verification/DocSql.v ===== *)
(** The tables of the document service and its statements
    (document_service/internal/repository/sqlc/sql/schema.sql and query.sql).

    A table is a finite map from its primary key to its rows.  A statement is
    a function of [NOW()] and of the three tables; it returns an error of the
    server, or its result (the rows of [:one] and [:many], the row count of
    [:execrows]) with the tables it leaves.  The Go code sqlc generates from
    query.sql only sends the statement and scans its result. *)

From S2P Require Import Prelude GoLib Paging Pgx.

Module sqlc.

(** ** schema.sql *)

(** sqlc represents the two SQL enums by Go strings *)
Definition PermissionLevel : Type := string.
Definition PermissionLevelViewer : PermissionLevel := "viewer".
Definition PermissionLevelEditor : PermissionLevel := "editor".
Definition PermissionLevelOwner : PermissionLevel := "owner".
Definition permission_level_labels : list PermissionLevel :=
  [PermissionLevelViewer; PermissionLevelEditor; PermissionLevelOwner].

Definition RecipientType : Type := string.
Definition RecipientTypeUser : RecipientType := "user".
Definition RecipientTypeGuest : RecipientType := "guest".

#[global] Instance PermissionLevel_eq_dec : EqDecision PermissionLevel := String.eq_dec.
#[global] Instance RecipientType_eq_dec : EqDecision RecipientType := String.eq_dec.

Record Document := mkDocument {
  Document_ID : uuid;
  Document_Name : option string;
  Document_Description : option string;
  Document_CreatedAt : Z;
  Document_LastModifiedAt : Z;
}.

Record Guest := mkGuest {
  Guest_ID : uuid;
  Guest_DocumentID : uuid;
  Guest_Description : option string;
  Guest_CreatedBy : uuid;
  Guest_CreatedAt : Z;
  Guest_LastModifiedAt : Z;
}.

Record Permission := mkPermission {
  Permission_RecipientID : uuid;
  Permission_RecipientType : RecipientType;
  Permission_DocumentID : uuid;
  Permission_PermissionLevel : PermissionLevel;
  Permission_CreatedBy : uuid;
  Permission_CreatedAt : Z;
  Permission_LastModifiedAt : Z;
}.

(** [permissions] has the primary key (recipient_id, document_id) *)
Record Db := mkDb {
  documents : gmap uuid Document;
  guests : gmap uuid Guest;
  permissions : gmap (uuid * uuid) Permission;
}.

Definition empty_db : Db := mkDb ∅ ∅ ∅.
Definition set_documents (t : gmap uuid Document) (db : Db) : Db :=
  mkDb t (guests db) (permissions db).
Definition set_guests (t : gmap uuid Guest) (db : Db) : Db :=
  mkDb (documents db) t (permissions db).
Definition set_permissions (t : gmap (uuid * uuid) Permission) (db : Db) : Db :=
  mkDb (documents db) (guests db) t.

Definition conflict {A} (constraint detail : string) : db_error + A :=
  inl (PgError unique_violation constraint detail).
Definition dangling {A} (constraint : string) : db_error + A :=
  inl (PgError foreign_key_violation constraint EmptyString).
Definition bad_label {A} : db_error + A := inl (PgError invalid_enum_label EmptyString EmptyString).

(** a row of [guests] or [permissions] references the document *)
Definition referenced (db : Db) (id : uuid) : bool :=
  existsb (λ g, bool_decide (Guest_DocumentID g.2 = id)) (map_to_list (guests db)) ||
  existsb (λ p, bool_decide (Permission_DocumentID p.2 = id)) (map_to_list (permissions db)).

(** ** query.sql *)

(** INSERT INTO documents (id, name, description) VALUES ($1, $2, $3) *)
Definition CreateDocument (ID : uuid) (Name Description : option string) : stmt unit := λ now db,
  match documents db !! ID with
  | Some _ => conflict "documents_pkey" EmptyString
  | None => inr ((), set_documents (<[ID := mkDocument ID Name Description now now]> (documents db)) db)
  end.

(** SELECT * FROM documents WHERE id = $1 *)
Definition GetDocument (ID : uuid) : stmt Document := λ _ db,
  match documents db !! ID with
  | Some d => inr (d, db)
  | None => inl ErrNoRows
  end.

Definition COALESCE {A} (x y : option A) : option A :=
  match x with Some _ => x | None => y end.

(** UPDATE documents SET name = COALESCE($2, name),
    description = COALESCE($3, description) WHERE id = $1 *)
Definition UpdateDocument (ID : uuid) (Name Description : option string) : stmt Z := λ _ db,
  match documents db !! ID with
  | None => inr (0%Z, db)
  | Some d =>
      let d' := mkDocument (Document_ID d) (COALESCE Name (Document_Name d))
                  (COALESCE Description (Document_Description d))
                  (Document_CreatedAt d) (Document_LastModifiedAt d) in
      inr (1%Z, set_documents (<[ID := d']> (documents db)) db)
  end.

(** DELETE FROM documents WHERE id = $1 *)
Definition DeleteDocument (ID : uuid) : stmt Z := λ _ db,
  match documents db !! ID with
  | None => inr (0%Z, db)
  | Some _ =>
      if referenced db ID then dangling "permissions_document_id_fkey"
      else inr (1%Z, set_documents (delete ID (documents db)) db)
  end.

(** DELETE FROM permissions WHERE document_id = $1 *)
Definition DeletePermissionByDocument (DocumentID : uuid) : stmt Z := λ _ db,
  let gone := filter (λ kp, Permission_DocumentID kp.2 = DocumentID) (permissions db) in
  let kept := filter (λ kp, Permission_DocumentID kp.2 ≠ DocumentID) (permissions db) in
  inr (Z.of_nat (size gone), set_permissions kept db).

(** a row of the two document listings: sqlc.embed(documents), permission_level *)
Record ListRow := mkListRow {
  Row_Document : Document;
  Row_PermissionLevel : PermissionLevel;
}.

(** the rows of documents JOIN permissions ON documents.id = document_id
    with recipient_id = $1 and permission_level = ANY(permissions_list) *)
Definition join_row (RecipientID : uuid) (PermissionsList : list PermissionLevel) (db : Db)
    (p : Permission) : option ListRow :=
  if bool_decide (Permission_RecipientID p = RecipientID) &&
     bool_decide (Permission_PermissionLevel p ∈ PermissionsList)
  then match documents db !! Permission_DocumentID p with
       | Some d => Some (mkListRow d (Permission_PermissionLevel p))
       | None => None
       end
  else None.

Definition join_documents (RecipientID : uuid) (PermissionsList : list PermissionLevel) (db : Db)
    : list ListRow :=
  omap (λ kp, join_row RecipientID PermissionsList db kp.2) (map_to_list (permissions db)).

(** the checks the server makes on the arguments of a listing *)
Definition listing {A} (PermissionsList : list PermissionLevel) (Limit : Z) (rows : list A)
    (db : Db) : db_error + (list A * Db) :=
  if forallb (λ l, bool_decide (l ∈ permission_level_labels)) PermissionsList then
    if (Limit <? 0)%Z then inl (PgError invalid_limit EmptyString "LIMIT must not be negative")
    else inr (rows, db)
  else bad_label.

Definition row_created_at (r : ListRow) : key :=
  (Document_CreatedAt (Row_Document r), uuid_num (Document_ID (Row_Document r))).
Definition row_last_modified_at (r : ListRow) : key :=
  (Document_LastModifiedAt (Row_Document r), uuid_num (Document_ID (Row_Document r))).

(** WHERE (created_at < $2 OR (created_at = $2 AND id < $3)) ...
    ORDER BY created_at DESC, id DESC LIMIT $4 *)
Definition ListDocumentsByCreatedAt (RecipientID : uuid) (CreatedAt : Z) (ID : uuid) (Limit : Z)
    (PermissionsList : list PermissionLevel) : stmt (list ListRow) := λ _ db,
  listing PermissionsList Limit
    (page row_created_at (CreatedAt, uuid_num ID) (Z.to_nat Limit)
       (join_documents RecipientID PermissionsList db)) db.

Definition ListDocumentsByLastModifiedAt (RecipientID : uuid) (LastModifiedAt : Z) (ID : uuid)
    (Limit : Z) (PermissionsList : list PermissionLevel) : stmt (list ListRow) := λ _ db,
  listing PermissionsList Limit
    (page row_last_modified_at (LastModifiedAt, uuid_num ID) (Z.to_nat Limit)
       (join_documents RecipientID PermissionsList db)) db.

(** SELECT * FROM permissions WHERE document_id = $1 AND recipient_id = $2 *)
Definition GetPermissionOfPrincipalOnDocument (DocumentID RecipientID : uuid) : stmt Permission :=
  λ _ db,
  match permissions db !! (RecipientID, DocumentID) with
  | Some p => inr (p, db)
  | None => inl ErrNoRows
  end.

(** the rows with document_id = $1 and permission_level = ANY(permissions_list) *)
Definition permissions_on (DocumentID : uuid) (PermissionsList : list PermissionLevel) (db : Db)
    : list Permission :=
  filter (λ p, Permission_DocumentID p = DocumentID ∧
               Permission_PermissionLevel p ∈ PermissionsList)
    (map_to_list (permissions db)).*2.

Definition permission_created_at (p : Permission) : key :=
  (Permission_CreatedAt p, uuid_num (Permission_RecipientID p)).
Definition permission_last_modified_at (p : Permission) : key :=
  (Permission_LastModifiedAt p, uuid_num (Permission_RecipientID p)).

Definition ListPermissionOnDocumentCreatedAt (DocumentID : uuid) (CreatedAt : Z)
    (RecipientID : uuid) (Limit : Z) (PermissionsList : list PermissionLevel)
    : stmt (list Permission) := λ _ db,
  listing PermissionsList Limit
    (page permission_created_at (CreatedAt, uuid_num RecipientID) (Z.to_nat Limit)
       (permissions_on DocumentID PermissionsList db)) db.

Definition ListPermissionOnDocumentLastModifiedAt (DocumentID : uuid) (LastModifiedAt : Z)
    (RecipientID : uuid) (Limit : Z) (PermissionsList : list PermissionLevel)
    : stmt (list Permission) := λ _ db,
  listing PermissionsList Limit
    (page permission_last_modified_at (LastModifiedAt, uuid_num RecipientID) (Z.to_nat Limit)
       (permissions_on DocumentID PermissionsList db)) db.

(** a row inserted into permissions: the label of the level, the primary key,
    then the foreign key *)
Definition insert_permission (p : Permission) (db : Db) : db_error + (unit * Db) :=
  let k := (Permission_RecipientID p, Permission_DocumentID p) in
  match permissions db !! k with
  | Some _ => conflict "permissions_pkey" EmptyString
  | None =>
      match documents db !! Permission_DocumentID p with
      | None => dangling "permissions_document_id_fkey"
      | Some _ => inr ((), set_permissions (<[k := p]> (permissions db)) db)
      end
  end.

(** INSERT INTO permissions (...) VALUES ($1, 'user', $2, $3, $4)
    ON CONFLICT (recipient_id, document_id)
    DO UPDATE SET last_modified_at = NOW(), permission_level = $3 *)
Definition UpsertPermissionUser (RecipientID DocumentID : uuid) (Level : PermissionLevel)
    (CreatedBy : uuid) : stmt unit := λ now db,
  if bool_decide (Level ∈ permission_level_labels) then
    match permissions db !! (RecipientID, DocumentID) with
    | Some p =>
        let p' := mkPermission (Permission_RecipientID p) (Permission_RecipientType p)
                    (Permission_DocumentID p) Level (Permission_CreatedBy p)
                    (Permission_CreatedAt p) now in
        inr ((), set_permissions (<[(RecipientID, DocumentID) := p']> (permissions db)) db)
    | None =>
        insert_permission
          (mkPermission RecipientID RecipientTypeUser DocumentID Level CreatedBy now now) db
    end
  else bad_label.

(** INSERT INTO permissions (...) VALUES ($1, 'guest', $2, $3, $4) *)
Definition InsertPermissionGuest (RecipientID DocumentID : uuid) (Level : PermissionLevel)
    (CreatedBy : uuid) : stmt unit := λ now db,
  if bool_decide (Level ∈ permission_level_labels) then
    insert_permission
      (mkPermission RecipientID RecipientTypeGuest DocumentID Level CreatedBy now now) db
  else bad_label.

(** SELECT * FROM guests WHERE id = $1 *)
Definition SelectGuest (ID : uuid) : stmt Guest := λ _ db,
  match guests db !! ID with
  | Some g => inr (g, db)
  | None => inl ErrNoRows
  end.

(** UPDATE permissions SET permission_level = $3, last_modified_at = NOW()
    WHERE recipient_id = $1 AND document_id = $2 AND recipient_type = 'guest' *)
Definition UpdatePermissionGuest (RecipientID DocumentID : uuid) (Level : PermissionLevel)
    : stmt Z := λ now db,
  if bool_decide (Level ∈ permission_level_labels) then
    match permissions db !! (RecipientID, DocumentID) with
    | Some p =>
        if bool_decide (Permission_RecipientType p = RecipientTypeGuest) then
          let p' := mkPermission (Permission_RecipientID p) (Permission_RecipientType p)
                      (Permission_DocumentID p) Level (Permission_CreatedBy p)
                      (Permission_CreatedAt p) now in
          inr (1%Z, set_permissions (<[(RecipientID, DocumentID) := p']> (permissions db)) db)
        else inr (0%Z, db)
    | None => inr (0%Z, db)
    end
  else bad_label.

(** INSERT INTO guests (id, document_id, created_by) VALUES ($1, $2, $3) *)
Definition CreateGuest (ID DocumentID CreatedBy : uuid) : stmt unit := λ now db,
  match guests db !! ID with
  | Some _ => conflict "guests_pkey" EmptyString
  | None =>
      match documents db !! DocumentID with
      | None => dangling "guests_document_id_fkey"
      | Some _ =>
          inr ((), set_guests (<[ID := mkGuest ID DocumentID None CreatedBy now now]> (guests db)) db)
      end
  end.

(** DELETE FROM permissions WHERE recipient_id = $1 AND document_id = $2 *)
Definition DeletePermissionPrincipal (RecipientID DocumentID : uuid) : stmt Z := λ _ db,
  match permissions db !! (RecipientID, DocumentID) with
  | Some _ => inr (1%Z, set_permissions (delete (RecipientID, DocumentID) (permissions db)) db)
  | None => inr (0%Z, db)
  end.

(** DELETE FROM guests WHERE document_id = $1 *)
Definition DeleteGuestsByDocument (DocumentID : uuid) : stmt Z := λ _ db,
  let gone := filter (λ kg, Guest_DocumentID kg.2 = DocumentID) (guests db) in
  let kept := filter (λ kg, Guest_DocumentID kg.2 ≠ DocumentID) (guests db) in
  inr (Z.of_nat (size gone), set_guests kept db).

End sqlc.
