(* ===== verification/DocRepository.v ===== *)
(** The PostgreSQL repository of the document service
    (document_service/internal/repository/document_repository.go): the
    conversions between the rows of the tables and the domain types, and the
    twelve methods of [DocumentRepository], statement by statement, with their
    transactions and every error branch. *)

From S2P Require Import Prelude GoLib Pgx DocDomain DocSql.

Abbreviation DocWorld := (World sqlc.Db).

Module DocumentRepository.
Section repository.
Context `{UuidLib} `{ErrorText}.

Definition repositoryToServiceDocument (repoDocument : sqlc.Document) : error + Document :=
  match uuid_FromBytes (vec_to_list (sqlc.Document_ID repoDocument)) with
  | inl err => inl (OtherErr err)
  | inr documentId =>
      inr (mkDocument documentId (sqlc.Document_Name repoDocument)
             (sqlc.Document_Description repoDocument)
             (sqlc.Document_CreatedAt repoDocument)
             (sqlc.Document_LastModifiedAt repoDocument))
  end.

Definition serviceToRepoPermissionLevel (permissionService : PermissionLevel)
    : error + sqlc.PermissionLevel :=
  if (permissionService =? Viewer)%Z then inr sqlc.PermissionLevelViewer
  else if (permissionService =? Editor)%Z then inr sqlc.PermissionLevelEditor
  else if (permissionService =? Owner)%Z then inr sqlc.PermissionLevelOwner
  else inl (OtherErr "failed to match any of the valid permissions").

Definition repoToServicePermissionLevel (permissionRepo : sqlc.PermissionLevel)
    : error + PermissionLevel :=
  if bool_decide (permissionRepo = sqlc.PermissionLevelViewer) then inr Viewer
  else if bool_decide (permissionRepo = sqlc.PermissionLevelEditor) then inr Editor
  else if bool_decide (permissionRepo = sqlc.PermissionLevelOwner) then inr Owner
  else inl (OtherErr "failed to match any of the valid permissions").

Definition repoToServiceRecipientType (recipientTypeRepo : sqlc.RecipientType)
    : error + RecipientType :=
  if bool_decide (recipientTypeRepo = sqlc.RecipientTypeUser) then inr User
  else if bool_decide (recipientTypeRepo = sqlc.RecipientTypeGuest) then inr Guest
  else inl (OtherErr "failed to match any of the valid recipient types").

Definition repoToServicePermission (permissionRepo : sqlc.Permission) : error + Permission :=
  let errorSuffix :=
    " of recipient: " +:+ pgtype_UUID_String (sqlc.Permission_RecipientID permissionRepo)
    +:+ " on document: " +:+ pgtype_UUID_String (sqlc.Permission_DocumentID permissionRepo) in
  match repoToServicePermissionLevel (sqlc.Permission_PermissionLevel permissionRepo) with
  | inl err => inl (RepoImpl ("failed to parse permission level" +:+ errorSuffix) (Some err))
  | inr permissionLevel =>
  match repoToServiceRecipientType (sqlc.Permission_RecipientType permissionRepo) with
  | inl err => inl (RepoImpl ("failed to parse recipient type" +:+ errorSuffix) (Some err))
  | inr serviceRecipientType =>
  match uuid_FromBytes (vec_to_list (sqlc.Permission_RecipientID permissionRepo)) with
  | inl err =>
      inl (RepoImpl ("failed to parse the recipient id" +:+ errorSuffix) (Some (OtherErr err)))
  | inr recipientId =>
  match uuid_FromBytes (vec_to_list (sqlc.Permission_DocumentID permissionRepo)) with
  | inl err =>
      inl (RepoImpl ("failed to parse the document id" +:+ errorSuffix) (Some (OtherErr err)))
  | inr documentId =>
  match uuid_FromBytes (vec_to_list (sqlc.Permission_CreatedBy permissionRepo)) with
  | inl err =>
      inl (RepoImpl ("failed to parse created by id" +:+ errorSuffix) (Some (OtherErr err)))
  | inr creatorId =>
      inr (mkPermission recipientId serviceRecipientType documentId permissionLevel creatorId
             (sqlc.Permission_CreatedAt permissionRepo)
             (sqlc.Permission_CreatedAt permissionRepo))
  end end end end end.

Definition conflictErrorCode : string := "23505".

(** [errors.Is(err, pgx.ErrNoRows)] *)
Definition is_no_rows (err : db_error) : bool := bool_decide (err = ErrNoRows).

Definition because (msg : string) (err : db_error) : error := RepoImpl msg (Some (DbErr err)).

Definition CreateDocument (userId : uuid) (documentName documentDescription : option string)
    : go DocWorld error uuid :=
  _ ← Begin ReadCommitted or_return because "failed to begin a database transaction";
  defer Rollback (
    documentId ← uuid_New;
    _ ← exec OnTx (sqlc.CreateDocument documentId documentName documentDescription)
          or_return because "unable to create a new document";
    _ ← exec OnTx (sqlc.UpsertPermissionUser userId documentId sqlc.PermissionLevelOwner userId)
          or_return because "unable to create permissions on new document for user";
    _ ← Commit or_return because "error encountered when creating document";
    mret documentId).

Definition GetDocument (documentId : uuid) : go DocWorld error Document :=
  repoDocument ← exec OnPool (sqlc.GetDocument documentId) or_return (λ err,
    if is_no_rows err
    then NotFound ("no document found with id " +:+ uuid_String documentId) (Some (DbErr err))
    else because ("error when trying to retrieve document with id: "
                    +:+ uuid_String documentId) err);
  lift (repositoryToServiceDocument repoDocument)
    or_return λ err, RepoImpl "failed to parse the returned document" (Some err).

Definition UpdateDocument (documentId : uuid) (documentName documentDescription : option string)
    : go DocWorld error unit :=
  _ ← return_if (bool_decide (documentName = None) && bool_decide (documentDescription = None))
        (InvalidInput "at least of of name or description must be non nil" None);
  countRows ← exec OnPool (sqlc.UpdateDocument documentId documentName documentDescription)
    or_return because ("error encountered when trying to update document with id: "
                         +:+ uuid_String documentId);
  return_if (countRows <? 1)%Z
    (NotFound ("unable to update the document with id: " +:+ uuid_String documentId) None).

Definition deleteDocumentHelper (txQueries : conn) (documentId : uuid) : go DocWorld error unit :=
  _ ← exec txQueries (sqlc.DeletePermissionByDocument documentId)
        or_return because ("failed to delete document with id " +:+ uuid_String documentId);
  _ ← exec txQueries (sqlc.DeleteGuestsByDocument documentId)
        or_return because ("failed to delete guests with document id: " +:+ uuid_String documentId);
  count ← exec txQueries (sqlc.DeleteDocument documentId)
        or_return because ("failed to delete document with id: " +:+ uuid_String documentId);
  return_if (count <? 1)%Z
    (NotFound ("no document found with id: " +:+ uuid_String documentId) None).

Definition DeleteDocument (documentId : uuid) : go DocWorld error unit :=
  _ ← Begin ReadCommitted or_return because "failed to begin a database transaction";
  defer Rollback (
    _ ← deleteDocumentHelper OnTx documentId;
    Commit or_return because "failed to commit transaction").

Definition DeleteDocuments (documentIds : list uuid) (userId : uuid) : go DocWorld error unit :=
  _ ← return_if (length documentIds <? 1)%nat
        (InvalidInput "expected at least one documentId" None);
  _ ← Begin ReadCommitted or_return because "failed to create a database transaction";
  defer Rollback (
    _ ← for_each (deleteDocumentHelper OnTx) documentIds;
    Commit or_return because "failed to commit transaction").

Definition parseDocumentPermission (document : sqlc.Document)
    (permissionLevel : sqlc.PermissionLevel) : error + DocumentPermission :=
  match repoToServicePermissionLevel permissionLevel with
  | inl err =>
      inl (RepoImpl ("failed to parse permission for documentId: "
                       +:+ pgtype_UUID_String (sqlc.Document_ID document)) (Some err))
  | inr permissionLevelService =>
  match repositoryToServiceDocument document with
  | inl err =>
      inl (RepoImpl ("failed to parse document with documentId: "
                       +:+ pgtype_UUID_String (sqlc.Document_ID document)) (Some err))
  | inr serviceDocument => inr (mkDocumentPermission serviceDocument permissionLevelService)
  end end.

(** a sort field that is neither constant reads nothing *)
Definition readDocuments (principalId : uuid) (repoPermissionList : list sqlc.PermissionLevel)
    (cursor : Cursor) (pageSize : Z) : go DocWorld error (list DocumentPermission) :=
  let parse row :=
    parseDocumentPermission (sqlc.Row_Document row) (sqlc.Row_PermissionLevel row) in
  if (Cursor_SortField cursor =? CreatedAt)%Z then
    rows ← exec OnPool (sqlc.ListDocumentsByCreatedAt principalId (Cursor_LastSeenTime cursor)
                          (Cursor_LastSeenID cursor) pageSize repoPermissionList)
      or_return because "failed to retrieve document by principal";
    lift (collect parse rows)
  else if (Cursor_SortField cursor =? LastModifiedAt)%Z then
    rows ← exec OnPool (sqlc.ListDocumentsByLastModifiedAt principalId
                          (Cursor_LastSeenTime cursor) (Cursor_LastSeenID cursor) pageSize
                          repoPermissionList)
      or_return because "failed to retrieve document by principal";
    lift (collect parse rows)
  else mret [].

Definition ListDocumentsByPrincipal (principalId : uuid) (permissions : list PermissionLevel)
    (cursor : option Cursor) (pageSize : Z)
    : go DocWorld error (list DocumentPermission * option Cursor) :=
  match cursor with
  | None => throw ErrNilPointer
  | Some cursor =>
      _ ← return_if (length permissions <? 1)%nat
            (InvalidInput "expected at least one permission" None);
      repoPermissionsList ← lift (collect (λ permissionLevel,
          match serviceToRepoPermissionLevel permissionLevel with
          | inl _ => inl (InvalidInput ("input permission: " +:+ pretty permissionLevel
                            +:+ " does not map to any valid permissions") None)
          | inr l => inr l
          end) permissions);
      documentPermissions ← readDocuments principalId repoPermissionsList cursor pageSize;
      let cursorResp :=
        match last documentPermissions with
        | Some l =>
            let document := DocumentPermission_Document l in
            mkCursor (Cursor_SortField cursor)
              (if (Cursor_SortField cursor =? CreatedAt)%Z then Document_CreatedAt document
               else Document_LastModifiedAt document)
              (Document_ID document)
        | None =>
            mkCursor (Cursor_SortField cursor) (Cursor_LastSeenTime cursor)
              (Cursor_LastSeenID cursor)
        end in
      mret (documentPermissions, Some cursorResp)
  end.

Definition GetPermissionOfPrincipalOnDocument (documentId principalId : uuid)
    : go DocWorld error Permission :=
  row ← exec OnPool (sqlc.GetPermissionOfPrincipalOnDocument documentId principalId)
    or_return (λ err,
      if is_no_rows err
      then NotFound ("no permissions found for principal: " +:+ uuid_String principalId
                       +:+ " on document: " +:+ uuid_String documentId) (Some (DbErr err))
      else because ("failed to get permission for principal: " +:+ uuid_String principalId
                      +:+ " on document: " +:+ uuid_String documentId) err);
  lift (repoToServicePermission row).

Definition readPermissions (txQueries : conn) (documentId : uuid)
    (permissionFilter : list sqlc.PermissionLevel) (cursor : Cursor) (maxPermissions : Z)
    : go DocWorld error (list sqlc.Permission) :=
  let fail := because ("failed to retrieve permissions on document " +:+ uuid_String documentId) in
  if (Cursor_SortField cursor =? CreatedAt)%Z then
    exec txQueries (sqlc.ListPermissionOnDocumentCreatedAt documentId
                      (Cursor_LastSeenTime cursor) (Cursor_LastSeenID cursor) maxPermissions
                      permissionFilter) or_return fail
  else if (Cursor_SortField cursor =? LastModifiedAt)%Z then
    exec txQueries (sqlc.ListPermissionOnDocumentLastModifiedAt documentId
                      (Cursor_LastSeenTime cursor) (Cursor_LastSeenID cursor) maxPermissions
                      permissionFilter) or_return fail
  else mret [].

Definition ListPermissionsOnDocument (documentId : uuid) (permissionFilter : list PermissionLevel)
    (cursor : option Cursor) (pageSize : Z)
    : go DocWorld error (list Permission * option Cursor) :=
  _ ← return_if (length permissionFilter <? 1)%nat
        (InvalidInput "permission filter list is empty, need at least one valid permission" None);
  repoPermissionFilter ← lift (collect serviceToRepoPermissionLevel permissionFilter)
    or_return (λ err, InvalidInput "failed to parse permission filter" (Some err));
  match cursor with
  | None => throw ErrNilPointer
  | Some cursor =>
      _ ← Begin RepeatableRead or_return because "failed to begin a database transaction";
      defer Rollback (
        _ ← exec OnTx (sqlc.GetDocument documentId) or_return (λ err,
          if is_no_rows err
          then NotFound ("no document found with id " +:+ uuid_String documentId)
                 (Some (DbErr err))
          else because ("error when trying to list permissions on document with id: "
                          +:+ uuid_String documentId) err);
        repoPermissions ← readPermissions OnTx documentId repoPermissionFilter cursor pageSize
          or_return (λ err,
            RepoImpl ("failed to read permissions on document: " +:+ uuid_String documentId)
              (Some err));
        permissions ← lift (collect repoToServicePermission repoPermissions);
        let respCursor :=
          match last permissions with
          | Some l =>
              mkCursor (Cursor_SortField cursor)
                (if (Cursor_SortField cursor =? CreatedAt)%Z then Permission_CreatedAt l
                 else if (Cursor_SortField cursor =? LastModifiedAt)%Z
                      then Permission_LastModifiedAt l
                      else zero_Time)
                (Permission_RecipientID l)
          | None =>
              mkCursor (Cursor_SortField cursor) (Cursor_LastSeenTime cursor)
                (Cursor_LastSeenID cursor)
          end in
        mret (permissions, Some respCursor))
  end.

(** the error switch after an insert: a unique conflict has its own error *)
Definition insert_error (conflict postgres other : string) (err : db_error) : error :=
  match err with
  | PgError code _ _ =>
      if bool_decide (code = conflictErrorCode)
      then UniqueConflict conflict (Some (DbErr err))
      else because postgres err
  | _ => because other err
  end.

Definition CreateGuest (creatorId documentId : uuid) (permissionLevel : PermissionLevel)
    : go DocWorld error uuid :=
  guestId ← uuid_New;
  repoPermission ← lift (serviceToRepoPermissionLevel permissionLevel)
    or_return (λ err,
      InvalidInput ("invalid input for permission: " +:+ pretty permissionLevel) (Some err));
  _ ← Begin RepeatableRead
        or_return because "failed to create a transaction when creating a guest";
  defer Rollback (
    _ ← exec OnTx (sqlc.GetDocument documentId) or_return (λ err,
      if is_no_rows err
      then NotFound ("the document with id: " +:+ uuid_String documentId +:+ " was not found")
             (Some (DbErr err))
      else because "failed to validate document id with database error" err);
    _ ← exec OnTx (sqlc.CreateGuest guestId documentId creatorId) or_return insert_error
          ("unique conflict encountered when creating guest with id: " +:+ uuid_String guestId)
          "encountered a postgres error when trying to create a user"
          "encountered an unexpected error when creating a user";
    _ ← exec OnTx (sqlc.InsertPermissionGuest guestId documentId repoPermission creatorId)
          or_return insert_error
          ("unique conflict encountered when creating permission on document: "
             +:+ uuid_String documentId +:+ ", for guest with id: " +:+ uuid_String guestId)
          "encountered a postgres error when trying to create a permission"
          "encountered an unexpected error when creating a permission";
    _ ← Commit or_return because "failed to commit transaction";
    mret guestId).

Definition UpsertPermissionUser (userId documentId : uuid) (permissionLevel : PermissionLevel)
    : go DocWorld error unit :=
  repoPermission ← lift (serviceToRepoPermissionLevel permissionLevel)
    or_return (λ err,
      InvalidInput ("invalid input for permission: " +:+ pretty permissionLevel) (Some err));
  _ ← Begin RepeatableRead
        or_return because "failed to create a transaction when creating a guest";
  defer Rollback (
    _ ← exec OnTx (sqlc.GetDocument documentId) or_return (λ err,
      if is_no_rows err
      then NotFound ("the permission on document " +:+ uuid_String documentId
                       +:+ " cannot be updated because it is not found") (Some (DbErr err))
      else because "failed to validate that this document exists" err);
    _ ← exec OnTx (sqlc.UpsertPermissionUser userId documentId repoPermission userId)
          or_return because "failed to update user permission";
    Commit or_return because "failed to commit transaction").

Definition UpdatePermissionGuest (guestId : uuid) (permissionLevel : PermissionLevel)
    : go DocWorld error unit :=
  permissionRepo ← lift (serviceToRepoPermissionLevel permissionLevel)
    or_return (λ err,
      InvalidInput ("invalid input received for permission: " +:+ pretty permissionLevel)
        (Some err));
  guest ← exec OnPool (sqlc.SelectGuest guestId) or_return (λ err,
    if is_no_rows err
    then NotFound ("unable to find a guest with guestId: " +:+ uuid_String guestId)
           (Some (DbErr err))
    else because "failed to read guest information" err);
  count ← exec OnPool (sqlc.UpdatePermissionGuest guestId (sqlc.Guest_DocumentID guest)
                         permissionRepo)
    or_return because "failed to update guest permissions";
  return_if (count <? 1)%Z
    (NotFound ("unable to find permission of guest: " +:+ uuid_String guestId
                 +:+ " on document: " +:+ pgtype_UUID_String (sqlc.Guest_DocumentID guest)) None).

Definition DeletePermissionsPrincipal (recipientId documentId : uuid) : go DocWorld error unit :=
  count ← exec OnPool (sqlc.DeletePermissionPrincipal recipientId documentId)
    or_return because ("error encountered when deleting permissions of "
                         +:+ uuid_String recipientId +:+ " on document "
                         +:+ uuid_String documentId);
  return_if (count <? 1)%Z
    (NotFound ("no permission found when deleting permission with recipient: "
                 +:+ uuid_String recipientId +:+ " and document " +:+ uuid_String documentId) None).

(** [var _ service.DocumentRepository = ( *DocumentRepository)(nil)] *)
#[global] Instance implements : DocDomain.DocumentRepository DocWorld := {|
  repo_CreateDocument := CreateDocument;
  repo_GetDocument := GetDocument;
  repo_UpdateDocument := UpdateDocument;
  repo_DeleteDocument := DeleteDocument;
  repo_DeleteDocuments := DeleteDocuments;
  repo_ListDocumentsByPrincipal := ListDocumentsByPrincipal;
  repo_GetPermissionOfPrincipalOnDocument := GetPermissionOfPrincipalOnDocument;
  repo_ListPermissionsOnDocument := ListPermissionsOnDocument;
  repo_CreateGuest := CreateGuest;
  repo_UpsertPermissionUser := UpsertPermissionUser;
  repo_UpdatePermissionGuest := UpdatePermissionGuest;
  repo_DeletePermissionsPrincipal := DeletePermissionsPrincipal;
|}.

End repository.
End DocumentRepository.
