(* ===== verification/DocSpec.v ===== *)
(** The contract of the [DocumentRepository] interface, as a labelled
    transition system over an abstract state: a map from document ids to
    documents that own their permissions and guests.  The SQL schema spreads
    this state over three tables with foreign keys; [DocRefine] shows that the
    PostgreSQL repository implements the contract, and the service layer is
    verified against the contract alone ([LawfulRepository]). *)

From S2P Require Import Prelude GoLib Paging DocDomain.

Module Spec.

(** ** State *)
Inductive level := LViewer | LEditor | LOwner.
Inductive rtype := RUser | RGuest.
#[global] Instance level_eq_dec : EqDecision level.
Proof. solve_decision. Defined.
#[global] Instance rtype_eq_dec : EqDecision rtype.
Proof. solve_decision. Defined.

Record entry := mkEntry {
  e_type : rtype;
  e_level : level;
  e_by : uuid;
  e_created : Time;
  e_modified : Time;
}.

Record guest := mkGuestEntry { g_by : uuid; g_created : Time }.

Record doc := mkDoc {
  d_name : option string;
  d_description : option string;
  d_created : Time;
  d_modified : Time;
  d_perms : gmap uuid entry;
  d_guests : gmap uuid guest;
}.

Abbreviation state := (gmap uuid doc).

Definition level_num (l : level) : PermissionLevel :=
  match l with LViewer => Viewer | LEditor => Editor | LOwner => Owner end.
Definition level_of (n : PermissionLevel) : option level :=
  if (n =? Viewer)%Z then Some LViewer
  else if (n =? Editor)%Z then Some LEditor
  else if (n =? Owner)%Z then Some LOwner
  else None.
Definition rtype_num (t : rtype) : RecipientType :=
  match t with RUser => User | RGuest => Guest end.

(** ** Calls and results *)
Inductive call :=
  | CCreateDocument (userId : uuid) (name description : option string)
  | CGetDocument (documentId : uuid)
  | CUpdateDocument (documentId : uuid) (name description : option string)
  | CDeleteDocument (documentId : uuid)
  | CDeleteDocuments (documentIds : list uuid) (userId : uuid)
  | CListDocuments (principalId : uuid) (levels : list PermissionLevel)
      (cursor : option Cursor) (pageSize : Z)
  | CGetPermission (documentId principalId : uuid)
  | CListPermissions (documentId : uuid) (levels : list PermissionLevel)
      (cursor : option Cursor) (pageSize : Z)
  | CCreateGuest (creatorId documentId : uuid) (permissionLevel : PermissionLevel)
  | CUpsertPermissionUser (userId documentId : uuid) (permissionLevel : PermissionLevel)
  | CUpdatePermissionGuest (guestId : uuid) (permissionLevel : PermissionLevel)
  | CDeletePermission (recipientId documentId : uuid).

Inductive value :=
  | VUnit
  | VId (id : uuid)
  | VDocument (d : Document)
  | VPermission (p : Permission)
  | VDocuments (l : list DocumentPermission) (cursor : option Cursor)
  | VPermissions (l : list Permission) (cursor : option Cursor).

(** a call ends with a value or with a kind of error *)
Inductive response := Done (v : value) | Failed (k : kind).

(** ** What the calls return *)
Definition document_view (id : uuid) (a : doc) : Document :=
  mkDocument id (d_name a) (d_description a) (d_created a) (d_modified a).

(** the repository reports the creation time twice, see the finding on
    [repoToServicePermission] *)
Definition permission_view (r d : uuid) (e : entry) : Permission :=
  mkPermission r (rtype_num (e_type e)) d (level_num (e_level e)) (e_by e)
    (e_created e) (e_created e).

Definition valid_field (f : SortField) : bool := (f =? CreatedAt)%Z || (f =? LastModifiedAt)%Z.

(** the documents a principal has a permission on, at one of the levels *)
Definition lists_documents (s : state) (p : uuid) (ls : list level) (l : list (uuid * doc * entry))
    : Prop :=
  NoDup (l.*1.*1) ∧
  ∀ id a e, (id, a, e) ∈ l ↔ s !! id = Some a ∧ d_perms a !! p = Some e ∧ e_level e ∈ ls.

Definition document_key (f : SortField) (x : uuid * doc * entry) : key :=
  ((if (f =? CreatedAt)%Z then d_created x.1.2 else d_modified x.1.2), uuid_num x.1.1).

Definition document_permission_view (x : uuid * doc * entry) : DocumentPermission :=
  mkDocumentPermission (document_view x.1.1 x.1.2) (level_num (e_level x.2)).

(** the permissions on a document, at one of the levels *)
Definition lists_permissions (a : doc) (ls : list level) (l : list (uuid * entry)) : Prop :=
  NoDup (l.*1) ∧ ∀ r e, (r, e) ∈ l ↔ d_perms a !! r = Some e ∧ e_level e ∈ ls.

Definition permission_key (f : SortField) (x : uuid * entry) : key :=
  ((if (f =? CreatedAt)%Z then e_created x.2 else e_modified x.2), uuid_num x.1).

Definition cursor_key (c : Cursor) : key := (Cursor_LastSeenTime c, uuid_num (Cursor_LastSeenID c)).

(** the cursor returned with a page: that of its last element *)
Definition documents_cursor (c : Cursor) (l : list DocumentPermission) : Cursor :=
  match last l with
  | Some x =>
      let d := DocumentPermission_Document x in
      mkCursor (Cursor_SortField c)
        (if (Cursor_SortField c =? CreatedAt)%Z then Document_CreatedAt d
         else Document_LastModifiedAt d) (Document_ID d)
  | None => c
  end.
Definition permissions_cursor (c : Cursor) (l : list Permission) : Cursor :=
  match last l with
  | Some x =>
      mkCursor (Cursor_SortField c)
        (if (Cursor_SortField c =? CreatedAt)%Z then Permission_CreatedAt x
         else Permission_LastModifiedAt x) (Permission_RecipientID x)
  | None => c
  end.

(** ** Steps without infrastructure failures

    A call that creates a document or a guest draws the id of it. The step
    relation is indexed by the id that was drawn, so that a specified failure
    "the id is taken" is about this id and no other. *)
Definition set_perms (m : gmap uuid entry) (a : doc) : doc :=
  mkDoc (d_name a) (d_description a) (d_created a) (d_modified a) m (d_guests a).

Definition new_document (userId : uuid) (name description : option string) (now : Time) : doc :=
  mkDoc name description now now {[userId := mkEntry RUser LOwner userId now now]} ∅.

(** an absent argument keeps the old value; [last_modified_at] is kept too *)
Definition update_meta (name description : option string) (a : doc) : doc :=
  mkDoc (match name with Some _ => name | None => d_name a end)
    (match description with Some _ => description | None => d_description a end)
    (d_created a) (d_modified a) (d_perms a) (d_guests a).

Definition add_guest (g creator : uuid) (l : level) (now : Time) (a : doc) : doc :=
  mkDoc (d_name a) (d_description a) (d_created a) (d_modified a)
    (<[g := mkEntry RGuest l creator now now]> (d_perms a))
    (<[g := mkGuestEntry creator now]> (d_guests a)).

Definition relevel (l : level) (now : Time) (e : entry) : entry :=
  mkEntry (e_type e) l (e_by e) (e_created e) now.

Definition upsert (u : uuid) (l : level) (now : Time) (a : doc) : doc :=
  set_perms (<[u := match d_perms a !! u with
                    | Some e => relevel l now e
                    | None => mkEntry RUser l u now now
                    end]> (d_perms a)) a.

Definition delete_all (ids : list uuid) (s : state) : state := foldr delete s ids.

(** no document has a guest with this id *)
Definition unknown_guest (g : uuid) (s : state) : Prop :=
  ∀ d a, s !! d = Some a → d_guests a !! g = None.

(** [drawn] is the random id the repository generates for the call *)
Inductive ok_step (drawn : uuid) : state → call → response → state → Prop :=
  (* documents *)
  | step_create s u n ds now :
      s !! drawn = None →
      ok_step drawn s (CCreateDocument u n ds) (Done (VId drawn))
        (<[drawn := new_document u n ds now]> s)
  | step_create_taken s u n ds :
      is_Some (s !! drawn) →
      ok_step drawn s (CCreateDocument u n ds) (Failed KRepoImpl) s
  | step_get s d a :
      s !! d = Some a →
      ok_step drawn s (CGetDocument d) (Done (VDocument (document_view d a))) s
  | step_get_missing s d :
      s !! d = None → ok_step drawn s (CGetDocument d) (Failed KNotFound) s
  | step_update_nothing s d :
      ok_step drawn s (CUpdateDocument d None None) (Failed KInvalidInput) s
  | step_update s d n ds a :
      (n, ds) ≠ (None, None) → s !! d = Some a →
      ok_step drawn s (CUpdateDocument d n ds) (Done VUnit) (<[d := update_meta n ds a]> s)
  | step_update_missing s d n ds :
      (n, ds) ≠ (None, None) → s !! d = None →
      ok_step drawn s (CUpdateDocument d n ds) (Failed KNotFound) s
  | step_delete s d :
      is_Some (s !! d) → ok_step drawn s (CDeleteDocument d) (Done VUnit) (delete d s)
  | step_delete_missing s d :
      s !! d = None → ok_step drawn s (CDeleteDocument d) (Failed KNotFound) s
  | step_delete_none s u :
      ok_step drawn s (CDeleteDocuments [] u) (Failed KInvalidInput) s
  | step_delete_many s ids u :
      ids ≠ [] → NoDup ids → (∀ id, id ∈ ids → is_Some (s !! id)) →
      ok_step drawn s (CDeleteDocuments ids u) (Done VUnit) (delete_all ids s)
  | step_delete_many_missing s ids u :
      ids ≠ [] → ¬ (NoDup ids ∧ ∀ id, id ∈ ids → is_Some (s !! id)) →
      ok_step drawn s (CDeleteDocuments ids u) (Failed KNotFound) s
  (* document listing *)
  | step_list_nil s p ls n :
      ok_step drawn s (CListDocuments p ls None n) (Failed KOther) s
  | step_list_levels s p ls c n :
      ls = [] ∨ mapM level_of ls = None →
      ok_step drawn s (CListDocuments p ls (Some c) n) (Failed KInvalidInput) s
  | step_list_field s p ls lv c n :
      ls ≠ [] → mapM level_of ls = Some lv → valid_field (Cursor_SortField c) = false →
      ok_step drawn s (CListDocuments p ls (Some c) n) (Done (VDocuments [] (Some c))) s
  | step_list_limit s p ls lv c n :
      ls ≠ [] → mapM level_of ls = Some lv → valid_field (Cursor_SortField c) = true →
      (n < 0)%Z →
      ok_step drawn s (CListDocuments p ls (Some c) n) (Failed KRepoImpl) s
  | step_list s p ls lv c n l pg :
      ls ≠ [] → mapM level_of ls = Some lv → valid_field (Cursor_SortField c) = true →
      (0 ≤ n)%Z → lists_documents s p lv l →
      pg = document_permission_view <$>
             page (document_key (Cursor_SortField c)) (cursor_key c) (Z.to_nat n) l →
      ok_step drawn s (CListDocuments p ls (Some c) n)
        (Done (VDocuments pg (Some (documents_cursor c pg)))) s
  (* permissions *)
  | step_get_permission s d p a e :
      s !! d = Some a → d_perms a !! p = Some e →
      ok_step drawn s (CGetPermission d p) (Done (VPermission (permission_view p d e))) s
  | step_get_permission_missing s d p :
      (s !! d ≫= λ a, d_perms a !! p) = None →
      ok_step drawn s (CGetPermission d p) (Failed KNotFound) s
  | step_perms_levels s d ls c n :
      ls = [] ∨ mapM level_of ls = None →
      ok_step drawn s (CListPermissions d ls c n) (Failed KInvalidInput) s
  | step_perms_nil s d ls lv n :
      ls ≠ [] → mapM level_of ls = Some lv →
      ok_step drawn s (CListPermissions d ls None n) (Failed KOther) s
  | step_perms_missing s d ls lv c n :
      ls ≠ [] → mapM level_of ls = Some lv → s !! d = None →
      ok_step drawn s (CListPermissions d ls (Some c) n) (Failed KNotFound) s
  | step_perms_field s d a ls lv c n :
      ls ≠ [] → mapM level_of ls = Some lv → s !! d = Some a →
      valid_field (Cursor_SortField c) = false →
      ok_step drawn s (CListPermissions d ls (Some c) n) (Done (VPermissions [] (Some c))) s
  | step_perms_limit s d a ls lv c n :
      ls ≠ [] → mapM level_of ls = Some lv → s !! d = Some a →
      valid_field (Cursor_SortField c) = true → (n < 0)%Z →
      ok_step drawn s (CListPermissions d ls (Some c) n) (Failed KRepoImpl) s
  | step_perms s d a ls lv c n l pg :
      ls ≠ [] → mapM level_of ls = Some lv → s !! d = Some a →
      valid_field (Cursor_SortField c) = true → (0 ≤ n)%Z → lists_permissions a lv l →
      pg = (λ x, permission_view x.1 d x.2) <$>
             page (permission_key (Cursor_SortField c)) (cursor_key c) (Z.to_nat n) l →
      ok_step drawn s (CListPermissions d ls (Some c) n)
        (Done (VPermissions pg (Some (permissions_cursor c pg)))) s
  | step_upsert s u d n l a now :
      level_of n = Some l → s !! d = Some a →
      ok_step drawn s (CUpsertPermissionUser u d n) (Done VUnit) (<[d := upsert u l now a]> s)
  | step_upsert_level s u d n :
      level_of n = None → ok_step drawn s (CUpsertPermissionUser u d n) (Failed KInvalidInput) s
  | step_upsert_missing s u d n l :
      level_of n = Some l → s !! d = None →
      ok_step drawn s (CUpsertPermissionUser u d n) (Failed KNotFound) s
  | step_delete_permission s r d a :
      s !! d = Some a → is_Some (d_perms a !! r) →
      ok_step drawn s (CDeletePermission r d) (Done VUnit)
        (<[d := set_perms (delete r (d_perms a)) a]> s)
  | step_delete_permission_missing s r d :
      (s !! d ≫= λ a, d_perms a !! r) = None →
      ok_step drawn s (CDeletePermission r d) (Failed KNotFound) s
  (* guests *)
  | step_guest s c d n l a now :
      level_of n = Some l → s !! d = Some a → unknown_guest drawn s → d_perms a !! drawn = None →
      ok_step drawn s (CCreateGuest c d n) (Done (VId drawn)) (<[d := add_guest drawn c l now a]> s)
  | step_guest_level s c d n :
      level_of n = None → ok_step drawn s (CCreateGuest c d n) (Failed KInvalidInput) s
  | step_guest_missing s c d n l :
      level_of n = Some l → s !! d = None →
      ok_step drawn s (CCreateGuest c d n) (Failed KNotFound) s
  | step_guest_taken s c d n l a :
      level_of n = Some l → s !! d = Some a →
      ¬ (unknown_guest drawn s ∧ d_perms a !! drawn = None) →
      ok_step drawn s (CCreateGuest c d n) (Failed KUniqueConflict) s
  | step_relevel s g n l d a ge e now :
      level_of n = Some l → s !! d = Some a → d_guests a !! g = Some ge →
      d_perms a !! g = Some e → e_type e = RGuest →
      ok_step drawn s (CUpdatePermissionGuest g n) (Done VUnit)
        (<[d := set_perms (<[g := relevel l now e]> (d_perms a)) a]> s)
  | step_relevel_level s g n :
      level_of n = None → ok_step drawn s (CUpdatePermissionGuest g n) (Failed KInvalidInput) s
  | step_relevel_missing s g n l :
      level_of n = Some l →
      (∀ d a e, s !! d = Some a → is_Some (d_guests a !! g) →
         d_perms a !! g = Some e → e_type e ≠ RGuest) →
      ok_step drawn s (CUpdatePermissionGuest g n) (Failed KNotFound) s.

(** ** Steps

    When the database cannot be reached the call fails with a repository
    error, and its effect is either absent or complete: never partial. *)
Inductive step (drawn : uuid) : state → call → response → state → Prop :=
  | step_ok s c r s' : ok_step drawn s c r s' → step drawn s c r s'
  | step_lost s c : step drawn s c (Failed KRepoImpl) s
  | step_late s c r s' : ok_step drawn s c r s' → step drawn s c (Failed KRepoImpl) s'.

(** ** Running a call on an implementation *)
Definition respond (o : outcome error value) : option response :=
  match o with
  | Ret v => Some (Done v)
  | Err e => Some (Failed (kind_of e))
  | Panic _ => None
  end.

Section run.
Context {W : Type} `{DocumentRepository W}.

Definition run_call (c : call) : go W error value :=
  match c with
  | CCreateDocument u n d => id ← repo_CreateDocument u n d; mret (VId id)
  | CGetDocument d => x ← repo_GetDocument d; mret (VDocument x)
  | CUpdateDocument d n ds => _ ← repo_UpdateDocument d n ds; mret VUnit
  | CDeleteDocument d => _ ← repo_DeleteDocument d; mret VUnit
  | CDeleteDocuments ds u => _ ← repo_DeleteDocuments ds u; mret VUnit
  | CListDocuments p ls c n =>
      x ← repo_ListDocumentsByPrincipal p ls c n; mret (VDocuments x.1 x.2)
  | CGetPermission d p =>
      x ← repo_GetPermissionOfPrincipalOnDocument d p; mret (VPermission x)
  | CListPermissions d ls c n =>
      x ← repo_ListPermissionsOnDocument d ls c n; mret (VPermissions x.1 x.2)
  | CCreateGuest c d n => id ← repo_CreateGuest c d n; mret (VId id)
  | CUpsertPermissionUser u d n => _ ← repo_UpsertPermissionUser u d n; mret VUnit
  | CUpdatePermissionGuest g n => _ ← repo_UpdatePermissionGuest g n; mret VUnit
  | CDeletePermission r d => _ ← repo_DeletePermissionsPrincipal r d; mret VUnit
  end.
End run.

(** ** The interface the service relies on

    [repo_rel w s]: the repository is in the abstract state [s].
    [repo_healthy w]: no interaction with the database fails from here on;
    [repo_drawn w c]: the id the repository draws when [c] is called in [w]. *)
Class LawfulRepository (W : Type) `{Clock W} `{DocumentRepository W} := {
  repo_rel : W → state → Prop;
  repo_healthy : W → Prop;
  repo_drawn : W → call → uuid;
  repo_step c s w :
    repo_rel w s →
    wp (run_call c) (λ o w',
      ∃ r s', respond o = Some r ∧ repo_rel w' s' ∧ step (repo_drawn w c) s c r s' ∧
              (repo_healthy w → repo_healthy w' ∧ ok_step (repo_drawn w c) s c r s')) w;
  repo_Now E s w :
    repo_rel w s →
    wp (Now E) (λ o w', (∃ t, o = Ret t) ∧ repo_rel w' s ∧
                        (repo_healthy w → repo_healthy w')) w;
}.

(** * Facts about the specification *)

Lemma level_of_num l : level_of (level_num l) = Some l.
Proof. by destruct l. Qed.
Lemma level_of_Some n l : level_of n = Some l → n = level_num l.
Proof.
  unfold level_of. repeat case_match; intros [= <-]; simpl; by apply Z.eqb_eq.
Qed.

(** the calls that draw an id *)
Definition draws (c : call) : bool :=
  match c with CCreateDocument _ _ _ | CCreateGuest _ _ _ => true | _ => false end.

Lemma ok_step_drawn i j s c r s' : draws c = false → ok_step i s c r s' → ok_step j s c r s'.
Proof. intros Hc. inversion 1; subst; try done; by econstructor. Qed.

Lemma step_drawn i j s c r s' : draws c = false → step i s c r s' → step j s c r s'.
Proof.
  intros Hc. inversion 1; subst; [apply step_ok|apply step_lost|eapply step_late];
    by eapply ok_step_drawn.
Qed.

(** only the calls that draw an id depend on it *)
Lemma redrawn_ok_step i j s c r s' : (draws c = true → i = j) → ok_step j s c r s' → ok_step i s c r s'.
Proof.
  intros Hij. destruct (draws c) eqn:Hc; [by rewrite Hij|]. by apply ok_step_drawn.
Qed.
Lemma redrawn_step i j s c r s' : (draws c = true → i = j) → step j s c r s' → step i s c r s'.
Proof. intros Hij. destruct (draws c) eqn:Hc; [by rewrite Hij|]. by apply step_drawn. Qed.

(** Every permission of guest type belongs to a guest of the same document. *)
Definition guests_registered (s : state) : Prop :=
  ∀ d a r e, s !! d = Some a → d_perms a !! r = Some e → e_type e = RGuest →
  is_Some (d_guests a !! r).

(** A document has at most one owner. *)
Definition single_owner (s : state) : Prop :=
  ∀ d a r1 r2 e1 e2, s !! d = Some a →
  d_perms a !! r1 = Some e1 → d_perms a !! r2 = Some e2 →
  e_level e1 = LOwner → e_level e2 = LOwner → r1 = r2.

(** the call does not hand out ownership *)
Definition grants_no_owner (c : call) : Prop :=
  match c with
  | CCreateGuest _ _ n | CUpsertPermissionUser _ _ n | CUpdatePermissionGuest _ n => n ≠ Owner
  | _ => True
  end.

Lemma lookup_delete_all ids (s : state) id :
  delete_all ids s !! id = if decide (id ∈ ids) then None else s !! id.
Proof.
  induction ids as [|x ids IH]; simpl; [done|].
  rewrite lookup_delete, IH. repeat case_decide; try done;
    match goal with H : context [_ ∈ _ :: _] |- _ => rewrite elem_of_cons in H end; intuition congruence.
Qed.

(** An invariant of each document alone is kept by a step when the four
    updates of a document keep it. *)
Lemma ok_step_doc_invariant (I : uuid → doc → Prop) i c s r s' :
  (∀ id u n ds now, I id (new_document u n ds now)) →
  (∀ id n ds a, I id a → I id (update_meta n ds a)) →
  (∀ id u n l now a, c = CUpsertPermissionUser u id n → level_of n = Some l →
     I id a → I id (upsert u l now a)) →
  (∀ id r a, I id a → I id (set_perms (delete r (d_perms a)) a)) →
  (∀ id u g n l now a, c = CCreateGuest u id n → level_of n = Some l →
     d_perms a !! g = None → I id a → I id (add_guest g u l now a)) →
  (∀ id g n l e now a, c = CUpdatePermissionGuest g n → level_of n = Some l →
     d_perms a !! g = Some e → I id a →
     I id (set_perms (<[g := relevel l now e]> (d_perms a)) a)) →
  (∀ id a, s !! id = Some a → I id a) →
  ok_step i s c r s' → ∀ id a, s' !! id = Some a → I id a.
Proof.
  intros Hnew Hmeta Hups Hdel Hguest Hrel Hs Hstep id a.
  inversion Hstep; subst; auto;
    try (rewrite lookup_insert_Some; intros [[<- <-]|[_ ?]]; eauto; fail);
    try (rewrite lookup_delete_Some; intros [_ ?]; eauto; fail).
  rewrite lookup_delete_all. case_decide; [done|eauto].
Qed.

Lemma guests_registered_step i c s r s' :
  ok_step i s c r s' → guests_registered s → guests_registered s'.
Proof.
  intros Hstep Hinv d a r' e Ha. revert d a Ha r' e.
  apply (ok_step_doc_invariant
    (λ _ a, ∀ r e, d_perms a !! r = Some e → e_type e = RGuest → is_Some (d_guests a !! r))
    i c s r s'); [..|intros id a Ha r' e; by apply (Hinv id a)|done]; clear.
  - intros id u n ds now r e. simpl. rewrite lookup_singleton_Some. intros [_ <-]. done.
  - intros id n ds a Ha r e. apply Ha.
  - intros id u n l now a _ _ Ha r e. simpl. rewrite lookup_insert_Some.
    intros [[<- <-]|[_ He]]; [|by apply Ha].
    destruct (d_perms a !! u) as [e'|] eqn:Hu; [exact (Ha u e' Hu)|done].
  - intros id r a Ha r' e. simpl. rewrite lookup_delete_Some. intros [_ He]. by apply Ha.
  - intros id u g n l now a _ _ _ Ha r e. simpl. rewrite lookup_insert_is_Some'.
    rewrite lookup_insert_Some. intros [[<- <-]|[_ He]] ?; [by left|]. right. by eapply Ha.
  - intros id g n l e now a _ _ Hg Ha r e'. simpl. rewrite lookup_insert_Some.
    intros [[<- <-]|[_ He]]; [exact (Ha g e Hg)|by apply Ha].
Qed.

Lemma single_owner_step i c s r s' :
  grants_no_owner c → ok_step i s c r s' → single_owner s → single_owner s'.
Proof.
  intros Hc Hstep Hinv d a r1 r2 e1 e2 Ha. revert d a Ha r1 r2 e1 e2.
  apply (ok_step_doc_invariant
    (λ _ a, ∀ r1 r2 e1 e2, d_perms a !! r1 = Some e1 → d_perms a !! r2 = Some e2 →
       e_level e1 = LOwner → e_level e2 = LOwner → r1 = r2) i c s r s');
    [..|intros id a Ha r1 r2 e1 e2; by apply (Hinv id a)|done].
  - intros id u n ds now r1 r2 e1 e2. simpl. rewrite !lookup_singleton_Some.
    by intros [<- _] [<- _].
  - intros id n ds a Ha. exact Ha.
  - intros id u n l now a -> Hl%level_of_Some Ha r1 r2 e1 e2. simpl in Hc |- *.
    assert (l ≠ LOwner) by (by intros ->).
    rewrite !lookup_insert_Some. intros [[<- <-]|[_ H1]] [[<- <-]|[_ H2]]; try done;
      try (destruct (d_perms a !! u); done). by eapply Ha.
  - intros id r' a Ha r1 r2 e1 e2. simpl. rewrite !lookup_delete_Some.
    intros [_ H1] [_ H2]. by eapply Ha.
  - intros id u g n l now a -> Hl%level_of_Some _ Ha r1 r2 e1 e2. simpl in Hc |- *.
    assert (l ≠ LOwner) by (by intros ->).
    rewrite !lookup_insert_Some. intros [[<- <-]|[_ H1]] [[<- <-]|[_ H2]]; try done.
    by eapply Ha.
  - intros id g n l e now a -> Hl%level_of_Some _ Ha r1 r2 e1 e2. simpl in Hc |- *.
    assert (l ≠ LOwner) by (by intros ->).
    rewrite !lookup_insert_Some. intros [[<- <-]|[_ H1]] [[<- <-]|[_ H2]]; try done.
    by eapply Ha.
Qed.

(** an invariant of fault-free steps is an invariant of steps *)
Lemma step_invariant (I : state → Prop) i c s r s' :
  (∀ r s', ok_step i s c r s' → I s → I s') → step i s c r s' → I s → I s'.
Proof. intros Hok. inversion 1; subst; eauto. Qed.

(** The states a sequence of calls that satisfy [P] can reach. *)
Inductive reachable (P : call → Prop) : state → Prop :=
  | reachable_init : reachable P ∅
  | reachable_step i s c r s' : reachable P s → P c → step i s c r s' → reachable P s'.

End Spec.
