(* ===== verification/DocRefine.v ===== *)
(** The PostgreSQL repository implements the contract of the
    [DocumentRepository] interface: the three tables represent an abstract
    state ([R]), every statement acts on the tables as the abstract update
    does, and every method, run against a database that may fail at any
    interaction, makes a step of the specification ([lawful]). *)

From S2P Require Import Prelude GoLib Paging Pgx DocDomain DocSql DocRepository DocSpec.
Import Spec.

Module Refine.

(** ** The tables of an abstract state *)
Definition level_label (l : level) : sqlc.PermissionLevel :=
  match l with
  | LViewer => sqlc.PermissionLevelViewer
  | LEditor => sqlc.PermissionLevelEditor
  | LOwner => sqlc.PermissionLevelOwner
  end.
Definition rtype_label (t : rtype) : sqlc.RecipientType :=
  match t with RUser => sqlc.RecipientTypeUser | RGuest => sqlc.RecipientTypeGuest end.

Definition doc_row (d : uuid) (a : doc) : sqlc.Document :=
  sqlc.mkDocument d (d_name a) (d_description a) (d_created a) (d_modified a).
Definition perm_row (d r : uuid) (e : entry) : sqlc.Permission :=
  sqlc.mkPermission r (rtype_label (e_type e)) d (level_label (e_level e)) (e_by e)
    (e_created e) (e_modified e).
Definition guest_row (d g : uuid) (ge : guest) : sqlc.Guest :=
  sqlc.mkGuest g d None (g_by ge) (g_created ge) (g_created ge).

Record R (db : sqlc.Db) (s : state) : Prop := {
  R_doc d : sqlc.documents db !! d = doc_row d <$> s !! d;
  R_perm r d :
    sqlc.permissions db !! (r, d) = perm_row d r <$> (s !! d ≫= λ a, d_perms a !! r);
  R_guest g row :
    sqlc.guests db !! g = Some row ↔
    ∃ d a ge, s !! d = Some a ∧ d_guests a !! g = Some ge ∧ row = guest_row d g ge;
}.

(** a world between two requests *)
Definition RW (w : DocWorld) (s : state) : Prop := R (w_db w) s ∧ w_tx w = None.

#[global] Instance level_label_inj : Inj (=) (=) level_label.
Proof. by intros [] []. Qed.

Lemma R_empty : R sqlc.empty_db ∅.
Proof.
  split; intros; simpl; rewrite ?lookup_empty; [done|done|].
  split; [done|]. intros (?&?&?&H&_). by rewrite lookup_empty in H.
Qed.

(** ** Table updates *)
Section tables.
Context (db : sqlc.Db) (s : state).
Hypothesis HR : R db s.

Lemma R_guest_None g : sqlc.guests db !! g = None ↔ unknown_guest g s.
Proof.
  split.
  - intros Hg d a Ha. destruct (d_guests a !! g) as [ge|] eqn:Hge; [|done].
    assert (sqlc.guests db !! g = Some (guest_row d g ge)) by (apply (R_guest _ _ HR); eauto 10).
    congruence.
  - intros Hg. destruct (sqlc.guests db !! g) as [row|] eqn:Hrow; [|done].
    apply (R_guest _ _ HR) in Hrow as (d & a & ge & Ha & Hge & _).
    by rewrite (Hg d a Ha) in Hge.
Qed.

Lemma R_put_doc d a :
  d_perms a = default ∅ (d_perms <$> s !! d) →
  d_guests a = default ∅ (d_guests <$> s !! d) →
  R (sqlc.set_documents (<[d := doc_row d a]> (sqlc.documents db)) db) (<[d := a]> s).
Proof.
  intros Hp Hg. split; simpl.
  - intros d'. destruct (decide (d' = d)) as [->|Hne].
    + by rewrite !lookup_insert_eq.
    + rewrite !lookup_insert_ne by done. apply (R_doc _ _ HR).
  - intros r d'. rewrite (R_perm _ _ HR). f_equal.
    destruct (decide (d' = d)) as [->|Hne].
    + rewrite lookup_insert_eq. simpl. rewrite Hp. by destruct (s !! d).
    + by rewrite lookup_insert_ne by done.
  - intros g row. rewrite (R_guest _ _ HR). split.
    + intros (d' & a' & ge & Ha & Hge & ->). exists d'. destruct (decide (d' = d)) as [->|Hne].
      * exists a, ge. rewrite lookup_insert_eq, Hg, Ha. done.
      * exists a', ge. by rewrite lookup_insert_ne by done.
    + intros (d' & a' & ge & Ha & Hge & ->). apply lookup_insert_Some in Ha as [[<- <-]|[Hne Ha]].
      * rewrite Hg in Hge. destruct (s !! d) as [a0|] eqn:H0; simpl in Hge; [eauto 10|].
        by rewrite lookup_empty in Hge.
      * eauto 10.
Qed.

Lemma R_set_perm d a r e m :
  s !! d = Some a →
  (∀ r', m !! (r', d) = perm_row d r' <$> partial_alter (λ _, e) r (d_perms a) !! r') →
  (∀ r' d', d' ≠ d → m !! (r', d') = sqlc.permissions db !! (r', d')) →
  R (sqlc.set_permissions m db) (<[d := set_perms (partial_alter (λ _, e) r (d_perms a)) a]> s).
Proof.
  intros Ha Hd Hne. split; simpl.
  - intros d'. destruct (decide (d' = d)) as [->|?].
    + rewrite lookup_insert_eq, (R_doc _ _ HR), Ha. done.
    + rewrite lookup_insert_ne by done. apply (R_doc _ _ HR).
  - intros r' d'. destruct (decide (d' = d)) as [->|?].
    + rewrite lookup_insert_eq. apply Hd.
    + rewrite Hne, lookup_insert_ne by done. apply (R_perm _ _ HR).
  - intros g row. rewrite (R_guest _ _ HR). split.
    + intros (d' & a' & ge & Ha' & Hge & ->). exists d'. destruct (decide (d' = d)) as [->|?].
      * eexists _, ge. rewrite lookup_insert_eq. split; [done|]. by simplify_eq/=.
      * exists a', ge. by rewrite lookup_insert_ne by done.
    + intros (d' & a' & ge & Ha' & Hge & ->).
      apply lookup_insert_Some in Ha' as [[<- <-]|[? Ha']]; simpl in *; eauto 10.
Qed.

Lemma R_put_perm d a r e :
  s !! d = Some a →
  R (sqlc.set_permissions (<[(r, d) := perm_row d r e]> (sqlc.permissions db)) db)
    (<[d := set_perms (<[r := e]> (d_perms a)) a]> s).
Proof.
  intros Ha. apply (R_set_perm d a r (Some e)); [done|..].
  - intros r'. destruct (decide (r' = r)) as [->|?].
    + by rewrite lookup_insert_eq, lookup_partial_alter_eq.
    + rewrite lookup_insert_ne, lookup_partial_alter_ne by congruence.
      by rewrite (R_perm _ _ HR), Ha.
  - intros r' d' ?. by rewrite lookup_insert_ne by congruence.
Qed.

Lemma R_del_perm d a r :
  s !! d = Some a →
  R (sqlc.set_permissions (delete (r, d) (sqlc.permissions db)) db)
    (<[d := set_perms (delete r (d_perms a)) a]> s).
Proof.
  intros Ha. apply (R_set_perm d a r None); [done|..].
  - intros r'. destruct (decide (r' = r)) as [->|?].
    + by rewrite lookup_delete_eq, lookup_partial_alter_eq.
    + rewrite lookup_delete_ne, lookup_partial_alter_ne by congruence.
      by rewrite (R_perm _ _ HR), Ha.
  - intros r' d' ?. by rewrite lookup_delete_ne by congruence.
Qed.

Definition set_guests (m : gmap uuid guest) (a : doc) : doc :=
  mkDoc (d_name a) (d_description a) (d_created a) (d_modified a) (d_perms a) m.

Lemma R_put_guest d a g ge :
  s !! d = Some a → unknown_guest g s →
  R (sqlc.set_guests (<[g := guest_row d g ge]> (sqlc.guests db)) db)
    (<[d := set_guests (<[g := ge]> (d_guests a)) a]> s).
Proof.
  intros Ha Hu. split; simpl.
  - intros d'. destruct (decide (d' = d)) as [->|?].
    + rewrite lookup_insert_eq, (R_doc _ _ HR), Ha. done.
    + rewrite lookup_insert_ne by done. apply (R_doc _ _ HR).
  - intros r' d'. rewrite (R_perm _ _ HR). destruct (decide (d' = d)) as [->|?].
    + by rewrite lookup_insert_eq, Ha.
    + by rewrite lookup_insert_ne by done.
  - intros g' row. rewrite lookup_insert_Some, (R_guest _ _ HR). split.
    + intros [[<- <-]|[Hg (d' & a' & ge' & Ha' & Hge & ->)]].
      * eexists d, _, ge. rewrite lookup_insert_eq. split; [done|]. simpl.
        by rewrite lookup_insert_eq.
      * exists d'. destruct (decide (d' = d)) as [->|?].
        -- eexists _, ge'. rewrite lookup_insert_eq. split; [done|]. simpl.
           rewrite lookup_insert_ne by done. by simplify_eq/=.
        -- exists a', ge'. by rewrite lookup_insert_ne by done.
    + intros (d' & a' & ge' & Ha' & Hge & ->).
      apply lookup_insert_Some in Ha' as [[<- <-]|[? Ha']].
      * simpl in Hge. apply lookup_insert_Some in Hge as [[<- <-]|[? Hge]]; [by left|].
        right. split; [done|]. eauto 10.
      * right. split; [|eauto 10]. intros <-. by rewrite (Hu d' a' Ha') in Hge.
Qed.

Lemma R_clear_perms d :
  R (sqlc.set_permissions
       (filter (λ kp, sqlc.Permission_DocumentID kp.2 ≠ d) (sqlc.permissions db)) db)
    (alter (set_perms ∅) d s).
Proof.
  split; simpl.
  - intros d'. rewrite (R_doc _ _ HR), lookup_alter.
    case_decide; [subst|done]. by destruct (s !! d').
  - intros r d'. rewrite map_lookup_filter, (R_perm _ _ HR), lookup_alter.
    case_decide as Hd; simplify_eq; simpl.
    + destruct (s !! _) as [a|]; [|done]. simpl. rewrite lookup_empty.
      destruct (d_perms a !! r); [|done]. simpl. by rewrite option_guard_False by auto.
    + destruct (s !! d') as [a|]; [|done]. simpl. destruct (d_perms a !! r); [|done].
      simpl. by rewrite option_guard_True by done.
  - intros g row. rewrite (R_guest _ _ HR). setoid_rewrite lookup_alter.
    split; intros (d' & a & ge & Ha & Hge & ->); exists d'.
    + case_decide; [subst|by eauto]. rewrite Ha. by eexists _, ge.
    + case_decide; [subst|by eauto]. apply fmap_Some in Ha as (a' & Ha' & ->). by eauto.
Qed.

Lemma R_clear_guests d :
  R (sqlc.set_guests (filter (λ kg, sqlc.Guest_DocumentID kg.2 ≠ d) (sqlc.guests db)) db)
    (alter (set_guests ∅) d s).
Proof.
  split; simpl.
  - intros d'. rewrite (R_doc _ _ HR), lookup_alter.
    case_decide; [subst|done]. by destruct (s !! d').
  - intros r d'. rewrite (R_perm _ _ HR), lookup_alter.
    case_decide; [subst|done]. by destruct (s !! d').
  - intros g row. rewrite map_lookup_filter_Some, (R_guest _ _ HR). split.
    + intros [(d' & a & ge & Ha & Hge & ->) Hd]. exists d', a, ge.
      by rewrite lookup_alter_ne by auto.
    + intros (d' & a & ge & Ha & Hge & ->). rewrite lookup_alter in Ha.
      case_decide as Hd; [|by split; eauto 10].
      apply fmap_Some in Ha as (? & _ & ->). simpl in Hge.
      by rewrite lookup_empty in Hge.
Qed.

Lemma R_referenced d a :
  s !! d = Some a → d_perms a = ∅ → d_guests a = ∅ → sqlc.referenced db d = false.
Proof.
  intros Ha Hp Hg. unfold sqlc.referenced.
  apply orb_false_iff; rewrite <- !not_true_iff_false, !existsb_exists. split.
  - intros ([g row] & Hin & Hd%bool_decide_eq_true). simpl in Hd.
    apply list_elem_of_In, elem_of_map_to_list, (R_guest _ _ HR) in Hin as (d' & a' & ge & Ha' & Hge & ->).
    simpl in Hd. subst. simplify_eq. by rewrite Hg, lookup_empty in Hge.
  - intros ([[r d'] row] & Hin & Hd%bool_decide_eq_true). simpl in Hd.
    apply list_elem_of_In, elem_of_map_to_list in Hin. rewrite (R_perm _ _ HR) in Hin.
    apply fmap_Some in Hin as (e & He & ->). simpl in Hd. subst d'. rewrite Ha in He.
    simpl in He. by rewrite Hp, lookup_empty in He.
Qed.

Lemma R_del_doc d a :
  s !! d = Some a → d_perms a = ∅ → d_guests a = ∅ →
  R (sqlc.set_documents (delete d (sqlc.documents db)) db) (delete d s).
Proof.
  intros Ha Hp Hg. split; simpl.
  - intros d'. rewrite !lookup_delete. case_decide; [done|]. apply (R_doc _ _ HR).
  - intros r d'. rewrite (R_perm _ _ HR), lookup_delete. case_decide; [|done].
    subst. by rewrite Ha; simpl; rewrite Hp, lookup_empty.
  - intros g row. rewrite (R_guest _ _ HR). setoid_rewrite lookup_delete_Some.
    split; intros (d' & a' & ge & Ha' & Hge & ->); [|by destruct Ha' as [_ Ha']; eauto 10].
    exists d', a', ge. split_and!; try done. intros <-. simplify_eq.
    by rewrite Hg, lookup_empty in Hge.
Qed.
End tables.

(** ** Rows and domain values *)
Section parsing.
Context `{UuidLaws} `{ErrorText}.
Import DocumentRepository.

Lemma parse_document d a :
  repositoryToServiceDocument (doc_row d a) = inr (document_view d a).
Proof.
  unfold repositoryToServiceDocument, doc_row. cbn [sqlc.Document_ID].
  by rewrite uuid_FromBytes_array.
Qed.

Lemma parse_level l : repoToServicePermissionLevel (level_label l) = inr (level_num l).
Proof. by destruct l. Qed.

Lemma parse_rtype t : repoToServiceRecipientType (rtype_label t) = inr (rtype_num t).
Proof. by destruct t. Qed.

Lemma parse_permission d r e :
  repoToServicePermission (perm_row d r e) = inr (permission_view r d e).
Proof.
  unfold repoToServicePermission, perm_row. simpl.
  by rewrite parse_level, parse_rtype, !uuid_FromBytes_array.
Qed.

Lemma unparse_level n :
  match level_of n with
  | Some l => serviceToRepoPermissionLevel n = inr (level_label l)
  | None => ∃ text, serviceToRepoPermissionLevel n = inl (OtherErr text)
  end.
Proof.
  unfold level_of, serviceToRepoPermissionLevel.
  destruct (n =? Viewer)%Z; [done|]. destruct (n =? Editor)%Z; [done|].
  destruct (n =? Owner)%Z; eauto.
Qed.

End parsing.

(** ** Rows of the listings *)
Definition list_row (x : uuid * doc * entry) : sqlc.ListRow :=
  sqlc.mkListRow (doc_row x.1.1 x.1.2) (level_label (e_level x.2)).

Lemma label_elem l (lv : list level) : level_label l ∈ level_label <$> lv ↔ l ∈ lv.
Proof. apply list_elem_of_fmap_inj. apply _. Qed.

Lemma label_valid l : bool_decide (level_label l ∈ sqlc.permission_level_labels) = true.
Proof. by destruct l. Qed.

Lemma labels_valid (lv : list level) :
  forallb (λ l, bool_decide (l ∈ sqlc.permission_level_labels)) (level_label <$> lv) = true.
Proof.
  apply forallb_forall. intros x Hx%list_elem_of_In.
  apply list_elem_of_fmap in Hx as (l & -> & _). by destruct l.
Qed.

Section listings.
Context (db : sqlc.Db) (s : state).
Hypothesis HR : R db s.

Lemma lists_documents_ex p lv : ∃ l, lists_documents s p lv l.
Proof.
  set (pick := λ x : uuid * doc,
    match d_perms x.2 !! p with
    | Some e => if decide (e_level e ∈ lv) then Some (x.1, x.2, e) else None
    | None => None
    end).
  exists (omap pick (map_to_list s)). split.
  - rewrite <- list_fmap_compose. apply NoDup_omap_key; [apply NoDup_map_to_list|].
    intros [i x] [j y] u v Hx%elem_of_map_to_list Hy%elem_of_map_to_list.
    unfold pick; simpl. repeat case_match; intros; simplify_eq/=. done.
  - intros id a e. rewrite list_elem_of_omap. split.
    + intros ([i x] & Hx%elem_of_map_to_list & Hp). unfold pick in Hp. simpl in Hp.
      repeat case_match; simplify_eq. done.
    + intros (Hs & He & Hl). exists (id, a). split; [by apply elem_of_map_to_list|].
      unfold pick; simpl. rewrite He. by rewrite decide_True.
Qed.

Lemma lists_permissions_ex a lv : ∃ l, lists_permissions a lv l.
Proof.
  exists (filter (λ x, e_level x.2 ∈ lv) (map_to_list (d_perms a))). split.
  - apply (sublist_NoDup _ (map_to_list (d_perms a)).*1); [apply NoDup_fst_map_to_list|].
    apply fmap_sublist, sublist_filter.
  - intros r e. rewrite list_elem_of_filter, elem_of_map_to_list. simpl. tauto.
Qed.

Lemma join_row_spec p (lv : list level) r d x u :
  sqlc.permissions db !! (r, d) = Some x →
  sqlc.join_row p (level_label <$> lv) db x = Some u ↔
  ∃ a e, s !! d = Some a ∧ d_perms a !! p = Some e ∧ e_level e ∈ lv ∧ r = p ∧
         u = list_row (d, a, e).
Proof.
  rewrite (R_perm _ _ HR). intros (e & He & ->)%fmap_Some. unfold sqlc.join_row. simpl.
  rewrite (R_doc _ _ HR). split.
  - intros Hu. destruct (_ && _) eqn:Hb; [|done].
    apply andb_true_iff in Hb as [->%bool_decide_eq_true Hlv%bool_decide_eq_true].
    rewrite label_elem in Hlv. destruct (s !! d) as [a|]; [|done]. simplify_eq/=.
    by exists a, e.
  - intros (a & e' & Ha & He' & Hlv & -> & ->). rewrite Ha in He. simplify_eq/=.
    rewrite !bool_decide_true by (rewrite ?label_elem; done). by rewrite Ha.
Qed.

Lemma join_rows p lv l :
  lists_documents s p lv l →
  sqlc.join_documents p (level_label <$> lv) db ≡ₚ list_row <$> l.
Proof.
  intros [Hnd Hl]. apply NoDup_Permutation.
  - apply (NoDup_fmap_1 (sqlc.Document_ID ∘ sqlc.Row_Document)).
    apply NoDup_omap_key; [apply NoDup_map_to_list|].
    intros [[r d] x] [[r' d'] y] u v Hx%elem_of_map_to_list Hy%elem_of_map_to_list; simpl.
    rewrite (join_row_spec _ _ _ _ _ _ Hx), (join_row_spec _ _ _ _ _ _ Hy).
    intros (?&?&?&?&?&->&->) (?&?&?&?&?&->&->) Hd. simpl in Hd. congruence.
  - apply (NoDup_fmap_1 (sqlc.Document_ID ∘ sqlc.Row_Document)).
    rewrite <- list_fmap_compose. by rewrite <- list_fmap_compose in Hnd.
  - intros row. unfold sqlc.join_documents.
    rewrite list_elem_of_omap, list_elem_of_fmap. split.
    + intros ([[r d] x] & Hx%elem_of_map_to_list & Hrow). simpl in Hrow.
      apply (join_row_spec _ _ _ _ _ _ Hx) in Hrow as (a & e & Ha & He & Hlv & -> & ->).
      exists (d, a, e). split; [done|]. by apply Hl.
    + intros ([[d a] e] & -> & (Ha & He & Hlv)%Hl).
      exists ((p, d), perm_row d p e). rewrite elem_of_map_to_list.
      assert (sqlc.permissions db !! (p, d) = Some (perm_row d p e)) as Hx
        by (by rewrite (R_perm _ _ HR), Ha; simpl; rewrite He).
      split; [done|]. apply (join_row_spec _ _ _ _ _ _ Hx). by exists a, e.
Qed.

Lemma permission_rows d a lv l :
  s !! d = Some a → lists_permissions a lv l →
  sqlc.permissions_on d (level_label <$> lv) db ≡ₚ (λ x, perm_row d x.1 x.2) <$> l.
Proof.
  intros Ha [Hnd Hl]. apply NoDup_Permutation.
  - apply NoDup_filter, NoDup_fmap_2_strong; [|apply NoDup_map_to_list].
    intros [[r1 d1] x] [[r2 d2] y] Hx%elem_of_map_to_list Hy%elem_of_map_to_list.
    rewrite (R_perm _ _ HR) in Hx, Hy.
    apply fmap_Some in Hx as (? & _ & ->). apply fmap_Some in Hy as (? & _ & ->).
    simpl. intros Hrow. pose proof Hrow as [= -> _ -> _ _ _ _]. by rewrite Hrow.
  - apply (NoDup_fmap_1 sqlc.Permission_RecipientID). by rewrite <- list_fmap_compose.
  - intros row. unfold sqlc.permissions_on.
    rewrite list_elem_of_filter, (list_elem_of_fmap snd), (list_elem_of_fmap (λ x, perm_row d x.1 x.2)).
    split.
    + intros ([Hd Hlv] & [[r d'] x] & -> & Hx%elem_of_map_to_list).
      rewrite (R_perm _ _ HR) in Hx. apply fmap_Some in Hx as (e & He & ->).
      simpl in Hd. subst d'. rewrite Ha in He. exists (r, e). split; [done|]. apply Hl.
      split; [exact He|]. by rewrite <- label_elem.
    + intros ([r e] & -> & [He Hlv]%Hl). simpl. rewrite label_elem. split; [done|].
      exists ((r, d), perm_row d r e). split; [done|].
      by rewrite elem_of_map_to_list, (R_perm _ _ HR), Ha; simpl; rewrite He.
Qed.
End listings.

End Refine.
