(* ===== verification/DocLawful.v ===== *)
(** Every method of the PostgreSQL repository makes a step of the
    specification, against a database that may fail at any interaction: the
    instance [lawful] of [LawfulRepository]. *)

From S2P Require Import Prelude GoLib Paging Pgx DocDomain DocSql DocRepository DocSpec DocRefine.
Import Spec Refine.
#[local] Set Warnings "-clear-no-such-hyp".

Module Lawful.

(** ** The ids a call draws

    [CreateDocument] generates its id after it has begun the transaction,
    [CreateGuest] before. *)
Definition drawn (w : DocWorld) (c : call) : uuid :=
  match c with
  | CCreateDocument _ _ _ => env_uuid (w_env w) (S (w_tick w))
  | _ => env_uuid (w_env w) (w_tick w)
  end.

(** ** What a call has to establish when it ends *)
Definition post (i : uuid) (c : call) (s : state) (hw : Prop) (o : outcome error value)
    (w' : DocWorld) : Prop :=
  ∃ r s', respond o = Some r ∧ RW w' s' ∧ step i s c r s' ∧
          (hw → healthy w' ∧ ok_step i s c r s').

Lemma post_ok i c s (hw : Prop) o w' r s' :
  ok_step i s c r s' → respond o = Some r → RW w' s' → (hw → healthy w') →
  post i c s hw o w'.
Proof. intros. exists r, s'. split_and!; auto using step_ok. Qed.

Lemma post_lost i c s (hw : Prop) e w' :
  ¬ hw → kind_of e = KRepoImpl → RW w' s → post i c s hw (Err e) w'.
Proof.
  intros Hhw He HR. exists (Failed KRepoImpl), s. simpl. rewrite He.
  split_and!; [done..|by constructor|done].
Qed.

Lemma post_late i c s (hw : Prop) e w' r s' :
  ¬ hw → kind_of e = KRepoImpl → ok_step i s c r s' → RW w' s' → post i c s hw (Err e) w'.
Proof.
  intros Hhw He Hok HR. exists (Failed KRepoImpl), s'. simpl. rewrite He.
  split_and!; [done..|by eapply step_late|done].
Qed.

Lemma post_err i c s (hw : Prop) e w' k :
  ok_step i s c (Failed k) s → kind_of e = k → RW w' s → (hw → healthy w') → post i c s hw (Err e) w'.
Proof. intros Hok <- ??. by eapply post_ok. Qed.

Lemma RW_rollback w w' s : w_db w' = w_db w → R (w_db w) s → RW (Rollback w') s.
Proof. intros Hdb HR. split; [|done]. simpl. by rewrite Hdb. Qed.

Lemma RW_committed tx w' s : w_db w' = tx_db tx → R (tx_db tx) s → RW (Rollback w') s.
Proof. intros Hdb HR. split; [|done]. simpl. by rewrite Hdb. Qed.

(** ** The statements on represented tables *)
Section statements.
Context (db : sqlc.Db) (s : state).
Hypothesis HR : R db s.

Lemma sql_GetDocument d now :
  sqlc.GetDocument d now db =
    match s !! d with Some a => inr (doc_row d a, db) | None => inl ErrNoRows end.
Proof. unfold sqlc.GetDocument. rewrite (R_doc _ _ HR). by destruct (s !! d). Qed.

Lemma sql_CreateDocument d n ds now :
  match s !! d with
  | Some _ => sqlc.CreateDocument d n ds now db =
                inl (PgError unique_violation "documents_pkey" EmptyString)
  | None => ∃ db', sqlc.CreateDocument d n ds now db = inr ((), db') ∧
                   R db' (<[d := mkDoc n ds now now ∅ ∅]> s)
  end.
Proof.
  unfold sqlc.CreateDocument. rewrite (R_doc _ _ HR).
  destruct (s !! d) eqn:Hd; simpl; [done|]. eexists. split; [done|].
  apply (R_put_doc _ _ HR d (mkDoc n ds now now ∅ ∅)); by rewrite Hd.
Qed.

Lemma sql_UpdateDocument d n ds now :
  match s !! d with
  | None => sqlc.UpdateDocument d n ds now db = inr (0%Z, db)
  | Some a => ∃ db', sqlc.UpdateDocument d n ds now db = inr (1%Z, db') ∧
                     R db' (<[d := update_meta n ds a]> s)
  end.
Proof.
  unfold sqlc.UpdateDocument. rewrite (R_doc _ _ HR).
  destruct (s !! d) as [a|] eqn:Hd; simpl; [|done]. eexists. split; [done|].
  apply (R_put_doc _ _ HR d (update_meta n ds a)); by rewrite Hd.
Qed.

Lemma sql_Upsert u d l by_ now :
  match s !! d with
  | None => True
  | Some a => ∃ db', sqlc.UpsertPermissionUser u d (level_label l) by_ now db = inr ((), db') ∧
      R db' (<[d := set_perms (<[u := match d_perms a !! u with
                                      | Some e => relevel l now e
                                      | None => mkEntry RUser l by_ now now
                                      end]> (d_perms a)) a]> s)
  end.
Proof.
  destruct (s !! d) as [a|] eqn:Ha; [|done]. unfold sqlc.UpsertPermissionUser.
  rewrite label_valid.
  rewrite (R_perm _ _ HR), Ha. simpl.
  destruct (d_perms a !! u) as [e|] eqn:He; simpl.
  - eexists. split; [done|]. by apply (R_put_perm _ _ HR d a u (relevel l now e)).
  - unfold sqlc.insert_permission; simpl. rewrite (R_perm _ _ HR), (R_doc _ _ HR), Ha. simpl.
    rewrite He. simpl. eexists. split; [done|].
    by apply (R_put_perm _ _ HR d a u (mkEntry RUser l by_ now now)).
Qed.

Lemma sql_InsertGuestPermission g d a l by_ now :
  s !! d = Some a →
  match d_perms a !! g with
  | Some _ => ∃ x y, sqlc.InsertPermissionGuest g d (level_label l) by_ now db =
                       inl (PgError unique_violation x y)
  | None => ∃ db', sqlc.InsertPermissionGuest g d (level_label l) by_ now db = inr ((), db') ∧
      R db' (<[d := set_perms (<[g := mkEntry RGuest l by_ now now]> (d_perms a)) a]> s)
  end.
Proof.
  intros Ha. unfold sqlc.InsertPermissionGuest.
  rewrite label_valid.
  unfold sqlc.insert_permission; simpl. rewrite (R_perm _ _ HR), (R_doc _ _ HR), Ha. simpl.
  destruct (d_perms a !! g) as [e|] eqn:He; simpl; [by do 2 eexists|]. eexists. split; [done|].
  by apply (R_put_perm _ _ HR d a g (mkEntry RGuest l by_ now now)).
Qed.

Lemma sql_CreateGuest g d a by_ now :
  s !! d = Some a →
  (unknown_guest g s ∧ ∃ db', sqlc.CreateGuest g d by_ now db = inr ((), db') ∧
     R db' (<[d := set_guests (<[g := mkGuestEntry by_ now]> (d_guests a)) a]> s)) ∨
  (¬ unknown_guest g s ∧ ∃ x y, sqlc.CreateGuest g d by_ now db =
                                  inl (PgError unique_violation x y)).
Proof.
  intros Ha. unfold sqlc.CreateGuest.
  destruct (sqlc.guests db !! g) as [row|] eqn:Hg.
  - right. split; [|by do 2 eexists]. rewrite <- (R_guest_None _ _ HR). by rewrite Hg.
  - left. apply (R_guest_None _ _ HR) in Hg. split; [done|].
    rewrite (R_doc _ _ HR), Ha. simpl. eexists. split; [done|].
    by apply (R_put_guest _ _ HR d a g (mkGuestEntry by_ now)).
Qed.

Lemma sql_DeletePermission r d now :
  match s !! d ≫= λ a, d_perms a !! r with
  | None => sqlc.DeletePermissionPrincipal r d now db = inr (0%Z, db)
  | Some _ => ∃ a db', s !! d = Some a ∧
      sqlc.DeletePermissionPrincipal r d now db = inr (1%Z, db') ∧
      R db' (<[d := set_perms (delete r (d_perms a)) a]> s)
  end.
Proof.
  unfold sqlc.DeletePermissionPrincipal. rewrite (R_perm _ _ HR).
  destruct (s !! d) as [a|] eqn:Ha; simpl; [|done].
  destruct (d_perms a !! r) as [e|] eqn:He; simpl; [|done].
  eexists _, _. split; [done|]. split; [done|]. by apply (R_del_perm _ _ HR).
Qed.
End statements.

(** ** The methods *)
Section methods.
Context `{UuidLaws} `{ErrorText}.
Import DocumentRepository.

(** closes the case of a fault: nothing has changed *)
Ltac lost := intros; apply post_lost; [sick|done|split; done].
Ltac late := intros; eapply post_late; [sick|done|econstructor; by eauto|by split].
Ltac finish :=
  eapply post_ok; [econstructor; by eauto|done|by split|intros; eauto 8 with pgx].

(** the call makes a step of the specification *)
Definition implements (c : call) (s : state) (w : DocWorld) : Prop :=
  wp (run_call c) (post (drawn w c) c s (healthy w)) w.

Lemma run_GetDocument d s w :
  RW w s → implements (CGetDocument d) s w.
Proof.
  intros [HR Htx]. unfold implements. simpl. unfold GetDocument. go.
  destruct (s !! d) as [a|] eqn:Ha.
  - apply (wp_pool_ok _ (λ x db, x = doc_row d a ∧ db = w_db w)); [| |lost].
    + intros now. rewrite (sql_GetDocument _ _ HR), Ha. eauto.
    + intros x db [-> ->]. split; [|lost]. rewrite parse_document. go. finish.
  - apply (wp_pool_err _ ErrNoRows); [intros now; by rewrite (sql_GetDocument _ _ HR), Ha| |lost].
    finish.
Qed.

Lemma run_UpdateDocument d n ds s w :
  RW w s → implements (CUpdateDocument d n ds) s w.
Proof.
  intros [HR Htx]. unfold implements. simpl. unfold UpdateDocument. go.
  destruct (decide ((n, ds) = (None, None))) as [[= -> ->]|Hn].
  { simpl. finish. }
  replace (bool_decide (n = None) && bool_decide (ds = None)) with false
    by (destruct n, ds; done). go.
  pose proof (sql_UpdateDocument _ _ HR d n ds) as Hq.
  destruct (s !! d) as [a|] eqn:Ha.
  - apply (wp_pool_ok _ (λ x db, x = 1%Z ∧ R db (<[d := update_meta n ds a]> s))); [| |lost].
    + intros now. destruct (Hq now) as (db' & -> & ?). eauto.
    + intros x db [-> HR']. split; [go; finish|late].
  - apply (wp_pool_ok _ (λ x db, x = 0%Z ∧ db = w_db w)); [| |lost].
    + intros now. rewrite (Hq now). eauto.
    + intros x db [-> ->]. split; [go; finish|lost].
Qed.

Lemma run_DeletePermission r d s w :
  RW w s → implements (CDeletePermission r d) s w.
Proof.
  intros [HR Htx]. unfold implements. simpl. unfold DeletePermissionsPrincipal. go.
  pose proof (sql_DeletePermission _ _ HR r d) as Hq.
  destruct (s !! d ≫= _) as [e|] eqn:He.
  - destruct (s !! d) as [a|] eqn:Ha; [|done].
    apply (wp_pool_ok _ (λ x db, x = 1%Z ∧ R db (<[d := set_perms (delete r (d_perms a)) a]> s)));
      [| |lost].
    + intros now. destruct (Hq now) as (a' & db' & [= <-] & -> & ?). eauto.
    + intros x db [-> HR']. assert (is_Some (d_perms a !! r)) by eauto.
      split; [go; finish|late].
  - apply (wp_pool_ok _ (λ x db, x = 0%Z ∧ db = w_db w)); [| |lost].
    + intros now. rewrite (Hq now). eauto.
    + intros x db [-> ->]. split; [go; finish|lost].
Qed.

Lemma run_GetPermission d p s w :
  RW w s → implements (CGetPermission d p) s w.
Proof.
  intros [HR Htx]. unfold implements. simpl. unfold GetPermissionOfPrincipalOnDocument. go.
  destruct (s !! d ≫= λ a, d_perms a !! p) as [e|] eqn:He.
  - apply (wp_pool_ok _ (λ x db, x = perm_row d p e ∧ db = w_db w)); [| |lost].
    + intros now. unfold sqlc.GetPermissionOfPrincipalOnDocument.
      rewrite (R_perm _ _ HR), He. simpl. eauto.
    + intros x db [-> ->]. split; [|lost]. rewrite parse_permission. go.
      destruct (s !! d) as [a|] eqn:Ha; [|done]. finish.
  - apply (wp_pool_err _ ErrNoRows); [| |lost]; [|finish].
    intros now. unfold sqlc.GetPermissionOfPrincipalOnDocument. by rewrite (R_perm _ _ HR), He.
Qed.

Lemma sql_UpdateGuest db s (HR : R db s) g d a l now :
  s !! d = Some a →
  (∃ e, d_perms a !! g = Some e ∧ e_type e = RGuest ∧ ∃ db',
     sqlc.UpdatePermissionGuest g d (level_label l) now db = inr (1%Z, db') ∧
     R db' (<[d := set_perms (<[g := relevel l now e]> (d_perms a)) a]> s)) ∨
  ((∀ e, d_perms a !! g = Some e → e_type e ≠ RGuest) ∧
   sqlc.UpdatePermissionGuest g d (level_label l) now db = inr (0%Z, db)).
Proof.
  intros Ha. unfold sqlc.UpdatePermissionGuest.
  rewrite label_valid.
  rewrite (R_perm _ _ HR), Ha. simpl.
  destruct (d_perms a !! g) as [e|] eqn:He; simpl; [|by right].
  destruct (e_type e) eqn:Ht; simpl;
    [right; split; [by intros ? [= <-]; rewrite Ht|done]|].
  left. exists e. split_and!; [done..|]. eexists. split; [done|].
  pose proof (R_put_perm _ _ HR d a g (relevel l now e) Ha) as HR'.
  unfold perm_row in HR'. simpl in HR'. by rewrite Ht in HR'.
Qed.

Lemma guest_permission_dec a g :
  (∃ e, d_perms a !! g = Some e ∧ e_type e = RGuest) ∨
  (∀ e, d_perms a !! g = Some e → e_type e ≠ RGuest).
Proof.
  destruct (d_perms a !! g) as [e|]; [|by right].
  destruct (decide (e_type e = RGuest)); [left; eauto|right; by intros ? [= <-]].
Qed.

Lemma no_guest_permission db s (HR : R db s) g d a ge :
  s !! d = Some a → d_guests a !! g = Some ge →
  (∀ e, d_perms a !! g = Some e → e_type e ≠ RGuest) →
  ∀ d a e, s !! d = Some a → is_Some (d_guests a !! g) → d_perms a !! g = Some e → e_type e ≠ RGuest.
Proof.
  intros Ha Hge Hno d' a' e Ha' [ge' Hge'] He.
  assert (sqlc.guests db !! g = Some (guest_row d g ge)) as Hr by (apply (R_guest _ _ HR); eauto 10).
  assert (sqlc.guests db !! g = Some (guest_row d' g ge')) as Hr' by (apply (R_guest _ _ HR); eauto 10).
  rewrite Hr in Hr'. injection Hr' as -> _ _. rewrite Ha in Ha'. injection Ha' as <-. eauto.
Qed.

Lemma run_UpdatePermissionGuest g n s w :
  RW w s → implements (CUpdatePermissionGuest g n) s w.
Proof.
  intros [HR Htx]. unfold implements. simpl. unfold UpdatePermissionGuest. go.
  pose proof (unparse_level n) as Hn. destruct (level_of n) as [l|] eqn:Hl;
    [rewrite Hn|destruct Hn as [e ->]]; go; [|finish].
  destruct (sqlc.guests (w_db w) !! g) as [row|] eqn:Hg.
  - apply (wp_pool_ok _ (λ x db, x = row ∧ db = w_db w)); [| |lost].
    { intros now. unfold sqlc.SelectGuest. rewrite Hg. eauto. }
    intros x db [-> ->]. split; [go|lost].
    apply (R_guest _ _ HR) in Hg as (d & a & ge & Ha & Hge & ->). simpl.
    destruct (guest_permission_dec a g) as [(e & He & Ht)|Hno].
    + apply (wp_pool_ok _ (λ x db, x = 1%Z ∧ ∃ now,
        R db (<[d := set_perms (<[g := relevel l now e]> (d_perms a)) a]> s))); [| |lost].
      * intros now. destruct (sql_UpdateGuest _ _ HR g d a l now Ha)
          as [(e' & He' & _ & db' & Hq & ?)|[Hno _]]; [|naive_solver].
        simplify_eq. eauto 10.
      * intros x db [-> [now HR']].
        split; [go; finish|late].
    + pose proof (no_guest_permission _ _ HR _ _ _ _ Ha Hge Hno).
      apply (wp_pool_ok _ (λ x db, x = 0%Z ∧ db = w_db w)); [| |lost].
      * intros now. destruct (sql_UpdateGuest _ _ HR g d a l now Ha)
          as [(e & He & Ht & _)|[_ Hq]]; [by destruct (Hno e He)|eauto].
      * intros x db [-> ->]. split; [go; finish|lost].
  - apply (wp_pool_err _ ErrNoRows); [| |lost].
    { intros now. unfold sqlc.SelectGuest. by rewrite Hg. }
    apply (R_guest_None _ _ HR) in Hg.
    assert (∀ d a e, s !! d = Some a → is_Some (d_guests a !! g) →
              d_perms a !! g = Some e → e_type e ≠ RGuest).
    { intros d a e Ha Hge. by rewrite (Hg d a Ha), is_Some_alt in Hge. }
    finish.
Qed.

(** The same for the methods that run a transaction: it is rolled back, or it
    has been committed. *)
Ltac tx_lost :=
  intros; apply post_lost; [sick|done|eapply RW_rollback; cycle 1; [eassumption|simpl in *; congruence]].
Ltac rolled_back :=
  eapply post_ok; [econstructor; by eauto|done|eapply RW_rollback; cycle 1; [eassumption|simpl in *; congruence]
                  |intros; eauto 8 with pgx].
Ltac committed :=
  eapply post_ok; [econstructor; by eauto|done|by eapply RW_committed|intros; eauto 8 with pgx].
Ltac commit_failed :=
  let Hdb := fresh "Hdb" in
  intros ? ? ? [Hdb|Hdb]; cbn beta iota;
    [tx_lost|eapply post_late; [sick|done|econstructor; by eauto|by eapply RW_committed]].

Lemma run_CreateDocument u n ds s w :
  RW w s → implements (CCreateDocument u n ds) s w.
Proof.
  intros [HR Htx]. unfold implements. simpl. unfold CreateDocument. go.
  apply wp_Begin_at; [|intros; apply post_lost; [sick|done|by split]].
  intros w1 tx Htx1 Hdb1 Hw1 Hh1 Htick Henv. go. rewrite Htick, Henv. set (id := env_uuid _ _).
  assert (HR1 : R (tx_db tx) s) by (by rewrite Hdb1).
  pose proof (sql_CreateDocument _ _ HR1 id n ds) as Hq.
  destruct (s !! id) as [a|] eqn:Hid.
  - eapply wp_tx_err; [exact Htx1|exact Hq| |tx_lost]. rolled_back.
  - eapply (wp_tx_ok _ (λ _ db, R db (<[id := mkDoc n ds (tx_now tx) (tx_now tx) ∅ ∅]> s)));
      [exact Htx1|destruct (Hq (tx_now tx)) as (db' & -> & ?); eauto| |tx_lost].
    intros [] w2 tx2 HR2 Htx2 Hnow Hw2 Hh2. go.
    pose proof (sql_Upsert _ _ HR2 u id LOwner u (tx_now tx2)) as Hup.
    rewrite lookup_insert_eq in Hup. destruct Hup as (db3 & Hup & HR3).
    rewrite insert_insert_eq, Hnow in HR3.
    eapply (wp_tx_ok _ (λ _ db, R db (<[id := new_document u n ds (tx_now tx)]> s)));
      [exact Htx2|rewrite <- Hnow in HR3 |- *; eauto| |tx_lost].
    intros [] w3 tx3 HR4 Htx3 _ Hw3 Hh3. go.
    eapply wp_Commit'; [exact Htx3| |commit_failed].
    intros w4 Hw4 Hh4. go. committed.
Qed.

Lemma run_Upsert u d n s w :
  RW w s → implements (CUpsertPermissionUser u d n) s w.
Proof.
  intros [HR Htx]. unfold implements. simpl. unfold UpsertPermissionUser. go.
  pose proof (unparse_level n) as Hn. destruct (level_of n) as [l|] eqn:Hl;
    [rewrite Hn|destruct Hn as [e ->]]; go; [|finish].
  apply wp_Begin'; [|lost]. intros w1 tx Htx1 Hdb1 Hw1 Hh1. go.
  assert (HR1 : R (tx_db tx) s) by (by rewrite Hdb1).
  destruct (s !! d) as [a|] eqn:Ha.
  - eapply (wp_tx_ok _ (λ _ db, R db s));
      [exact Htx1|rewrite (sql_GetDocument _ _ HR1), Ha; eauto| |tx_lost].
    intros _ w2 tx2 HR2 Htx2 _ Hw2 Hh2. go.
    pose proof (sql_Upsert _ _ HR2 u d l u (tx_now tx2)) as Hup. rewrite Ha in Hup.
    eapply (wp_tx_ok _ (λ _ db, R db (<[d := upsert u l (tx_now tx2) a]> s)));
      [exact Htx2|destruct Hup as (db' & -> & ?); eauto| |tx_lost].
    intros _ w3 tx3 HR3 Htx3 _ Hw3 Hh3. go.
    eapply wp_Commit'; [exact Htx3| |commit_failed].
    intros w4 Hw4 Hh4. go. committed.
  - eapply (wp_tx_err _ ErrNoRows);
      [exact Htx1|intros; by rewrite (sql_GetDocument _ _ HR1), Ha| |tx_lost].
    rolled_back.
Qed.

Lemma run_CreateGuest c d n s w :
  RW w s → implements (CCreateGuest c d n) s w.
Proof.
  intros [HR Htx]. unfold implements. simpl. unfold CreateGuest. go. set (g := env_uuid _ _).
  pose proof (unparse_level n) as Hn. destruct (level_of n) as [l|] eqn:Hl;
    [rewrite Hn|destruct Hn as [e ->]]; go; [|finish].
  apply wp_Begin'; [|lost]. intros w1 tx Htx1 Hdb1 Hw1 Hh1. go.
  assert (HR1 : R (tx_db tx) s) by (by rewrite Hdb1).
  destruct (s !! d) as [a|] eqn:Ha.
  2:{ eapply (wp_tx_err _ ErrNoRows);
        [exact Htx1|intros; by rewrite (sql_GetDocument _ _ HR1), Ha| |tx_lost].
      rolled_back. }
  eapply (wp_tx_ok _ (λ _ db, R db s));
    [exact Htx1|rewrite (sql_GetDocument _ _ HR1), Ha; eauto| |tx_lost].
  intros _ w2 tx2 HR2 Htx2 _ Hw2 Hh2. go.
  destruct (sqlc.guests (tx_db tx2) !! g) as [row|] eqn:Hg.
  { assert (¬ unknown_guest g s) by (rewrite <- (R_guest_None _ _ HR2); by rewrite Hg).
    eapply (wp_tx_err _ (PgError unique_violation "guests_pkey" EmptyString));
      [exact Htx2|intros; unfold sqlc.CreateGuest; by rewrite Hg| |tx_lost].
    assert (¬ (unknown_guest g s ∧ d_perms a !! g = None)) by tauto. rolled_back. }
  destruct (sql_CreateGuest _ _ HR2 g d a c (tx_now tx2) Ha) as [[Hu Hq]|[Hu _]];
    [|by rewrite <- (R_guest_None _ _ HR2), Hg in Hu].
  eapply (wp_tx_ok _ (λ _ db,
      R db (<[d := set_guests (<[g := mkGuestEntry c (tx_now tx2)]> (d_guests a)) a]> s)));
    [exact Htx2|destruct Hq as (db' & -> & ?); eauto| |tx_lost].
  intros _ w3 tx3 HR3 Htx3 Hnow3 Hw3 Hh3. go.
  pose proof (sql_InsertGuestPermission _ _ HR3 g d _ l c (tx_now tx3)
                (lookup_insert_eq _ _ _)) as Hins. simpl in Hins.
  rewrite insert_insert_eq in Hins.
  destruct (d_perms a !! g) as [e|] eqn:Hp.
  - eapply (wp_tx_err _ (PgError unique_violation "permissions_pkey" EmptyString)); [exact Htx3| | |tx_lost].
    + intros now. unfold sqlc.InsertPermissionGuest.
      rewrite label_valid.
      unfold sqlc.insert_permission; simpl.
      by rewrite (R_perm _ _ HR3), lookup_insert_eq; simpl; rewrite Hp.
    + assert (¬ (unknown_guest g s ∧ d_perms a !! g = None)) by (rewrite Hp; by intros [_ ?]). rolled_back.
  - eapply (wp_tx_ok _ (λ _ db, R db (<[d := add_guest g c l (tx_now tx2) a]> s)));
      [exact Htx3|destruct Hins as (db' & -> & HR4); rewrite Hnow3 in HR4; eauto| |tx_lost].
    intros _ w4 tx4 HR4 Htx4 _ Hw4 Hh4. go.
    eapply wp_Commit'; [exact Htx4| |commit_failed].
    intros w5 Hw5 Hh5. go. committed.
Qed.

(** [deleteDocumentHelper] on an open transaction *)
Lemma wp_deleteDocumentHelper d s w tx :
  w_tx w = Some tx → R (tx_db tx) s →
  wp (deleteDocumentHelper OnTx d) (λ o w',
    w_db w' = w_db w ∧ (healthy w → healthy w') ∧
    match o with
    | Ret _ => is_Some (s !! d) ∧ ∃ tx', w_tx w' = Some tx' ∧ R (tx_db tx') (delete d s)
    | Err e => (kind_of e = KNotFound ∧ s !! d = None) ∨ (¬ healthy w ∧ kind_of e = KRepoImpl)
    | Panic _ => False
    end) w.
Proof.
  intros Htx HR. unfold deleteDocumentHelper. go.
  assert (Hlost : ∀ w1 w2 : DocWorld, (healthy w → healthy w1) → ¬ healthy w1 →
            healthy w → healthy w2) by (intros; exfalso; auto).
  eapply (wp_tx_ok _ (λ _ db, R db (alter (set_perms ∅) d s)));
    [exact Htx|do 2 eexists; split; [done|by apply R_clear_perms]|
    |intros; split_and!; [done|by eauto|right; split; [sick|done]]].
  intros _ w1 tx1 HR1 Htx1 _ Hw1 Hh1. go.
  eapply (wp_tx_ok _ (λ _ db, R db (alter (set_guests ∅) d (alter (set_perms ∅) d s))));
    [exact Htx1|do 2 eexists; split; [done|by apply R_clear_guests]|
    |intros; split_and!; [congruence|by eauto|right; split; [sick|done]]].
  intros _ w2 tx2 HR2 Htx2 _ Hw2 Hh2. go.
  destruct (s !! d) as [a|] eqn:Ha.
  - set (s2 := alter _ _ _) in HR2. set (a2 := set_guests ∅ (set_perms ∅ a)).
    assert (Ha2 : s2 !! d = Some a2) by (by unfold s2; rewrite !lookup_alter_eq, Ha).
    eapply (wp_tx_ok _ (λ x db, x = 1%Z ∧ R db (delete d s2))); [exact Htx2| | |].
    + unfold sqlc.DeleteDocument. rewrite (R_doc _ _ HR2), Ha2. simpl.
      rewrite (R_referenced _ _ HR2 d a2 Ha2) by done.
      do 2 eexists. split; [done|]. split; [done|]. by apply (R_del_doc _ _ HR2 d a2).
    + intros x w3 tx3 [-> HR3] Htx3 _ Hw3 Hh3. go.
      split_and!; [congruence|by auto|by eexists|]. exists tx3. split; [done|].
      replace (delete d s) with (delete d s2); [done|].
      unfold s2. apply map_eq. intros i. rewrite !lookup_delete. case_decide; [done|].
      by rewrite !lookup_alter_ne by done.
    + intros; split_and!; [congruence|by eauto|right; split; [sick|done]].
  - eapply (wp_tx_ok _ (λ x db, x = 0%Z)); [exact Htx2| | |].
    + unfold sqlc.DeleteDocument. rewrite (R_doc _ _ HR2), !lookup_alter_eq, Ha. simpl. eauto.
    + intros x w3 tx3 -> Htx3 _ Hw3 Hh3. go.
      split_and!; [congruence|by auto|]. left. done.
    + intros; split_and!; [congruence|by eauto|right; split; [sick|done]].
Qed.

Lemma run_DeleteDocument d s w :
  RW w s → implements (CDeleteDocument d) s w.
Proof.
  intros [HR Htx]. unfold implements. simpl. unfold DeleteDocument. go.
  apply wp_Begin'; [|lost]. intros w1 tx Htx1 Hdb1 Hw1 Hh1. go.
  assert (HR1 : R (tx_db tx) s) by (by rewrite Hdb1).
  eapply wp_mono; [by eapply wp_deleteDocumentHelper|].
  intros [[]|e|p] w2 (Hw2 & Hh2 & Ho); [| |done].
  - destruct Ho as (Hd & tx2 & Htx2 & HR2). go.
    eapply wp_Commit'; [exact Htx2| |commit_failed].
    intros w3 Hw3 Hh3. go. committed.
  - destruct Ho as [[He Hd]|[Hsick He]].
    + exists (Failed KNotFound), s. simpl. rewrite He. split_and!; [done| | |].
      * by apply (RW_rollback w); [congruence|].
      * apply step_ok. by constructor.
      * intros. split; [eauto with pgx|by constructor].
    + apply post_lost; [intros ?; by auto|done|]. by apply (RW_rollback w); [congruence|].
Qed.

Lemma delete_all_snoc ids d (s : state) : delete_all (ids ++ [d]) s = delete d (delete_all ids s).
Proof.
  apply map_eq. intros i. rewrite lookup_delete, !lookup_delete_all.
  pose proof (elem_of_app ids [d] i) as Happ. rewrite list_elem_of_singleton in Happ.
  repeat case_decide; naive_solver.
Qed.

Lemma run_DeleteDocuments ids u s w :
  RW w s → implements (CDeleteDocuments ids u) s w.
Proof.
  intros [HR Htx]. unfold implements. simpl. unfold DeleteDocuments. go.
  destruct (decide (ids = [])) as [->|Hne]; [simpl; finish|].
  replace (length ids <? 1)%nat with false by (destruct ids; done). go.
  apply wp_Begin'; [|lost]. intros w1 tx Htx1 Hdb1 Hw1 Hh1. go.
  apply (wp_for_each _ (λ l w', ∃ done tx', ids = done ++ l ∧ w_tx w' = Some tx' ∧
    R (tx_db tx') (delete_all done s) ∧ w_db w' = w_db w ∧ (healthy w → healthy w') ∧
    NoDup done ∧ (∀ id, id ∈ done → is_Some (s !! id)))).
  - exists [], tx. rewrite Hdb1. split_and!; try done; [constructor|].
    by intros id ?%elem_of_nil.
  - intros d l w2 (dn & tx2 & Hids & Htx2 & HR2 & Hw2 & Hh2 & Hnd & Hall).
    eapply wp_mono; [by eapply wp_deleteDocumentHelper|].
    intros [[]|e|p] w3 (Hw3 & Hh3 & Ho); [| |done].
    + destruct Ho as (Hd & tx3 & Htx3 & HR3). rewrite lookup_delete_all in Hd.
      case_decide as Hin; [by destruct Hd|].
      exists (dn ++ [d]), tx3. rewrite delete_all_snoc.
      split_and!; [by rewrite <- app_assoc|done..|congruence|by auto| |].
      * apply NoDup_app. split_and!; [done|set_solver|apply NoDup_singleton].
      * set_solver.
    + assert (RW (Rollback w3) s) by (apply (RW_rollback w); [congruence|done]).
      destruct Ho as [[He Hd]|[Hsick He]]; [|apply post_lost; [intros ?; by auto|done|done]].
      rewrite lookup_delete_all in Hd.
      assert (¬ (NoDup ids ∧ ∀ id, id ∈ ids → is_Some (s !! id))).
      { intros [Hnd' Hall']. rewrite Hids in Hnd', Hall'.
        case_decide as Hin.
        - apply NoDup_app in Hnd' as (_ & Hsep & _). apply (Hsep d Hin). set_solver.
        - specialize (Hall' d ltac:(set_solver)). rewrite Hd in Hall'. by destruct Hall'. }
      exists (Failed KNotFound), s. simpl. rewrite He. split_and!; [done..| |].
      * apply step_ok. by constructor.
      * intros. split; [eauto with pgx|by constructor].
  - intros w2 (dn & tx2 & Hids & Htx2 & HR2 & Hw2 & Hh2 & Hnd & Hall).
    rewrite app_nil_r in Hids. subst dn. go.
    eapply wp_Commit'; [exact Htx2| |commit_failed].
    intros w3 Hw3 Hh3. go. committed.
Qed.

(** ** The listings *)
Lemma collect_levels (P : error → Prop) (f : PermissionLevel → error + sqlc.PermissionLevel) ls :
  (∀ n, match level_of n with
        | Some l => f n = inr (level_label l)
        | None => ∃ e, f n = inl e ∧ P e
        end) →
  match mapM level_of ls with
  | Some lv => collect f ls = inr (level_label <$> lv)
  | None => ∃ e, collect f ls = inl e ∧ P e
  end.
Proof.
  intros Hf. induction ls as [|n ls IH]; simpl; [done|].
  specialize (Hf n). destruct (level_of n) as [l|]; simpl.
  - rewrite Hf. destruct (mapM level_of ls) as [lv|]; simpl; [by rewrite IH|].
    destruct IH as (e & -> & ?). eauto.
  - destruct Hf as (e & -> & ?). eauto.
Qed.

(** a listing statement on valid labels changes nothing, wherever it runs *)
Lemma wp_listing {A} c (q : stmt (list A)) (lv : list level) n rows w db :
  match c with OnPool => w_db w | OnTx => default (w_db w) (tx_db <$> w_tx w) end = db →
  (c = OnTx → is_Some (w_tx w)) →
  (∀ now, q now db = sqlc.listing (level_label <$> lv) n rows db) →
  wp (exec c q) (λ o w',
    w_db w' = w_db w ∧ w_tx w' = w_tx w ∧ (healthy w → healthy w') ∧
    match o with
    | Ret r => (0 ≤ n)%Z ∧ r = rows
    | Err e => healthy w → (n < 0)%Z
    | Panic _ => False
    end) w.
Proof.
  intros Hdb Hc Hq. unfold sqlc.listing in Hq. rewrite labels_valid in Hq.
  destruct (n <? 0)%Z eqn:Hn; [apply Z.ltb_lt in Hn|apply Z.ltb_ge in Hn]; destruct c; subst db.
  - eapply wp_pool_err; [exact Hq|..]; intros; split_and!; auto with pgx.
  - destruct (w_tx w) as [tx|] eqn:Htx; [|by destruct Hc].
    eapply wp_tx_err; [done|exact Hq|..]; intros; split_and!; auto with pgx.
  - eapply (wp_pool_ok _ (λ r d, r = rows ∧ d = w_db w)); [eauto|..].
    + intros r d [-> ->]. split; intros; split_and!; auto with pgx; by intros ?.
    + intros; split_and!; auto with pgx; by intros ?.
  - destruct (w_tx w) as [tx|] eqn:Htx; [|by destruct Hc]. simpl in Hq.
    apply (wp_exec_tx _ _ _ tx); [done|intros e He; rewrite Hq in He; done|..].
    + intros r d Hr. rewrite Hq in Hr. injection Hr as <- <-.
      split; intros; split_and!; auto with pgx; first [by destruct tx|by intros ?].
    + intros; split_and!; auto with pgx; by intros ?.
Qed.

Lemma key_uuid_inj {A} (t : A → Z) (u : A → uuid) (l : list A) :
  NoDup (u <$> l) → NoDup ((λ x, (t x, uuid_num (u x))) <$> l).
Proof. apply NoDup_fmap_coarser. intros x y [= _ ?%(inj uuid_num)]. done. Qed.

Lemma page_join db s (HR : R db s) f p lv l c n :
  valid_field f = true → lists_documents s p lv l →
  page (if (f =? CreatedAt)%Z then sqlc.row_created_at else sqlc.row_last_modified_at) c n
    (sqlc.join_documents p (level_label <$> lv) db) =
  list_row <$> page (document_key f) c n l.
Proof.
  intros Hf Hl. pose proof (join_rows _ _ HR p lv l Hl) as Hp.
  set (k := if (f =? CreatedAt)%Z then _ else _).
  assert (Hnd : NoDup (k <$> (list_row <$> l))).
  { destruct Hl as [Hnd _]. rewrite <- list_fmap_compose in Hnd.
    unfold k. destruct (f =? CreatedAt)%Z; apply key_uuid_inj; by rewrite <- list_fmap_compose. }
  rewrite (page_perm k c n _ (list_row <$> l)); [|by rewrite Hp|done].
  rewrite page_fmap by done. f_equal. unfold k, document_key. by destruct (f =? CreatedAt)%Z.
Qed.

Lemma parse_rows l :
  collect (λ row, parseDocumentPermission (sqlc.Row_Document row) (sqlc.Row_PermissionLevel row))
    (list_row <$> l) = inr (document_permission_view <$> l).
Proof.
  apply collect_fmap. intros [[d a] e]. unfold parseDocumentPermission. simpl.
  by rewrite parse_level, parse_document.
Qed.

Lemma wp_readDocuments p lv c n s w :
  RW w s → valid_field (Cursor_SortField c) = true →
  wp (readDocuments p (level_label <$> lv) c n) (λ o w',
    RW w' s ∧ (healthy w → healthy w') ∧
    match o with
    | Ret pg => (0 ≤ n)%Z ∧ ∃ l, lists_documents s p lv l ∧
        pg = document_permission_view <$>
               page (document_key (Cursor_SortField c)) (cursor_key c) (Z.to_nat n) l
    | Err e => kind_of e = KRepoImpl ∧ (healthy w → (n < 0)%Z)
    | Panic _ => False
    end) w.
Proof.
  intros [HR Htx] Hf. destruct (lists_documents_ex s p lv) as [l Hl].
  pose proof (page_join _ _ HR _ p lv l (cursor_key c) (Z.to_nat n) Hf Hl) as Hpage.
  unfold readDocuments. unfold valid_field in Hf.
  destruct (Cursor_SortField c =? CreatedAt)%Z;
    [|destruct (Cursor_SortField c =? LastModifiedAt)%Z; [|done]].
  all: go; eapply wp_mono;
    [eapply (wp_listing OnPool _ lv n _ w (w_db w) eq_refl); intros; done|].
  all: intros [rows|e|?] w' (Hdb & Htx' & Hh & Ho); [|split_and!; try done; by split; congruence|done].
  all: destruct Ho as [Hn Ho]; rewrite (eq_trans Ho Hpage), parse_rows; go.
  all: split_and!; [split; congruence|done..|eauto].
Qed.

Ltac level_cases :=
  intros k; pose proof (unparse_level k) as Hk; destruct (level_of k);
  [by rewrite Hk|destruct Hk as [? ->]; by eauto].

Lemma run_ListDocuments p ls c n s w :
  RW w s → implements (CListDocuments p ls c n) s w.
Proof.
  intros [HR Htx]. unfold implements. simpl. unfold ListDocumentsByPrincipal. go.
  destruct c as [c|]; [|go; finish]. go.
  destruct (decide (ls = [])) as [->|Hne]; [simpl; finish|].
  replace (length ls <? 1)%nat with false by (destruct ls; done). go.
  match goal with |- context [collect ?f ls] =>
    pose proof (collect_levels (λ e, kind_of e = KInvalidInput) f ls) as Hlv end.
  destruct (mapM level_of ls) as [lv|] eqn:Hls.
  2:{ destruct Hlv as (e & -> & He); [level_cases|]. go.
      eapply post_err; [by constructor; right|done|by split|done]. }
  rewrite Hlv by level_cases. go.
  destruct (valid_field (Cursor_SortField c)) eqn:Hf.
  - eapply wp_mono; [by apply (wp_readDocuments p lv c n s)|].
    intros [pg|e|?] w1 (HR1 & Hh1 & Ho); [| |done].
    + destruct Ho as [Hn (l & Hl & Hpg)]. go.
      eapply post_ok; [|done|done|done]. cbn [respond].
      replace (Done _) with (Done (VDocuments pg (Some (documents_cursor c pg)))).
      { econstructor; by eauto. }
      unfold documents_cursor. simpl. do 3 f_equal. by destruct (last pg), c.
    + destruct Ho as [He Hn]. destruct (decide (n < 0)%Z).
      * eapply post_err; [econstructor; by eauto|done..].
      * apply post_lost; [by auto|done|done].
  - unfold readDocuments. apply orb_false_iff in Hf as Hf'. destruct Hf' as [-> ->]. go. simpl.
    replace (mkCursor _ _ _) with c by (by destruct c). finish.
Qed.

Lemma page_permissions db s (HR : R db s) f d a lv l c n :
  valid_field f = true → s !! d = Some a → lists_permissions a lv l →
  page (if (f =? CreatedAt)%Z then sqlc.permission_created_at
        else sqlc.permission_last_modified_at) c n
    (sqlc.permissions_on d (level_label <$> lv) db) =
  (λ x, perm_row d x.1 x.2) <$> page (permission_key f) c n l.
Proof.
  intros Hf Ha Hl. pose proof (permission_rows _ _ HR d a lv l Ha Hl) as Hp.
  set (k := if (f =? CreatedAt)%Z then _ else _).
  assert (Hnd : NoDup (k <$> ((λ x, perm_row d x.1 x.2) <$> l))).
  { destruct Hl as [Hnd _].
    unfold k. destruct (f =? CreatedAt)%Z; apply key_uuid_inj; by rewrite <- list_fmap_compose. }
  rewrite (page_perm k c n _ ((λ x, perm_row d x.1 x.2) <$> l)); [|by rewrite Hp|done].
  rewrite page_fmap by done. f_equal. unfold k, permission_key. by destruct (f =? CreatedAt)%Z.
Qed.

Lemma parse_permission_rows d l :
  collect repoToServicePermission ((λ x, perm_row d x.1 x.2) <$> l) =
    inr ((λ x, permission_view x.1 d x.2) <$> l).
Proof. apply collect_fmap. intros x. apply parse_permission. Qed.

Lemma wp_readPermissions d a lv c n s w tx :
  w_tx w = Some tx → R (tx_db tx) s → s !! d = Some a →
  valid_field (Cursor_SortField c) = true →
  wp (readPermissions OnTx d (level_label <$> lv) c n) (λ o w',
    w_db w' = w_db w ∧ (healthy w → healthy w') ∧
    match o with
    | Ret rows => (0 ≤ n)%Z ∧ ∃ l, lists_permissions a lv l ∧
        rows = (λ x, perm_row d x.1 x.2) <$>
                 page (permission_key (Cursor_SortField c)) (cursor_key c) (Z.to_nat n) l
    | Err e => kind_of e = KRepoImpl ∧ (healthy w → (n < 0)%Z)
    | Panic _ => False
    end) w.
Proof.
  intros Htx HR Ha Hf. destruct (lists_permissions_ex a lv) as [l Hl].
  pose proof (page_permissions _ _ HR _ d a lv l (cursor_key c) (Z.to_nat n) Hf Ha Hl) as Hpage.
  unfold readPermissions. unfold valid_field in Hf.
  destruct (Cursor_SortField c =? CreatedAt)%Z;
    [|destruct (Cursor_SortField c =? LastModifiedAt)%Z; [|done]].
  all: go; eapply wp_mono;
    [eapply (wp_listing OnTx _ lv n _ w (tx_db tx)); [by rewrite Htx|by rewrite Htx|done]|].
  all: intros [rows|e|?] w' (Hdb & Htx' & Hh & Ho); [|done|done].
  all: destruct Ho as [Hn Ho]; split_and!; [done..|].
  all: exists l; split; [done|exact (eq_trans Ho Hpage)].
Qed.

Lemma run_ListPermissions d ls c n s w :
  RW w s → implements (CListPermissions d ls c n) s w.
Proof.
  intros [HR Htx]. unfold implements. simpl. unfold ListPermissionsOnDocument. go.
  destruct (decide (ls = [])) as [->|Hne]; [simpl; finish|].
  replace (length ls <? 1)%nat with false by (destruct ls; done). go.
  pose proof (collect_levels (λ e, ∃ text, e = OtherErr text) serviceToRepoPermissionLevel ls)
    as Hlv.
  destruct (mapM level_of ls) as [lv|] eqn:Hls.
  2:{ destruct Hlv as (e & -> & text & ->); [level_cases|]. go. finish. }
  rewrite Hlv by level_cases. go. destruct c as [c|]; [|go; finish]. go.
  apply wp_Begin'; [|lost]. intros w1 tx Htx1 Hdb1 Hw1 Hh1. go.
  assert (HR1 : R (tx_db tx) s) by (by rewrite Hdb1).
  destruct (s !! d) as [a|] eqn:Ha.
  2:{ eapply (wp_tx_err _ ErrNoRows);
        [exact Htx1|intros; by rewrite (sql_GetDocument _ _ HR1), Ha| |tx_lost].
      rolled_back. }
  eapply (wp_tx_ok _ (λ _ db, R db s));
    [exact Htx1|rewrite (sql_GetDocument _ _ HR1), Ha; eauto| |tx_lost].
  intros _ w2 tx2 HR2 Htx2 _ Hw2 Hh2. go.
  destruct (valid_field (Cursor_SortField c)) eqn:Hf.
  - eapply wp_mono; [by eapply (wp_readPermissions d a lv c n s)|].
    intros [rows|e|?] w3 (Hw3 & Hh3 & Ho); [| |done].
    + destruct Ho as [Hn (l & Hl & ->)]. rewrite parse_permission_rows. go.
      set (pg := _ <$> page _ _ _ _).
      eapply post_ok; [|done|eapply RW_rollback; cycle 1; [exact HR|congruence]|eauto with pgx].
      cbn [respond].
      replace (Done _) with (Done (VPermissions pg (Some (permissions_cursor c pg)))).
      { econstructor; by eauto. }
      unfold permissions_cursor, valid_field in *. simpl. do 3 f_equal.
      destruct (last pg), c; simpl in *; try done.
      by destruct (_ =? CreatedAt)%Z, (_ =? LastModifiedAt)%Z.
    + destruct Ho as [He Ho].
      assert (HRW : RW (Rollback w3) s) by (eapply RW_rollback; [|exact HR]; congruence).
      go. set (err := RepoImpl _ _).
      assert (kind_of err = KRepoImpl) by (unfold err; by rewrite kind_of_RepoImpl, He).
      destruct (decide (n < 0)%Z) as [Hn|Hn].
      * eapply post_err; [econstructor; by eauto|done|done|eauto 8 with pgx].
      * apply post_lost; [intros ?; apply Hn; auto 8 with pgx|done|]. eapply RW_rollback; cycle 1; [exact HR|congruence].
  - unfold readPermissions. apply orb_false_iff in Hf as Hf'. destruct Hf' as [-> ->]. go. simpl.
    replace (mkCursor _ _ _) with c by (by destruct c). rolled_back.
Qed.

(** Every method, from every reachable or unreachable state of the tables that
    represents an abstract state, and whatever faults occur: it does not
    panic, leaves no transaction open, and makes a step of the specification. *)
Lemma run_step c s w :
  RW w s → implements c s w.
Proof.
  destruct c; auto using run_CreateDocument, run_GetDocument, run_UpdateDocument,
    run_DeleteDocument, run_DeleteDocuments, run_ListDocuments, run_GetPermission,
    run_ListPermissions, run_CreateGuest, run_Upsert, run_UpdatePermissionGuest,
    run_DeletePermission.
Qed.

#[global] Program Instance lawful : LawfulRepository DocWorld := {|
  repo_rel := RW;
  repo_healthy := healthy;
  repo_drawn := drawn;
|}.
Next Obligation. apply run_step. Qed.
Next Obligation.
  intros E s w [HR Htx]. apply wp_time_Now.
  split_and!; [by eexists|by split|auto with pgx].
Qed.

End methods.

End Lawful.
