(* ===== verification/DocContract.v ===== *)
(** What the service layer of the document service promises to the gRPC
    server, proved against the contract of the repository alone
    ([LawfulRepository]): which calls it forwards and with which defaults, that
    it fails with domain errors only, and what clients that page through a
    listing see. *)

From S2P Require Import Prelude GoLib Paging DocDomain DocService DocSpec.
Import Spec.

Module Contract.

(** ** The contract *)

(** the calls the service refuses before the repository is asked *)
Definition rejected (c : call) : bool :=
  match c with
  | CUpdateDocument _ n d => bool_decide (n = None) && bool_decide (d = None)
  | CCreateGuest _ _ l | CUpsertPermissionUser _ _ l | CUpdatePermissionGuest _ l => (l =? Owner)%Z
  | _ => false
  end.

(** the call the repository gets; [now] is the time of the request *)
Definition forwarded (now : Time) (c : call) : call :=
  let ls levels := match levels with [] => AllPermissions | _ => levels end in
  let cur cursor := match cursor with
                    | None => Some (mkCursor CreatedAt now MaxDocumentID)
                    | Some _ => cursor
                    end in
  let size n := if (1 <=? n)%Z && (n <=? 100)%Z then n else 10%Z in
  match c with
  | CListDocuments p levels cursor n => CListDocuments p (ls levels) (cur cursor) (size n)
  | CListPermissions d levels cursor n => CListPermissions d (ls levels) (cur cursor) (size n)
  | _ => c
  end.

(** a step of the service: [R] is the step relation of the repository *)
Definition service_step (R : state → call → response → state → Prop) s c r s' : Prop :=
  r ≠ Failed KOther ∧
  if rejected c then r = Failed KInvalidInput ∧ s' = s
  else ∃ now, R s (forwarded now c) r s'.

Section service.
Context {W : Type} `{LR : LawfulRepository W}.

Definition run_service (c : call) : go W error value :=
  match c with
  | CCreateDocument u n d => id ← DocumentService.CreateDocument u n d; mret (VId id)
  | CGetDocument d => x ← DocumentService.GetDocument d; mret (VDocument x)
  | CUpdateDocument d n ds => _ ← DocumentService.UpdateDocument d n ds; mret VUnit
  | CDeleteDocument d => _ ← DocumentService.DeleteDocument d; mret VUnit
  | CDeleteDocuments ds u => _ ← DocumentService.DeleteDocuments ds u; mret VUnit
  | CListDocuments p ls c n =>
      x ← DocumentService.ListDocumentsByPrincipal p ls c n; mret (VDocuments x.1 x.2)
  | CGetPermission d p =>
      x ← DocumentService.GetPermissionOfPrincipalOnDocument d p; mret (VPermission x)
  | CListPermissions d ls c n =>
      x ← DocumentService.ListPermissionsOnDocument d ls c n; mret (VPermissions x.1 x.2)
  | CCreateGuest c d n => id ← DocumentService.CreateGuest c d n; mret (VId id)
  | CUpsertPermissionUser u d n => _ ← DocumentService.UpsertPermissionUser u d n; mret VUnit
  | CUpdatePermissionGuest g n => _ ← DocumentService.UpdatePermissionGuest g n; mret VUnit
  | CDeletePermission r d => _ ← DocumentService.DeletePermissionPrincipal r d; mret VUnit
  end.

(** the errors of a lawful repository on the calls the service forwards *)
Definition outer_kind (k : kind) : kind := match k with KOther => KRepoImpl | _ => k end.

Lemma kind_as_domain msg e : kind_of (DocumentService.as_domain msg e) = outer_kind (kind_of e).
Proof.
  unfold DocumentService.as_domain. destruct (isDomainError e) eqn:He.
  - pose proof (kind_of_domain e He). by destruct (kind_of e).
  - rewrite (kind_of_foreign e He). by destruct e.
Qed.

(** a forwarded call never gets the nil-pointer error *)
Lemma forwarded_not_other R i s now c s' :
  (R = step i ∨ R = ok_step i) → ¬ R s (forwarded now c) (Failed KOther) s'.
Proof.
  assert (Hok : ∀ s s', ¬ ok_step i s (forwarded now c) (Failed KOther) s').
  { clear. intros s s' Hstep. destruct c as [| | | | |? ? [] ?| |? ? [] ?| | | |];
      by inversion Hstep. }
  intros [->| ->] Hstep; [|by eapply Hok]. inversion Hstep; subst. by eapply Hok.
Qed.

(** the ids that are drawn do not depend on the defaults *)
Lemma draws_forwarded now c : draws (forwarded now c) = draws c.
Proof. by destruct c. Qed.
Lemma drawing_forwarded now c : draws c = true → forwarded now c = c.
Proof. by destruct c. Qed.

Lemma redrawn_service_step i j s c r s' :
  (draws c = true → i = j) → service_step (step j) s c r s' → service_step (step i) s c r s'.
Proof.
  intros Hij [Hr Hs]. split; [done|]. destruct (rejected c); [done|]. destruct Hs as [now Hs].
  exists now. eapply redrawn_step; [|done]. by rewrite draws_forwarded.
Qed.
Lemma redrawn_service_ok_step i j s c r s' :
  (draws c = true → i = j) → service_step (ok_step j) s c r s' → service_step (ok_step i) s c r s'.
Proof.
  intros Hij [Hr Hs]. split; [done|]. destruct (rejected c); [done|]. destruct Hs as [now Hs].
  exists now. eapply redrawn_ok_step; [|done]. by rewrite draws_forwarded.
Qed.

(** what the service establishes for a call from the world [w0], which the
    repository is asked to carry out in the world [w] *)
Definition serviced (w0 : W) (c : call) (s : state) (hw : Prop) (o : outcome error value) (w' : W)
    : Prop :=
  ∃ r s', respond o = Some r ∧ repo_rel w' s' ∧ service_step (step (repo_drawn w0 c)) s c r s' ∧
          (hw → repo_healthy w' ∧ service_step (ok_step (repo_drawn w0 c)) s c r s').

(** what is left to show of a method: its repository call, on the forwarded
    arguments, with the domain errors kept *)
Lemma wp_forwarded c now s w0 w (m : go W error value) (hw : Prop) :
  repo_rel w s → (hw → repo_healthy w) → rejected c = false → (draws c = true → w0 = w) →
  (∀ w, wp (run_call (forwarded now c)) (λ o w', ∃ msg,
      m w = (match o with Err e => Err (DocumentService.as_domain msg e) | _ => o end, w')) w) →
  wp m (serviced w0 c s hw) w.
Proof.
  intros HR Hw Hrej Hdraw Hm. pose proof (repo_step (forwarded now c) s w HR) as Hstep.
  specialize (Hm w). unfold wp in Hstep, Hm |- *.
  destruct (run_call (forwarded now c) w) as [o w'].
  destruct Hm as [msg ->]. destruct Hstep as (r & s' & Hr & HR' & Hs & Hh).
  assert (Hne : r ≠ Failed KOther).
  { intros ->. eapply forwarded_not_other; [by left|exact Hs]. }
  assert (Heq : draws (forwarded now c) = true → repo_drawn w0 c = repo_drawn w (forwarded now c)).
  { rewrite draws_forwarded. intros Hd. by rewrite (Hdraw Hd), drawing_forwarded. }
  exists r, s'. unfold service_step. rewrite Hrej. split_and!; [|done|done| |].
  - destruct o as [v|e|?]; [done| |done]. simpl in Hr |- *. rewrite kind_as_domain.
    injection Hr as <-. by destruct (kind_of e).
  - exists now. by apply (redrawn_step _ _ _ _ _ _ Heq).
  - intros Hhw. destruct (Hh (Hw Hhw)) as [Hw' Hok]. split_and!; [done..|].
    exists now. by apply (redrawn_ok_step _ _ _ _ _ _ Heq).
Qed.

Ltac forward :=
  intros ?; unfold wp, run_service, run_call, forwarded, DocumentService.CreateDocument,
    DocumentService.GetDocument, DocumentService.DeleteDocument, DocumentService.DeleteDocuments,
    DocumentService.GetPermissionOfPrincipalOnDocument,
    DocumentService.DeletePermissionPrincipal, map_err, return_if, mbind, go_bind, mret, go_ret;
  match goal with
  | |- context [repo_CreateDocument ?a ?b ?c ?w] => destruct (repo_CreateDocument a b c w) as [[]]
  | |- context [repo_GetDocument ?a ?w] => destruct (repo_GetDocument a w) as [[]]
  | |- context [repo_UpdateDocument ?a ?b ?c ?w] => destruct (repo_UpdateDocument a b c w) as [[]]
  | |- context [repo_DeleteDocument ?a ?w] => destruct (repo_DeleteDocument a w) as [[]]
  | |- context [repo_DeleteDocuments ?a ?b ?w] => destruct (repo_DeleteDocuments a b w) as [[]]
  | |- context [repo_ListDocumentsByPrincipal ?a ?b ?c ?d ?w] =>
      destruct (repo_ListDocumentsByPrincipal a b c d w) as [[]]
  | |- context [repo_GetPermissionOfPrincipalOnDocument ?a ?b ?w] =>
      destruct (repo_GetPermissionOfPrincipalOnDocument a b w) as [[]]
  | |- context [repo_ListPermissionsOnDocument ?a ?b ?c ?d ?w] =>
      destruct (repo_ListPermissionsOnDocument a b c d w) as [[]]
  | |- context [repo_CreateGuest ?a ?b ?c ?w] => destruct (repo_CreateGuest a b c w) as [[]]
  | |- context [repo_UpsertPermissionUser ?a ?b ?c ?w] =>
      destruct (repo_UpsertPermissionUser a b c w) as [[]]
  | |- context [repo_UpdatePermissionGuest ?a ?b ?w] =>
      destruct (repo_UpdatePermissionGuest a b w) as [[]]
  | |- context [repo_DeletePermissionsPrincipal ?a ?b ?w] =>
      destruct (repo_DeletePermissionsPrincipal a b w) as [[]]
  end; first [by exists EmptyString|by eexists].

Lemma default_permissions_forwarded levels :
  DocumentService.default_permissions levels =
    match levels with [] => AllPermissions | _ => levels end.
Proof. by destruct levels. Qed.

Lemma default_pageSize_forwarded n :
  DocumentService.default_pageSize n = if (1 <=? n)%Z && (n <=? 100)%Z then n else 10%Z.
Proof.
  unfold DocumentService.default_pageSize, MaxPageSize.
  destruct (n <? 1)%Z eqn:H1, (100 <? n)%Z eqn:H2, (1 <=? n)%Z eqn:H3, (n <=? 100)%Z eqn:H4;
    simpl; try done; lia.
Qed.

(** a refused call *)
Lemma wp_rejected c s w e (m : go W error value) :
  repo_rel w s → rejected c = true → (∀ w, m w = (Err e, w)) → kind_of e = KInvalidInput →
  wp m (serviced w c s (repo_healthy w)) w.
Proof.
  intros HR Hrej Hm He. unfold wp. rewrite Hm. exists (Failed KInvalidInput), s. simpl.
  unfold service_step. rewrite Hrej, He. split_and!; [done..|]. by intros.
Qed.

(** the nil cursor is replaced by one at the time of the request *)
Lemma wp_default_cursor {A} (cursor : option Cursor) (k : option Cursor → go W error A) s w Q :
  repo_rel w s →
  (∀ now w', repo_rel w' s → (repo_healthy w → repo_healthy w') →
     wp (k (match cursor with
            | None => Some (mkCursor CreatedAt now MaxDocumentID)
            | Some _ => cursor
            end)) Q w') →
  wp (DocumentService.default_cursor cursor ≫= k) Q w.
Proof.
  intros HR Hk. destruct cursor as [c|]; [by apply (Hk 0%Z)|].
  pose proof (repo_Now error s w HR) as Hnow. unfold wp in Hnow.
  unfold DocumentService.default_cursor, NewBeginningCursor, mbind, go_bind, wp.
  destruct (Now error w) as [o w']. destruct Hnow as ([t ->] & HR' & Hh). simpl.
  by apply (Hk t w').
Qed.

Lemma service_contract c s w :
  repo_rel w s →
  wp (run_service c) (serviced w c s (repo_healthy w)) w.
Proof.
  intros HR. destruct (rejected c) eqn:Hrej.
  - destruct c as [| |d n ds| | | | | |u d l|u d l|g l| ]; try done; simpl in Hrej.
    all: eapply wp_rejected; [done..| |];
      [intros w0; unfold run_service, DocumentService.UpdateDocument, DocumentService.CreateGuest,
         DocumentService.UpsertPermissionUser, DocumentService.UpdatePermissionGuest;
       rewrite Hrej; done|done].
  - destruct c as [| |d n ds| | |p ls cur n| |d ls cur n|u d l|u d l|g l| ]; simpl in Hrej.
    + apply (wp_forwarded _ 0%Z s w w); [done..|forward].
    + apply (wp_forwarded _ 0%Z s w w); [done..|forward].
    + apply (wp_forwarded _ 0%Z s w w); [done..|].
      unfold run_service, DocumentService.UpdateDocument. rewrite Hrej. forward.
    + apply (wp_forwarded _ 0%Z s w w); [done..|forward].
    + apply (wp_forwarded _ 0%Z s w w); [done..|forward].
    + simpl. unfold DocumentService.ListDocumentsByPrincipal.
      rewrite default_permissions_forwarded, default_pageSize_forwarded.
      apply wp_bind, (wp_default_cursor _ _ s); [done|]. intros now w1 HR1 Hw1.
      apply (wp_unbind _ (λ x, mret (VDocuments x.1 x.2))), (wp_forwarded _ now s w w1); [done..|].
      forward.
    + apply (wp_forwarded _ 0%Z s w w); [done..|forward].
    + simpl. unfold DocumentService.ListPermissionsOnDocument.
      rewrite default_permissions_forwarded, default_pageSize_forwarded.
      apply wp_bind, (wp_default_cursor _ _ s); [done|]. intros now w1 HR1 Hw1.
      apply (wp_unbind _ (λ x, mret (VPermissions x.1 x.2))), (wp_forwarded _ now s w w1); [done..|].
      forward.
    + apply (wp_forwarded _ 0%Z s w w); [done..|].
      unfold run_service, DocumentService.CreateGuest. rewrite Hrej. forward.
    + apply (wp_forwarded _ 0%Z s w w); [done..|].
      unfold run_service, DocumentService.UpsertPermissionUser. rewrite Hrej. forward.
    + apply (wp_forwarded _ 0%Z s w w); [done..|].
      unfold run_service, DocumentService.UpdatePermissionGuest. rewrite Hrej. forward.
    + apply (wp_forwarded _ 0%Z s w w); [done..|forward].
Qed.

End service.
End Contract.
