(* ===== verification/DocRpc.v ===== *)
(** The gRPC layer of the document service against its contract: every handler
    decodes its request, makes one service request and encodes the answer;
    what is refused before the service is asked, which status code an error
    gets, and when a handler panics. *)

From S2P Require Import Prelude GoLib Grpc DocPb DocDomain DocService DocServer.
From S2P Require Import Paging DocSpec DocContract.
Import Spec Contract.

Module Rpc.

Inductive rpc :=
  | RCreateDocument (q : pb.CreateDocumentRequest)
  | RGetDocument (q : pb.GetDocumentRequest)
  | RUpdateDocument (q : pb.UpdateDocumentRequest)
  | RDeleteDocument (q : pb.DeleteDocumentRequest)
  | RDeleteDocuments (q : pb.DeleteDocumentsRequest)
  | RListDocumentsByPrincipal (q : pb.ListDocumentByPrincipalRequest)
  | RGetPermissions (q : pb.GetPermissionsRequest)
  | RListPermissions (q : pb.ListPermissionsOnDocumentRequest)
  | RCreateGuest (q : pb.CreateGuestRequest)
  | RUpsertPermissionUser (q : pb.UpsertPermissionUserRequest)
  | RUpdatePermissionGuest (q : pb.UpdatePermissionGuestRequest)
  | RDeletePermissions (q : pb.DeletePermissionsPrincipalRequest).

Inductive reply :=
  | PEmpty
  | PCreateDocument (p : pb.CreateDocumentReply)
  | PGetDocument (p : pb.GetDocumentReply)
  | PListDocuments (p : pb.ListDocumentsByPrincipalReply)
  | PGetPermissions (p : pb.GetPermissionsReply)
  | PListPermissions (p : pb.ListPermissionsOnDocumentReply)
  | PCreateGuest (p : pb.CreateGuestReply).

(** the pointers a handler follows without a test *)
Definition well_formed (r : rpc) : Prop :=
  match r with
  | RDeleteDocuments q => is_Some (pb.DeleteDocuments_ClientContext q)
  | RListDocumentsByPrincipal q => is_Some (pb.ListDocuments_Cursor q)
  | RListPermissions q => is_Some (pb.ListPermissions_Cursor q)
  | RCreateGuest q => is_Some (pb.CreateGuest_ClientContext q)
  | _ => True
  end.

Definition code_of (k : kind) : Code :=
  match k with
  | KNotFound => NotFound_
  | KUniqueConflict => AlreadyExists
  | KInvalidInput => InvalidArgument
  | KRepoImpl | KOther => Internal
  end.

Section rpc.
Context `{UuidLib} `{ErrorText} `{TimestampLib}.
Context {W : Type} `{Clock W} {documentRepo : DocumentRepository W}.

Definition handle (r : rpc) : go W Status reply :=
  match r with
  | RCreateDocument q => p ← DocumentServer.CreateDocument q; mret (PCreateDocument p)
  | RGetDocument q => p ← DocumentServer.GetDocument q; mret (PGetDocument p)
  | RUpdateDocument q => _ ← DocumentServer.UpdateDocument q; mret PEmpty
  | RDeleteDocument q => _ ← DocumentServer.DeleteDocument q; mret PEmpty
  | RDeleteDocuments q => _ ← DocumentServer.DeleteDocuments q; mret PEmpty
  | RListDocumentsByPrincipal q =>
      p ← DocumentServer.ListDocumentsByPrincipal q; mret (PListDocuments p)
  | RGetPermissions q =>
      p ← DocumentServer.GetPermissionsOfPrincipalOnDocument q; mret (PGetPermissions p)
  | RListPermissions q =>
      p ← DocumentServer.ListPermissionsOnDocument q; mret (PListPermissions p)
  | RCreateGuest q => p ← DocumentServer.CreateGuest q; mret (PCreateGuest p)
  | RUpsertPermissionUser q => _ ← DocumentServer.UpsertPermissionUser q; mret PEmpty
  | RUpdatePermissionGuest q => _ ← DocumentServer.UpdatePermissionGuest q; mret PEmpty
  | RDeletePermissions q => _ ← DocumentServer.DeletePermissionsPrincipal q; mret PEmpty
  end.

(** ** Decoding a request *)

(** [uuid.Parse] of a field that has to be a UUID *)
Definition id_field (msg : string) (id : string) : go W Status uuid :=
  lift (uuid_Parse id) or_return λ _, mkStatus InvalidArgument msg.
Definition level_field (l : pb.PermissionLevel) : go W Status PermissionLevel :=
  lift (DocumentServer.pbToServicePermissionLevel l) or_return mkStatus InvalidArgument.
Definition levels_field (ls : list pb.PermissionLevel) : go W Status (list PermissionLevel) :=
  lift (DocumentServer.pbToServicePermissionLevelList ls) or_return mkStatus InvalidArgument.
Definition cursor_field (c : option pb.Cursor) : go W Status (option Cursor) :=
  DocumentServer.parseServiceCursor c or_return mkStatus InvalidArgument.

Definition decode (r : rpc) : go W Status call :=
  match r with
  | RCreateDocument q =>
      u ← id_field "unable to parse owner user Id as uuid" (pb.CreateDocument_OwnerUserId q);
      mret (CCreateDocument u (pb.CreateDocument_DocumentName q)
              (pb.CreateDocument_DocumentDescription q))
  | RGetDocument q =>
      d ← id_field "unable to parse documentId as uuid" (pb.GetDocument_DocumentId q);
      mret (CGetDocument d)
  | RUpdateDocument q =>
      d ← id_field "failed to parse document id as uuid" (pb.UpdateDocument_DocumentId q);
      mret (CUpdateDocument d (pb.UpdateDocument_Name q) (pb.UpdateDocument_Description q))
  | RDeleteDocument q =>
      d ← id_field "failed to parse documentId as uuid" (pb.DeleteDocument_DocumentId q);
      mret (CDeleteDocument d)
  | RDeleteDocuments q =>
      ds ← lift (collect (λ id,
             match uuid_Parse id with
             | inl _ => inl (mkStatus InvalidArgument ("failed to parse document id: " +:+ id))
             | inr d => inr d
             end) (pb.DeleteDocuments_DocumentIds q));
      c ← deref (pb.DeleteDocuments_ClientContext q);
      u ← id_field ("failed to parse user id: " +:+ pb.ClientContext_PrincipalId c)
            (pb.ClientContext_PrincipalId c);
      mret (CDeleteDocuments ds u)
  | RListDocumentsByPrincipal q =>
      p ← id_field ("unable to parse documentId: " +:+ pb.ListDocuments_PrincipalId q
                      +:+ " as uuid") (pb.ListDocuments_PrincipalId q);
      ls ← levels_field (pb.ListDocuments_PermissionsFilter q);
      c ← cursor_field (pb.ListDocuments_Cursor q);
      mret (CListDocuments p ls c (DocumentServer.page_size (pb.ListDocuments_PageSize q)))
  | RGetPermissions q =>
      d ← id_field ("unable to parse document ID as a uuid: " +:+ pb.GetPermissions_DocumentId q)
            (pb.GetPermissions_DocumentId q);
      p ← id_field ("unable to parse principalId as a uuid: " +:+ pb.GetPermissions_PrincipalId q)
            (pb.GetPermissions_PrincipalId q);
      mret (CGetPermission d p)
  | RListPermissions q =>
      d ← id_field ("failed to parse documentID as a uuid: " +:+ pb.ListPermissions_DocumentId q)
            (pb.ListPermissions_DocumentId q);
      ls ← levels_field (pb.ListPermissions_PermissionsFilter q);
      c ← cursor_field (pb.ListPermissions_Cursor q);
      mret (CListPermissions d ls c (DocumentServer.page_size (pb.ListPermissions_PageSize q)))
  | RCreateGuest q =>
      d ← id_field ("failed to parse document id as uuid: " +:+ pb.CreateGuest_DocumentId q)
            (pb.CreateGuest_DocumentId q);
      c ← deref (pb.CreateGuest_ClientContext q);
      u ← id_field ("failed to parse user Id as uuid: " +:+ pb.ClientContext_PrincipalId c)
            (pb.ClientContext_PrincipalId c);
      l ← level_field (pb.CreateGuest_PermissionLevel q);
      mret (CCreateGuest u d l)
  | RUpsertPermissionUser q =>
      u ← id_field ("failed to parse user Id as uuid: " +:+ pb.Upsert_UserId q) (pb.Upsert_UserId q);
      d ← id_field ("failed to parse document id as uuid: " +:+ pb.Upsert_DocumentId q)
            (pb.Upsert_DocumentId q);
      l ← level_field (pb.Upsert_PermissionLevel q);
      mret (CUpsertPermissionUser u d l)
  | RUpdatePermissionGuest q =>
      g ← id_field ("failed to parse guestId as uuid: " +:+ pb.UpdateGuest_GuestId q)
            (pb.UpdateGuest_GuestId q);
      l ← level_field (pb.UpdateGuest_PermissionLevel q);
      mret (CUpdatePermissionGuest g l)
  | RDeletePermissions q =>
      r ← id_field ("failed to parse recipient id as uuid: " +:+ pb.DeletePermissions_PrincipalId q)
            (pb.DeletePermissions_PrincipalId q);
      d ← id_field ("failed to parse document id as uuid: " +:+ pb.DeletePermissions_DocumentId q)
            (pb.DeletePermissions_DocumentId q);
      mret (CDeletePermission r d)
  end.

(** ** Encoding an answer *)
Definition encode (c : call) (v : value) : string + reply :=
  match v with
  | VUnit => inr PEmpty
  | VId id =>
      match c with
      | CCreateGuest _ _ _ => inr (PCreateGuest (pb.mkCreateGuestReply (uuid_String id)))
      | _ => inr (PCreateDocument (pb.mkCreateDocumentReply (uuid_String id)))
      end
  | VDocument d => inr (PGetDocument (pb.mkGetDocumentReply (Some (DocumentServer.serviceToPbDocument d))))
  | VPermission p =>
      match DocumentServer.serviceToPbPermission p with
      | inl err => inl err
      | inr x => inr (PGetPermissions (pb.mkGetPermissionsReply (Some x)))
      end
  | VDocuments l cur =>
      match DocumentServer.serviceToPbDocumentPermissionList l, cur with
      | inl err, _ => inl err
      | inr _, None => inl "no cursor"
      | inr xs, Some cur =>
          match DocumentServer.serviceToPbCursor cur with
          | inl err => inl err
          | inr y => inr (PListDocuments (pb.mkListDocumentsByPrincipalReply xs (Some y)))
          end
      end
  | VPermissions l cur =>
      match DocumentServer.serviceToPbPermissionList l, cur with
      | inl err, _ => inl err
      | inr _, None => inl "no cursor"
      | inr xs, Some cur =>
          match DocumentServer.serviceToPbCursor cur with
          | inl err => inl err
          | inr y => inr (PListPermissions (pb.mkListPermissionsOnDocumentReply xs (Some y)))
          end
      end
  end.

(** a list of values comes with a cursor *)
Definition has_cursor (v : value) : Prop :=
  match v with VDocuments _ cur | VPermissions _ cur => is_Some cur | _ => True end.

(** what the handler answers for an outcome of the service *)
Definition answers (c : call) (o : outcome error value) (o' : outcome Status reply) : Prop :=
  match o with
  | Ret v =>
      match encode c v with
      | inr p => o' = Ret p
      | inl err => o' = Err (mkStatus Internal err)
      end
  | Err e => o' = Err (DocumentServer.serviceToGRPCError e)
  | Panic p => o' = Panic p
  end.

Ltac decoded :=
  unfold run_service, mbind, go_bind, mret, go_ret;
  match goal with |- context [?f ?w] =>
    match type of (f w) with (outcome error _ * _)%type => destruct (f w) as [[]] end end;
  simpl; try done.

(** Every handler decodes, asks the service and encodes. *)
Lemma handle_decode r w :
  match decode r w with
  | (Ret c, w1) =>
      match run_service c w1 with
      | (o, w2) => match o with Ret v => has_cursor v | _ => True end →
                   (handle r w).2 = w2 ∧ answers c o (handle r w).1
      end
  | (Err st, w1) => handle r w = (Err st, w1)
  | (Panic p, w1) => handle r w = (Panic p, w1)
  end.
Proof.
  destruct r; unfold decode, handle, DocumentServer.CreateDocument, DocumentServer.GetDocument,
    DocumentServer.UpdateDocument, DocumentServer.DeleteDocument, DocumentServer.DeleteDocuments,
    DocumentServer.ListDocumentsByPrincipal, DocumentServer.GetPermissionsOfPrincipalOnDocument,
    DocumentServer.ListPermissionsOnDocument, DocumentServer.CreateGuest,
    DocumentServer.UpsertPermissionUser, DocumentServer.UpdatePermissionGuest,
    DocumentServer.DeletePermissionsPrincipal, id_field, level_field, levels_field, cursor_field,
    map_err, mbind, go_bind, mret, go_ret.
  all: repeat match goal with
    | |- context [lift (uuid_Parse ?x)] => destruct (uuid_Parse x); simpl; [done|]
    | |- context [lift (collect ?f ?x)] => destruct (collect f x); simpl; [done|]
    | |- context [lift (DocumentServer.pbToServicePermissionLevel ?x)] =>
        destruct (DocumentServer.pbToServicePermissionLevel x); simpl; [done|]
    | |- context [lift (DocumentServer.pbToServicePermissionLevelList ?x)] =>
        destruct (DocumentServer.pbToServicePermissionLevelList x); simpl; [done|]
    | |- context [deref ?x] => destruct x; simpl; [|done]
    | |- context [DocumentServer.parseServiceCursor ?x ?w] =>
        destruct (DocumentServer.parseServiceCursor x w) as [[]]; simpl; [|done..]
    end.
  all: decoded.
  - match goal with a : (_ * option Cursor)%type |- _ => destruct a as [pg [cur|]] end; simpl;
      [intros _|by intros []].
    destruct (DocumentServer.serviceToPbDocumentPermissionList pg); [done|]. simpl.
    by destruct (DocumentServer.serviceToPbCursor cur).
  - match goal with a : Permission |- _ => by destruct (DocumentServer.serviceToPbPermission a) end.
  - match goal with a : (_ * option Cursor)%type |- _ => destruct a as [pg [cur|]] end; simpl;
      [intros _|by intros []].
    destruct (DocumentServer.serviceToPbPermissionList pg); [done|]. simpl.
    by destruct (DocumentServer.serviceToPbCursor cur).
Qed.

(** ** What decoding leaves *)

(** the cursor of a decoded listing is there, with one of the two fields *)
Definition cursor_valid (c : call) : Prop :=
  match c with
  | CListDocuments _ _ cur _ | CListPermissions _ _ cur _ =>
      match cur with Some cur => valid_field (Cursor_SortField cur) = true | None => False end
  | _ => True
  end.

Lemma sort_field_valid f x : DocumentServer.pbToServiceSortField f = inr x → valid_field x = true.
Proof. unfold DocumentServer.pbToServiceSortField. by repeat case_match; intros [= <-]. Qed.

Lemma level_encodable l : ∃ x, DocumentServer.serviceToPbPermissionLevel (level_num l) = inr x.
Proof. destruct l; by eexists. Qed.

Lemma cursor_encodable c :
  valid_field (Cursor_SortField c) = true → ∃ x, DocumentServer.serviceToPbCursor c = inr x.
Proof.
  unfold valid_field, DocumentServer.serviceToPbCursor, DocumentServer.serviceToPbSortField.
  destruct (_ =? CreatedAt)%Z; [by eexists|]. destruct (_ =? LastModifiedAt)%Z; [by eexists|done].
Qed.

Lemma permission_encodable r d e :
  ∃ x, DocumentServer.serviceToPbPermission (permission_view r d e) = inr x.
Proof.
  unfold DocumentServer.serviceToPbPermission. simpl.
  destruct (level_encodable (e_level e)) as [x ->]. by destruct (e_type e); eexists.
Qed.

Lemma collect_encodable {E A B C} (f : A → E + B) (g : C → A) l :
  (∀ x, ∃ y, f (g x) = inr y) → ∃ ys, collect f (g <$> l) = inr ys.
Proof.
  intros Hf. induction l as [|x l [ys IH]]; [by eexists|].
  rewrite fmap_cons. cbn [collect]. destruct (Hf x) as [y ->]. rewrite IH. by eexists.
Qed.

Lemma documents_encodable l :
  ∃ xs, DocumentServer.serviceToPbDocumentPermissionList (document_permission_view <$> l) = inr xs.
Proof.
  apply collect_encodable. intros [[d a] e]. simpl.
  destruct (level_encodable (e_level e)) as [x ->]. by eexists.
Qed.

Lemma permissions_encodable d l :
  ∃ xs, DocumentServer.serviceToPbPermissionList ((λ x, permission_view x.1 d x.2) <$> l) = inr xs.
Proof. apply collect_encodable. intros x. apply permission_encodable. Qed.

(** the cursor returned with a page has the sort field of the request *)
Lemma documents_cursor_field c l : Cursor_SortField (documents_cursor c l) = Cursor_SortField c.
Proof. unfold documents_cursor. by destruct (last l). Qed.
Lemma permissions_cursor_field c l : Cursor_SortField (permissions_cursor c l) = Cursor_SortField c.
Proof. unfold permissions_cursor. by destruct (last l). Qed.

Lemma encode_done i s now c v s' :
  cursor_valid c → ok_step i s (forwarded now c) (Done v) s' →
  has_cursor v ∧ ∃ p, encode c v = inr p.
Proof.
  intros Hc Hok. destruct c as [| | | | |p ls [cur|] n| |d ls [cur|] n| | | |]; try done;
    simpl in Hok, Hc; inversion Hok; subst; try congruence; simpl; split; try done; try by eexists.
  - match goal with |- context [document_permission_view <$> ?l] =>
      destruct (documents_encodable l) as [xs ->];
      destruct (cursor_encodable (documents_cursor cur (document_permission_view <$> l)))
        as [y ->] end; [by rewrite documents_cursor_field|by eexists].
  - destruct (permission_encodable principalId documentId e) as [x ->]. by eexists.
  - match goal with |- context [(λ x, permission_view x.1 d x.2) <$> ?l] =>
      destruct (permissions_encodable d l) as [xs ->];
      destruct (cursor_encodable (permissions_cursor cur ((λ x, permission_view x.1 d x.2) <$> l)))
        as [y ->] end; [by rewrite permissions_cursor_field|by eexists].
Qed.

End rpc.

(** steps through the fields a request is decoded from, where decoding ends
    with a call *)
Ltac decode_fields :=
  unfold decode, id_field, level_field, levels_field, mbind, go_bind, map_err;
  repeat match goal with
    | |- context [lift (uuid_Parse ?x)] => destruct (uuid_Parse x); simpl; [done|]
    | |- context [lift (collect ?f ?x)] => destruct (collect f x); simpl; [done|]
    | |- context [lift (DocumentServer.pbToServicePermissionLevel ?x)] =>
        destruct (DocumentServer.pbToServicePermissionLevel x); simpl; [done|]
    | |- context [lift (DocumentServer.pbToServicePermissionLevelList ?x)] =>
        destruct (DocumentServer.pbToServicePermissionLevelList x); simpl; [done|]
    | |- context [deref ?x] => destruct x; simpl; [|done]
    | |- context [cursor_field ?x ?w] => destruct (cursor_field x w) as [[]]; simpl; [|done..]
    end.

Section lawful.
Context `{UuidLib} `{ErrorText} `{TimestampLib} {W : Type} `{LR : LawfulRepository W}.

Lemma wp_id_field msg id (Q : outcome Status uuid → W → Prop) w :
  (∀ u, Q (Ret u) w) → Q (Err (mkStatus InvalidArgument msg)) w → wp (id_field msg id) Q w.
Proof. unfold id_field, wp, map_err. by destruct (uuid_Parse id); simpl. Qed.

Lemma wp_level_field l (Q : outcome Status PermissionLevel → W → Prop) w :
  (∀ l, Q (Ret l) w) → (∀ msg, Q (Err (mkStatus InvalidArgument msg)) w) →
  wp (level_field l) Q w.
Proof.
  unfold level_field, wp, map_err. by destruct (DocumentServer.pbToServicePermissionLevel l); simpl.
Qed.

Lemma wp_levels_field ls (Q : outcome Status (list PermissionLevel) → W → Prop) w :
  (∀ l, Q (Ret l) w) → (∀ msg, Q (Err (mkStatus InvalidArgument msg)) w) →
  wp (levels_field ls) Q w.
Proof.
  unfold levels_field, wp, map_err.
  by destruct (DocumentServer.pbToServicePermissionLevelList ls); simpl.
Qed.

Lemma wp_cursor_field c s (Q : outcome Status (option Cursor) → W → Prop) w :
  repo_rel w s →
  (∀ cur w', repo_rel w' s → (repo_healthy w → repo_healthy w') →
     valid_field (Cursor_SortField cur) = true → Q (Ret (Some cur)) w') →
  (∀ msg, Q (Err (mkStatus InvalidArgument msg)) w) →
  (c = None → ∀ msg, Q (Panic msg) w) →
  wp (cursor_field c) Q w.
Proof.
  intros HR Hok Herr Hpanic. unfold cursor_field, DocumentServer.parseServiceCursor.
  apply wp_map_err, wp_bind. destruct c as [c|]; [|by apply Hpanic]. apply wp_ret, wp_bind.
  destruct (DocumentServer.pbToServiceSortField _) as [msg|f] eqn:Hf; [by apply Herr|].
  apply sort_field_valid in Hf. apply wp_ret.
  destruct (pb.Cursor_LastSeenTime c) as [t|].
  - apply wp_bind. destruct (pb.Cursor_LastSeenDocumentId c) as [id|]; [|by apply Hok].
    apply wp_map_err. destruct (uuid_Parse id); [by apply Herr|by apply Hok].
  - apply wp_bind. unfold NewBeginningCursor. apply wp_bind.
    eapply wp_mono; [by apply repo_Now|]. intros o w' ([t ->] & HR' & Hw).
    by apply Hok.
Qed.

Lemma wp_decode r s w :
  repo_rel w s →
  wp (decode r) (λ o w', repo_rel w' s ∧ (repo_healthy w → repo_healthy w') ∧
    match o with
    | Ret c => cursor_valid c
    | Err st => status_Code st = InvalidArgument
    | Panic _ => ¬ well_formed r
    end) w.
Proof.
  intros HR. destruct r; simpl.
  5:{ apply wp_bind. set (f := λ id, _).
      assert (Hf : ∀ l st, collect f l = inl st → status_Code st = InvalidArgument).
      { induction l as [|x l IH]; [done|]. intros st. simpl. unfold f at 1.
        destruct (uuid_Parse x); [by intros [= <-]|].
        destruct (collect f l) as [st'|] eqn:Hl; [|done]. intros [= <-]. by apply IH. }
      destruct (collect f _) as [st|ds] eqn:Hc; [by eauto using wp_throw|]. apply wp_ret, wp_bind.
      destruct (pb.DeleteDocuments_ClientContext q) as [c|]; [|by split_and!; [| |intros []]].
      apply wp_ret, wp_bind. by apply wp_id_field. }
  all: repeat first
    [ apply wp_bind
    | apply wp_id_field; [intros ?|by split_and!]
    | apply wp_level_field; [intros ?|by intros; split_and!]
    | apply wp_levels_field; [intros ?|by intros; split_and!]
    | by apply wp_ret; split_and!
    | eapply wp_cursor_field;
        [exact HR|intros ? ? ? ? ?; by apply wp_ret; split_and!|by intros; split_and!|
         intros Hc ?; split_and!; [done..|rewrite Hc; by intros []]] ].
  destruct (pb.CreateGuest_ClientContext q) as [c|]; [|by split_and!; [| |intros []]].
  apply wp_ret. repeat first
    [ apply wp_bind
    | apply wp_id_field; [intros ?|by split_and!]
    | apply wp_level_field; [intros ?|by intros; split_and!]
    | by apply wp_ret; split_and! ].
Qed.

(** the answer of a handler for a response of the service *)
Definition answered (c : call) (resp : response) (o : outcome Status reply) : Prop :=
  match resp with
  | Done v => ∃ p, encode c v = inr p ∧ o = Ret p
  | Failed k => ∃ msg, o = Err (mkStatus (code_of k) msg) ∧
                       (code_of k = Internal → msg = "internal server error encountered")
  end.

Lemma grpc_code e :
  ∃ msg, DocumentServer.serviceToGRPCError e = mkStatus (code_of (kind_of e)) msg ∧
    (code_of (kind_of e) = Internal → msg = "internal server error encountered").
Proof.
  unfold DocumentServer.serviceToGRPCError, kind_of.
  repeat case_match; simpl; eexists; by split.
Qed.

(** the time is read for listings only *)
Lemma decode_draws r (w : W) c w1 : decode r w = (Ret c, w1) → draws c = true → w1 = w.
Proof. destruct r; decode_fields; intros [= <- <-]; by simpl. Qed.

(** what a handler does, by what its request decodes to *)
Lemma rpc_outcome r s w :
  repo_rel w s →
  wp (handle r) (λ o w', ∃ s', repo_rel w' s' ∧
    match (decode r w).1 with
    | Ret c => ∃ resp, service_step (step (repo_drawn w c)) s c resp s' ∧
        (repo_healthy w → repo_healthy w' ∧ service_step (ok_step (repo_drawn w c)) s c resp s') ∧
        answered c resp o
    | Err st => o = Err st ∧ status_Code st = InvalidArgument ∧ s' = s
    | Panic why => o = Panic why ∧ ¬ well_formed r ∧ s' = s
    end) w.
Proof.
  intros HR. pose proof (wp_decode r s w HR) as Hd. pose proof (handle_decode r w) as Hh.
  unfold wp in *. destruct (decode r w) as [[c|st|p] w1] eqn:Hdec.
  - destruct Hd as (HR1 & Hw1 & Hc).
    pose proof (service_contract c s w1 HR1) as Hs. unfold wp in Hs.
    destruct (run_service c w1) as [o w2].
    destruct Hs as (resp & s' & Hresp & HR' & Hstep & Hok).
    assert (He : ∀ v, resp = Done v → has_cursor v ∧ ∃ p, encode c v = inr p).
    { intros v ->. destruct Hstep as [_ Hstep].
      destruct (rejected c); [by destruct Hstep|]. destruct Hstep as [now Hstep].
      inversion Hstep; subst. by eapply encode_done. }
    destruct Hh as [Hw2 Ha].
    { destruct o as [v| |]; [|done..]. injection Hresp as <-. by apply He. }
    destruct (handle r w) as [o' w2']. simpl in Hw2, Ha. subst w2'. exists s'. split; [done|].
    assert (Hdraw : draws c = true → repo_drawn w c = repo_drawn w1 c).
    { intros Hc'. by rewrite (decode_draws _ _ _ _ Hdec Hc'). }
    exists resp. split_and!; [by eapply redrawn_service_step| |].
    { intros Hhw. destruct (Hok (Hw1 Hhw)). split; [done|]. by eapply redrawn_service_ok_step. }
    destruct o as [v|e|?]; [| |done]; simpl in Hresp, Ha; injection Hresp as <-; simpl.
    + destruct (He v eq_refl) as [_ [p Hp]]. rewrite Hp in Ha. by exists p.
    + destruct (grpc_code e) as (msg & Heq & Hmsg). rewrite Heq in Ha. by exists msg.
  - destruct Hd as (HR1 & _ & Hst). rewrite Hh. by exists s.
  - destruct Hd as (HR1 & _ & Hwf). rewrite Hh. by exists s.
Qed.

End lawful.
End Rpc.
