(* ===== verification/DocListing.v ===== *)
(** Clients that page through the two listings of the document service: the
    loop that asks again with the cursor of the last answer until a page is
    empty, and what it collects. *)

From S2P Require Import Prelude GoLib Paging DocDomain DocService DocSpec DocContract.
Import Spec Contract.

Module Listing.

(** ** The client loops *)
Section loops.
Context {W : Type} `{Clock W} `{DocumentRepository W}.

Fixpoint list_all_documents (fuel : nat) (p : uuid) (levels : list PermissionLevel)
    (cursor : option Cursor) (n : Z) : go W error (list DocumentPermission) :=
  match fuel with
  | O => mret []
  | S fuel' =>
      answer ← DocumentService.ListDocumentsByPrincipal p levels cursor n;
      match answer.1 with
      | [] => mret []
      | page => rest ← list_all_documents fuel' p levels answer.2 n; mret (page ++ rest)
      end
  end.

Fixpoint list_all_permissions (fuel : nat) (d : uuid) (levels : list PermissionLevel)
    (cursor : option Cursor) (n : Z) : go W error (list Permission) :=
  match fuel with
  | O => mret []
  | S fuel' =>
      answer ← DocumentService.ListPermissionsOnDocument d levels cursor n;
      match answer.1 with
      | [] => mret []
      | page => rest ← list_all_permissions fuel' d levels answer.2 n; mret (page ++ rest)
      end
  end.
End loops.

(** ** The listed rows *)
Lemma lists_documents_unique s p lv l l' :
  lists_documents s p lv l → lists_documents s p lv l' → l ≡ₚ l'.
Proof.
  intros [Hnd Hl] [Hnd' Hl']. apply NoDup_Permutation.
  - rewrite <- list_fmap_compose in Hnd. by eapply NoDup_fmap_1.
  - rewrite <- list_fmap_compose in Hnd'. by eapply NoDup_fmap_1.
  - intros [[d a] e]. by rewrite Hl, Hl'.
Qed.

Lemma lists_permissions_unique a lv l l' :
  lists_permissions a lv l → lists_permissions a lv l' → l ≡ₚ l'.
Proof.
  intros [Hnd Hl] [Hnd' Hl'].
  apply NoDup_Permutation; [by eapply NoDup_fmap_1|by eapply NoDup_fmap_1|].
  intros [r e]. by rewrite Hl, Hl'.
Qed.

Lemma key_uuid_NoDup {A} (t : A → Z) (u : A → uuid) (l : list A) :
  NoDup (u <$> l) → NoDup ((λ x, (t x, uuid_num (u x))) <$> l).
Proof. apply NoDup_fmap_coarser. intros x y [= _ ?%(inj uuid_num)]. done. Qed.

Lemma document_keys f s p lv l : lists_documents s p lv l → NoDup (document_key f <$> l).
Proof. intros [Hnd _]. rewrite <- list_fmap_compose in Hnd. by apply key_uuid_NoDup. Qed.

Lemma permission_keys f a lv l : lists_permissions a lv l → NoDup (permission_key f <$> l).
Proof. intros [Hnd _]. by apply key_uuid_NoDup. Qed.

(** the cursor returned with a page is the key of its last row *)
Lemma documents_cursor_key c pg x :
  last pg = Some x →
  cursor_key (documents_cursor c (document_permission_view <$> pg)) =
    document_key (Cursor_SortField c) x ∧
  Cursor_SortField (documents_cursor c (document_permission_view <$> pg)) = Cursor_SortField c.
Proof. intros Hx. unfold documents_cursor. by rewrite fmap_last, Hx. Qed.

(** with a permission the repository reports the creation time only *)
Lemma permissions_cursor_key c d pg x :
  last pg = Some x →
  cursor_key (permissions_cursor c ((λ x, permission_view x.1 d x.2) <$> pg)) =
    permission_key CreatedAt x ∧
  Cursor_SortField (permissions_cursor c ((λ x, permission_view x.1 d x.2) <$> pg)) =
    Cursor_SortField c.
Proof.
  intros Hx. unfold permissions_cursor. rewrite fmap_last, Hx. simpl. split; [|done].
  unfold cursor_key. simpl. by destruct (_ =? CreatedAt)%Z.
Qed.

(** ** One page *)
Section pages.
Context {W : Type} `{LR : LawfulRepository W}.

(** arguments the service forwards as they are *)
Definition plain (levels : list PermissionLevel) (n : Z) : Prop := levels ≠ [] ∧ (1 <= n <= 100)%Z.

Lemma forwarded_documents now p ls c n :
  plain ls n → forwarded now (CListDocuments p ls (Some c) n) = CListDocuments p ls (Some c) n.
Proof.
  intros [Hls Hn]. simpl. destruct ls; [done|].
  by rewrite (proj2 (Z.leb_le 1 n)), (proj2 (Z.leb_le n 100)) by lia.
Qed.

Lemma forwarded_permissions now d ls c n :
  plain ls n → forwarded now (CListPermissions d ls (Some c) n) = CListPermissions d ls (Some c) n.
Proof.
  intros [Hls Hn]. simpl. destruct ls; [done|].
  by rewrite (proj2 (Z.leb_le 1 n)), (proj2 (Z.leb_le n 100)) by lia.
Qed.

Lemma ok_list_documents i s p ls lv c n l r s' :
  plain ls n → mapM level_of ls = Some lv → valid_field (Cursor_SortField c) = true →
  lists_documents s p lv l → ok_step i s (CListDocuments p ls (Some c) n) r s' →
  let pg := document_permission_view <$>
              page (document_key (Cursor_SortField c)) (cursor_key c) (Z.to_nat n) l in
  s' = s ∧ r = Done (VDocuments pg (Some (documents_cursor c pg))).
Proof.
  intros [Hls Hn] Hlv Hf Hl Hok pg. unfold pg. inversion Hok; subst;
    try (match goal with H : _ ∨ _ |- _ => destruct H end); try congruence; try lia.
  match goal with H1 : mapM level_of ls = Some ?lv', H2 : lists_documents s' p ?lv' ?l' |- _ =>
    assert (lv' = lv) as -> by congruence;
    rewrite (page_perm _ _ _ l' l); [done|by eapply document_keys|by eapply lists_documents_unique]
  end.
Qed.

Lemma ok_list_permissions i s d ls lv c n a l r s' :
  plain ls n → mapM level_of ls = Some lv → valid_field (Cursor_SortField c) = true →
  s !! d = Some a → lists_permissions a lv l → ok_step i s (CListPermissions d ls (Some c) n) r s' →
  let pg := (λ x, permission_view x.1 d x.2) <$>
              page (permission_key (Cursor_SortField c)) (cursor_key c) (Z.to_nat n) l in
  s' = s ∧ r = Done (VPermissions pg (Some (permissions_cursor c pg))).
Proof.
  intros [Hls Hn] Hlv Hf Ha Hl Hok pg. unfold pg. inversion Hok; subst;
    try (match goal with H : _ ∨ _ |- _ => destruct H end); try congruence; try lia.
  match goal with H1 : mapM level_of ls = Some ?lv', H0 : s' !! d = Some ?a',
                  H2 : lists_permissions ?a' ?lv' ?l' |- _ =>
    assert (lv' = lv) as -> by congruence; assert (a' = a) as -> by congruence;
    rewrite (page_perm _ _ _ l' l);
      [done|by eapply permission_keys|by eapply lists_permissions_unique]
  end.
Qed.

Lemma wp_documents_page s p ls lv c n l w :
  repo_rel w s → repo_healthy w → plain ls n → mapM level_of ls = Some lv →
  valid_field (Cursor_SortField c) = true → lists_documents s p lv l →
  wp (DocumentService.ListDocumentsByPrincipal p ls (Some c) n) (λ o w',
    repo_rel w' s ∧ repo_healthy w' ∧
    let pg := document_permission_view <$>
                page (document_key (Cursor_SortField c)) (cursor_key c) (Z.to_nat n) l in
    o = Ret (pg, Some (documents_cursor c pg))) w.
Proof.
  intros HR Hw Hpl Hlv Hf Hl.
  pose proof (service_contract (CListDocuments p ls (Some c) n) s w HR) as Hc.
  unfold wp in *. simpl in Hc. unfold mbind, go_bind in Hc.
  destruct (DocumentService.ListDocumentsByPrincipal p ls (Some c) n w) as [o w'].
  destruct o as [[pg c']|e|?]; destruct Hc as (r & s' & Hr & HR' & _ & Hh);
    destruct (Hh Hw) as [Hw' [_ [now Hok]]]; rewrite forwarded_documents in Hok by done;
    destruct (ok_list_documents _ _ _ _ _ _ _ _ _ _ Hpl Hlv Hf Hl Hok) as [-> Hr'];
    rewrite Hr' in Hr; simplify_eq/=; done.
Qed.

Lemma wp_permissions_page s d ls lv c n a l w :
  repo_rel w s → repo_healthy w → plain ls n → mapM level_of ls = Some lv →
  valid_field (Cursor_SortField c) = true → s !! d = Some a → lists_permissions a lv l →
  wp (DocumentService.ListPermissionsOnDocument d ls (Some c) n) (λ o w',
    repo_rel w' s ∧ repo_healthy w' ∧
    let pg := (λ x, permission_view x.1 d x.2) <$>
                page (permission_key (Cursor_SortField c)) (cursor_key c) (Z.to_nat n) l in
    o = Ret (pg, Some (permissions_cursor c pg))) w.
Proof.
  intros HR Hw Hpl Hlv Hf Ha Hl.
  pose proof (service_contract (CListPermissions d ls (Some c) n) s w HR) as Hc.
  unfold wp in *. simpl in Hc. unfold mbind, go_bind in Hc.
  destruct (DocumentService.ListPermissionsOnDocument d ls (Some c) n w) as [o w'].
  destruct o as [[pg c']|e|?]; destruct Hc as (r & s' & Hr & HR' & _ & Hh);
    destruct (Hh Hw) as [Hw' [_ [now Hok]]]; rewrite forwarded_permissions in Hok by done;
    destruct (ok_list_permissions _ _ _ _ _ _ _ _ _ _ _ Hpl Hlv Hf Ha Hl Hok) as [-> Hr'];
    rewrite Hr' in Hr; simplify_eq/=; done.
Qed.

(** ** All pages *)
Lemma list_documents_pages fuel s p ls lv c n l w :
  repo_rel w s → repo_healthy w → plain ls n → mapM level_of ls = Some lv →
  valid_field (Cursor_SortField c) = true → lists_documents s p lv l →
  wp (list_all_documents fuel p ls (Some c) n) (λ o w',
    repo_rel w' s ∧ repo_healthy w' ∧
    o = Ret (document_permission_view <$>
               pages (document_key (Cursor_SortField c)) fuel (cursor_key c) (Z.to_nat n) l)) w.
Proof.
  intros HR Hw Hpl Hlv Hf Hl. revert c w HR Hw Hf.
  unfold pages.
  induction fuel as [|fuel IH]; intros c w HR Hw Hf; cbn [list_all_documents pages_by]; [done|].
  apply wp_bind. eapply wp_mono; [by eapply wp_documents_page|].
  intros o w1 (HR1 & Hw1 & ->). cbn [fst snd].
  destruct (last _) as [x|] eqn:Hlast.
  - destruct (documents_cursor_key c _ _ Hlast) as [Hkey Hsort].
    destruct (page _ _ _ l) as [|y pg]; [done|]. rewrite fmap_cons in *. cbn iota.
    apply wp_bind. eapply wp_mono; [apply IH; [done..|by rewrite Hsort]|].
    intros o w2 (HR2 & Hw2 & ->). apply wp_ret. split_and!; [done..|].
    by rewrite Hkey, Hsort, fmap_app, fmap_cons.
  - apply last_None in Hlast. by rewrite Hlast.
Qed.

(** the cursor after a page is the creation time of its last permission, in
    either order *)
Lemma list_permissions_pages fuel s d ls lv c n a l w :
  repo_rel w s → repo_healthy w → plain ls n → mapM level_of ls = Some lv →
  valid_field (Cursor_SortField c) = true → s !! d = Some a → lists_permissions a lv l →
  wp (list_all_permissions fuel d ls (Some c) n) (λ o w',
    repo_rel w' s ∧ repo_healthy w' ∧
    o = Ret ((λ x, permission_view x.1 d x.2) <$>
               pages_by (permission_key (Cursor_SortField c)) (permission_key CreatedAt) fuel
                 (cursor_key c) (Z.to_nat n) l)) w.
Proof.
  intros HR Hw Hpl Hlv Hf Ha Hl. revert c w HR Hw Hf.
  induction fuel as [|fuel IH]; intros c w HR Hw Hf; cbn [list_all_permissions pages_by]; [done|].
  apply wp_bind. eapply wp_mono; [by eapply wp_permissions_page|].
  intros o w1 (HR1 & Hw1 & ->). cbn [fst snd].
  destruct (last _) as [x|] eqn:Hlast.
  - destruct (permissions_cursor_key c d _ _ Hlast) as [Hkey Hsort].
    destruct (page _ _ _ l) as [|y pg]; [done|]. rewrite fmap_cons in *. cbn iota.
    apply wp_bind. eapply wp_mono; [apply IH; [done..|by rewrite Hsort]|].
    intros o w2 (HR2 & Hw2 & ->). apply wp_ret. split_and!; [done..|].
    by rewrite Hkey, Hsort, fmap_app, fmap_cons.
  - apply last_None in Hlast. by rewrite Hlast.
Qed.
End pages.

End Listing.
