(* ===== verification/Examples.v ===== *)
(** Concrete values for the parameters of the development, at which the
    theorems that have hypotheses are instantiated: a UUID codec that satisfies
    the laws, error texts, and worlds with and without faults. *)

From S2P Require Import Prelude GoLib Pgx Grpc DocDomain DocSql DocRepository.
From Stdlib Require Import Strings.Byte.

Module Examples.

(** ** A codec for UUIDs: their sixteen bytes *)
Definition from_bytes (l : list byte) : string + uuid :=
  match to_vec 16 l with
  | Some u => inr u
  | None => inl "invalid UUID (got a wrong number of bytes)"
  end.

#[global] Instance lib : UuidLib := {|
  uuid_String u := String.string_of_list_byte (vec_to_list u);
  uuid_Parse s := from_bytes (String.list_byte_of_string s);
  uuid_Parse_read _ := uuid_Nil;
  uuid_FromBytes := from_bytes;
|}.

#[global] Instance lib_laws : UuidLaws.
Proof.
  split; intros u; simpl; unfold from_bytes.
  - by rewrite String.list_byte_of_string_of_list_byte, to_vec_to_list.
  - by rewrite to_vec_to_list.
Qed.

#[global] Instance texts : ErrorText := {|
  db_error_Error _ := "database error";
  pb_enum_String _ n := pretty n;
  pgtype_UUID_String u := String.string_of_list_byte (vec_to_list u);
|}.

#[global] Instance timestamps : TimestampLib := {|
  timestamppb_New t := mkTimestamp (t / 10 ^ 9) (t mod 10 ^ 9);
  timestamppb_AsTime ts := (Seconds ts * 10 ^ 9 + Nanos ts)%Z;
|}.

#[global] Instance timestamps_laws : TimestampLaws.
Proof.
  split; intros t; simpl; [|done].
  pose proof (Z.div_mod t (10 ^ 9)%Z). lia.
Qed.

(** ** UUIDs and worlds *)
Definition byte_of (n : nat) : byte := default x00 (Byte.of_nat n).

(** the UUID whose last byte is [n] *)
Definition id_of (n : nat) : uuid := vinsert 15%fin (byte_of n) uuid_Nil.

(** the clock and the random UUIDs follow the ticks; nothing fails *)
Definition calm : Env := mkEnv (λ n, id_of (100 + n)) (λ n, Z.of_nat (1000 + n)) (λ _, None).

(** the interaction number [k] is executed by the server, but the client gets
    an error *)
Definition flaky (k : nat) : Env :=
  mkEnv (λ n, id_of (100 + n)) (λ n, Z.of_nat (1000 + n))
    (λ n, if decide (n = k) then Some (Acknowledged_late "connection reset by peer") else None).

Definition start (e : Env) : DocWorld := mkWorld sqlc.empty_db None 0 e.

Lemma calm_healthy : healthy (start calm).
Proof. by intros n _. Qed.

End Examples.
