(* ===== verification/DocTheorems.v ===== *)
(** The correctness theorems of the document service: the repository over its
    tables, the service over the contract of the repository, and both together
    from the empty database on. *)

From S2P Require Import Prelude GoLib Paging Pgx DocDomain DocService DocSql DocRepository.
From S2P Require Import DocSpec DocRefine DocLawful DocContract DocListing Examples.
Import Spec Refine Lawful Contract Listing.

(** * The tables *)

(** what holds of the three tables between two requests *)
Record table_invariant (db : sqlc.Db) : Prop := {
  document_keyed d row : sqlc.documents db !! d = Some row → sqlc.Document_ID row = d;
  permission_keyed r d row :
    sqlc.permissions db !! (r, d) = Some row →
    sqlc.Permission_RecipientID row = r ∧ sqlc.Permission_DocumentID row = d;
  permission_document r d row :
    sqlc.permissions db !! (r, d) = Some row → is_Some (sqlc.documents db !! d);
  guest_document g row :
    sqlc.guests db !! g = Some row → is_Some (sqlc.documents db !! sqlc.Guest_DocumentID row);
  guest_permission r d row :
    sqlc.permissions db !! (r, d) = Some row →
    sqlc.Permission_RecipientType row = sqlc.RecipientTypeGuest →
    ∃ g, sqlc.guests db !! r = Some g ∧ sqlc.Guest_DocumentID g = d;
  one_owner d r1 r2 row1 row2 :
    sqlc.permissions db !! (r1, d) = Some row1 → sqlc.permissions db !! (r2, d) = Some row2 →
    sqlc.Permission_PermissionLevel row1 = sqlc.PermissionLevelOwner →
    sqlc.Permission_PermissionLevel row2 = sqlc.PermissionLevelOwner → r1 = r2;
}.

Lemma R_permission db s r d row :
  R db s → sqlc.permissions db !! (r, d) = Some row →
  ∃ a e, s !! d = Some a ∧ d_perms a !! r = Some e ∧ row = perm_row d r e.
Proof.
  intros HR Hrow. rewrite (R_perm _ _ HR) in Hrow. apply fmap_Some in Hrow as (e & He & ->).
  apply bind_Some in He as (a & Ha & He). eauto 10.
Qed.

Lemma R_document_Some db s d a : R db s → s !! d = Some a → is_Some (sqlc.documents db !! d).
Proof. intros HR Ha. rewrite (R_doc _ _ HR), Ha. by eexists. Qed.

Lemma R_table_invariant db s :
  R db s → guests_registered s → single_owner s → table_invariant db.
Proof.
  intros HR Hg Ho. split.
  - intros d row. rewrite (R_doc _ _ HR). by intros (a & _ & ->)%fmap_Some.
  - intros r d row (a & e & _ & _ & ->)%(R_permission _ _ _ _ _ HR). done.
  - intros r d row (a & e & Ha & _ & _)%(R_permission _ _ _ _ _ HR). by eapply R_document_Some.
  - intros g row (d & a & ge & Ha & _ & ->)%(R_guest _ _ HR). by eapply R_document_Some.
  - intros r d row (a & e & Ha & He & ->)%(R_permission _ _ _ _ _ HR) Ht.
    simpl in Ht. destruct (Hg d a r e Ha He) as [ge Hge]; [by destruct (e_type e)|].
    exists (guest_row d r ge). split; [|done]. apply (R_guest _ _ HR). eauto 10.
  - intros d r1 r2 ? ? (a & e1 & Ha & He1 & ->)%(R_permission _ _ _ _ _ HR)
      (a' & e2 & Ha' & He2 & ->)%(R_permission _ _ _ _ _ HR) H1 H2.
    rewrite Ha in Ha'. injection Ha' as <-. simpl in H1, H2.
    apply (Ho d a r1 r2 e1 e2); [done..| |]; [by destruct (e_level e1)|by destruct (e_level e2)].
Qed.

(** * Sequences of requests *)
Section runs.
Context {W : Type} `{LR : LawfulRepository W}.

Definition run_services (cs : list call) (w : W) : W := foldl (λ w c, (run_service c w).2) w cs.

Lemma rejected_owner now c : rejected c = false → grants_no_owner (forwarded now c).
Proof. destruct c; simpl; try done; intros H2%Z.eqb_neq; done. Qed.

Lemma service_step_invariant (I : state → Prop) i s c r s' :
  (∀ i c r s s', grants_no_owner c → ok_step i s c r s' → I s → I s') →
  service_step (step i) s c r s' → I s → I s'.
Proof.
  intros HI [_ Hs]. destruct (rejected c) eqn:Hr; [by destruct Hs as [_ ->]|].
  destruct Hs as [now Hs]. apply (step_invariant I _ _ _ _ _ (λ r s', HI _ _ r s s' (rejected_owner now c Hr)) Hs).
Qed.

Lemma run_services_invariant (I : state → Prop) cs s w :
  (∀ i c r s s', grants_no_owner c → ok_step i s c r s' → I s → I s') →
  repo_rel w s → I s → ∃ s', repo_rel (run_services cs w) s' ∧ I s'.
Proof.
  intros HI. revert s w. induction cs as [|c cs IH]; intros s w HR Hs; [by exists s|].
  pose proof (service_contract c s w HR) as Hc. unfold wp in Hc. simpl.
  destruct (run_service c w) as [o w']. destruct Hc as (r & s' & _ & HR' & Hstep & _).
  eapply IH; [exact HR'|]. by eapply service_step_invariant.
Qed.
End runs.

(** * The repository and the service against their contracts *)
Section contracts.
Context `{UuidLaws} `{ErrorText}.

(** C1: Run against a database that may lose or acknowledge late any
    interaction, every method of the PostgreSQL repository returns (it never
    panics), leaves no transaction open, and makes a step of the abstract
    specification, in which a created document or guest has the random id that
    was drawn: exactly the specified answer and state when no fault occurs, and
    otherwise a repository error with the effect of the call absent or
    complete, never partial. *)
Theorem repository_refines_specification c s (w : DocWorld) :
  RW w s →
  wp (run_call c) (λ o w',
    ∃ r s', respond o = Some r ∧ RW w' s' ∧ step (drawn w c) s c r s' ∧
            (healthy w → healthy w' ∧ ok_step (drawn w c) s c r s')) w.
Proof. intros HR. by apply run_step. Qed.

(** C2: From the empty database on, whatever requests the service is sent and
    whatever faults the database has, the tables keep their invariant between
    two requests: rows are stored under their keys, permissions and guests
    reference documents that exist, every guest permission belongs to a
    registered guest of the same document, and a document has at most one
    owner. *)
Theorem tables_invariant_kept cs (w : DocWorld) :
  w_db w = sqlc.empty_db → w_tx w = None →
  w_tx (run_services cs w) = None ∧ table_invariant (w_db (run_services cs w)).
Proof.
  intros Hdb Htx.
  assert (HR : repo_rel w (∅ : state)) by (split; [rewrite Hdb; apply R_empty|done]).
  destruct (run_services_invariant (λ s, guests_registered s ∧ single_owner s) cs ∅ w) as
    (s & [HR' Htx'] & Hg & Ho); [|done|split; by intros ? *|].
  - intros i c r s s' Hc Hstep [Hg Ho].
    split; [by eapply guests_registered_step|by eapply single_owner_step].
  - split; [done|by eapply R_table_invariant].
Qed.

(** * Listings *)

(** C4: A client that lists the documents of a principal page by page, from
    any cursor, in either order and with any page size from 1 to 100, gets
    every document below the cursor that the principal has one of the wanted
    permissions on, each exactly once and in descending order. *)
Theorem list_documents_complete s (w : DocWorld) p levels lv c n l fuel :
  RW w s → healthy w → plain levels n → mapM level_of levels = Some lv →
  valid_field (Cursor_SortField c) = true → lists_documents s p lv l →
  (length l < fuel)%nat →
  let key := document_key (Cursor_SortField c) in
  wp (list_all_documents fuel p levels (Some c) n) (λ o _,
    o = Ret (document_permission_view <$> order_desc key (below key (cursor_key c) l))) w.
Proof.
  intros HR Hw Hpl Hlv Hf Hl Hfuel key.
  eapply wp_mono; [by apply (list_documents_pages fuel s p levels lv c n l w)|].
  intros o w' (_ & _ & ->). unfold key. rewrite pages_complete; [done|..].
  - by eapply document_keys.
  - destruct Hpl; lia.
  - pose proof (length_filter (λ x, key_ltb (document_key (Cursor_SortField c) x) (cursor_key c) = true) l).
    unfold below. lia.
Qed.

(** C19: The permissions on a document, paged in order of creation, come out
    completely, each once and in descending order. *)
Theorem list_permissions_complete s (w : DocWorld) d a levels lv c n l fuel :
  RW w s → healthy w → plain levels n → mapM level_of levels = Some lv →
  Cursor_SortField c = CreatedAt → s !! d = Some a → lists_permissions a lv l →
  (length l < fuel)%nat →
  let key := permission_key CreatedAt in
  wp (list_all_permissions fuel d levels (Some c) n) (λ o _,
    o = Ret ((λ x, permission_view x.1 d x.2) <$> order_desc key (below key (cursor_key c) l))) w.
Proof.
  intros HR Hw Hpl Hlv Hf Ha Hl Hfuel key.
  eapply wp_mono; [apply (list_permissions_pages fuel s d levels lv c n a l w); try done; by rewrite Hf|].
  intros o w' (_ & _ & ->). unfold key.
  rewrite Hf. fold (pages (permission_key CreatedAt)). rewrite pages_complete; [done|..].
  - by eapply permission_keys.
  - destruct Hpl; lia.
  - pose proof (length_filter (λ x, key_ltb (permission_key CreatedAt x) (cursor_key c) = true) l).
    unfold below. lia.
Qed.

(** C34: A client that pages through the permissions of a document in order of
    their last change loses some of them. The repository reports the creation
    time of a permission as the time of its last change, so the cursor after a
    page is too old: a permission that the first page has no room for, and that
    was changed no earlier than the last permission of that page was created,
    is on none of the pages, however long the client asks. *)
Theorem permissions_by_last_change_skip_rows s (w : DocWorld) d a levels lv c n l fuel x y :
  RW w s → healthy w → plain levels n → mapM level_of levels = Some lv →
  Cursor_SortField c = LastModifiedAt → s !! d = Some a → lists_permissions a lv l →
  (∀ z, z ∈ l → (e_created z.2 <= e_modified z.2)%Z) →
  let key := permission_key LastModifiedAt in
  let first := page key (cursor_key c) (Z.to_nat n) l in
  last first = Some x → y ∈ below key (cursor_key c) l → y ∉ first →
  key_le (permission_key CreatedAt x) (key y) →
  wp (list_all_permissions fuel d levels (Some c) n) (λ o _,
    ∃ got, o = Ret got ∧ permission_view y.1 d y.2 ∉ got) w.
Proof.
  intros HR Hw Hpl Hlv Hf Ha Hl Hage key first Hx Hy Hout Hlate.
  eapply wp_mono; [apply (list_permissions_pages fuel s d levels lv c n a l w); try done; by rewrite Hf|].
  intros o w' (_ & _ & ->). eexists. split; [done|]. rewrite Hf. fold key.
  apply elem_of_below in Hy as [_ Hy]. destruct Hl as [Hnd Hl].
  assert (Hsub : ∀ z fuel c, z ∈ pages_by key (permission_key CreatedAt) fuel c (Z.to_nat n) l → z ∈ l).
  { intros z. clear. induction fuel as [|fuel IH]; intros c; simpl; [by intros ?%elem_of_nil|].
    destruct (last _); [rewrite elem_of_app; intros [Hz|Hz]|intros Hz]; eauto using elem_of_page. }
  assert (Hskip : y ∉ pages_by key (permission_key CreatedAt) fuel (cursor_key c) (Z.to_nat n) l).
  { destruct fuel as [|fuel]; simpl; [by intros ?%elem_of_nil|]. fold first. rewrite Hx.
    apply not_elem_of_app. split; [done|]. apply pages_by_skip; [|done].
    intros z Hz. apply key_le_spec. specialize (Hage z Hz). simpl. lia. }
  intros (z & Hz & Hin)%list_elem_of_fmap. apply Hskip.
  assert (y = z) as ->; [|done]. apply Hsub in Hin.
  destruct y as [r e], z as [r' e']. simpl in Hz. injection Hz as <- _ _ _ _.
  f_equal. apply Hl in Hy as [Hy _], Hin as [Hin _]. congruence.
Qed.

(** C33: A request without a cursor starts from the time of the request and the
    greatest UUID: when every document listed was created up to then, and none
    has the greatest UUID as its id, a client that follows it sees all of them,
    each once and in descending order. *)
Theorem list_documents_from_now s (w : DocWorld) p levels lv n l fuel :
  RW w s → healthy w → plain levels n → mapM level_of levels = Some lv →
  lists_documents s p lv l → (length l < fuel)%nat →
  (∀ x, x ∈ l → (d_created x.1.2 <= env_now (w_env w) (w_tick w))%Z ∧ x.1.1 ≠ MaxDocumentID) →
  wp (list_all_documents fuel p levels None n) (λ o _,
    o = Ret (document_permission_view <$> order_desc (document_key CreatedAt) l)) w.
Proof.
  intros HR Hw Hpl Hlv Hl Hfuel Hold.
  set (c := mkCursor CreatedAt (env_now (w_env w) (w_tick w)) MaxDocumentID).
  pose proof (list_documents_pages fuel s p levels lv c n l (tick w)) as Hpages.
  destruct fuel as [|fuel]; [lia|].
  assert (Heq : list_all_documents (S fuel) p levels None n w =
                list_all_documents (S fuel) p levels (Some c) n (tick w)) by done.
  unfold wp in Hpages |- *. rewrite Heq.
  destruct (list_all_documents _ _ _ _ _ _) as [o w'].
  destruct Hpages as (_ & _ & ->); [by destruct HR; split|by apply healthy_tick|done..|].
  assert (Hbelow : below (document_key CreatedAt) (cursor_key c) l = l).
  { apply list_filter_all, Forall_forall. intros x Hx. destruct (Hold x Hx) as [Ht Hid].
    apply key_ltb_spec. pose proof (MaxDocumentID_max x.1.1) as Hmax.
    assert (uuid_num x.1.1 ≠ uuid_num MaxDocumentID) by (intros ?%(inj uuid_num); done).
    unfold c, cursor_key, document_key. simpl. lia. }
  change (Cursor_SortField c) with CreatedAt.
  rewrite pages_complete; rewrite ?Hbelow; [done|by eapply document_keys|destruct Hpl; lia|done].
Qed.

(** * Operations one after the other *)

(** a request to the service when no fault occurs *)
Lemma service_ok c s (w : DocWorld) :
  RW w s → healthy w → rejected c = false →
  wp (run_service c) (λ o w', ∃ r s' now, respond o = Some r ∧ RW w' s' ∧ healthy w' ∧
        ok_step (drawn w c) s (forwarded now c) r s') w.
Proof.
  intros HR Hw Hrej. eapply wp_mono; [by apply (service_contract c s w)|].
  intros o w' (r & s' & Hr & HR' & _ & Hh). destruct (Hh Hw) as [Hw' [_ Hs]].
  rewrite Hrej in Hs. destruct Hs as [now Hs]. by exists r, s', now.
Qed.

(** runs the next request of a sequence; [Hok] is its step *)
Ltac request Hok :=
  let o := fresh "o" in let w' := fresh "w'" in let r := fresh "r" in let Hr := fresh "Hr" in
  apply wp_bind; eapply wp_mono; [by eapply service_ok|];
  intros o w' (r & ? & ? & Hr & ? & ? & Hok); simpl in Hok; inversion Hok; subst;
  try congruence; destruct o; simpl in *|-; simplify_eq; cbn beta iota.

(** C29: An update of a document is what the next read returns: a field that
    was not given keeps its value, and so does the modification time. *)
Theorem update_document_then_get s (w : DocWorld) d a n ds :
  RW w s → healthy w → s !! d = Some a → (n, ds) ≠ (None, None) →
  wp (_ ← run_service (CUpdateDocument d n ds); run_service (CGetDocument d)) (λ o _,
    o = Ret (VDocument (mkDocument d
          (match n with Some _ => n | None => d_name a end)
          (match ds with Some _ => ds | None => d_description a end)
          (d_created a) (d_modified a)))) w.
Proof.
  intros HR Hw Ha Hn.
  assert (rejected (CUpdateDocument d n ds) = false) by (destruct n, ds; done).
  request Hok. eapply wp_mono; [by eapply service_ok|].
  intros o w2 (r & s2 & now & Hr & _ & _ & Hok2). simpl in Hok2.
  inversion Hok2; subst; rewrite lookup_insert_eq in *; [|done]. destruct o; simplify_eq/=. done.
Qed.

(** creates a document and reads it back, with the permission of its creator *)
Definition create_and_read (u : uuid) (n ds : option string)
    : go DocWorld error (uuid * value * value) :=
  id ← DocumentService.CreateDocument u n ds;
  x ← run_service (CGetDocument id);
  p ← run_service (CGetPermission id u);
  mret (id, x, p).

(** the document gets the id that is drawn, if that is free *)
Lemma wp_create s (w : DocWorld) u n ds :
  RW w s → healthy w →
  wp (DocumentService.CreateDocument u n ds) (λ o w',
    let id := env_uuid (w_env w) (S (w_tick w)) in
    match s !! id with
    | None => o = Ret id ∧ ∃ now, RW w' (<[id := new_document u n ds now]> s) ∧ healthy w'
    | Some _ => ∃ e, o = Err e ∧ kind_of e = KRepoImpl
    end) w.
Proof.
  intros HR Hw.
  pose proof (service_ok (CCreateDocument u n ds) s w HR Hw eq_refl) as Hc.
  unfold wp in Hc |- *. simpl in Hc. unfold mbind, go_bind in Hc.
  destruct (DocumentService.CreateDocument u n ds w) as [o w1]. set (id := env_uuid _ _) in *.
  destruct o as [id'|e|?]; destruct Hc as (r & s1 & _ & Hr & HR1 & Hw1 & Hok); [| |done];
    inversion Hok; subst; simplify_eq/=; case_match; simplify_option_eq; eauto.
  match goal with Hx : is_Some None |- _ => by destruct Hx end.
Qed.

(** C23: A document is created with the random id that is drawn for it. When
    no document has this id, the creation succeeds: the document reads back
    with the given name and description, and its creator is its owner. When a
    document has it, and only then, the creation fails, with a repository
    error. *)
Theorem create_document_then_read s (w : DocWorld) u n ds :
  RW w s → healthy w →
  wp (create_and_read u n ds) (λ o _,
    let id := env_uuid (w_env w) (S (w_tick w)) in
    match s !! id with
    | None => ∃ now, o = Ret (id, VDocument (mkDocument id n ds now now),
                              VPermission (mkPermission u User id Owner u now now))
    | Some _ => ∃ e, o = Err e ∧ kind_of e = KRepoImpl
    end) w.
Proof.
  intros HR Hw. unfold create_and_read. apply wp_bind.
  eapply wp_mono; [by apply (wp_create s)|]. set (id := env_uuid _ _) in *. cbv zeta.
  destruct (s !! id) as [a|]; [by intros o w1 (e & -> & He); exists e|].
  intros o w1 (-> & now & HR1 & Hw1). set (s1 := <[id := _]> s) in *.
  assert (Hs1 : s1 !! id = Some (new_document u n ds now)) by (by unfold s1; rewrite lookup_insert_eq).
  request Hok2. request Hok3.
  2:{ match goal with H : _ ≫= _ = None |- _ => rewrite Hs1 in H; simpl in H;
        by rewrite lookup_singleton_eq in H end. }
  match goal with H : d_perms _ !! u = Some _ |- _ =>
    simpl in H; rewrite lookup_singleton_eq in H; injection H as <- end.
  apply wp_ret. by exists now.
Qed.

(** no row mentions the document *)
Definition unmentioned (db : sqlc.Db) (d : uuid) : Prop :=
  sqlc.documents db !! d = None ∧
  (∀ r, sqlc.permissions db !! (r, d) = None) ∧
  (∀ g row, sqlc.guests db !! g = Some row → sqlc.Guest_DocumentID row ≠ d).

Lemma R_unmentioned db s d : R db s → s !! d = None → unmentioned db d.
Proof.
  intros HR Hd. split_and!.
  - by rewrite (R_doc _ _ HR), Hd.
  - intros r. by rewrite (R_perm _ _ HR), Hd.
  - intros g row (d' & a & ge & Ha & _ & ->)%(R_guest _ _ HR) <-. simpl in Hd. congruence.
Qed.

(** C6: Deleting a list of documents is all or nothing, whatever faults the
    database has: either no document changes, or all of the listed ones are
    gone, together with every permission and guest on them. The call reports
    success only in the second case. *)
Theorem delete_documents_atomic s (w : DocWorld) ids u :
  RW w s →
  wp (DocumentService.DeleteDocuments ids u) (λ o w',
    (RW w' s ∧ ∀ x, o ≠ Ret x) ∨
    (RW w' (delete_all ids s) ∧ NoDup ids ∧ (∀ id, id ∈ ids → is_Some (s !! id)) ∧
     ∀ id, id ∈ ids → unmentioned (w_db w') id)) w.
Proof.
  intros HR. pose proof (service_contract (CDeleteDocuments ids u) s w HR) as Hc.
  unfold wp in Hc |- *. simpl in Hc. unfold mbind, go_bind in Hc.
  destruct (DocumentService.DeleteDocuments ids u w) as [o w'].
  assert (Hr : ∃ r s', RW w' s' ∧ step (drawn w (CDeleteDocuments ids u)) s (CDeleteDocuments ids u) r s' ∧ (∀ x, o = Ret x → r = Done VUnit)).
  { destruct o as [[]|e|?]; destruct Hc as (r & s' & Hr & HR' & [_ [now Hs]] & _);
      exists r, s'; simplify_eq/=; by eauto. }
  clear Hc. destruct Hr as (r & s' & HR' & Hs & Hr).
  assert (s' = s ∧ (∀ x, o ≠ Ret x) ∨ s' = delete_all ids s ∧ NoDup ids ∧ ∀ id, id ∈ ids → is_Some (s !! id))
    as [[-> Ho]|(-> & Hnd & Hall)].
  { inversion Hs as [? ? ? ? Hok|? ?|? ? ? ? Hok]; subst; try inversion Hok; subst;
      first [by right | left; split; [done|intros x Hx; by specialize (Hr x Hx)]]. }
  - by left.
  - right. split_and!; [done..|]. intros id Hid.
    apply (R_unmentioned _ _ _ (proj1 HR')). rewrite lookup_delete_all. by case_decide.
Qed.

(** Every error the service returns is one of its domain errors, which is
    what the gRPC server chooses the status code by, and it never panics. *)
Theorem service_fails_with_domain_errors c s (w : DocWorld) :
  RW w s →
  wp (run_service c) (λ o _,
    match o with
    | Ret _ => True
    | Err e => isDomainError e = true
    | Panic _ => False
    end) w.
Proof.
  intros HR. eapply wp_mono; [by apply (service_contract c s w)|].
  intros [v|e|?] w' (r & s' & Hr & _ & [Hne _] & _); [done| |done].
  by destruct e; simplify_eq/=.
Qed.

(** C35: Granting a user a permission changes the level of the permission the
    user already has, the owner's own one included: the permission is kept and
    gets the level asked for, the other permissions stay as they are, and
    afterwards the document has no owner. *)
Theorem upsert_removes_the_owner s (w : DocWorld) d a u e n l :
  RW w s → healthy w → single_owner s →
  s !! d = Some a → d_perms a !! u = Some e → e_level e = LOwner →
  level_of n = Some l → l ≠ LOwner →
  wp (DocumentService.UpsertPermissionUser u d n) (λ o w',
    o = Ret () ∧
    (∃ now, RW w' (<[d := set_perms (<[u := relevel l now e]> (d_perms a)) a]> s)) ∧
    ∀ r row, sqlc.permissions (w_db w') !! (r, d) = Some row →
      sqlc.Permission_PermissionLevel row ≠ sqlc.PermissionLevelOwner) w.
Proof.
  intros HR Hw Hso Ha He Hl Hn Hne.
  assert (Hrej : rejected (CUpsertPermissionUser u d n) = false).
  { simpl. rewrite (level_of_Some _ _ Hn). by destruct l. }
  pose proof (service_ok (CUpsertPermissionUser u d n) s w HR Hw Hrej) as Hc.
  unfold wp in Hc |- *. simpl in Hc. unfold mbind, go_bind in Hc.
  destruct (DocumentService.UpsertPermissionUser u d n w) as [o w'].
  destruct o as [[]|?|?]; destruct Hc as (r & s' & ? & Hr & HR' & _ & Hok); [| |done];
    inversion Hok; subst; simplify_eq/=; split; [done|].
  unfold upsert in HR'. rewrite He in HR'. split; [by eexists|].
  destruct HR' as [HR' _].
  intros r' row (a' & e' & Ha' & He' & ->)%(R_permission _ _ _ _ _ HR').
  rewrite lookup_insert_eq in Ha'. simplify_eq/=.
  rewrite lookup_insert_Some in He'. destruct He' as [[<- <-]|[Hr' He']]; [by destruct l|].
  intros Howner. apply Hr'. apply (Hso d a u r' e e'); [done..|]. by destruct (e_level e').
Qed.

End contracts.

(** * A concrete document

    A document of alice that bob can view and carol can edit; bob's permission
    was changed last. *)
Module Plan.
Import Examples.

Definition alice : uuid := id_of 1.
Definition bob : uuid := id_of 2.
Definition carol : uuid := id_of 3.
Definition plan : uuid := id_of 50.

Definition owner : entry := mkEntry RUser LOwner alice 1%Z 1%Z.
Definition viewer : entry := mkEntry RUser LViewer bob 2%Z 5%Z.
Definition editor : entry := mkEntry RUser LEditor carol 3%Z 4%Z.

Definition doc0 : doc := mkDoc (Some "plan") None 1%Z 1%Z ∅ ∅.
Definition doc1 : doc := set_perms (<[alice := owner]> (d_perms doc0)) doc0.
Definition doc2 : doc := set_perms (<[bob := viewer]> (d_perms doc1)) doc1.
Definition doc3 : doc := set_perms (<[carol := editor]> (d_perms doc2)) doc2.
Definition state3 : state := {[plan := doc3]}.

Definition put (r : uuid) (e : entry) (db : sqlc.Db) : sqlc.Db :=
  sqlc.set_permissions (<[(r, plan) := perm_row plan r e]> (sqlc.permissions db)) db.
Definition db3 : sqlc.Db :=
  put carol editor (put bob viewer (put alice owner
    (sqlc.set_documents (<[plan := doc_row plan doc0]> ∅) sqlc.empty_db))).

Definition world : DocWorld := mkWorld db3 None 0 calm.

Lemma put_R r e db a :
  R db {[plan := a]} → R (put r e db) {[plan := set_perms (<[r := e]> (d_perms a)) a]}.
Proof.
  intros HR. rewrite <- (insert_singleton_eq plan _ a).
  apply (R_put_perm _ _ HR plan a r e). by rewrite lookup_singleton_eq.
Qed.

Lemma RW_world : RW world state3.
Proof.
  split; [|done]. unfold state3, doc3. do 3 apply put_R.
  apply (R_put_doc _ _ R_empty plan doc0); by rewrite lookup_empty.
Qed.

(** the next id that is drawn is the one of the plan *)
Definition collision : DocWorld :=
  mkWorld db3 None 0 (mkEnv (λ _, plan) (env_now calm) (env_fault calm)).
Lemma RW_collision : RW collision state3.
Proof. split; [exact (proj1 RW_world)|done]. Qed.
Lemma healthy_collision : healthy collision.
Proof. by intros n _. Qed.

Lemma healthy_world : healthy world.
Proof. by intros n _. Qed.

Definition every : list level := [LViewer; LEditor; LOwner].

Lemma plan_permissions : lists_permissions doc3 every (map_to_list (d_perms doc3)).
Proof.
  split; [apply NoDup_fst_map_to_list|]. intros r e. rewrite elem_of_map_to_list.
  split; [|by intros []]. intros He. split; [done|].
  destruct (e_level e); [by left|by right; left|by right; right; left].
Qed.

Lemma alice_owns : d_perms doc3 !! alice = Some owner.
Proof. vm_compute. reflexivity. Qed.

Lemma alice_documents : lists_documents state3 alice every [(plan, doc3, owner)].
Proof.
  split; [apply NoDup_singleton|]. intros id a e. rewrite list_elem_of_singleton. split.
  - intros [= -> -> ->]. unfold state3. rewrite lookup_singleton_eq.
    split_and!; [done|exact alice_owns|by right; right; left].
  - unfold state3. intros (Hid & He & _). apply lookup_singleton_Some in Hid as [<- <-].
    rewrite alice_owns in He. congruence.
Qed.

Lemma state3_owner : single_owner state3.
Proof.
  unfold state3. intros d a r1 r2 e1 e2 [<- <-]%lookup_singleton_Some H1 H2 Ho1 Ho2.
  assert (∀ r e, d_perms doc3 !! r = Some e → e_level e = LOwner → r = alice) as Halice.
  { clear. intros r e.
    change (d_perms doc3) with
      (<[carol := editor]> (<[bob := viewer]> (<[alice := owner]> (∅ : gmap uuid entry)))).
    rewrite !lookup_insert_Some, lookup_empty.
    intros [[<- <-]|[_ [[<- <-]|[_ [[<- <-]|[_ ?]]]]]]; done. }
  rewrite (Halice r1 e1), (Halice r2 e2); done.
Qed.

Definition from_start (f : SortField) : Cursor := mkCursor f 100%Z MaxDocumentID.

Lemma repository_refines_specification_witness :
  RW world state3 ∧
  wp (run_call (CGetDocument plan)) (λ o w',
    ∃ r s', respond o = Some r ∧ RW w' s' ∧
      step (drawn world (CGetDocument plan)) state3 (CGetDocument plan) r s' ∧
      (healthy world → healthy w' ∧
         ok_step (drawn world (CGetDocument plan)) state3 (CGetDocument plan) r s')) world.
Proof.
  split; [exact RW_world|]. exact (repository_refines_specification _ _ _ RW_world).
Defined.

Lemma tables_invariant_kept_witness :
  table_invariant (w_db (run_services
    [CCreateDocument alice (Some "plan") None; CGetDocument plan] (start (flaky 3)))).
Proof.
  exact (proj2 (tables_invariant_kept
    [CCreateDocument alice (Some "plan") None; CGetDocument plan] (start (flaky 3))
    eq_refl eq_refl)).
Defined.

Lemma list_documents_complete_witness :
  wp (list_all_documents 5 alice AllPermissions (Some (from_start CreatedAt)) 10) (λ o _,
    o = Ret (document_permission_view <$>
      order_desc (document_key CreatedAt)
        (below (document_key CreatedAt) (cursor_key (from_start CreatedAt)) [(plan, doc3, owner)])))
    world.
Proof.
  apply (list_documents_complete state3 world alice AllPermissions every (from_start CreatedAt) 10
    [(plan, doc3, owner)] 5 RW_world healthy_world);
    [by split|reflexivity|reflexivity|exact alice_documents|simpl; lia].
Defined.

Lemma list_permissions_complete_witness :
  wp (list_all_permissions 5 plan AllPermissions (Some (from_start CreatedAt)) 1) (λ o _,
    o = Ret ((λ x, permission_view x.1 plan x.2) <$>
      order_desc (permission_key CreatedAt)
        (below (permission_key CreatedAt) (cursor_key (from_start CreatedAt))
          (map_to_list (d_perms doc3))))) world.
Proof.
  apply (list_permissions_complete state3 world plan doc3 AllPermissions every
    (from_start CreatedAt) 1 (map_to_list (d_perms doc3)) 5 RW_world healthy_world);
    [by split|reflexivity|reflexivity|reflexivity|exact plan_permissions|vm_compute; lia].
Defined.

Lemma list_documents_from_now_witness :
  wp (list_all_documents 5 alice AllPermissions None 10) (λ o _,
    o = Ret (document_permission_view <$>
      order_desc (document_key CreatedAt) [(plan, doc3, owner)])) world.
Proof.
  apply (list_documents_from_now state3 world alice AllPermissions every 10
    [(plan, doc3, owner)] 5 RW_world healthy_world);
    [by split|reflexivity|exact alice_documents|simpl; lia|].
  intros x ->%list_elem_of_singleton. split; [by vm_compute|].
  intros Heq. apply (f_equal uuid_num) in Heq. by vm_compute in Heq.
Defined.

Lemma update_document_then_get_witness :
  wp (_ ← run_service (CUpdateDocument plan None (Some "the plan"));
      run_service (CGetDocument plan)) (λ o _,
    o = Ret (VDocument (mkDocument plan (Some "plan") (Some "the plan") 1%Z 1%Z))) world.
Proof.
  apply (update_document_then_get state3 world plan doc3 None (Some "the plan")
    RW_world healthy_world); [reflexivity|done].
Defined.

(** the first id is free; the second one is that of the plan *)
Lemma create_document_then_read_witness :
  wp (create_and_read bob (Some "notes") None) (λ o _,
    ∃ now, o = Ret (id_of 101, VDocument (mkDocument (id_of 101) (Some "notes") None now now),
                    VPermission (mkPermission bob User (id_of 101) Owner bob now now))) world ∧
  wp (create_and_read bob (Some "notes") None) (λ o _,
    ∃ e, o = Err e ∧ kind_of e = KRepoImpl) collision.
Proof.
  split.
  - exact (create_document_then_read state3 world bob (Some "notes") None RW_world healthy_world).
  - exact (create_document_then_read state3 collision bob (Some "notes") None RW_collision
             healthy_collision).
Defined.

Lemma delete_documents_atomic_witness :
  wp (DocumentService.DeleteDocuments [plan] alice) (λ o w',
    (RW w' state3 ∧ ∀ x, o ≠ Ret x) ∨
    (RW w' (delete_all [plan] state3) ∧ NoDup [plan] ∧
     (∀ id, id ∈ [plan] → is_Some (state3 !! id)) ∧
     ∀ id, id ∈ [plan] → unmentioned (w_db w') id)) world.
Proof. exact (delete_documents_atomic state3 world [plan] alice RW_world). Defined.

Lemma service_fails_with_domain_errors_witness :
  wp (run_service (CDeleteDocument bob)) (λ o _,
    match o with
    | Ret _ => True
    | Err e => isDomainError e = true
    | Panic _ => False
    end) world.
Proof. exact (service_fails_with_domain_errors (CDeleteDocument bob) state3 world RW_world). Defined.

Lemma upsert_removes_the_owner_witness :
  wp (DocumentService.UpsertPermissionUser alice plan Viewer) (λ o w',
    o = Ret () ∧
    (∃ now, RW w' (<[plan := set_perms (<[alice := relevel LViewer now owner]> (d_perms doc3)) doc3]>
                     state3)) ∧
    ∀ r row, sqlc.permissions (w_db w') !! (r, plan) = Some row →
      sqlc.Permission_PermissionLevel row ≠ sqlc.PermissionLevelOwner) world.
Proof.
  apply (upsert_removes_the_owner state3 world plan doc3 alice owner Viewer LViewer RW_world
    healthy_world state3_owner); [reflexivity|exact alice_owns|reflexivity|reflexivity|discriminate].
Defined.

(** the first page holds bob, who was changed last; carol is never listed *)
Definition by_change : Cursor := from_start LastModifiedAt.
Definition changed_last : list (uuid * entry) :=
  page (permission_key LastModifiedAt) (cursor_key by_change) (Z.to_nat 1) (map_to_list (d_perms doc3)).

Lemma changed_last_is : changed_last = [(bob, viewer)].
Proof. vm_compute. reflexivity. Qed.

Lemma permissions_by_last_change_skip_rows_witness :
  changed_last = [(bob, viewer)] ∧
  wp (list_all_permissions 10 plan AllPermissions (Some by_change) 1) (λ o _,
    ∃ got, o = Ret got ∧ permission_view carol plan editor ∉ got) world.
Proof.
  split; [exact changed_last_is|].
  refine (permissions_by_last_change_skip_rows state3 world plan doc3 AllPermissions every by_change 1
    (map_to_list (d_perms doc3)) 10 (bob, viewer) (carol, editor) RW_world healthy_world
    (conj _ _) eq_refl eq_refl eq_refl plan_permissions _ _ _ _ _).
  - discriminate.
  - lia.
  - apply Forall_forall. vm_compute. repeat constructor; discriminate.
  - change (last changed_last = Some (bob, viewer)). by rewrite changed_last_is.
  - apply elem_of_below. split; [reflexivity|]. apply elem_of_map_to_list. reflexivity.
  - change ((carol, editor) ∉ changed_last). rewrite changed_last_is.
    intros Hin%list_elem_of_singleton. discriminate.
  - vm_compute. reflexivity.
Defined.

End Plan.
