(* ===== verification/DocInterleaving.v ===== *)
(** What other clients may do between the two statements of
    [UpdatePermissionGuest]
    (document_service/internal/repository/document_repository.go), the one method
    that runs several statements without a transaction. *)

From S2P Require Import Prelude GoLib Paging Pgx DocDomain DocSql DocRepository DocSpec DocRefine DocLawful.
From S2P Require Import DocContract Examples DocTheorems.
Import Spec Refine Lawful Contract.

Module Interleaving.
Section interleaving.
Context `{UuidLaws} `{ErrorText}.

(** [UpdatePermissionGuest] with what others do after it has read the guest *)
Definition UpdatePermissionGuest (others : DocWorld → DocWorld) (guestId : uuid)
    (permissionLevel : PermissionLevel) : go DocWorld error unit :=
  permissionRepo ← lift (DocumentRepository.serviceToRepoPermissionLevel permissionLevel)
    or_return (λ err,
      InvalidInput ("invalid input received for permission: " +:+ pretty permissionLevel)
        (Some err));
  guest ← exec OnPool (sqlc.SelectGuest guestId) or_return (λ err,
    if DocumentRepository.is_no_rows err
    then NotFound ("unable to find a guest with guestId: " +:+ uuid_String guestId)
           (Some (DbErr err))
    else DocumentRepository.because "failed to read guest information" err);
  _ ← (λ w, (Ret (), others w));
  count ← exec OnPool (sqlc.UpdatePermissionGuest guestId (sqlc.Guest_DocumentID guest)
                         permissionRepo)
    or_return DocumentRepository.because "failed to update guest permissions";
  return_if (count <? 1)%Z
    (NotFound ("unable to find permission of guest: " +:+ uuid_String guestId
                 +:+ " on document: " +:+ pgtype_UUID_String (sqlc.Guest_DocumentID guest)) None).

(** with nothing in between it is the method of the repository *)
Lemma alone g n w : UpdatePermissionGuest id g n w = DocumentRepository.UpdatePermissionGuest g n w.
Proof. reflexivity. Qed.

(** what others do keeps the tables in order, and ends in a state with [P] *)
Definition leads_to (others : DocWorld → DocWorld) (s : state) (P : state → Prop) : Prop :=
  ∀ w, RW w s → healthy w → ∃ s1, P s1 ∧ RW (others w) s1 ∧ healthy (others w).

Lemma sql_UpdateGuest_gone db s g d l now :
  R db s → s !! d = None → sqlc.UpdatePermissionGuest g d (level_label l) now db = inr (0%Z, db).
Proof.
  intros HR Hd. unfold sqlc.UpdatePermissionGuest. by rewrite label_valid, (R_perm _ _ HR), Hd.
Qed.

(** the update of the permission of [g] on [d], alone *)
Definition updated (s1 : state) (d g : uuid) (l : level) (o : outcome error ()) (s' : state) : Prop :=
  (∃ a e now, s1 !! d = Some a ∧ d_perms a !! g = Some e ∧ e_type e = RGuest ∧ o = Ret () ∧
     s' = <[d := set_perms (<[g := relevel l now e]> (d_perms a)) a]> s1) ∨
  ((∀ a e, s1 !! d = Some a → d_perms a !! g = Some e → e_type e ≠ RGuest) ∧
   (∃ err, o = Err err ∧ kind_of err = KNotFound) ∧ s' = s1).

Lemma wp_update s w d g l :
  RW w s → healthy w →
  wp (count ← exec OnPool (sqlc.UpdatePermissionGuest g d (level_label l))
        or_return DocumentRepository.because "failed to update guest permissions";
      return_if (count <? 1)%Z
        (NotFound ("unable to find permission of guest: " +:+ uuid_String g
                     +:+ " on document: " +:+ pgtype_UUID_String d) None))
    (λ o w', ∃ s', RW w' s' ∧ updated s d g l o s') w.
Proof.
  intros [HR Htx] Hw. go.
  destruct (s !! d) as [a|] eqn:Ha; [destruct (guest_permission_dec a g) as [(e & He & Ht)|Hno]|].
  - apply (wp_pool_ok _ (λ x db, x = 1%Z ∧ ∃ now,
      R db (<[d := set_perms (<[g := relevel l now e]> (d_perms a)) a]> s))); [| |by intros []].
    + intros now. destruct (sql_UpdateGuest _ _ HR g d a l now Ha)
        as [(e' & He' & _ & db' & Hq & ?)|[Hno _]]; [simplify_eq; eauto 10|naive_solver].
    + intros x db [-> [now HR']]. split; [go|by intros []]. eexists. split; [by split|]. left. by do 3 eexists.
  - apply (wp_pool_ok _ (λ x db, x = 0%Z ∧ db = w_db w)); [| |by intros []].
    + intros now. destruct (sql_UpdateGuest _ _ HR g d a l now Ha) as [(e & He & Ht & _)|[_ Hq]];
        [by destruct (Hno e He)|eauto].
    + intros x db [-> ->]. split; [go|by intros []]. exists s. split; [by split|]. right.
      split_and!; [naive_solver|by eexists|done].
  - apply (wp_pool_ok _ (λ x db, x = 0%Z ∧ db = w_db w)); [| |by intros []].
    + intros now. rewrite (sql_UpdateGuest_gone _ _ _ _ _ _ HR Ha). eauto.
    + intros x db [-> ->]. split; [go|by intros []]. exists s. split; [by split|]. right.
      split_and!; [naive_solver|by eexists|done].
Qed.

(** C20: Between the two statements of [UpdatePermissionGuest], which run without
    a transaction, other clients may do anything that keeps the tables in order:
    the level is changed on the document the guest belonged to, in the state the
    others have left, or the answer is a not-found error and nothing has changed
    since; in particular when the others have deleted the guest. With nothing in
    between it is the method of the repository. *)
Theorem guest_update_interleaves others P s (w : DocWorld) g l :
  RW w s → healthy w → leads_to others s P →
  UpdatePermissionGuest id g (level_num l) w = DocumentRepository.UpdatePermissionGuest g (level_num l) w ∧
  wp (UpdatePermissionGuest others g (level_num l)) (λ o w',
    (unknown_guest g s ∧ RW w' s ∧ ∃ err, o = Err err ∧ kind_of err = KNotFound) ∨
    (∃ d a s1 s', s !! d = Some a ∧ is_Some (d_guests a !! g) ∧ P s1 ∧ RW w' s' ∧
       updated s1 d g l o s')) w.
Proof.
  intros [HR Htx] Hw Hothers. split; [apply alone|]. unfold UpdatePermissionGuest.
  pose proof (unparse_level (level_num l)) as Hn. rewrite level_of_num in Hn. go. rewrite Hn. go.
  destruct (sqlc.guests (w_db w) !! g) as [row|] eqn:Hg.
  - apply (wp_pool_ok _ (λ x db, x = row ∧ db = w_db w)); [| |by intros []].
    { intros now. unfold sqlc.SelectGuest. rewrite Hg. eauto. }
    intros x db [-> ->]. split; [go|by intros []].
    apply (R_guest _ _ HR) in Hg as (d & a & ge & Ha & Hge & ->).
    destruct (Hothers (tick (set_db (w_db w) w))) as (s1 & HP & HR1 & Hw1); [by split|by auto with pgx|].
    unfold wp at 1. cbn beta iota.
    eapply wp_mono; [by apply (wp_update s1)|]. intros o w' (s' & HR' & Hu).
    right. exists d, a, s1, s'. by split_and!; [|eexists|..].
  - apply (wp_pool_err _ ErrNoRows); [| |by intros []].
    { intros now. unfold sqlc.SelectGuest. by rewrite Hg. }
    apply (R_guest_None _ _ HR) in Hg. left. split_and!; [done|by split|by eexists].
Qed.
End interleaving.

(** * Instance of the theorem *)
Module Instances.
Import Examples Plan.

(** gina is a guest of the document of alice *)
Definition gina : uuid := id_of 7.
Definition gina_guest : guest := mkGuestEntry alice 6%Z.
Definition doc4 : doc :=
  let a := set_guests (<[gina := gina_guest]> (d_guests doc3)) doc3 in
  set_perms (<[gina := mkEntry RGuest LViewer alice 6%Z 6%Z]> (d_perms a)) a.
Definition state4 : state := {[plan := doc4]}.
Definition world4 : DocWorld :=
  mkWorld (put gina (mkEntry RGuest LViewer alice 6%Z 6%Z)
    (sqlc.set_guests (<[gina := guest_row plan gina gina_guest]> (sqlc.guests db3)) db3)) None 0 calm.

Lemma RW_world4 : RW world4 state4.
Proof.
  split; [|done]. apply put_R. rewrite <-(insert_singleton_eq plan _ doc3).
  apply (R_put_guest _ _ (proj1 RW_world)); [apply lookup_singleton_eq|].
  intros d a Ha. unfold state3 in Ha. apply lookup_singleton_Some in Ha as [_ <-]. reflexivity.
Qed.
Lemma healthy_world4 : healthy world4.
Proof. by intros n _. Qed.

(** another client deletes the document in between *)
Definition deletion : DocWorld → DocWorld := run_services [CDeleteDocument plan].

Lemma deletion_leads : leads_to deletion state4 (λ s1, s1 !! plan = None).
Proof.
  intros w HR Hw. unfold deletion, run_services, foldl.
  pose proof (service_ok (CDeleteDocument plan) state4 w HR Hw eq_refl) as Hs. unfold wp in Hs.
  destruct (run_service (CDeleteDocument plan) w) as [o w'].
  destruct Hs as (r & s' & now & _ & HR' & Hw' & Hok). exists s'. split_and!; [|done..].
  inversion Hok; subst; [apply lookup_delete_eq|done].
Qed.

Lemma guest_update_interleaves_witness :
  UpdatePermissionGuest id gina (level_num LEditor) world4 =
    DocumentRepository.UpdatePermissionGuest gina (level_num LEditor) world4 ∧
  wp (UpdatePermissionGuest deletion gina (level_num LEditor)) (λ o w',
    (unknown_guest gina state4 ∧ RW w' state4 ∧ ∃ err, o = Err err ∧ kind_of err = KNotFound) ∨
    (∃ d a s1 s', state4 !! d = Some a ∧ is_Some (d_guests a !! gina) ∧ s1 !! plan = None ∧ RW w' s' ∧
       updated s1 d gina LEditor o s')) world4.
Proof.
  apply (guest_update_interleaves deletion (λ s1, s1 !! plan = None) state4 world4 gina LEditor);
    [exact RW_world4|exact healthy_world4|exact deletion_leads].
Defined.
End Instances.
End Interleaving.
