(* ===== verification/DocRpcTheorems.v ===== *)
(** The correctness theorems of the gRPC layer of the document service, over
    the PostgreSQL repository. *)

From S2P Require Import Prelude GoLib Pgx Grpc DocPb DocDomain DocService DocServer.
From S2P Require Import Paging DocSql DocRepository DocSpec DocRefine DocLawful DocContract DocRpc.
From S2P Require Import Examples DocTheorems.
Import Spec Refine Lawful Contract Rpc.

Section rpc.
Context `{UuidLaws} `{ErrorText} `{TimestampLib}.

(** C3: What a gRPC handler of the document service does is determined by what
    its request decodes to. A request that decodes to a call makes one step of
    the service on that call, and is answered with the encoded value or the
    status code of the kind of error, where an internal error carries a fixed
    text only. A request that does not decode is answered with the error of the
    decoding, which is InvalidArgument, and changes nothing. Decoding panics at
    most on a request whose cursor or client context is missing; the handler
    then panics and has changed nothing. *)
Theorem rpc_contract r s (w : DocWorld) :
  RW w s →
  wp (handle r) (λ o w', ∃ s', RW w' s' ∧
    match (decode r w).1 with
    | Ret c => ∃ resp, service_step (step (drawn w c)) s c resp s' ∧
        (healthy w → healthy w' ∧ service_step (ok_step (drawn w c)) s c resp s') ∧
        answered c resp o
    | Err st => o = Err st ∧ status_Code st = InvalidArgument ∧ s' = s
    | Panic why => o = Panic why ∧ ¬ well_formed r ∧ s' = s
    end) w.
Proof. exact (rpc_outcome (LR := lawful) r s w). Qed.

(** A listing request without a cursor crashes the handler: the cursor is
    dereferenced before it is compared with nil, although a default cursor is
    what the code means to use. *)
Theorem list_without_cursor_panics (q : pb.ListDocumentByPrincipalRequest) p ls (w : DocWorld) :
  uuid_Parse (pb.ListDocuments_PrincipalId q) = inr p →
  DocumentServer.pbToServicePermissionLevelList (pb.ListDocuments_PermissionsFilter q) = inr ls →
  pb.ListDocuments_Cursor q = None →
  DocumentServer.ListDocumentsByPrincipal q w =
    (Panic "invalid memory address or nil pointer dereference", w).
Proof.
  intros Hp Hls Hc. unfold DocumentServer.ListDocumentsByPrincipal.
  rewrite Hp, Hls, Hc. done.
Qed.

(** how many elements the page of a request has at most *)
Definition page_bound (size : option Z) : Z :=
  let n := DocumentServer.page_size size in if (1 <=? n)%Z && (n <=? 100)%Z then n else 10%Z.

(** the elements of the page a listing answers *)
Definition page_elements (p : reply) : option nat :=
  match p with
  | PListDocuments q => Some (length (pb.ListDocumentsReply_DocumentPermissions q))
  | PListPermissions q => Some (length (pb.ListPermissionsReply_RecipientPermissions q))
  | _ => None
  end.

(** what a request to list asks for *)
Definition requested_size (r : rpc) : option Z :=
  match r with
  | RListDocumentsByPrincipal q => pb.ListDocuments_PageSize q
  | RListPermissions q => pb.ListPermissions_PageSize q
  | _ => None
  end.

(** the page size of a decoded request is the one of the request *)
Definition call_size (c : call) : option Z :=
  match c with CListDocuments _ _ _ n | CListPermissions _ _ _ n => Some n | _ => None end.

Lemma decode_size r (w : DocWorld) c w' n :
  decode r w = (Ret c, w') → call_size c = Some n → n = DocumentServer.page_size (requested_size r).
Proof.
  destruct r; decode_fields.
  all: intros [= <- _]; simpl; by intros [= <-].
Qed.

(** a page of the specification has no more elements than asked for *)
Lemma done_bounded i s now c v s' p k :
  ok_step i s (forwarded now c) (Done v) s' → encode c v = inr p → page_elements p = Some k →
  ∃ n, call_size c = Some n ∧ (Z.of_nat k <= page_bound (Some n))%Z.
Proof.
  assert (∀ n, (0 <= page_bound (Some n))%Z) as Hpos.
  { intros n. unfold page_bound. simpl. repeat case_match; lia. }
  intros Hok. destruct c as [| | | | |q ls cur n| |d ls cur n| | | |]; simpl in Hok; inversion Hok; subst;
    simpl; try by (intros [= <-]).
  all: try (destruct (DocumentServer.serviceToPbPermission _); [done|]; by intros [= <-]).
  1,3: destruct (DocumentServer.serviceToPbCursor _); [done|]; intros [= <-] [= <-]; by exists n.
  all: match goal with
    | |- context [DocumentServer.serviceToPbDocumentPermissionList ?l] =>
        destruct (DocumentServer.serviceToPbDocumentPermissionList l) as [|xs] eqn:Hxs; [done|]
    | |- context [DocumentServer.serviceToPbPermissionList ?l] =>
        destruct (DocumentServer.serviceToPbPermissionList l) as [|xs] eqn:Hxs; [done|]
    end; apply collect_length in Hxs; rewrite length_fmap in Hxs.
  all: destruct (DocumentServer.serviceToPbCursor _); [done|]; intros [= <-] [= <-]; exists n;
    (split; [done|]); rewrite Hxs.
  all: match goal with |- context [page ?f ?k ?m ?l] => pose proof (page_length f k m l) as Hlen end.
  all: specialize (Hpos n); unfold page_bound in *; simpl in *; lia.
Qed.

(** C26: A page of a listing is bounded: whatever a client asks for, the answer
    has at most 100 elements, and no more than the size asked for where that
    is from 1 to 100. *)
Theorem listings_are_bounded r s (w : DocWorld) p k :
  RW w s → (handle r w).1 = Ret p → page_elements p = Some k →
  (Z.of_nat k <= page_bound (requested_size r) <= 100)%Z.
Proof.
  intros HR Hp Hk. split; [|unfold page_bound; case_match; lia].
  pose proof (rpc_outcome (LR := lawful) r s w HR) as Hr.
  unfold wp in Hr. destruct (handle r w) as [o w']. simpl in Hp. subst o. destruct Hr as (s' & _ & Hr).
  destruct (decode r w) as [[c|st|why] w1] eqn:Hdec; simpl in Hr; [|by destruct Hr..].
  destruct Hr as (resp & [_ Hstep] & _ & Ha).
  destruct resp as [v|]; simpl in Ha; [|by destruct Ha as (? & ? & _)].
  destruct Ha as (p' & Henc & [= <-]). destruct (rejected c); [by destruct Hstep|].
  destruct Hstep as [now Hstep]. inversion Hstep; subst.
  match goal with Hok : ok_step _ _ _ _ _ |- _ =>
    destruct (done_bounded _ _ _ _ _ _ _ _ Hok Henc Hk) as (n & Hn & Hle) end.
  by rewrite (decode_size _ _ _ _ _ Hdec Hn) in Hle.
Qed.

Context `{!TimestampLaws}.

(** encoding a cursor and decoding it *)
Lemma parse_serviceToPbCursor (c : Cursor) (pc : pb.Cursor) (w : DocWorld) :
  DocumentServer.serviceToPbCursor c = inr pc →
  DocumentServer.parseServiceCursor (Some pc) w = (Ret (Some c), w).
Proof.
  unfold DocumentServer.serviceToPbCursor. intros Hc.
  destruct (DocumentServer.serviceToPbSortField _) as [|f] eqn:Hf; [done|]. injection Hc as <-.
  assert (Hf' : DocumentServer.pbToServiceSortField f = inr (Cursor_SortField c)).
  { revert Hf. unfold DocumentServer.serviceToPbSortField.
    destruct (Cursor_SortField c =? CreatedAt)%Z eqn:E1;
      [|destruct (Cursor_SortField c =? LastModifiedAt)%Z eqn:E2; [|done]];
      intros [= <-]; [apply Z.eqb_eq in E1 as ->|apply Z.eqb_eq in E2 as ->]; done. }
  unfold DocumentServer.parseServiceCursor. simpl. unfold mbind, go_bind. simpl.
  rewrite Hf'. simpl. unfold map_err. rewrite uuid_Parse_String. simpl. rewrite AsTime_New.
  by destruct c.
Qed.

(** The cursor a listing answers with, sent back by the client, is decoded
    to the cursor the service returned. *)
Theorem cursor_round_trip (c : Cursor) (pc : pb.Cursor) (w : DocWorld) :
  DocumentServer.serviceToPbCursor c = inr pc →
  DocumentServer.parseServiceCursor (Some pc) w = (Ret (Some c), w).
Proof. apply parse_serviceToPbCursor. Qed.

(** A permission level survives the way from the domain to the wire and
    back, and nothing else decodes to it. *)
Theorem permission_level_round_trip (l : PermissionLevel) (x : pb.PermissionLevel) :
  DocumentServer.serviceToPbPermissionLevel l = inr x ↔
  DocumentServer.pbToServicePermissionLevel x = inr l.
Proof.
  unfold DocumentServer.serviceToPbPermissionLevel, DocumentServer.pbToServicePermissionLevel.
  change pb.PERMISSION_VIEWER with Viewer. change pb.PERMISSION_EDITOR with Editor.
  change pb.PERMISSION_OWNER with Owner.
  destruct (l =? Viewer)%Z eqn:E1, (l =? Editor)%Z eqn:E2, (l =? Owner)%Z eqn:E3,
    (x =? Viewer)%Z eqn:E4, (x =? Editor)%Z eqn:E5, (x =? Owner)%Z eqn:E6;
    rewrite ?Z.eqb_eq, ?Z.eqb_neq in *; split; intros Heq; simplify_eq; done.
Qed.
End rpc.

(** * The document of alice over gRPC *)
Module PlanRpc.
Import Examples Plan.

Definition no_context : option pb.ClientContext := None.
Definition list_request (c : option pb.Cursor) : pb.ListDocumentByPrincipalRequest :=
  pb.mkListDocumentByPrincipalRequest (uuid_String alice) [pb.PERMISSION_OWNER] c None no_context.

Definition read_plan : rpc := RGetDocument (pb.mkGetDocumentRequest (uuid_String plan) no_context).
Definition read_nothing : rpc := RGetDocument (pb.mkGetDocumentRequest "plan" no_context).

(** reading the document, and a request without a UUID *)
Lemma rpc_contract_witness :
  wp (handle read_plan) (λ o w', ∃ s', RW w' s' ∧ ∃ resp,
    service_step (step (drawn world (CGetDocument plan))) state3 (CGetDocument plan) resp s' ∧
    (healthy world → healthy w' ∧
       service_step (ok_step (drawn world (CGetDocument plan))) state3 (CGetDocument plan) resp s') ∧
    answered (CGetDocument plan) resp o) world ∧
  wp (handle read_nothing) (λ o w', ∃ s', RW w' s' ∧ (∃ msg,
    o = Err (mkStatus InvalidArgument msg)) ∧ s' = state3) world.
Proof.
  split.
  - exact (rpc_contract read_plan state3 world RW_world).
  - eapply wp_mono; [exact (rpc_contract read_nothing state3 world RW_world)|].
    intros o w' (s' & HR & -> & _ & ->). exists state3. split; [exact HR|]. split; [|reflexivity].
    eexists. reflexivity.
Defined.

Lemma list_without_cursor_panics_witness :
  DocumentServer.ListDocumentsByPrincipal (list_request None) world =
    (Panic "invalid memory address or nil pointer dereference", world).
Proof.
  apply (list_without_cursor_panics (list_request None) alice [Owner] world);
    [vm_compute; reflexivity|reflexivity|reflexivity].
Defined.

(** a page of up to 1000 documents, which is cut to the default *)
Definition long_list : rpc := RListDocumentsByPrincipal
  (pb.mkListDocumentByPrincipalRequest (uuid_String alice) [pb.PERMISSION_OWNER]
     (Some (pb.mkCursor pb.SORT_FIELD_CREATED_AT (Some (timestamppb_New 100)) None)) (Some 1000%Z) no_context).
Definition long_page : reply := match (handle long_list world).1 with Ret p => p | _ => PEmpty end.

Lemma listings_are_bounded_witness :
  (handle long_list world).1 = Ret long_page ∧ page_elements long_page = Some 1 ∧
  (Z.of_nat 1 <= page_bound (requested_size long_list) <= 100)%Z.
Proof.
  assert ((handle long_list world).1 = Ret long_page) as Hp by (vm_compute; reflexivity).
  assert (page_elements long_page = Some 1) as Hk by (vm_compute; reflexivity).
  split; [exact Hp|split; [exact Hk|]].
  exact (listings_are_bounded long_list state3 world long_page 1 RW_world Hp Hk).
Defined.

Lemma cursor_round_trip_witness :
  DocumentServer.parseServiceCursor
    (Some (pb.mkCursor pb.SORT_FIELD_CREATED_AT (Some (timestamppb_New 5)) (Some (uuid_String plan))))
    world = (Ret (Some (mkCursor CreatedAt 5%Z plan)), world).
Proof. apply (cursor_round_trip (mkCursor CreatedAt 5%Z plan)). reflexivity. Defined.

End PlanRpc.
