(* ===== verification/UserDomain.v ===== *)
(** The domain and the service layer of the user service
    (user_service/internal/service, internal/config): errors, data, the
    [UserRepository] interface and the methods of [UserService] over it. *)

From S2P Require Import Prelude GoLib Pgx DocDomain.

Module user.

(** ** errors.go *)

(** [PasswordMismatchError] has no [Unwrap]; its cause is an error of package
    bcrypt, here its text *)
Inductive error :=
  | DbErr (e : db_error)
  | OtherErr (text : string)
  | NotFoundError (Msg : string)
  | RepoImplError (Msg : string) (Cause : option error)
  | UniqueConflictError (Msg : string) (Cause : option error)
  | InvalidError (Msg : string) (Cause : option error)
  | PasswordMismatchError (bcryptError : string).

Definition NotFound (msg : string) : error := NotFoundError msg.
Definition RepoImpl (msg : string) (err : error) : error := RepoImplError msg (Some err).
Definition UniqueConflict (msg : string) (err : error) : error := UniqueConflictError msg (Some err).
Definition Invalid (msg : string) (err : option error) : error := InvalidError msg err.
Definition PasswordMismatch (err : string) : error := PasswordMismatchError err.

Fixpoint errors_As (target : error → bool) (err : error) : bool :=
  target err ||
  match err with
  | RepoImplError _ (Some c) | UniqueConflictError _ (Some c) | InvalidError _ (Some c) =>
      errors_As target c
  | _ => false
  end.

Definition is_NotFoundError (err : error) : bool :=
  match err with NotFoundError _ => true | _ => false end.
Definition is_UniqueConflictError (err : error) : bool :=
  match err with UniqueConflictError _ _ => true | _ => false end.
Definition is_InvalidError (err : error) : bool :=
  match err with InvalidError _ _ => true | _ => false end.
Definition is_PasswordMismatchError (err : error) : bool :=
  match err with PasswordMismatchError _ => true | _ => false end.

Section error_text.
Context `{ErrorText}.

(** [Error()] *)
Fixpoint Error (err : error) : string :=
  match err with
  | DbErr e => db_error_Error e
  | OtherErr text => text
  | NotFoundError m => m
  | RepoImplError m c =>
      "repository implementation error, msg: " +:+ m +:+ ", err: " +:+
      match c with Some e => Error e | None => "<nil>" end
  | UniqueConflictError m c =>
      "unique conflict, msg: " +:+ m +:+ ", err: " +:+
      match c with Some e => Error e | None => "<nil>" end
  | InvalidError m c =>
      "invalid input, msg: " +:+ m +:+ ", err: " +:+
      match c with Some e => Error e | None => "<nil>" end
  | PasswordMismatchError b => b
  end.
End error_text.

(** ** config/constants.go *)
Definition MinUsernameLength : nat := 3.
Definition MinPasswordLength : nat := 8.
Definition DefaultMaxDocuments : Z := 100%Z.

(** ** user_service.go *)
Record User := mkUser {
  User_UserId : uuid;
  User_UserName : string;
  User_Email : string;
  User_MaxDocuments : Z;
  User_HashedPassword : string;
  User_IsActive : bool;
  User_CreatedAt : Time;
  User_LastModified : Time;
}.

Class UserRepository (W : Type) := {
  repo_CreateUser : string → string → Z → string → go W error uuid;
  repo_GetUserById : uuid → go W error User;
  repo_GetUserByEmail : string → go W error User;
  repo_DeactivateUser : uuid → go W error unit;
  repo_ModifyPassword : uuid → string → string → go W error unit;
  repo_ValidatePassword : string → string → go W error (uuid * bool);
}.

Module UserService.
Section service.
Context {W : Type} `{UserRepository W}.

(** [len] of a Go string counts bytes; the calls to the logger are left out *)
Definition CreateUser (userName email : string) (maxDocuments : option Z) (password : string)
    : go W error uuid :=
  _ ← return_if (String.length userName <? MinUsernameLength)%nat
        (Invalid ("username: <" +:+ userName +:+ "> did not match the min username length constraint: "
                    +:+ pretty MinUsernameLength) None);
  _ ← return_if (String.length password <? MinPasswordLength)%nat
        (Invalid ("password: <" +:+ password +:+ "> did not match the min password length constraint: "
                    +:+ pretty MinPasswordLength) None);
  let resolvedMaxDocuments := match maxDocuments with
                              | Some n => n
                              | None => DefaultMaxDocuments
                              end in
  repo_CreateUser userName email resolvedMaxDocuments password.

Definition GetUser (userId : uuid) : go W error User := repo_GetUserById userId.

Definition DeactivateUser (userId : uuid) : go W error unit := repo_DeactivateUser userId.

Definition ChangePassword (userId : uuid) (oldPassword newPassword : string) : go W error unit :=
  repo_ModifyPassword userId oldPassword newPassword.

Definition ValidatePassword (userName password : string) : go W error (uuid * bool) :=
  repo_ValidatePassword userName password.

End service.
End UserService.
End user.
