(* ===== verification/UserSql.v ===== *)
(** The table of the user service and its statements
    (user_service/internal/repository/sqlc: sql/schema.sql and db/query.sql.go). *)

From S2P Require Import Prelude GoLib Pgx.
From Stdlib Require Import Strings.Byte.

Module user_sqlc.

(** The columns with a default can be NULL: pgtype's [Valid] flag *)
Record User := mkUser {
  User_ID : uuid;
  User_UserName : string;
  User_Email : string;
  User_MaxDocuments : option Z;
  User_HashedPassword : string;
  User_IsActive : option bool;
  User_CreatedAt : option Z;
  User_LastModified : option Z;
}.

(** [users], by its primary key *)
Abbreviation Db := (gmap uuid User).

(** ** VARCHAR(n)

    A length is a number of characters of UTF-8; a value that is too long is
    refused, unless what is in excess are blanks, which are cut off. *)
Definition starts_char (a : Ascii.ascii) : bool :=
  let n := Ascii.nat_of_ascii a in negb ((128 <=? n) && (n <? 192))%nat.

Fixpoint char_length (s : string) : nat :=
  match s with
  | EmptyString => O
  | String a s' => (if starts_char a then 1 else 0) + char_length s'
  end.

(** the characters before and after the first [n]; a continuation byte stays
    with the character it belongs to *)
Fixpoint split_chars (n : nat) (s : string) : string * string :=
  match s with
  | EmptyString => (EmptyString, EmptyString)
  | String a s' =>
      if starts_char a then
        match n with
        | O => (EmptyString, s)
        | S n' => let '(x, y) := split_chars n' s' in (String a x, y)
        end
      else let '(x, y) := split_chars n s' in (String a x, y)
  end.

Fixpoint blank (s : string) : bool :=
  match s with
  | EmptyString => true
  | String a s' => bool_decide (a = Ascii.ascii_of_nat 32) && blank s'
  end.

Definition varchar (n : nat) (s : string) : db_error + string :=
  if (char_length s <=? n)%nat then inr s
  else
    let '(x, y) := split_chars n s in
    if blank y then inr x
    else inl (PgError string_data_right_truncation EmptyString EmptyString).

(** ** query.sql *)

Definition duplicate (constraint column value : string) : db_error :=
  PgError unique_violation constraint
    ("Key (" +:+ column +:+ ")=(" +:+ value +:+ ") already exists.").

(** a row that another row has the name or the email of *)
Definition has_row (P : User → bool) (db : Db) : bool :=
  existsb (λ kv, P kv.2) (map_to_list db).

Definition first_row (P : User → bool) (db : Db) : option User :=
  match filter (λ u, P u = true) (map_to_list db).*2 with
  | [] => None
  | u :: _ => Some u
  end.

(** [uuid_text]: how PostgreSQL prints a UUID *)
Definition CreateUser (uuid_text : uuid → string) (ID : uuid) (UserName Email : string)
    (MaxDocuments : option Z) (HashedPassword : string) : stmt unit := λ now (db : Db),
  match varchar 32 UserName, varchar 255 HashedPassword with
  | inl e, _ => inl e
  | inr _, inl e => inl e
  | inr name, inr hash =>
      if bool_decide (is_Some (db !! ID)) then inl (duplicate "users_pkey" "id" (uuid_text ID))
      else if has_row (λ u, bool_decide (User_UserName u = name)) db
      then inl (duplicate "users_user_name_key" "user_name" name)
      else if has_row (λ u, bool_decide (User_Email u = Email)) db
      then inl (duplicate "users_email_key" "email" Email)
      else inr ((), <[ID := mkUser ID name Email MaxDocuments hash (Some true) (Some now)
                              (Some now)]> db)
  end.

(** SELECT ... FROM users WHERE id = $1; FOR UPDATE reads the same row *)
Definition GetUserById (id : uuid) : stmt User := λ _ (db : Db),
  match db !! id with Some u => inr (u, db) | None => inl ErrNoRows end.
Definition GetUserForUpdate (id : uuid) : stmt User := λ _ (db : Db),
  match db !! id with Some u => inr (u, db) | None => inl ErrNoRows end.

Definition GetUserByEmail (email : string) : stmt User := λ _ (db : Db),
  match first_row (λ u, bool_decide (User_Email u = email)) db with
  | Some u => inr (u, db)
  | None => inl ErrNoRows
  end.

Definition GetHashedPassword (userName : string) : stmt (uuid * string) := λ _ (db : Db),
  match first_row (λ u, bool_decide (User_UserName u = userName)) db with
  | Some u => inr ((User_ID u, User_HashedPassword u), db)
  | None => inl ErrNoRows
  end.

Definition DeactivateUser (id : uuid) : stmt uuid := λ now (db : Db),
  match db !! id with
  | Some u =>
      inr (id, <[id := mkUser (User_ID u) (User_UserName u) (User_Email u) (User_MaxDocuments u)
                         (User_HashedPassword u) (Some false) (User_CreatedAt u) (Some now)]> db)
  | None => inl ErrNoRows
  end.

Definition ChangeUserPassword (HashedPassword : string) (ID : uuid) : stmt uuid := λ now (db : Db),
  match varchar 255 HashedPassword with
  | inl e => inl e
  | inr hash =>
      match db !! ID with
      | Some u =>
          inr (ID, <[ID := mkUser (User_ID u) (User_UserName u) (User_Email u)
                             (User_MaxDocuments u) hash (User_IsActive u) (User_CreatedAt u)
                             (Some now)]> db)
      | None => inl ErrNoRows
      end
  end.

End user_sqlc.
