(* ===== verification/UserRepository.v ===== *)
(** The PostgreSQL repository of the user service
    (user_service/internal/repository/user_repository.go). *)

From S2P Require Import Prelude GoLib Pgx DocDomain UserDomain UserSql.

Abbreviation UserWorld := (World user_sqlc.Db).

(** Package golang.org/x/crypto/bcrypt, a parameter: the hash of a password
    depends on a random salt, of which the [n]-th one is used; errors are their
    texts. *)
Class Bcrypt := {
  GenerateFromPassword : nat → string → string + string;
  CompareHashAndPassword : string → string → option string;
}.

(** a hash matches the password it was made from, and is sixty characters of
    ASCII *)
Class BcryptLaws `{Bcrypt} : Prop := {
  Compare_Generate n p h :
    GenerateFromPassword n p = inr h → CompareHashAndPassword h p = None;
  Generate_length n p h :
    GenerateFromPassword n p = inr h → (user_sqlc.char_length h ≤ 255)%nat;
}.

Module UserRepository.
Section repository.
Context `{ErrorText} `{Bcrypt}.
Import user.

Definition repositoryToService (u : user_sqlc.User) : User :=
  mkUser (user_sqlc.User_ID u) (user_sqlc.User_UserName u) (user_sqlc.User_Email u)
    (default 0%Z (user_sqlc.User_MaxDocuments u)) (user_sqlc.User_HashedPassword u)
    (default false (user_sqlc.User_IsActive u))
    (default zero_Time (user_sqlc.User_CreatedAt u))
    (default zero_Time (user_sqlc.User_LastModified u)).

(** [%d] of a UUID, an array of sixteen bytes *)
Definition format_d (u : uuid) : string :=
  "[" +:+ String.concat " " ((λ b, pretty (Byte.to_N b)) <$> vec_to_list u) +:+ "]".

Definition is_no_rows (err : db_error) : bool := bool_decide (err = ErrNoRows).

(** the salt is drawn from the generator of random numbers of the process *)
Definition generate (password : string) : go UserWorld string string := λ w,
  match GenerateFromPassword (w_tick w) password with
  | inl e => (Err e, tick w)
  | inr h => (Ret h, tick w)
  end.

Definition CreateUser (userName email : string) (maxDocuments : Z) (password : string)
    : go UserWorld error uuid :=
  hashedPassword ← generate password
    or_return (λ err, RepoImpl "error creating hash of users new password" (OtherErr err));
  userId ← uuid_New;
  _ ← exec OnPool (user_sqlc.CreateUser pgtype_UUID_String userId userName email
                     (Some maxDocuments) hashedPassword) or_return (λ err,
    match err with
    | PgError Code ConstraintName Detail =>
        if bool_decide (Code = "23505")
        then UniqueConflict ("constraint: " +:+ ConstraintName +:+ ", detail: " +:+ Detail)
               (DbErr err)
        else RepoImpl (db_error_Error err) (DbErr err)
    | _ => RepoImpl "unknown error encountered when creating user" (DbErr err)
    end);
  mret userId.

Definition GetUserById (userId : uuid) : go UserWorld error User :=
  u ← exec OnPool (user_sqlc.GetUserById userId) or_return (λ err,
    if is_no_rows err then NotFound ("No user found for userId: " +:+ format_d userId)
    else RepoImpl (db_error_Error err) (DbErr err));
  mret (repositoryToService u).

Definition GetUserByEmail (userEmail : string) : go UserWorld error User :=
  u ← exec OnPool (user_sqlc.GetUserByEmail userEmail) or_return (λ err,
    if is_no_rows err then NotFound ("No user found with email: " +:+ userEmail)
    else RepoImpl (db_error_Error err) (DbErr err));
  mret (repositoryToService u).

Definition DeactivateUser (userId : uuid) : go UserWorld error unit :=
  _ ← exec OnPool (user_sqlc.DeactivateUser userId) or_return (λ err,
    if is_no_rows err
    then NotFound ("No user found with userId: " +:+ format_d userId +:+ " to deactivate")
    else RepoImpl (db_error_Error err) (DbErr err));
  mret ().

Definition ModifyPassword (userId : uuid) (oldPassword newPassword : string)
    : go UserWorld error unit :=
  _ ← Begin ReadCommitted
        or_return (λ err, RepoImpl "failed to create a transaction when modifying password"
                            (DbErr err));
  defer Rollback (
    u ← exec OnTx (user_sqlc.GetUserForUpdate userId) or_return (λ err,
      if is_no_rows err
      then NotFound ("No user found with userId: " +:+ format_d userId +:+ " to update")
      else RepoImpl "unexpected error found when reading user" (DbErr err));
    _ ← match CompareHashAndPassword (user_sqlc.User_HashedPassword u) oldPassword with
        | Some err => throw (PasswordMismatch err)
        | None => mret ()
        end;
    newHashedPassword ← generate newPassword
      or_return (λ err, RepoImpl "error creating hash of users new password" (OtherErr err));
    _ ← exec OnTx (user_sqlc.ChangeUserPassword newHashedPassword (user_sqlc.User_ID u))
          or_return (λ err, RepoImpl "error updating user record with new hashed password"
                              (DbErr err));
    Commit or_return (λ err,
      RepoImpl "error committing the update password hash transaction" (DbErr err))).

Definition ValidatePassword (userName password : string) : go UserWorld error (uuid * bool) :=
  row ← exec OnPool (user_sqlc.GetHashedPassword userName) or_return (λ err,
    if is_no_rows err
    then NotFound ("no user found with user name: " +:+ userName +:+ " for checking password")
    else RepoImpl ("unexpected error found when reading user with username: " +:+ userName)
           (DbErr err));
  match CompareHashAndPassword row.2 password with
  | Some _ => mret (uuid_Nil, false)
  | None => mret (row.1, true)
  end.

#[global] Instance implements : user.UserRepository UserWorld := {|
  repo_CreateUser := CreateUser;
  repo_GetUserById := GetUserById;
  repo_GetUserByEmail := GetUserByEmail;
  repo_DeactivateUser := DeactivateUser;
  repo_ModifyPassword := ModifyPassword;
  repo_ValidatePassword := ValidatePassword;
|}.

End repository.
End UserRepository.
