(* ===== verification/UserSpec.v ===== *)
(** The contract of the user repository: the table invariant, what each call
    does to the table and answers, and the proof that the PostgreSQL repository
    implements it against a database that may fail at any interaction. *)

From S2P Require Import Prelude GoLib Pgx DocDomain UserDomain UserSql UserRepository.

#[local] Set Warnings "-clear-no-such-hyp".

Module UserSpec.

Abbreviation row := user_sqlc.User.
Abbreviation table := user_sqlc.Db.

(** ** The table *)
Record table_ok (db : table) : Prop := {
  user_keyed id u : db !! id = Some u → user_sqlc.User_ID u = id;
  user_name_fits id u : db !! id = Some u → (user_sqlc.char_length (user_sqlc.User_UserName u) ≤ 32)%nat;
  user_name_unique i j u v :
    db !! i = Some u → db !! j = Some v → user_sqlc.User_UserName u = user_sqlc.User_UserName v → i = j;
  user_email_unique i j u v :
    db !! i = Some u → db !! j = Some v → user_sqlc.User_Email u = user_sqlc.User_Email v → i = j;
}.

Definition named (db : table) (name : string) (u : row) : Prop :=
  ∃ id, db !! id = Some u ∧ user_sqlc.User_UserName u = name.
Definition mailed (db : table) (email : string) (u : row) : Prop :=
  ∃ id, db !! id = Some u ∧ user_sqlc.User_Email u = email.

(** ** Calls *)
Inductive call :=
  | UCreate (name email : string) (max : Z) (password : string)
  | UGet (id : uuid)
  | UGetByEmail (email : string)
  | UDeactivate (id : uuid)
  | UChangePassword (id : uuid) (old new : string)
  | UValidate (name password : string).

Inductive value := VUnit | VId (id : uuid) | VUser (u : user.User) | VCheck (id : uuid) (ok : bool).

Inductive kind := KNotFound | KConflict | KInvalid | KMismatch | KInternal.

Definition kind_of (err : user.error) : kind :=
  if user.errors_As user.is_NotFoundError err then KNotFound
  else if user.errors_As user.is_UniqueConflictError err then KConflict
  else if user.errors_As user.is_InvalidError err then KInvalid
  else if user.errors_As user.is_PasswordMismatchError err then KMismatch
  else KInternal.

Inductive response := Done (v : value) | Failed (k : kind).

Definition new_row (id : uuid) (name email : string) (max : Z) (hash : string) (now : Z) : row :=
  user_sqlc.mkUser id name email (Some max) hash (Some true) (Some now) (Some now).
Definition deactivated (now : Z) (u : row) : row :=
  user_sqlc.mkUser (user_sqlc.User_ID u) (user_sqlc.User_UserName u) (user_sqlc.User_Email u)
    (user_sqlc.User_MaxDocuments u) (user_sqlc.User_HashedPassword u) (Some false)
    (user_sqlc.User_CreatedAt u) (Some now).
Definition rehashed (hash : string) (now : Z) (u : row) : row :=
  user_sqlc.mkUser (user_sqlc.User_ID u) (user_sqlc.User_UserName u) (user_sqlc.User_Email u)
    (user_sqlc.User_MaxDocuments u) hash (user_sqlc.User_IsActive u)
    (user_sqlc.User_CreatedAt u) (Some now).

(** what the repository draws at random for a call: the id of a new user and
    the salt of a new hash *)
Record draws := mkDraws { drawn_id : uuid; drawn_salt : nat }.

Section steps.
Context `{Bcrypt} `{ErrorText}.

Inductive ok_step (dr : draws) : table → call → response → table → Prop :=
  | step_create db name name' email max pw h now :
      GenerateFromPassword (drawn_salt dr) pw = inr h → user_sqlc.varchar 32 name = inr name' →
      db !! drawn_id dr = None → (∀ u, ¬ named db name' u) → (∀ u, ¬ mailed db email u) →
      ok_step dr db (UCreate name email max pw) (Done (VId (drawn_id dr)))
        (<[drawn_id dr := new_row (drawn_id dr) name' email max h now]> db)
  | step_create_taken db name name' email max pw h :
      GenerateFromPassword (drawn_salt dr) pw = inr h → user_sqlc.varchar 32 name = inr name' →
      is_Some (db !! drawn_id dr) ∨ (∃ u, named db name' u) ∨ (∃ u, mailed db email u) →
      ok_step dr db (UCreate name email max pw) (Failed KConflict) db
  | step_create_long db name email max pw h e :
      GenerateFromPassword (drawn_salt dr) pw = inr h → user_sqlc.varchar 32 name = inl e →
      ok_step dr db (UCreate name email max pw) (Failed KInternal) db
  | step_create_hash db name email max pw e :
      GenerateFromPassword (drawn_salt dr) pw = inl e →
      ok_step dr db (UCreate name email max pw) (Failed KInternal) db
  | step_get db id u :
      db !! id = Some u →
      ok_step dr db (UGet id) (Done (VUser (UserRepository.repositoryToService u))) db
  | step_get_missing db id :
      db !! id = None → ok_step dr db (UGet id) (Failed KNotFound) db
  | step_email db email u :
      mailed db email u →
      ok_step dr db (UGetByEmail email) (Done (VUser (UserRepository.repositoryToService u))) db
  | step_email_missing db email :
      (∀ u, ¬ mailed db email u) → ok_step dr db (UGetByEmail email) (Failed KNotFound) db
  | step_deactivate db id u now :
      db !! id = Some u →
      ok_step dr db (UDeactivate id) (Done VUnit) (<[id := deactivated now u]> db)
  | step_deactivate_missing db id :
      db !! id = None → ok_step dr db (UDeactivate id) (Failed KNotFound) db
  | step_change db id old new u h now :
      db !! id = Some u →
      CompareHashAndPassword (user_sqlc.User_HashedPassword u) old = None →
      GenerateFromPassword (drawn_salt dr) new = inr h →
      ok_step dr db (UChangePassword id old new) (Done VUnit) (<[id := rehashed h now u]> db)
  | step_change_missing db id old new :
      db !! id = None → ok_step dr db (UChangePassword id old new) (Failed KNotFound) db
  | step_change_mismatch db id old new u e :
      db !! id = Some u →
      CompareHashAndPassword (user_sqlc.User_HashedPassword u) old = Some e →
      ok_step dr db (UChangePassword id old new) (Failed KMismatch) db
  | step_change_hash db id old new u e :
      db !! id = Some u →
      CompareHashAndPassword (user_sqlc.User_HashedPassword u) old = None →
      GenerateFromPassword (drawn_salt dr) new = inl e →
      ok_step dr db (UChangePassword id old new) (Failed KInternal) db
  | step_valid db name pw u :
      named db name u → CompareHashAndPassword (user_sqlc.User_HashedPassword u) pw = None →
      ok_step dr db (UValidate name pw) (Done (VCheck (user_sqlc.User_ID u) true)) db
  | step_invalid db name pw u e :
      named db name u → CompareHashAndPassword (user_sqlc.User_HashedPassword u) pw = Some e →
      ok_step dr db (UValidate name pw) (Done (VCheck uuid_Nil false)) db
  | step_valid_missing db name pw :
      (∀ u, ¬ named db name u) → ok_step dr db (UValidate name pw) (Failed KNotFound) db.

(** with a database that may fail, the effect is absent or complete *)
Inductive step (dr : draws) : table → call → response → table → Prop :=
  | step_ok db c r db' : ok_step dr db c r db' → step dr db c r db'
  | step_lost db c : step dr db c (Failed KInternal) db
  | step_late db c r db' : ok_step dr db c r db' → step dr db c (Failed KInternal) db'.

End steps.

Definition respond (o : outcome user.error value) : option response :=
  match o with
  | Ret v => Some (Done v)
  | Err e => Some (Failed (kind_of e))
  | Panic _ => None
  end.

Section run.
Context {W : Type} `{user.UserRepository W}.

Definition run_call (c : call) : go W user.error value :=
  match c with
  | UCreate n e m p => id ← user.repo_CreateUser n e m p; mret (VId id)
  | UGet id => u ← user.repo_GetUserById id; mret (VUser u)
  | UGetByEmail e => u ← user.repo_GetUserByEmail e; mret (VUser u)
  | UDeactivate id => _ ← user.repo_DeactivateUser id; mret VUnit
  | UChangePassword id o n => _ ← user.repo_ModifyPassword id o n; mret VUnit
  | UValidate n p => x ← user.repo_ValidatePassword n p; mret (VCheck x.1 x.2)
  end.
End run.

(** ** Facts about the statements *)
Lemma has_row_spec P (db : table) :
  user_sqlc.has_row P db = true ↔ ∃ id u, db !! id = Some u ∧ P u = true.
Proof.
  unfold user_sqlc.has_row. rewrite existsb_exists. split.
  - intros ([id u] & Hin & HP). exists id, u.
    by rewrite <- elem_of_map_to_list, list_elem_of_In.
  - intros (id & u & Hu & HP). exists (id, u). split; [|done].
    by rewrite <- list_elem_of_In, elem_of_map_to_list.
Qed.

Lemma first_row_Some P (db : table) u :
  user_sqlc.first_row P db = Some u → ∃ id, db !! id = Some u ∧ P u = true.
Proof.
  unfold user_sqlc.first_row. destruct (filter _ _) as [|v l] eqn:Hf; [done|]. intros [= <-].
  assert (v ∈ filter (λ u, P u = true) (map_to_list db).*2) as Hv by (rewrite Hf; by left).
  rewrite list_elem_of_filter, list_elem_of_fmap in Hv.
  destruct Hv as [HP ([id u] & -> & Hin%elem_of_map_to_list)]. by exists id.
Qed.

Lemma first_row_None P (db : table) id u :
  user_sqlc.first_row P db = None → db !! id = Some u → P u = false.
Proof.
  unfold user_sqlc.first_row. destruct (filter _ _) as [|v l] eqn:Hf; [|done]. intros _ Hu.
  destruct (P u) eqn:HP; [|done].
  assert (u ∈ filter (λ u, P u = true) (map_to_list db).*2) as Hv; [|rewrite Hf in Hv; by apply elem_of_nil in Hv].
  rewrite list_elem_of_filter, list_elem_of_fmap. split; [done|].
  exists (id, u). by rewrite elem_of_map_to_list.
Qed.

Lemma split_chars_length n s : (user_sqlc.char_length (user_sqlc.split_chars n s).1 ≤ n)%nat.
Proof.
  revert n. induction s as [|a s IH]; intros n; simpl; [lia|].
  destruct (user_sqlc.starts_char a) eqn:Ha; [destruct n as [|n]; [simpl; lia|]|].
  - specialize (IH n). destruct (user_sqlc.split_chars n s). simpl in *. rewrite Ha. lia.
  - specialize (IH n). destruct (user_sqlc.split_chars n s). simpl in *. rewrite Ha. lia.
Qed.

Lemma varchar_length n s s' :
  user_sqlc.varchar n s = inr s' → (user_sqlc.char_length s' ≤ n)%nat.
Proof.
  unfold user_sqlc.varchar. destruct (_ <=? n)%nat eqn:Hn.
  - intros [= <-]. by apply Nat.leb_le.
  - pose proof (split_chars_length n s). destruct (user_sqlc.split_chars n s).
    destruct (user_sqlc.blank _); [|done]. by intros [= <-].
Qed.

Lemma varchar_fits n s : (user_sqlc.char_length s ≤ n)%nat → user_sqlc.varchar n s = inr s.
Proof. unfold user_sqlc.varchar. by intros ->%Nat.leb_le. Qed.

(** ** The repository makes steps *)

(** a new password is hashed by the first random number of [CreateUser], which
    then draws the id; [ModifyPassword] has begun a transaction and read the
    user before *)
Definition drawn (w : UserWorld) (c : call) : draws :=
  match c with
  | UChangePassword _ _ _ => mkDraws uuid_Nil (S (S (w_tick w)))
  | _ => mkDraws (env_uuid (w_env w) (S (w_tick w))) (w_tick w)
  end.

Definition post `{Bcrypt} `{ErrorText} (dr : draws) (c : call) (db : table) (hw : Prop)
    (o : outcome user.error value) (w' : UserWorld) : Prop :=
  ∃ r, respond o = Some r ∧ w_tx w' = None ∧ step dr db c r (w_db w') ∧
       (hw → healthy w' ∧ ok_step dr db c r (w_db w')).

Section methods.
Context `{ErrorText} `{BcryptLaws}.
Import UserRepository.

Lemma upost_ok dr c db (hw : Prop) o w' r :
  ok_step dr db c r (w_db w') → respond o = Some r → w_tx w' = None → (hw → healthy w') →
  post dr c db hw o w'.
Proof. intros. exists r. split_and!; auto using step_ok. Qed.

Lemma upost_lost dr c db (hw : Prop) e w' :
  ¬ hw → kind_of e = KInternal → w_tx w' = None → w_db w' = db → post dr c db hw (Err e) w'.
Proof.
  intros Hhw He Htx <-. exists (Failed KInternal). simpl. rewrite He.
  split_and!; [done..|by constructor|done].
Qed.

Lemma upost_late dr c db (hw : Prop) e w' r :
  ¬ hw → kind_of e = KInternal → w_tx w' = None → ok_step dr db c r (w_db w') →
  post dr c db hw (Err e) w'.
Proof.
  intros Hhw He Htx Hok. exists (Failed KInternal). simpl. rewrite He.
  split_and!; [done..|by eapply step_late|done].
Qed.

Ltac ulost := intros; apply upost_lost; [sick|done|done|done].
Ltac ufinish := eapply upost_ok; [econstructor; by eauto|done|done|intros; eauto 8 with pgx].
Ltac ulate := intros; eapply upost_late; [sick|done|done|econstructor; by eauto].

Lemma wp_generate p (Q : outcome string string → UserWorld → Prop) w :
  (∀ h, GenerateFromPassword (w_tick w) p = inr h → Q (Ret h) (tick w)) →
  (∀ e, GenerateFromPassword (w_tick w) p = inl e → Q (Err e) (tick w)) →
  wp (generate p) Q w.
Proof. unfold generate, wp. destruct (GenerateFromPassword _ _) eqn:Hg; eauto. Qed.

Lemma run_create name email max pw w :
  w_tx w = None →
  wp (run_call (UCreate name email max pw)) (post (drawn w (UCreate name email max pw)) (UCreate name email max pw) (w_db w) (healthy w)) w.
Proof.
  intros Htx. simpl. unfold CreateUser. go. apply wp_generate.
  2:{ intros e Hg. ufinish. }
  intros h Hg. go. set (id := env_uuid _ _).
  set (q := user_sqlc.CreateUser _ _ _ _ _ _).
  assert (Hh : user_sqlc.varchar 255 h = inr h) by (by eapply varchar_fits, Generate_length).
  destruct (user_sqlc.varchar 32 name) as [e|name'] eqn:Hn.
  - assert (He : ∃ c x y, e = PgError c x y ∧ c ≠ "23505").
    { revert Hn. unfold user_sqlc.varchar. repeat case_match; try done.
      intros [= <-]. by eexists _, _, _. }
    destruct He as (c & x & y & -> & Hc).
    apply (wp_pool_err _ (PgError c x y)); [intros; unfold q, user_sqlc.CreateUser; by rewrite Hn| |ulost].
    rewrite bool_decide_false by done. ufinish.
  - destruct (decide (is_Some (w_db w !! id) ∨
      user_sqlc.has_row (λ u, bool_decide (user_sqlc.User_UserName u = name')) (w_db w) = true ∨
      user_sqlc.has_row (λ u, bool_decide (user_sqlc.User_Email u = email)) (w_db w) = true))
      as [Htaken|Hfree].
    + assert (Hq : ∃ x y, ∀ now, q now (w_db w) = inl (PgError "23505" x y)).
      { unfold q, user_sqlc.CreateUser. rewrite Hn, Hh. case_bool_decide as Hid; [by do 2 eexists|].
        destruct (user_sqlc.has_row (λ u, bool_decide (user_sqlc.User_UserName u = name')) _);
          [by do 2 eexists|].
        destruct (user_sqlc.has_row (λ u, bool_decide (user_sqlc.User_Email u = email)) _);
          [by do 2 eexists|]. by destruct Htaken as [?|[?|?]]. }
      destruct Hq as (x & y & Hq). apply (wp_pool_err _ (PgError "23505" x y)); [done| |ulost].
      rewrite bool_decide_true by done. eapply upost_ok; [|done|done|eauto 8 with pgx].
      apply (step_create_taken _ _ _ name' _ _ _ h); [done..|].
      rewrite !has_row_spec in Htaken. unfold named, mailed.
      setoid_rewrite bool_decide_eq_true in Htaken. naive_solver.
    + assert (Hid : w_db w !! id = None) by (apply eq_None_not_Some; tauto).
      assert (∀ u, ¬ named (w_db w) name' u).
      { intros u (i & Hu & Hname). apply Hfree. right; left. apply has_row_spec.
        exists i, u. by rewrite bool_decide_eq_true. }
      assert (∀ u, ¬ mailed (w_db w) email u).
      { intros u (i & Hu & Hname). apply Hfree. right; right. apply has_row_spec.
        exists i, u. by rewrite bool_decide_eq_true. }
      apply (wp_pool_ok _ (λ _ db, ∃ now, db = <[id := new_row id name' email max h now]> (w_db w)));
        [| |ulost].
      * intros now. unfold q, user_sqlc.CreateUser. rewrite Hn, Hh, bool_decide_false by tauto.
        destruct (user_sqlc.has_row _ _) eqn:Hr; [by destruct Hfree; auto|].
        destruct (user_sqlc.has_row (λ u, bool_decide (user_sqlc.User_Email u = email)) _) eqn:Hr';
          [by destruct Hfree; auto|]. do 2 eexists. split; [done|]. by exists now.
      * intros [] db [now ->]. split; [go; ufinish|ulate].
Qed.

Lemma run_get id w :
  w_tx w = None → wp (run_call (UGet id)) (post (drawn w (UGet id)) (UGet id) (w_db w) (healthy w)) w.
Proof.
  intros Htx. simpl. unfold GetUserById. go. destruct (w_db w !! id) as [u|] eqn:Hu.
  - apply (wp_pool_ok _ (λ x db, x = u ∧ db = w_db w)); [| |ulost].
    + intros now. unfold user_sqlc.GetUserById. rewrite Hu. eauto.
    + intros x db [-> ->]. split; [go; ufinish|ulost].
  - apply (wp_pool_err _ ErrNoRows); [| |ulost]; [|ufinish].
    intros now. unfold user_sqlc.GetUserById. by rewrite Hu.
Qed.

Lemma run_get_email e w :
  w_tx w = None → wp (run_call (UGetByEmail e)) (post (drawn w (UGetByEmail e)) (UGetByEmail e) (w_db w) (healthy w)) w.
Proof.
  intros Htx. simpl. unfold GetUserByEmail. go.
  destruct (user_sqlc.first_row (λ u, bool_decide (user_sqlc.User_Email u = e)) (w_db w)) as [u|] eqn:Hu.
  - apply (wp_pool_ok _ (λ x db, x = u ∧ db = w_db w)); [| |ulost].
    + intros now. unfold user_sqlc.GetUserByEmail. rewrite Hu. eauto.
    + apply first_row_Some in Hu as (id & Hu & Hm%bool_decide_eq_true).
      assert (mailed (w_db w) e u) by (by exists id).
      intros x db [-> ->]. split; [go; ufinish|ulost].
  - apply (wp_pool_err _ ErrNoRows); [| |ulost].
    + intros now. unfold user_sqlc.GetUserByEmail. by rewrite Hu.
    + assert (∀ u, ¬ mailed (w_db w) e u).
      { intros u (id & Hid & Hm). pose proof (first_row_None _ _ _ _ Hu Hid) as Hf.
        by rewrite bool_decide_eq_false in Hf. }
      ufinish.
Qed.

Lemma run_deactivate id w :
  w_tx w = None → wp (run_call (UDeactivate id)) (post (drawn w (UDeactivate id)) (UDeactivate id) (w_db w) (healthy w)) w.
Proof.
  intros Htx. simpl. unfold DeactivateUser. go. destruct (w_db w !! id) as [u|] eqn:Hu.
  - apply (wp_pool_ok _ (λ x db, ∃ now, db = <[id := deactivated now u]> (w_db w))); [| |ulost].
    + intros now. unfold user_sqlc.DeactivateUser. rewrite Hu. do 2 eexists. split; [done|eauto].
    + intros x db [now ->]. split; [go; ufinish|ulate].
  - apply (wp_pool_err _ ErrNoRows); [| |ulost]; [|ufinish].
    intros now. unfold user_sqlc.DeactivateUser. by rewrite Hu.
Qed.

Lemma run_validate name pw w :
  w_tx w = None →
  wp (run_call (UValidate name pw)) (post (drawn w (UValidate name pw)) (UValidate name pw) (w_db w) (healthy w)) w.
Proof.
  intros Htx. simpl. unfold ValidatePassword. go.
  destruct (user_sqlc.first_row (λ u, bool_decide (user_sqlc.User_UserName u = name)) (w_db w))
    as [u|] eqn:Hu.
  - apply (wp_pool_ok _ (λ x db, x = (user_sqlc.User_ID u, user_sqlc.User_HashedPassword u) ∧
                                 db = w_db w)); [| |ulost].
    + intros now. unfold user_sqlc.GetHashedPassword. rewrite Hu. eauto.
    + apply first_row_Some in Hu as (id & Hu & Hm%bool_decide_eq_true).
      assert (named (w_db w) name u) by (by exists id).
      intros x db [-> ->]. split; [|ulost]. simpl.
      destruct (CompareHashAndPassword _ _) eqn:Hcmp; go; ufinish.
  - apply (wp_pool_err _ ErrNoRows); [| |ulost].
    + intros now. unfold user_sqlc.GetHashedPassword. by rewrite Hu.
    + assert (∀ u, ¬ named (w_db w) name u).
      { intros u (id & Hid & Hm). pose proof (first_row_None _ _ _ _ Hu Hid) as Hf.
        by rewrite bool_decide_eq_false in Hf. }
      ufinish.
Qed.

Ltac utx_lost :=
  intros; apply upost_lost; [sick|done|done|simpl in *; congruence].
Ltac urolled :=
  eapply upost_ok; [|done|done|intros; eauto 8 with pgx]; simpl;
  match goal with |- ok_step _ ?db _ _ ?db' => replace db' with db by congruence end;
  econstructor; by eauto.

Lemma run_change id old new w :
  table_ok (w_db w) → w_tx w = None →
  wp (run_call (UChangePassword id old new))
    (post (drawn w (UChangePassword id old new)) (UChangePassword id old new) (w_db w) (healthy w)) w.
Proof.
  intros Hok Htx. simpl. unfold ModifyPassword. go.
  apply wp_Begin_at; [|ulost]. intros w1 tx Htx1 Hdb1 Hw1 Hh1 Ht1 _. go.
  destruct (w_db w !! id) as [u|] eqn:Hu.
  2:{ eapply (wp_tx_err _ ErrNoRows); [exact Htx1| | |utx_lost]; [|urolled].
      intros now. unfold user_sqlc.GetUserForUpdate. by rewrite Hdb1, Hu. }
  eapply (wp_tx_at _ (λ x db, x = u ∧ db = w_db w));
    [exact Htx1|unfold user_sqlc.GetUserForUpdate; rewrite Hdb1, Hu; eauto| |utx_lost].
  intros x w2 tx2 [-> Hdb2] Htx2 _ Hw2 Hh2 Ht2. rewrite Ht1 in Ht2. go.
  destruct (CompareHashAndPassword _ old) as [e|] eqn:Hcmp; go; [urolled|].
  apply wp_generate; rewrite Ht2; [intros h Hg|intros e Hg; urolled]. go.
  assert (Hh : user_sqlc.varchar 255 h = inr h) by (by eapply varchar_fits, Generate_length).
  assert (Hid : user_sqlc.User_ID u = id) by (by eapply user_keyed).
  eapply (wp_tx_ok _ (λ _ db, ∃ now, db = <[id := rehashed h now u]> (w_db w))); [exact Htx2| | |utx_lost].
  { unfold user_sqlc.ChangeUserPassword. rewrite Hh, Hid, Hdb2, Hu. eauto 10. }
  intros x w3 tx3 [now Hdb3] Htx3 _ Hw3 Hh3. go.
  eapply wp_Commit'; [exact Htx3| |].
  - intros w4 Hw4 Hh4. go. eapply upost_ok; [|done|done|intros; eauto 10 with pgx].
    simpl. rewrite Hw4, Hdb3. by econstructor.
  - intros ? text w4 [Hw4|Hw4]; cbn beta iota; [utx_lost|].
    eapply upost_late; [sick|done|done|]. simpl. rewrite Hw4, Hdb3. by econstructor.
Qed.

Lemma run_user_step c w :
  table_ok (w_db w) → w_tx w = None → wp (run_call c) (post (drawn w c) c (w_db w) (healthy w)) w.
Proof.
  destruct c; auto using run_create, run_get, run_get_email, run_deactivate, run_change, run_validate.
Qed.

End methods.

(** ** The invariant *)
Section invariant.
Context `{Bcrypt} `{ErrorText}.

(** an update of one row that keeps its id, name and email *)
Lemma table_ok_update db id u v :
  table_ok db → db !! id = Some u →
  user_sqlc.User_ID v = user_sqlc.User_ID u → user_sqlc.User_UserName v = user_sqlc.User_UserName u →
  user_sqlc.User_Email v = user_sqlc.User_Email u → table_ok (<[id := v]> db).
Proof.
  intros Hok Hu Hid Hn He.
  assert (Hlook : ∀ i x, <[id := v]> db !! i = Some x → ∃ y, db !! i = Some y ∧
    user_sqlc.User_ID x = user_sqlc.User_ID y ∧ user_sqlc.User_UserName x = user_sqlc.User_UserName y ∧
    user_sqlc.User_Email x = user_sqlc.User_Email y).
  { intros i x. rewrite lookup_insert_Some. intros [[<- <-]|[_ Hx]]; [by exists u|by exists x]. }
  split.
  - intros i x (y & Hy & -> & _)%Hlook. by eapply user_keyed.
  - intros i x (y & Hy & _ & -> & _)%Hlook. by eapply user_name_fits.
  - intros i j x x' (y & Hy & _ & -> & _)%Hlook (y' & Hy' & _ & -> & _)%Hlook. by eapply user_name_unique.
  - intros i j x x' (y & Hy & _ & _ & ->)%Hlook (y' & Hy' & _ & _ & ->)%Hlook. by eapply user_email_unique.
Qed.

Lemma table_ok_insert db id v :
  table_ok db → user_sqlc.User_ID v = id →
  (user_sqlc.char_length (user_sqlc.User_UserName v) ≤ 32)%nat →
  (∀ u, ¬ named db (user_sqlc.User_UserName v) u) →
  (∀ u, ¬ mailed db (user_sqlc.User_Email v) u) → table_ok (<[id := v]> db).
Proof.
  intros Hok Hid Hlen Hn He. split.
  - intros i x. rewrite lookup_insert_Some. intros [[<- <-]|[_ Hx]]; [done|by eapply user_keyed].
  - intros i x. rewrite lookup_insert_Some. intros [[<- <-]|[_ Hx]]; [done|by eapply user_name_fits].
  - intros i j x y. rewrite !lookup_insert_Some.
    intros [[<- <-]|[_ Hx]] [[<- <-]|[_ Hy]] Heq; [done| | |by eapply user_name_unique].
    + destruct (Hn y). by exists j.
    + destruct (Hn x). by exists i.
  - intros i j x y. rewrite !lookup_insert_Some.
    intros [[<- <-]|[_ Hx]] [[<- <-]|[_ Hy]] Heq; [done| | |by eapply user_email_unique].
    + destruct (He y). by exists j.
    + destruct (He x). by exists i.
Qed.

Lemma table_ok_step dr db c r db' : ok_step dr db c r db' → table_ok db → table_ok db'.
Proof.
  intros Hstep Hok. inversion Hstep; subst; try done.
  - apply table_ok_insert; try done. by eapply varchar_length.
  - by eapply table_ok_update.
  - by eapply table_ok_update.
Qed.

Lemma table_ok_any_step dr db c r db' : step dr db c r db' → table_ok db → table_ok db'.
Proof. inversion 1; subst; eauto using table_ok_step. Qed.

Lemma table_ok_empty : table_ok ∅.
Proof. by split; intros *; rewrite lookup_empty. Qed.
End invariant.

End UserSpec.
