(* ===== verification/UserServer.v ===== *)
(** The gRPC layer of the user service
    (user_service/internal/server/user_server.go), the dispatch of the
    generated service description (user_service/api/user_grpc.pb.go), and the
    client wrapper (user_service/pkg/client/client.go). *)

From S2P Require Import Prelude GoLib Pgx Grpc DocDomain UserDomain.

(** The messages of user_service/api/user.proto *)
Module user_pb.
Record User := mkUser {
  User_UserId : string;
  User_UserName : string;
  User_Email : string;
  User_MaxDocuments : Z;
}.
Record GetUserRequest := mkGetUserRequest { GetUser_UserId : string }.
Record UserReply := mkUserReply { UserReply_User : option User }.
Record CreateUserRequest := mkCreateUserRequest {
  CreateUser_UserName : string;
  CreateUser_UserEmail : string;
  CreateUser_Password : string;
  CreateUser_MaxDocuments : option Z;
}.
Record CreateUserReply := mkCreateUserReply { CreateUserReply_UserId : string }.
Record DeactivateUserRequest := mkDeactivateUserRequest { DeactivateUser_UserId : string }.
Record ChangeUserPasswordRequest := mkChangeUserPasswordRequest {
  ChangePassword_UserId : string;
  ChangePassword_OldPassword : string;
  ChangePassword_NewPassword : string;
}.
Record ValidatePasswordRequest := mkValidatePasswordRequest {
  ValidatePassword_UserName : string;
  ValidatePassword_UserPassword : string;
}.
Record ValidatePasswordReply := mkValidatePasswordReply {
  ValidatePasswordReply_UserId : option string;
  ValidatePasswordReply_IsValid : bool;
}.

(** [type UserServiceServer interface], the methods of the service *)
Class UserServiceServer (W : Type) := {
  rpc_GetUser : GetUserRequest → go W Status UserReply;
  rpc_CreateUser : CreateUserRequest → go W Status CreateUserReply;
  rpc_DeactivateUser : DeactivateUserRequest → go W Status unit;
  rpc_ChangeUserPassword : ChangeUserPasswordRequest → go W Status unit;
  rpc_ValidatePassword : ValidatePasswordRequest → go W Status ValidatePasswordReply;
}.

(** [UnimplementedUserServiceServer], the methods an implementation that
    embeds it inherits when it does not declare them *)
Module Unimplemented.
Definition ChangeUserPassword {W} (_ : ChangeUserPasswordRequest) : go W Status unit :=
  throw (mkStatus Unimplemented "method ChangeUserPassword not implemented").
End Unimplemented.
End user_pb.

Module UserServer.
Section server.
Context `{UuidLib} `{ErrorText} {W : Type} `{user.UserRepository W}.
Import user_pb.

(** for a non-nil error *)
Definition serviceToGRPCError (err : user.error) : Status :=
  if user.errors_As user.is_NotFoundError err then mkStatus NotFound_ (user.Error err)
  else if user.errors_As user.is_UniqueConflictError err
  then mkStatus AlreadyExists (user.Error err)
  else if user.errors_As user.is_InvalidError err then mkStatus InvalidArgument (user.Error err)
  else if user.errors_As user.is_PasswordMismatchError err
  then mkStatus PermissionDenied (user.Error err)
  else mkStatus Internal "internal server error encountered".

Definition is_empty (s : string) : bool := bool_decide (s = EmptyString).

Definition GetUser (getUserReq : GetUserRequest) : go W Status UserReply :=
  userId ← lift (uuid_Parse (GetUser_UserId getUserReq))
    or_return λ _, mkStatus InvalidArgument
      ("failed to parse user id as uuid: " +:+ GetUser_UserId getUserReq);
  u ← user.UserService.GetUser userId or_return serviceToGRPCError;
  mret (mkUserReply (Some (mkUser (uuid_String (user.User_UserId u)) (user.User_UserName u)
                             (user.User_Email u) (user.User_MaxDocuments u)))).

Definition CreateUser (createUserReq : CreateUserRequest) : go W Status CreateUserReply :=
  _ ← return_if (is_empty (CreateUser_UserName createUserReq))
        (mkStatus InvalidArgument "user_name is required");
  _ ← return_if (is_empty (CreateUser_UserEmail createUserReq))
        (mkStatus InvalidArgument "user_email is required");
  _ ← return_if (is_empty (CreateUser_Password createUserReq))
        (mkStatus InvalidArgument "password is required");
  userId ← user.UserService.CreateUser (CreateUser_UserName createUserReq)
             (CreateUser_UserEmail createUserReq) (CreateUser_MaxDocuments createUserReq)
             (CreateUser_Password createUserReq)
    or_return serviceToGRPCError;
  mret (mkCreateUserReply (uuid_String userId)).

Definition DeactivateUser (deactivateUserReq : DeactivateUserRequest) : go W Status unit :=
  userId ← lift (uuid_Parse (DeactivateUser_UserId deactivateUserReq))
    or_return λ _, mkStatus InvalidArgument
      ("failed to parse user id as uuid: " +:+ DeactivateUser_UserId deactivateUserReq);
  user.UserService.DeactivateUser userId or_return serviceToGRPCError.

(** a method of the struct, but not one of the interface *)
Definition ChangePassword (req : ChangeUserPasswordRequest) : go W Status unit :=
  _ ← return_if (is_empty (ChangePassword_OldPassword req))
        (mkStatus InvalidArgument "user old_password is a required argument");
  _ ← return_if (is_empty (ChangePassword_NewPassword req))
        (mkStatus InvalidArgument "user new_password is a required argument");
  userId ← lift (uuid_Parse (ChangePassword_UserId req))
    or_return λ _, mkStatus InvalidArgument
      ("failed to parse user id as uuid: " +:+ ChangePassword_UserId req);
  user.UserService.ChangePassword userId (ChangePassword_OldPassword req)
    (ChangePassword_NewPassword req) or_return serviceToGRPCError.

Definition ValidatePassword (req : ValidatePasswordRequest)
    : go W Status ValidatePasswordReply :=
  _ ← return_if (is_empty (ValidatePassword_UserPassword req))
        (mkStatus InvalidArgument "user_password is a required argument");
  _ ← return_if (is_empty (ValidatePassword_UserName req))
        (mkStatus InvalidArgument "user_name cannot be empty string");
  answer ← user.UserService.ValidatePassword (ValidatePassword_UserName req)
             (ValidatePassword_UserPassword req) or_return serviceToGRPCError;
  let userIdStr := uuid_String answer.1 in
  mret (mkValidatePasswordReply (Some userIdStr) answer.2).

(** what the gRPC server dispatches to: the struct embeds
    [UnimplementedUserServiceServer] and overrides four of its methods *)
#[global] Instance UserServiceServerImpl : UserServiceServer W := {|
  rpc_GetUser := GetUser;
  rpc_CreateUser := CreateUser;
  rpc_DeactivateUser := DeactivateUser;
  rpc_ChangeUserPassword := Unimplemented.ChangeUserPassword;
  rpc_ValidatePassword := ValidatePassword;
|}.

End server.
End UserServer.

(** The client: [stub] is the generated client on a connection, the same
    interface on the other side of the wire *)
Module UserServiceClient.
Section client.
Context `{UuidLib} {W : Type} {stub : user_pb.UserServiceServer W}.
Import user_pb.

Definition GetUser (userId : uuid) : go W client_error UserReply :=
  rpc_GetUser (mkGetUserRequest (uuid_String userId)) or_return RpcError.

Definition CreateUser (userName userEmail password : string) (maxDocuments : option Z)
    : go W client_error CreateUserReply :=
  rpc_CreateUser (mkCreateUserRequest userName userEmail password maxDocuments)
    or_return RpcError.

Definition DeactivateUser (userId : uuid) : go W client_error unit :=
  rpc_DeactivateUser (mkDeactivateUserRequest (uuid_String userId)) or_return RpcError.

Definition ChangeUserPassword (userId : uuid) (oldPassword newPassword : string)
    : go W client_error unit :=
  rpc_ChangeUserPassword (mkChangeUserPasswordRequest (uuid_String userId) oldPassword newPassword)
    or_return RpcError.

Definition ValidatePassword (userName password : string) : go W client_error (uuid * bool) :=
  reply ← rpc_ValidatePassword (mkValidatePasswordRequest userName password) or_return RpcError;
  id ← deref (ValidatePasswordReply_UserId reply);
  userId ← lift (uuid_Parse id) or_return PlainError;
  mret (userId, ValidatePasswordReply_IsValid reply).

End client.
End UserServiceClient.
