(* ===== verification/UserRpc.v ===== *)
(** The contract of the user service at its wire: which calls of the
    repository's specification a request stands for, which requests are refused
    before the database is asked, and how answers and failures are encoded. *)

From S2P Require Import Prelude GoLib Pgx Grpc DocDomain UserDomain UserSql UserRepository.
From S2P Require Import UserSpec UserServer.
Import UserSpec.

Module UserRpc.

Inductive rpc :=
  | RGetUser (r : user_pb.GetUserRequest)
  | RCreateUser (r : user_pb.CreateUserRequest)
  | RDeactivateUser (r : user_pb.DeactivateUserRequest)
  | RChangeUserPassword (r : user_pb.ChangeUserPasswordRequest)
  | RValidatePassword (r : user_pb.ValidatePasswordRequest).

Inductive reply :=
  | PUser (p : user_pb.UserReply)
  | PCreated (p : user_pb.CreateUserReply)
  | PEmpty
  | PValidated (p : user_pb.ValidatePasswordReply).

(** what the generated server does with a request *)
Definition serve {W} `{user_pb.UserServiceServer W} (r : rpc) : go W Status reply :=
  match r with
  | RGetUser r => p ← user_pb.rpc_GetUser r; mret (PUser p)
  | RCreateUser r => p ← user_pb.rpc_CreateUser r; mret (PCreated p)
  | RDeactivateUser r => _ ← user_pb.rpc_DeactivateUser r; mret PEmpty
  | RChangeUserPassword r => _ ← user_pb.rpc_ChangeUserPassword r; mret PEmpty
  | RValidatePassword r => p ← user_pb.rpc_ValidatePassword r; mret (PValidated p)
  end.

Definition refuse {A} (message : string) : Status + A := inl (mkStatus InvalidArgument message).

(** the documented codes of the failures *)
Definition code_of (k : kind) : Code :=
  match k with
  | KNotFound => NotFound_
  | KConflict => AlreadyExists
  | KInvalid => InvalidArgument
  | KMismatch => PermissionDenied
  | KInternal => Internal
  end.

Section wire.
Context `{UuidLib}.

Definition with_user_id {A} (s : string) (k : uuid → A) : Status + A :=
  match uuid_Parse s with
  | inl _ => refuse ("failed to parse user id as uuid: " +:+ s)
  | inr id => inr (k id)
  end.

Definition too_short (what s : string) (n : nat) : string :=
  "invalid input, msg: " +:+
  (what +:+ ": <" +:+ s +:+ "> did not match the min " +:+ what +:+ " length constraint: " +:+ pretty n) +:+
  ", err: <nil>".

(** the call a request stands for, or the status it is refused with *)
Definition decode (r : rpc) : Status + call :=
  match r with
  | RGetUser r => with_user_id (user_pb.GetUser_UserId r) UGet
  | RCreateUser (user_pb.mkCreateUserRequest name email password max) =>
      if UserServer.is_empty name then refuse "user_name is required"
      else if UserServer.is_empty email then refuse "user_email is required"
      else if UserServer.is_empty password then refuse "password is required"
      else if (String.length name <? 3)%nat then refuse (too_short "username" name 3)
      else if (String.length password <? 8)%nat then refuse (too_short "password" password 8)
      else inr (UCreate name email (default 100%Z max) password)
  | RDeactivateUser r => with_user_id (user_pb.DeactivateUser_UserId r) UDeactivate
  | RChangeUserPassword _ =>
      inl (mkStatus Unimplemented "method ChangeUserPassword not implemented")
  | RValidatePassword (user_pb.mkValidatePasswordRequest name password) =>
      if UserServer.is_empty password then refuse "user_password is a required argument"
      else if UserServer.is_empty name then refuse "user_name cannot be empty string"
      else inr (UValidate name password)
  end.

Definition encode (v : value) : reply :=
  match v with
  | VUnit => PEmpty
  | VId id => PCreated (user_pb.mkCreateUserReply (uuid_String id))
  | VUser u => PUser (user_pb.mkUserReply (Some (user_pb.mkUser (uuid_String (user.User_UserId u))
                 (user.User_UserName u) (user.User_Email u) (user.User_MaxDocuments u))))
  | VCheck id ok => PValidated (user_pb.mkValidatePasswordReply (Some (uuid_String id)) ok)
  end.

(** [o] is the answer on the wire to the response [resp] of the specification *)
Definition answers (o : outcome Status reply) (resp : response) : Prop :=
  match resp with
  | Done v => o = Ret (encode v)
  | Failed k => ∃ m, o = Err (mkStatus (code_of k) m) ∧
                     (k = KInternal → m = "internal server error encountered")
  end.

Section handlers.
Context `{ErrorText} {W : Type} `{user.UserRepository W}.

Lemma grpc_status (err : user.error) :
  ∃ m, UserServer.serviceToGRPCError err = mkStatus (code_of (kind_of err)) m ∧
       (kind_of err = KInternal → m = "internal server error encountered").
Proof.
  unfold UserServer.serviceToGRPCError, kind_of.
  repeat case_match; eexists; split; try done; by intros.
Qed.

(** how a handler's outcome follows from the repository's *)
Definition on_wire (o : outcome user.error value) : outcome Status reply :=
  match o with
  | Ret v => Ret (encode v)
  | Err e => Err (UserServer.serviceToGRPCError e)
  | Panic p => Panic p
  end.

Lemma respond_answers o resp : respond o = Some resp → answers (on_wire o) resp.
Proof.
  destruct o as [v|e|p]; intros [= <-]; [done|]. simpl.
  destruct (grpc_status e) as (m & -> & Hm). by exists m.
Qed.

(** runs the monad down to the call of the repository, and case splits on it *)
Ltac wire :=
  unfold lift, return_if, map_err, mbind, go_bind, mret, go_ret, throw; simpl;
  unfold mbind, go_bind, mret, go_ret, throw;
  repeat match goal with
  | |- context [match ?m with (_, _) => _ end] =>
      lazymatch m with
      | context [match _ with _ => _ end] => fail
      | (_, _) => fail
      | _ => destruct m as [[] ?]; simpl
      end
  end; try done.

(** A request is refused without touching the world, or it is the repository's
    call with its outcome encoded. *)
Lemma serve_decode r w :
  serve r w = match decode r with
              | inl st => (Err st, w)
              | inr c => match run_call c w with (o, w') => (on_wire o, w') end
              end.
Proof.
  destruct r as [[s]|[name email pw max]|[s]|r|[name pw]]; [| | |done|]; simpl.
  - unfold UserServer.GetUser, with_user_id, user.UserService.GetUser. simpl.
    destruct (uuid_Parse s) as [e|id]; wire.
  - unfold UserServer.CreateUser, user.UserService.CreateUser. simpl.
    destruct (UserServer.is_empty name); [done|]. destruct (UserServer.is_empty email); [done|].
    destruct (UserServer.is_empty pw); [done|]. unfold user.MinUsernameLength, user.MinPasswordLength, user.DefaultMaxDocuments.
    destruct (String.length name <? 3)%nat; [done|]. destruct (String.length pw <? 8)%nat; [done|].
    destruct max; wire.
  - unfold UserServer.DeactivateUser, with_user_id, user.UserService.DeactivateUser. simpl.
    destruct (uuid_Parse s) as [e|id]; wire.
  - unfold UserServer.ValidatePassword, user.UserService.ValidatePassword. simpl.
    destruct (UserServer.is_empty pw); [done|]. destruct (UserServer.is_empty name); [done|]. wire.
Qed.

End handlers.
End wire.
End UserRpc.
