(* ===== verification/UserTheorems.v ===== *)
(** The correctness theorems of the user service. *)

From S2P Require Import Prelude GoLib Pgx Grpc DocDomain UserDomain UserSql UserRepository.
From S2P Require Import UserSpec UserServer UserRpc Examples.
Import UserSpec UserRpc.

Lemma step_keeps_password `{Bcrypt} `{ErrorText} dr db c resp db' id hash :
  step dr db c resp db' → (∀ i o n, c ≠ UChangePassword i o n) →
  (∃ v, db !! id = Some v ∧ user_sqlc.User_HashedPassword v = hash) →
  ∃ v, db' !! id = Some v ∧ user_sqlc.User_HashedPassword v = hash.
Proof.
  assert (∀ r db2, ok_step dr db c r db2 → (∀ i o n, c ≠ UChangePassword i o n) →
    (∃ v, db !! id = Some v ∧ user_sqlc.User_HashedPassword v = hash) →
    ∃ v, db2 !! id = Some v ∧ user_sqlc.User_HashedPassword v = hash) as Hok.
  { intros r db2 Hs Hc (v & Hv & Hh). inversion Hs; subst; eauto; try by destruct (Hc id0 old new).
    - exists v. rewrite lookup_insert_ne; [done|]. intros Heq. rewrite Heq in *. congruence.
    - destruct (decide (id0 = id)) as [->|Hne]; [|exists v; by rewrite lookup_insert_ne].
      eexists. rewrite lookup_insert_eq. split; [done|]. simpl. congruence. }
  intros Hstep. inversion Hstep; subst; eauto.
Qed.

Lemma decoded_call `{UuidLib} r c : decode r = inr c → ∀ i o n, c ≠ UChangePassword i o n.
Proof.
  destruct r as [[]|[]|[]|[]|[]]; simpl; unfold with_user_id, refuse;
    repeat case_match; intros ?; by simplify_eq.
Qed.

Section users.
Context `{ErrorText} `{BcryptLaws}.

(** C7: Every method of the user repository, against a database that may lose
    or acknowledge late any interaction, returns and makes a step of the
    specification of the user table, with no transaction left open: exactly the
    specified answer and table without faults, otherwise a repository error
    with the effect absent or complete. *)
Theorem user_repository_refines_specification c (w : UserWorld) :
  table_ok (w_db w) → w_tx w = None →
  wp (run_call c) (λ o w',
    ∃ r, respond o = Some r ∧ w_tx w' = None ∧ step (drawn w c) (w_db w) c r (w_db w') ∧
         (healthy w → healthy w' ∧ ok_step (drawn w c) (w_db w) c r (w_db w'))) w.
Proof. intros Hok Htx. by apply run_user_step. Qed.

Definition run_calls (cs : list call) (w : UserWorld) : UserWorld :=
  foldl (λ w c, (run_call c w).2) w cs.

(** C21: From the empty table on, whatever calls are made and whatever faults
    occur, user names and emails stay unique, names fit their column, and rows
    are stored under their ids. *)
Theorem user_table_invariant cs (w : UserWorld) :
  w_db w = ∅ → w_tx w = None →
  table_ok (w_db (run_calls cs w)) ∧ w_tx (run_calls cs w) = None.
Proof.
  intros Hdb Htx. assert (Hok : table_ok (w_db w)) by (rewrite Hdb; apply table_ok_empty).
  clear Hdb. revert w Htx Hok. induction cs as [|c cs IH]; intros w Htx Hok; [done|]. simpl.
  pose proof (run_user_step c w Hok Htx) as Hc. unfold wp in Hc.
  destruct (run_call c w) as [o w']. destruct Hc as (r & _ & Htx' & Hstep & _). simpl.
  apply IH; [done|]. by eapply table_ok_any_step.
Qed.

(** a fault-free call *)
Lemma user_ok c (w : UserWorld) :
  table_ok (w_db w) → w_tx w = None → healthy w →
  wp (run_call c) (λ o w', ∃ r, respond o = Some r ∧ w_tx w' = None ∧ healthy w' ∧
    table_ok (w_db w') ∧ ok_step (drawn w c) (w_db w) c r (w_db w')) w.
Proof.
  intros Hok Htx Hw. eapply wp_mono; [by apply run_user_step|].
  intros o w' (r & Hr & Htx' & _ & Hh). destruct (Hh Hw) as [Hw' Hs].
  exists r. split_and!; try done. by eapply table_ok_step.
Qed.

(** runs the next call *)
Ltac user_call Hok :=
  let o := fresh "o" in let w' := fresh "w'" in let r := fresh "r" in let Hr := fresh "Hr" in
  let Htb := fresh "Htb" in
  eapply wp_mono; [by apply user_ok|];
  intros o w' (r & Hr & ? & ? & Htb & Hok); inversion Hok; subst;
  destruct o; simpl in *|-; simplify_eq; cbn beta iota.

Lemma named_unique db name u v : table_ok db → named db name u → named db name v → u = v.
Proof.
  intros Hok (i & Hi & Hu) (j & Hj & Hv).
  assert (i = j) as -> by (eapply user_name_unique; [done..|congruence]). congruence.
Qed.

(** validating a password against the one user of that name *)
Lemma wp_validate name pw u (w : UserWorld) :
  table_ok (w_db w) → w_tx w = None → healthy w → named (w_db w) name u →
  wp (run_call (UValidate name pw)) (λ o w',
    w_db w' = w_db w ∧
    o = Ret (match CompareHashAndPassword (user_sqlc.User_HashedPassword u) pw with
             | None => VCheck (user_sqlc.User_ID u) true
             | Some _ => VCheck uuid_Nil false
             end)) w.
Proof.
  intros Htb Htx Hw Hu. eapply wp_mono; [by apply user_ok|].
  intros o w' (r & Hr & _ & _ & _ & Hok). inversion Hok; subst.
  3:{ match goal with H : ∀ u, ¬ named _ _ _ |- _ => by destruct (H u) end. }
  all: match goal with H : named _ _ ?v |- _ =>
         assert (v = u) as -> by (by eapply named_unique) end.
  all: match goal with H : CompareHashAndPassword _ _ = _ |- _ => rewrite H end.
  all: destruct o; by simplify_eq/=.
Qed.

(** A user that was created can log in with the name and the password it
    was created with, and gets its own id; a creation that fails without a
    database fault is a conflict or an internal error. *)
Theorem created_user_validates name email max pw (w : UserWorld) :
  table_ok (w_db w) → w_tx w = None → healthy w →
  (user_sqlc.char_length name ≤ 32)%nat →
  wp (v ← run_call (UCreate name email max pw);
      match v with
      | VId id => x ← run_call (UValidate name pw); mret (Some (id, x))
      | _ => mret None
      end) (λ o _,
    (∃ id, o = Ret (Some (id, VCheck id true))) ∨
    (∃ e, o = Err e ∧ (kind_of e = KConflict ∨ kind_of e = KInternal))) w.
Proof.
  intros Htb Htx Hw Hlen. apply wp_bind. user_call Hok; [|right; eauto..].
  rewrite varchar_fits in * by done. simplify_eq. apply wp_bind.
  match goal with H : _ = w_db w' |- _ => symmetry in H; rename H into Hdb end.
  eapply wp_mono; [eapply wp_validate; try done; rewrite Hdb|].
  { eexists. by rewrite lookup_insert_eq. }
  intros o w2 [Hdb2 ->]. simpl. erewrite Compare_Generate by done. apply wp_ret. left. by eexists.
Qed.

(** C27: A change of password succeeds exactly when the old password matches
    the stored hash and the new one can be hashed. The stored hash is then the
    new one, nothing else of the table changes but the modification time, and
    the new password logs in under the same id. When the old password does not
    match, the call fails with [KMismatch]; when the new one cannot be hashed, it
    fails with [KInternal]; in both cases the table is what it was. *)
Theorem changed_password_validates id old new u (w : UserWorld) :
  table_ok (w_db w) → w_tx w = None → healthy w → w_db w !! id = Some u →
  wp (_ ← run_call (UChangePassword id old new);
      run_call (UValidate (user_sqlc.User_UserName u) new)) (λ o w',
    match CompareHashAndPassword (user_sqlc.User_HashedPassword u) old with
    | Some _ => ∃ e, o = Err e ∧ kind_of e = KMismatch ∧ w_db w' = w_db w
    | None =>
        match GenerateFromPassword (S (S (w_tick w))) new with
        | inr hash => o = Ret (VCheck id true) ∧ ∃ now, w_db w' = <[id := rehashed hash now u]> (w_db w)
        | inl _ => ∃ e, o = Err e ∧ kind_of e = KInternal ∧ w_db w' = w_db w
        end
    end) w.
Proof.
  intros Htb Htx Hw Hu. apply wp_bind. user_call Hok;
    match goal with H : CompareHashAndPassword _ old = _ |- _ => rewrite H end;
    try match goal with H : GenerateFromPassword _ new = _ |- _ => simpl in H; rewrite H end; eauto.
  match goal with H : _ = w_db w' |- _ => symmetry in H; rename H into Hdb end.
  eapply wp_mono; [eapply wp_validate; try done; rewrite Hdb|].
  { exists id. by rewrite lookup_insert_eq. }
  intros o w2 [Hdb2 ->]. rewrite Hdb2, Hdb. split; [|by eexists]. simpl.
  erewrite Compare_Generate by done. by rewrite (user_keyed _ Htb _ _ Hu).
Qed.

(** C36: Deactivating a user has no effect on its logins: the deactivated user
    still validates with its password. *)
Theorem deactivated_user_validates id pw u (w : UserWorld) :
  table_ok (w_db w) → w_tx w = None → healthy w → w_db w !! id = Some u →
  CompareHashAndPassword (user_sqlc.User_HashedPassword u) pw = None →
  wp (_ ← run_call (UDeactivate id); run_call (UValidate (user_sqlc.User_UserName u) pw))
    (λ o w', o = Ret (VCheck id true) ∧
       ∃ v, w_db w' !! id = Some v ∧ user_sqlc.User_IsActive v = Some false) w.
Proof.
  intros Htb Htx Hw Hu Hpw. apply wp_bind. user_call Hok.
  match goal with H : _ = w_db w' |- _ => symmetry in H; rename H into Hdb end.
  eapply wp_mono; [eapply wp_validate; try done; rewrite Hdb|].
  { exists id. by rewrite lookup_insert_eq. }
  intros o w2 [Hdb2 ->]. rewrite Hdb2, Hdb, lookup_insert_eq. simpl. rewrite Hpw.
  rewrite (user_keyed _ Htb _ _ Hu). eauto.
Qed.

End users.

(** ** On the wire *)
Section wire.
Context `{ErrorText} `{BcryptLaws} `{UuidLib}.

(** C12: Every RPC of the user service either refuses the request with the
    status of [decode] and leaves the world alone, or makes the step of the
    specification that [decode] names and answers with that response encoded:
    the value, or the documented status code of the failure, internal failures
    with a constant message. *)
Theorem user_rpc_contract r (w : UserWorld) :
  table_ok (w_db w) → w_tx w = None →
  wp (serve r) (λ o w',
    match decode r with
    | inl st => o = Err st ∧ w' = w
    | inr c => ∃ resp, answers o resp ∧ w_tx w' = None ∧ step (drawn w c) (w_db w) c resp (w_db w') ∧
                       (healthy w → healthy w' ∧ ok_step (drawn w c) (w_db w) c resp (w_db w'))
    end) w.
Proof.
  intros Htb Htx. unfold wp. rewrite serve_decode. destruct (decode r) as [st|c]; [done|].
  pose proof (run_user_step c w Htb Htx) as Hc. unfold wp in Hc. destruct (run_call c w) as [o w'].
  destruct Hc as (resp & Hr & Hc). exists resp. by split; [apply respond_answers|].
Qed.

Definition serve_all (rs : list rpc) (w : UserWorld) : UserWorld :=
  foldl (λ w r, (serve r w).2) w rs.

(** C32: No sequence of RPCs changes the password of a stored user, and none
    removes a user, since the RPC that should change it is not implemented. *)
Theorem passwords_never_change rs (w : UserWorld) id u :
  table_ok (w_db w) → w_tx w = None → w_db w !! id = Some u →
  ∃ v, w_db (serve_all rs w) !! id = Some v ∧
       user_sqlc.User_HashedPassword v = user_sqlc.User_HashedPassword u.
Proof.
  intros Htb Htx Hu.
  assert (∃ v, w_db w !! id = Some v ∧
    user_sqlc.User_HashedPassword v = user_sqlc.User_HashedPassword u) as Hv by eauto.
  clear Hu. revert w Htb Htx Hv. induction rs as [|r rs IH]; intros w Htb Htx Hv; [done|].
  unfold serve_all. simpl. rewrite serve_decode.
  destruct (decode r) as [st|c] eqn:Hr; [by apply IH|].
  pose proof (run_user_step c w Htb Htx) as Hc. unfold wp in Hc. destruct (run_call c w) as [o w'].
  destruct Hc as (resp & _ & Htx' & Hstep & _). apply IH; [by eapply table_ok_any_step|done|]. simpl.
  eapply step_keeps_password; [done|by eapply decoded_call|done].
Qed.

(** A [CreateUser] request whose password is too short is refused before
    the database is asked, with a message that repeats the password. *)
Theorem short_password_echoed name email pw max (w : UserWorld) :
  (3 ≤ String.length name)%nat → email ≠ EmptyString → pw ≠ EmptyString →
  (String.length pw < 8)%nat →
  ∃ before after, serve (RCreateUser (user_pb.mkCreateUserRequest name email pw max)) w =
    (Err (mkStatus InvalidArgument (before +:+ pw +:+ after)), w).
Proof.
  intros Hn He Hp Hlen. rewrite serve_decode. simpl. unfold UserServer.is_empty.
  rewrite !bool_decide_false by (try done; by intros ->; simpl in Hn; lia).
  rewrite (proj2 (Nat.ltb_ge _ _)) by lia. rewrite (proj2 (Nat.ltb_lt _ _)) by lia.
  unfold refuse, too_short. eexists "invalid input, msg: password: <", _.
  simpl. by rewrite <- !string_app_assoc.
Qed.
End wire.

(** ** Instances of the theorems *)
Module UserPlan.
Import Examples.

(** a hash that is the password with a mark in front, of at most 72 bytes *)
#[global] Instance marks : Bcrypt := {|
  GenerateFromPassword _ p :=
    if (String.length p <=? 72)%nat then inr ("$" +:+ p)
    else inl "bcrypt: password length exceeds 72 bytes";
  CompareHashAndPassword h p :=
    if bool_decide (h = "$" +:+ p) then None
    else Some "crypto/bcrypt: hashedPassword is not the hash of the given password";
|}.

Lemma char_length_bound s : (user_sqlc.char_length s ≤ String.length s)%nat.
Proof. induction s as [|a s IH]; simpl; [lia|]. destruct (user_sqlc.starts_char a); lia. Qed.

#[global] Instance marks_laws : BcryptLaws.
Proof.
  split; intros n p h; simpl; destruct (_ <=? 72)%nat eqn:Hp; intros [= <-].
  - by rewrite bool_decide_true.
  - apply Nat.leb_le in Hp. 
    etrans; [apply char_length_bound|]. change (S (String.length p) ≤ 255)%nat. lia.
Qed.

Definition fresh (e : Env) : UserWorld := mkWorld ∅ None 0 e.
Definition anna : user_sqlc.User :=
  UserSpec.new_row (id_of 1) "anna" "anna@example.com" 100 "$correct horse" 1000.
Definition with_anna (e : Env) : UserWorld := mkWorld {[id_of 1 := anna]} None 0 e.

Lemma with_anna_ok e : table_ok (w_db (with_anna e)).
Proof.
  apply table_ok_insert; [apply table_ok_empty|done|vm_compute; lia| |];
    intros u (i & Hi & _); by rewrite lookup_empty in Hi.
Qed.

Lemma fresh_healthy : healthy (fresh calm).
Proof. by intros n _. Qed.
Lemma with_anna_healthy : healthy (with_anna calm).
Proof. by intros n _. Qed.

Lemma user_repository_refines_specification_witness :
  table_ok (w_db (with_anna (flaky 0))) ∧
  wp (run_call (UDeactivate (id_of 1))) (λ o w',
    ∃ r, respond o = Some r ∧ w_tx w' = None ∧
      step (drawn (with_anna (flaky 0)) (UDeactivate (id_of 1)))
        (w_db (with_anna (flaky 0))) (UDeactivate (id_of 1)) r (w_db w') ∧
      (healthy (with_anna (flaky 0)) → healthy w' ∧
         ok_step (drawn (with_anna (flaky 0)) (UDeactivate (id_of 1)))
        (w_db (with_anna (flaky 0))) (UDeactivate (id_of 1)) r (w_db w')))
    (with_anna (flaky 0)).
Proof.
  split; [apply with_anna_ok|].
  apply (user_repository_refines_specification (UDeactivate (id_of 1)) (with_anna (flaky 0)));
    [apply with_anna_ok|reflexivity].
Defined.

Definition calls : list call :=
  [UCreate "bob" "b@x" 5 "password"; UCreate "bob" "c@x" 5 "password"; UDeactivate (id_of 100)].

Lemma user_table_invariant_witness :
  table_ok (w_db (run_calls calls (fresh (flaky 1)))) ∧
  w_tx (run_calls calls (fresh (flaky 1))) = None.
Proof. apply (user_table_invariant calls (fresh (flaky 1))); reflexivity. Defined.

Lemma created_user_validates_witness :
  wp (v ← run_call (UCreate "bob" "b@x" 5 "password");
      match v with
      | VId id => x ← run_call (UValidate "bob" "password"); mret (Some (id, x))
      | _ => mret None
      end) (λ o _,
    (∃ id, o = Ret (Some (id, VCheck id true))) ∨
    (∃ e, o = Err e ∧ (kind_of e = KConflict ∨ kind_of e = KInternal))) (fresh calm).
Proof.
  apply (created_user_validates "bob" "b@x" 5 "password" (fresh calm));
    [apply table_ok_empty|reflexivity|apply fresh_healthy|vm_compute; lia].
Defined.

(** a wrong old password, and the right one *)
Lemma changed_password_validates_witness :
  wp (_ ← run_call (UChangePassword (id_of 1) "wrong" "new password");
      run_call (UValidate "anna" "new password")) (λ o w',
    ∃ e, o = Err e ∧ kind_of e = KMismatch ∧ w_db w' = w_db (with_anna calm)) (with_anna calm) ∧
  wp (_ ← run_call (UChangePassword (id_of 1) "correct horse" "new password");
      run_call (UValidate "anna" "new password")) (λ o w',
    o = Ret (VCheck (id_of 1) true) ∧ ∃ now,
      w_db w' = <[id_of 1 := rehashed "$new password" now anna]> (w_db (with_anna calm)))
    (with_anna calm).
Proof.
  split.
  - eapply wp_mono; [apply (changed_password_validates (id_of 1) "wrong" "new password" anna
      (with_anna calm)); [apply with_anna_ok|reflexivity|apply with_anna_healthy|apply lookup_insert_eq]|].
    intros o w' Ho. exact Ho.
  - eapply wp_mono; [apply (changed_password_validates (id_of 1) "correct horse" "new password" anna
      (with_anna calm)); [apply with_anna_ok|reflexivity|apply with_anna_healthy|apply lookup_insert_eq]|].
    intros o w' Ho. exact Ho.
Defined.

Lemma deactivated_user_validates_witness :
  wp (_ ← run_call (UDeactivate (id_of 1)); run_call (UValidate "anna" "correct horse"))
    (λ o w', o = Ret (VCheck (id_of 1) true) ∧
       ∃ v, w_db w' !! id_of 1 = Some v ∧ user_sqlc.User_IsActive v = Some false)
    (with_anna calm).
Proof.
  apply (deactivated_user_validates (id_of 1) "correct horse" anna (with_anna calm));
    [apply with_anna_ok|reflexivity|apply with_anna_healthy|apply lookup_insert_eq|reflexivity].
Defined.

Definition bob_request (password : string) : rpc :=
  RCreateUser (user_pb.mkCreateUserRequest "bob" "b@x" password None).

Lemma user_rpc_contract_witness :
  decode (bob_request "password") = inr (UCreate "bob" "b@x" 100 "password") ∧
  wp (serve (bob_request "password")) (λ o w',
    match decode (bob_request "password") with
    | inl st => o = Err st ∧ w' = fresh calm
    | inr c => ∃ resp, answers o resp ∧ w_tx w' = None ∧ step (drawn (fresh calm) c) ∅ c resp (w_db w') ∧
                       (healthy (fresh calm) → healthy w' ∧ ok_step (drawn (fresh calm) c) ∅ c resp (w_db w'))
    end) (fresh calm).
Proof.
  split; [reflexivity|].
  apply (user_rpc_contract (bob_request "password") (fresh calm)); [apply table_ok_empty|reflexivity].
Defined.

Lemma passwords_never_change_witness :
  ∃ v, w_db (serve_all [RChangeUserPassword (user_pb.mkChangeUserPasswordRequest
         (uuid_String (id_of 1)) "correct horse" "new password")] (with_anna calm)) !! id_of 1 = Some v ∧
       user_sqlc.User_HashedPassword v = "$correct horse".
Proof.
  apply (passwords_never_change [RChangeUserPassword _] (with_anna calm) (id_of 1) anna);
    [apply with_anna_ok|reflexivity|apply lookup_insert_eq].
Defined.

Lemma short_password_echoed_witness :
  ∃ before after, serve (bob_request "hunter2") (fresh calm) =
    (Err (mkStatus InvalidArgument (before +:+ "hunter2" +:+ after)), fresh calm).
Proof.
  apply (short_password_echoed "bob" "b@x" "hunter2" None (fresh calm)); [simpl; lia|done|done|simpl; lia].
Defined.

End UserPlan.
