(* ===== verification/UserWire.v ===== *)
(** The user service on the wire: the generated client stubs, method handlers
    and service description (user_service/api/user_grpc.pb.go), the two
    interceptors of the server (user_service/pkg/middleware), and a connection
    that delivers every message. *)

From S2P Require Import Prelude GoLib Pgx Grpc DocDomain UserDomain UserSql UserRepository.
From S2P Require Import UserSpec UserServer UserRpc.
From Stdlib Require Import Strings.Byte.
Import UserRpc.

(** Package proto, a parameter: the wire format of a type of message. The law
    is stated for every message of the model, whose strings and integers are
    unbounded; of the real package it holds for strings of valid UTF-8 and
    integers of the width of their field. *)
Class Proto (T : Type) := {
  proto_marshal : T → list byte;
  proto_unmarshal : list byte → option T;
}.
Class ProtoLaws (T : Type) `{Proto T} : Prop := {
  unmarshal_marshal (x : T) : proto_unmarshal (proto_marshal x) = Some x;
}.

(** the messages of the user service; [unit] is emptypb.Empty *)
Class UserWire := {
  #[global] wire_GetUser :: Proto user_pb.GetUserRequest;
  #[global] wire_CreateUser :: Proto user_pb.CreateUserRequest;
  #[global] wire_DeactivateUser :: Proto user_pb.DeactivateUserRequest;
  #[global] wire_ChangeUserPassword :: Proto user_pb.ChangeUserPasswordRequest;
  #[global] wire_ValidatePassword :: Proto user_pb.ValidatePasswordRequest;
  #[global] wire_UserReply :: Proto user_pb.UserReply;
  #[global] wire_CreateUserReply :: Proto user_pb.CreateUserReply;
  #[global] wire_ValidatePasswordReply :: Proto user_pb.ValidatePasswordReply;
  #[global] wire_Empty :: Proto unit;
}.
Class UserWireLaws `{UserWire} : Prop := {
  #[global] laws_GetUser :: ProtoLaws user_pb.GetUserRequest;
  #[global] laws_CreateUser :: ProtoLaws user_pb.CreateUserRequest;
  #[global] laws_DeactivateUser :: ProtoLaws user_pb.DeactivateUserRequest;
  #[global] laws_ChangeUserPassword :: ProtoLaws user_pb.ChangeUserPasswordRequest;
  #[global] laws_ValidatePassword :: ProtoLaws user_pb.ValidatePasswordRequest;
  #[global] laws_UserReply :: ProtoLaws user_pb.UserReply;
  #[global] laws_CreateUserReply :: ProtoLaws user_pb.CreateUserReply;
  #[global] laws_ValidatePasswordReply :: ProtoLaws user_pb.ValidatePasswordReply;
  #[global] laws_Empty :: ProtoLaws unit;
}.

Module Wire.

(** a call on the server: the world behind it, the headers set for the reply
    and what was logged *)
Record ServerCall (W : Type) := mkServerCall {
  call_world : W;
  call_headers : list (string * string);
  call_log : list string;
}.
Arguments mkServerCall {_}.
Arguments call_world {_}.
Arguments call_headers {_}.
Arguments call_log {_}.

(** the context of a call: the trace id of its span, if it has one *)
Record Context := mkContext { SpanContext_TraceID : option uuid }.

Section wire.
Context {W : Type}.

Definition on_server {A} (m : go W Status A) : go (ServerCall W) Status A := λ c,
  match m (call_world c) with
  | (o, w) => (o, mkServerCall w (call_headers c) (call_log c))
  end.

(** a request and a reply of any type are those of the service *)
Definition UnaryHandler : Type := Context → rpc → go (ServerCall W) Status reply.
Definition UnaryServerInterceptor : Type :=
  Context → rpc → string → UnaryHandler → go (ServerCall W) Status reply.

(** ** Package middleware *)
Definition slog_Debug (message : string) : go (ServerCall W) Status unit := λ c,
  (Ret (), mkServerCall (call_world c) (call_headers c) (call_log c ++ [message])).
Definition SetHeader (key value : string) : go (ServerCall W) Status unit := λ c,
  (Ret (), mkServerCall (call_world c) (call_headers c ++ [(key, value)]) (call_log c)).

Definition LoggingInterceptor : UnaryServerInterceptor := λ ctx req FullMethod handler,
  _ ← slog_Debug ("received a call to method " +:+ FullMethod);
  handler ctx req.

Definition traceIdKey : string := "x-reed-request-id".
Definition traceIdUnknown : string := "unknown".

Definition TraceIdInterceptor `{UuidLib} : UnaryServerInterceptor := λ ctx req FullMethod handler,
  _ ← match SpanContext_TraceID ctx with
      | Some traceId => SetHeader traceIdKey (uuid_String traceId)
      | None => SetHeader traceIdKey traceIdUnknown
      end;
  handler ctx req.

(** ** user_grpc.pb.go *)
Definition UserService_GetUser_FullMethodName : string := "/api.UserService/GetUser".
Definition UserService_CreateUser_FullMethodName : string := "/api.UserService/CreateUser".
Definition UserService_DeactivateUser_FullMethodName : string := "/api.UserService/DeactivateUser".
Definition UserService_ChangeUserPassword_FullMethodName : string := "/api.UserService/ChangeUserPassword".
Definition UserService_ValidatePassword_FullMethodName : string := "/api.UserService/ValidatePassword".

Context {wire : UserWire}.

(** [dec(in)]: a message that cannot be decoded is an Internal error of the
    library, whose text is a parameter *)
Definition dec {T} `{Proto T} (text : string) (message : list byte) : go (ServerCall W) Status T :=
  match proto_unmarshal message with
  | None => throw (mkStatus Internal text)
  | Some x => mret x
  end.

Section server.
Context {srv : user_pb.UserServiceServer W} (text : string).

(** a type assertion that fails is a panic *)
Definition conversion {A} : go (ServerCall W) Status A := go_panic "interface conversion".

Definition UserService_GetUser_Handler (ctx : Context) (message : list byte)
    (interceptor : option UnaryServerInterceptor) : go (ServerCall W) Status reply :=
  in_ ← dec text message;
  let call q := p ← on_server (user_pb.rpc_GetUser q); mret (PUser p) in
  match interceptor with
  | None => call in_
  | Some interceptor =>
      interceptor ctx (RGetUser in_) UserService_GetUser_FullMethodName
        (λ _ req, match req with RGetUser q => call q | _ => conversion end)
  end.

Definition UserService_CreateUser_Handler (ctx : Context) (message : list byte)
    (interceptor : option UnaryServerInterceptor) : go (ServerCall W) Status reply :=
  in_ ← dec text message;
  let call q := p ← on_server (user_pb.rpc_CreateUser q); mret (PCreated p) in
  match interceptor with
  | None => call in_
  | Some interceptor =>
      interceptor ctx (RCreateUser in_) UserService_CreateUser_FullMethodName
        (λ _ req, match req with RCreateUser q => call q | _ => conversion end)
  end.

Definition UserService_DeactivateUser_Handler (ctx : Context) (message : list byte)
    (interceptor : option UnaryServerInterceptor) : go (ServerCall W) Status reply :=
  in_ ← dec text message;
  let call q := _ ← on_server (user_pb.rpc_DeactivateUser q); mret PEmpty in
  match interceptor with
  | None => call in_
  | Some interceptor =>
      interceptor ctx (RDeactivateUser in_) UserService_DeactivateUser_FullMethodName
        (λ _ req, match req with RDeactivateUser q => call q | _ => conversion end)
  end.

Definition UserService_ChangeUserPassword_Handler (ctx : Context) (message : list byte)
    (interceptor : option UnaryServerInterceptor) : go (ServerCall W) Status reply :=
  in_ ← dec text message;
  let call q := _ ← on_server (user_pb.rpc_ChangeUserPassword q); mret PEmpty in
  match interceptor with
  | None => call in_
  | Some interceptor =>
      interceptor ctx (RChangeUserPassword in_) UserService_ChangeUserPassword_FullMethodName
        (λ _ req, match req with RChangeUserPassword q => call q | _ => conversion end)
  end.

Definition UserService_ValidatePassword_Handler (ctx : Context) (message : list byte)
    (interceptor : option UnaryServerInterceptor) : go (ServerCall W) Status reply :=
  in_ ← dec text message;
  let call q := p ← on_server (user_pb.rpc_ValidatePassword q); mret (PValidated p) in
  match interceptor with
  | None => call in_
  | Some interceptor =>
      interceptor ctx (RValidatePassword in_) UserService_ValidatePassword_FullMethodName
        (λ _ req, match req with RValidatePassword q => call q | _ => conversion end)
  end.

Definition MethodHandler : Type :=
  Context → list byte → option UnaryServerInterceptor → go (ServerCall W) Status reply.

(** the name of the service, and the names of its methods with their handlers *)
Record ServiceDesc := mkServiceDesc { ServiceName : string; Methods : list (string * MethodHandler) }.
Definition UserService_ServiceDesc : ServiceDesc := mkServiceDesc "api.UserService" [
  ("GetUser", UserService_GetUser_Handler);
  ("CreateUser", UserService_CreateUser_Handler);
  ("DeactivateUser", UserService_DeactivateUser_Handler);
  ("ChangeUserPassword", UserService_ChangeUserPassword_Handler);
  ("ValidatePassword", UserService_ValidatePassword_Handler)
].

End server.

(** ** The client stubs, on a connection *)
Section client.
Context (Invoke : string → list byte → go (ServerCall W) Status (list byte)) (text : string).

(** [out := new(T); err := c.cc.Invoke(ctx, method, in, out)] *)
Definition invoke {Q P} `{Proto Q} `{Proto P} (method : string) (in_ : Q)
    : go (ServerCall W) Status P :=
  message ← Invoke method (proto_marshal in_);
  match proto_unmarshal message with
  | None => throw (mkStatus Internal text)
  | Some out => mret out
  end.

Definition NewUserServiceClient : user_pb.UserServiceServer (ServerCall W) := {|
  user_pb.rpc_GetUser in_ := invoke UserService_GetUser_FullMethodName in_;
  user_pb.rpc_CreateUser in_ := invoke UserService_CreateUser_FullMethodName in_;
  user_pb.rpc_DeactivateUser in_ := invoke UserService_DeactivateUser_FullMethodName in_;
  user_pb.rpc_ChangeUserPassword in_ := invoke UserService_ChangeUserPassword_FullMethodName in_;
  user_pb.rpc_ValidatePassword in_ := invoke UserService_ValidatePassword_FullMethodName in_;
|}.

End client.

(** ** A connection to a server that registered the service *)
Definition marshal_reply (p : reply) : list byte :=
  match p with
  | PUser p => proto_marshal p
  | PCreated p => proto_marshal p
  | PEmpty => proto_marshal ()
  | PValidated p => proto_marshal p
  end.

(** every message is delivered, to the method of that name of the service *)
Definition connection (desc : ServiceDesc) (ctx : Context) (interceptor : option UnaryServerInterceptor)
    (method : string) (message : list byte) : go (ServerCall W) Status (list byte) :=
  match find (λ m, bool_decide ("/" +:+ ServiceName desc +:+ "/" +:+ m.1 = method)) (Methods desc) with
  | None => throw (mkStatus Unimplemented ("unknown method " +:+ method))
  | Some (_, handler) => p ← handler ctx message interceptor; mret (marshal_reply p)
  end.

End wire.

(** Package grpc, a parameter: of the interceptors of a chain the first is the
    outermost *)
Class GrpcChain (W : Type) :=
  ChainUnaryInterceptor : list (UnaryServerInterceptor (W:=W)) → UnaryServerInterceptor (W:=W).
Class GrpcChainLaws (W : Type) `{GrpcChain W} : Prop := {
  Chain_two i1 i2 ctx req FullMethod handler :
    ChainUnaryInterceptor [i1; i2] ctx req FullMethod handler =
      i1 ctx req FullMethod (λ ctx req, i2 ctx req FullMethod handler);
}.

(** the interceptors of the server (cmd/server/main.go) *)
Definition server_interceptors {W} `{UuidLib} `{GrpcChain W} : UnaryServerInterceptor :=
  ChainUnaryInterceptor [TraceIdInterceptor; LoggingInterceptor].
End Wire.
