(* ===== verification/DocClient.v ===== *)
(** The client of the document service
    (document_service/pkg/client/client.go) over the client stub the protobuf
    compiler generates, and the stub that calls the server of this repository. *)

From S2P Require Import Prelude GoLib Grpc DocPb DocDomain DocService DocServer.

(** [type DocumentServiceClient interface] of the generated package: one
    method per RPC, whose error is a status *)
Class DocumentServiceStub (W : Type) := {
  stub_CreateDocument : pb.CreateDocumentRequest → go W Status pb.CreateDocumentReply;
  stub_GetDocument : pb.GetDocumentRequest → go W Status pb.GetDocumentReply;
  stub_UpdateDocument : pb.UpdateDocumentRequest → go W Status unit;
  stub_DeleteDocument : pb.DeleteDocumentRequest → go W Status unit;
  stub_DeleteDocuments : pb.DeleteDocumentsRequest → go W Status unit;
  stub_ListDocumentsByPrincipal :
    pb.ListDocumentByPrincipalRequest → go W Status pb.ListDocumentsByPrincipalReply;
  stub_GetPermissionsOfPrincipalOnDocument :
    pb.GetPermissionsRequest → go W Status pb.GetPermissionsReply;
  stub_ListPermissionsOnDocument :
    pb.ListPermissionsOnDocumentRequest → go W Status pb.ListPermissionsOnDocumentReply;
  stub_CreateGuest : pb.CreateGuestRequest → go W Status pb.CreateGuestReply;
  stub_UpsertPermissionUser : pb.UpsertPermissionUserRequest → go W Status unit;
  stub_UpdatePermissionGuest : pb.UpdatePermissionGuestRequest → go W Status unit;
  stub_DeletePermissionsPrincipal : pb.DeletePermissionsPrincipalRequest → go W Status unit;
}.

(** A connection that delivers every request and every reply: the stub runs
    the handler, and a panic of the handler is a panic of the system. *)
Definition direct_stub `{UuidLib} `{ErrorText} `{TimestampLib} {W} `{Clock W}
    `{DocumentRepository W} : DocumentServiceStub W := {|
  stub_CreateDocument := DocumentServer.CreateDocument;
  stub_GetDocument := DocumentServer.GetDocument;
  stub_UpdateDocument := DocumentServer.UpdateDocument;
  stub_DeleteDocument := DocumentServer.DeleteDocument;
  stub_DeleteDocuments := DocumentServer.DeleteDocuments;
  stub_ListDocumentsByPrincipal := DocumentServer.ListDocumentsByPrincipal;
  stub_GetPermissionsOfPrincipalOnDocument := DocumentServer.GetPermissionsOfPrincipalOnDocument;
  stub_ListPermissionsOnDocument := DocumentServer.ListPermissionsOnDocument;
  stub_CreateGuest := DocumentServer.CreateGuest;
  stub_UpsertPermissionUser := DocumentServer.UpsertPermissionUser;
  stub_UpdatePermissionGuest := DocumentServer.UpdatePermissionGuest;
  stub_DeletePermissionsPrincipal := DocumentServer.DeletePermissionsPrincipal;
|}.

Module DocumentServiceClient.
Section client.
Context `{UuidLib} {W : Type} `{DocumentServiceStub W}.

Definition any_principal (principalId : uuid) : option pb.ClientContext :=
  Some (pb.mkClientContext (uuid_String principalId) None).
Definition user_principal (userId : uuid) : option pb.ClientContext :=
  Some (pb.mkClientContext (uuid_String userId) (Some pb.USER)).

Definition CreateDocument (ownerUserId : uuid) (documentName documentDescription : option string)
    : go W client_error uuid :=
  reply ← stub_CreateDocument (pb.mkCreateDocumentRequest (uuid_String ownerUserId) documentName
            documentDescription (any_principal ownerUserId)) or_return RpcError;
  documentId ← lift (uuid_Parse (pb.CreateDocumentReply_DocumentId reply))
    or_return λ err, PlainError ("failed to parse returned document id: " +:+ err);
  mret documentId.

Definition GetDocument (documentId principalId : uuid) : go W client_error pb.GetDocumentReply :=
  stub_GetDocument (pb.mkGetDocumentRequest (uuid_String documentId) (any_principal principalId))
    or_return RpcError.

Definition UpdateDocument (documentId principalId : uuid) (name description : option string)
    : go W client_error unit :=
  stub_UpdateDocument (pb.mkUpdateDocumentRequest (uuid_String documentId) name description
    (any_principal principalId)) or_return RpcError.

Definition DeleteDocument (documentId userId : uuid) : go W client_error unit :=
  stub_DeleteDocument (pb.mkDeleteDocumentRequest (uuid_String documentId) (user_principal userId))
    or_return RpcError.

Definition DeleteDocuments (documentIds : list uuid) (userId : uuid) : go W client_error unit :=
  stub_DeleteDocuments (pb.mkDeleteDocumentsRequest (uuid_String <$> documentIds)
    (user_principal userId)) or_return RpcError.

Definition ListDocumentsByPrincipal (targetPrincipalId callingPrincipalId : uuid)
    (permissionFilter : list pb.PermissionLevel) (cursor : option pb.Cursor) (pageSize : option Z)
    : go W client_error pb.ListDocumentsByPrincipalReply :=
  stub_ListDocumentsByPrincipal (pb.mkListDocumentByPrincipalRequest (uuid_String targetPrincipalId)
    permissionFilter cursor pageSize (any_principal callingPrincipalId)) or_return RpcError.

Definition GetPermissionsOfPrincipalOnDocument
    (documentId targetPrincipalId callingPrincipalId : uuid)
    : go W client_error pb.GetPermissionsReply :=
  stub_GetPermissionsOfPrincipalOnDocument (pb.mkGetPermissionsRequest (uuid_String documentId)
    (uuid_String targetPrincipalId) (any_principal callingPrincipalId)) or_return RpcError.

Definition ListPermissionsOnDocument (documentId principalId : uuid)
    (permissionFilter : list pb.PermissionLevel) (cursor : option pb.Cursor) (pageSize : option Z)
    : go W client_error pb.ListPermissionsOnDocumentReply :=
  stub_ListPermissionsOnDocument (pb.mkListPermissionsOnDocumentRequest (uuid_String documentId)
    permissionFilter cursor pageSize (any_principal principalId)) or_return RpcError.

Definition CreateGuest (documentId userId : uuid) (permissionLevel : pb.PermissionLevel)
    : go W client_error pb.CreateGuestReply :=
  stub_CreateGuest (pb.mkCreateGuestRequest (uuid_String documentId) permissionLevel
    (user_principal userId)) or_return RpcError.

Definition UpsertPermissionUser (targetUserId callingUserId documentId : uuid)
    (permissionLevel : pb.PermissionLevel) : go W client_error unit :=
  stub_UpsertPermissionUser (pb.mkUpsertPermissionUserRequest (uuid_String targetUserId)
    (uuid_String documentId) permissionLevel (user_principal callingUserId)) or_return RpcError.

Definition UpdatePermissionGuest (guestId callingUserId : uuid)
    (permissionLevel : pb.PermissionLevel) : go W client_error unit :=
  stub_UpdatePermissionGuest (pb.mkUpdatePermissionGuestRequest (uuid_String guestId)
    permissionLevel (user_principal callingUserId)) or_return RpcError.

Definition DeletePermissionsPrincipal (principalId documentId callingUserId : uuid)
    : go W client_error unit :=
  stub_DeletePermissionsPrincipal (pb.mkDeletePermissionsPrincipalRequest (uuid_String principalId)
    (uuid_String documentId) (user_principal callingUserId)) or_return RpcError.

End client.
End DocumentServiceClient.
