(* ===== verification/Http.v ===== *)
(** What the API gateway uses of net/http, encoding/json and golang-jwt: the
    response being written, the request, the values sent as JSON, and the
    style of a handler, which answers an error and returns.  The data types are
    those of api_gateway/internal/server/api_gateway.gen.go. *)

From S2P Require Import Prelude GoLib Grpc DocPb DocDomain UserServer.

(** ** The types of the API *)
Module net.

Definition PermissionLevel : Type := string.
Definition Editor : PermissionLevel := "editor".
Definition Owner : PermissionLevel := "owner".
Definition Viewer : PermissionLevel := "viewer".

Definition PrincipalType : Type := string.
Definition PrincipalTypeGuest : PrincipalType := "guest".
Definition PrincipalTypeUser : PrincipalType := "user".

Record Document := mkDocument {
  Document_CreatedAt : Z;
  Document_DocumentDescription : option string;
  Document_DocumentId : uuid;
  Document_DocumentName : option string;
  Document_LastModifiedAt : Z;
}.
Record Principal := mkPrincipal {
  Principal_PrincipalId : uuid;
  Principal_PrincipalType : PrincipalType;
}.
Record Permission := mkPermission {
  Permission_CreatedAt : Z;
  Permission_CreatedBy : uuid;
  Permission_DocumentId : uuid;
  Permission_LastModifiedAt : Z;
  Permission_PermissionLevel : PermissionLevel;
  Permission_Principal : Principal;
}.
Record User := mkUser {
  User_Email : string;
  User_MaxDocuments : Z;
  User_UserId : uuid;
  User_UserName : string;
}.

(** request bodies *)
Record PostAuthLoginBody := mkPostAuthLoginBody {
  Login_Password : string; Login_UserName : string }.
Record DeleteDocumentBody := mkDeleteDocumentBody { DeleteBody_DocumentIds : list uuid }.
Record PostDocumentBody := mkPostDocumentBody {
  PostBody_DocumentDescription : option string;
  PostBody_DocumentName : option string;
  PostBody_UserId : uuid }.
Record PutDocumentBody := mkPutDocumentBody {
  PutBody_DocumentDescription : option string; PutBody_DocumentName : option string }.
Record PostPermissionBody := mkPostPermissionBody {
  PostPermission_PermissionLevel : PermissionLevel;
  PostPermission_UserIdToShare : option uuid }.
Record PutPermissionBody := mkPutPermissionBody {
  PutPermission_PermissionLevel : PermissionLevel;
  PutPermission_PrincipalType : PrincipalType }.
Record PostUserBody := mkPostUserBody {
  PostUser_MaxDocuments : option Z;
  PostUser_Password : string;
  PostUser_UserEmail : string;
  PostUser_UserName : string }.
Record PutUserBody := mkPutUserBody { PutUser_NewPassword : string; PutUser_OldPassword : string }.

(** query parameters *)
Record GetDocumentParams := mkGetDocumentParams {
  GetParams_Cursor : option string;
  GetParams_Limit : option Z;
  GetParams_PermissionLevel : option PermissionLevel }.
Record GetPermissionParams := mkGetPermissionParams {
  PermissionParams_Cursor : option string;
  PermissionParams_Limit : option Z;
  PermissionParams_PermissionFilter : option (list PermissionLevel) }.

(** the values the handlers encode as JSON, and the answers of net/http *)
Inductive payload :=
  | Error (Message : string)
  | LoginResponse (ExpiresIn : Z) (Token : string)
  | PostDocumentResponse (DocumentId : uuid)
  | GetDocumentResponse (Cursor : option string) (Documents : list Document)
  | DocumentResponse (d : Document)
  | PermissionResponse (p : Permission)
  | ListPermissionsOnDocumentResponse (Cursor : option string) (Permissions : list Permission)
  | ShareDocumentResponse (GuestId UserIdSharedWith : option uuid)
  | CreateUserResponse (reply : user_pb.CreateUserReply)
  | UserResponse (u : User)
  (** what net/http itself answers: a line of text, a page with a link *)
  | PlainText (line : string)
  | MovedPermanently (path : string).
End net.

(** ** JSON Web Tokens *)
Record CustomClaims := mkCustomClaims {
  Claims_UserName : string;
  Claims_Issuer : string;
  Claims_Subject : string;
  Claims_IssuedAt : option Z;
  Claims_ExpiresAt : option Z;
}.

(** Package golang-jwt, a parameter: signing by the name of the method, and
    parsing against the names of the accepted methods, both with a key of
    bytes; dates in the package's precision *)
Class Jwt := {
  jwt_NewNumericDate : Time → Z;
  jwt_SignedString : string → string → CustomClaims → string + string;
  jwt_ParseWithClaims : list string → string → Time → string → string + CustomClaims;
}.

(** ES256 verifies with an ECDSA public key: a key of bytes is refused,
    whatever the token *)
Class JwtLaws `{Jwt} : Prop := {
  ES256_needs_ecdsa_key key now token :
    ∃ err, jwt_ParseWithClaims ["ES256"] key now token = inl err;
}.

(** [json.NewDecoder(r.Body).Decode(&v)] of a value of type [A]: the value or
    the text of the error, and what is left unread of the body *)
Class JsonDecode (A : Type) := json_Decode : string → (string + A) * string.

(** ** The response *)

(** [http.ResponseWriter]: the header map the handler writes to, the status
    and header that were sent, the statuses of calls that came too late, and
    the JSON values of the body *)
Record Response := mkResponse {
  w_header : option string;
  w_sent : option (Z * option string);
  w_superfluous : list Z;
  w_body : list net.payload;
}.
Definition no_response : Response := mkResponse None None [] [].

Definition write_header (code : Z) (w : Response) : Response :=
  match w_sent w with
  | None => mkResponse (w_header w) (Some (code, w_header w)) (w_superfluous w) (w_body w)
  | Some _ => mkResponse (w_header w) (w_sent w) (w_superfluous w ++ [code]) (w_body w)
  end.

(** statuses that do not allow a body *)
Definition body_allowed (code : Z) : bool :=
  negb ((code <? 200)%Z || (code =? 204)%Z || (code =? 304)%Z).

(** writing sends the status 200 if none was sent *)
Definition write_json (p : net.payload) (w : Response) : Response :=
  let w := match w_sent w with None => write_header 200 w | Some _ => w end in
  match w_sent w with
  | Some (code, _) =>
      if body_allowed code
      then mkResponse (w_header w) (w_sent w) (w_superfluous w) (w_body w ++ [p])
      else w
  | None => w
  end.

Definition set_content_type (t : string) (w : Response) : Response :=
  mkResponse (Some t) (w_sent w) (w_superfluous w) (w_body w).

(** [url.Values]: the values of each name, in order *)
Definition Values : Type := list (string * list string).

(** the request: method, host, the path of the URL unescaped ([URL.Path]) and
    as it was sent ([URL.EscapedPath()]), the query ([URL.Query()]), the values
    the pattern of the route matched ([PathValue]), the header Authentication;
    [r_claims] is the value the context holds *)
Record Request := mkRequest {
  r_Method : string;
  r_Host : string;
  r_Path : string;
  r_EscapedPath : string;
  r_Query : Values;
  r_matches : list (string * string);
  r_Authentication : string;
  r_claims : option CustomClaims;
}.

Definition with_claims (c : CustomClaims) (r : Request) : Request :=
  mkRequest (r_Method r) (r_Host r) (r_Path r) (r_EscapedPath r) (r_Query r) (r_matches r)
    (r_Authentication r) (Some c).
Definition with_matches (ms : list (string * string)) (r : Request) : Request :=
  mkRequest (r_Method r) (r_Host r) (r_Path r) (r_EscapedPath r) (r_Query r) ms
    (r_Authentication r) (r_claims r).

(** [r.PathValue(name)]: the empty string for a name the pattern has not *)
Definition PathValue (r : Request) (name : string) : string :=
  match find (λ m, bool_decide (m.1 = name)) (r_matches r) with
  | Some m => m.2
  | None => EmptyString
  end.

(** ** Handlers *)

(** the world behind the gateway, the unread part of the request's body and
    the response *)
Record Http (W : Type) := mkHttp { h_world : W; h_body : string; h_response : Response }.
Arguments mkHttp {_}.
Arguments h_world {_}.
Arguments h_body {_}.
Arguments h_response {_}.

(** a handler that has answered and returned before its end *)
Inductive returned := Returned.

Abbreviation handler W := (go (Http W) returned unit).

Section handlers.
Context {W : Type}.

(** a call of a service *)
Definition on_world {E A} (m : go W E A) : go (Http W) E A := λ h,
  match m (h_world h) with (o, w) => (o, mkHttp w (h_body h) (h_response h)) end.

(** [time.Now()] *)
Definition time_now {E} `{Clock W} : go (Http W) E Time :=
  on_world (Now Empty_set) or_return (λ e, match e with end).

(** a write to the response *)
Definition on_response {E} (f : Response → Response) : go (Http W) E unit := λ h,
  (Ret (), mkHttp (h_world h) (h_body h) (f (h_response h))).

Definition Decode (A : Type) `{JsonDecode A} : go (Http W) string A := λ h,
  match json_Decode (h_body h) with
  | (inl err, rest) => (Err err, mkHttp (h_world h) rest (h_response h))
  | (inr v, rest) => (Ret v, mkHttp (h_world h) rest (h_response h))
  end.

Definition WriteHeader {E} (code : Z) : go (Http W) E unit := on_response (write_header code).

(** *** http_response.go *)
Definition SendJsonResponse {E} (code : Z) (responseBody : net.payload) : go (Http W) E unit :=
  on_response (λ w, write_json responseBody (write_header code (set_content_type "application/json" w))).

Definition SendError {E} (code : Z) (message : string) : go (Http W) E unit :=
  on_response (λ w, write_json (net.Error message)
                      (write_header code (set_content_type "application/json" w))).

(** [http.Error]: a line of plain text *)
Definition http_Error {E} (error : string) (code : Z) : go (Http W) E unit :=
  on_response (λ w, write_json (net.PlainText error)
                      (write_header code (set_content_type "text/plain; charset=utf-8" w))).

(** [http.RedirectHandler(path, code)] *)
Definition Redirect {E} (path : string) (code : Z) : go (Http W) E unit :=
  on_response (λ w, write_json (net.MovedPermanently path)
                      (write_header code (set_content_type "text/html; charset=utf-8" w))).

(** [if err != nil { SendError(w, code, message); return }] *)
Definition answer_error {E A} (m : go (Http W) E A) (f : E → Z * string) : go (Http W) returned A :=
  λ h, match m h with
       | (Ret a, h') => (Ret a, h')
       | (Err e, h') => (_ ← SendError (f e).1 (f e).2; throw Returned) h'
       | (Panic p, h') => (Panic p, h')
       end.

(** [if b { SendError(w, code, message); return }] *)
Definition return_send (b : bool) (code : Z) (message : string) : go (Http W) returned unit :=
  if b then (_ ← SendError code message; throw Returned) else mret ().

(** calling another handler *)
Definition serve (m : handler W) : handler W := λ h,
  match m h with
  | (Err Returned, h') => (Ret (), h')
  | (o, h') => (o, h')
  end.

End handlers.

Notation "m 'or_send' f" := (answer_error m f)
  (at level 95, f at level 94, no associativity) : go_scope.
