(* ===== verification/Gateway.v ===== *)
(** The API gateway (api_gateway/internal/server): the mapping of statuses,
    the translations between protobuf and JSON values, authentication, and the
    handlers of the API, over the clients of the two services. *)

From S2P Require Import Prelude GoLib Grpc DocPb DocDomain UserServer DocClient Http.

(** Packages encoding/base64 and google.golang.org/protobuf, parameters: the
    URL alphabet of base64, and the wire format of a cursor; errors are their
    texts *)
Class CursorCodec := {
  base64_EncodeToString : list Byte.byte → string;
  base64_DecodeString : string → string + list Byte.byte;
  proto_Marshal : option pb.Cursor → string + list Byte.byte;
  proto_Unmarshal : list Byte.byte → string + pb.Cursor;
}.

Class CursorCodecLaws `{CursorCodec} : Prop := {
  DecodeString_Encode b : base64_DecodeString (base64_EncodeToString b) = inr b;
  Unmarshal_Marshal c b : proto_Marshal (Some c) = inr b → proto_Unmarshal b = inr c;
}.

(** [config.JWTSecretKey], from the environment *)
Class GatewayConfig := JWTSecretKey : string.

(** ** http_response.go *)
Definition GrpcToHttpStatus (err : client_error) : Z :=
  match err with
  | PlainError _ => 500
  | RpcError st =>
      match status_Code st with
      | InvalidArgument => 400
      | NotFound_ => 404
      | AlreadyExists => 409
      | PermissionDenied => 403
      | Unauthenticated => 401
      | ResourceExhausted => 429
      | Unimplemented => 501
      | Unavailable => 503
      | DeadlineExceeded => 504
      | _ => 500
      end
  end.

(** ** custom_validation.go *)
Definition specialChars : string :=
  "!@#$%^&*()_+-=[]{};':" +:+ String (Ascii.ascii_of_nat 34) "\|,.<>/?".

(** the characters are ASCII, so looking for them byte by byte is looking for
    code points *)
Definition containsSpecialChar (s : string) : bool :=
  existsb (λ c, existsb (Ascii.eqb c) (String.list_ascii_of_string specialChars))
    (String.list_ascii_of_string s).

Definition Validate (rb : net.PostUserBody) : option string :=
  if negb (containsSpecialChar (net.PostUser_Password rb))
  then Some "password did not contain a special character"
  else if containsSpecialChar (net.PostUser_UserName rb)
  then Some "username must not contain a special character"
  else None.

Module Gateway.
Section gateway.
Context `{UuidLib} `{ErrorText} `{GrpcText} `{CursorCodec}.

(** ** Claims (auth.go, auth_middleware.go) *)
Definition ParsePrincipalId (c : CustomClaims) : string + uuid :=
  match uuid_Parse (Claims_Subject c) with
  | inl err => inl ("failed to parse the principal id from the JWT claims with error: " +:+ err)
  | inr parsedId => inr parsedId
  end.

Definition GetTokenType (c : CustomClaims) : net.PrincipalType :=
  if bool_decide (Claims_UserName c ≠ EmptyString)
  then net.PrincipalTypeUser else net.PrincipalTypeGuest.

Definition GetClaims (r : Request) : string + CustomClaims :=
  match r_claims r with
  | None => inl "no claims found in this request context"
  | Some claims => inr claims
  end.

(** [principalType != PrincipalTypeUser] *)
Definition is_user (c : CustomClaims) : bool := bool_decide (GetTokenType c = net.PrincipalTypeUser).
Definition is_guest (c : CustomClaims) : bool := bool_decide (GetTokenType c = net.PrincipalTypeGuest).

(** ** Translations (document.go); an error is its text *)
Definition netToProtoPermissionLevel (permissionLevel : net.PermissionLevel)
    : string + pb.PermissionLevel :=
  if bool_decide (permissionLevel = net.Owner) then inr pb.PERMISSION_OWNER
  else if bool_decide (permissionLevel = net.Editor) then inr pb.PERMISSION_EDITOR
  else if bool_decide (permissionLevel = net.Viewer) then inr pb.PERMISSION_VIEWER
  else inl "failed to map the permission level to a valid proto type".

Definition netToProtoPermissionFilter (permissionFilter : list net.PermissionLevel)
    : string + list pb.PermissionLevel :=
  collect (λ elem,
    match netToProtoPermissionLevel elem with
    | inl err => inl ("failed to parse permission level with error: " +:+ err)
    | inr parsedPL => inr parsedPL
    end) permissionFilter.

Definition netToProtoCursor (cursor : string) : string + pb.Cursor :=
  match base64_DecodeString cursor with
  | inl err => inl ("failed to decode the base64 cursor representation to proto wire format with error: "
                      +:+ err)
  | inr wire =>
      match proto_Unmarshal wire with
      | inl err => inl ("failed to unmarshal the wire format of the cursor with error: " +:+ err)
      | inr pbCursor => inr pbCursor
      end
  end.

Definition protoToNetPermissionLevel (permissionLevel : pb.PermissionLevel)
    : string + net.PermissionLevel :=
  if (permissionLevel =? pb.PERMISSION_OWNER)%Z then inr net.Owner
  else if (permissionLevel =? pb.PERMISSION_EDITOR)%Z then inr net.Editor
  else if (permissionLevel =? pb.PERMISSION_VIEWER)%Z then inr net.Viewer
  else inl ("failed to map the permission level: "
              +:+ pb_enum_String "PermissionLevel" permissionLevel
              +:+ " to a valid net permission type").

Definition protoToNetCursor (cursor : option pb.Cursor) : string + string :=
  match proto_Marshal cursor with
  | inl err => inl ("failed to serialize the protobuf cursor to the wire format with error: " +:+ err)
  | inr wire => inr (base64_EncodeToString wire)
  end.

Definition protoToNetDocument {W} (document : option pb.Document) : go W string net.Document :=
  document ← deref document;
  documentId ← lift (uuid_Parse (pb.Document_DocumentId document))
    or_return λ err, "failed to parse the returned document id with error: " +:+ err;
  createdAt ← deref (pb.Document_CreatedAt document);
  lastModifiedAt ← deref (pb.Document_LastModifiedAt document);
  mret (net.mkDocument (Seconds createdAt) (pb.Document_Description document) documentId
          (pb.Document_DocumentName document) (Seconds lastModifiedAt)).

Definition protoToNetPrincipalType (principalType : pb.PrincipalType) : string + net.PrincipalType :=
  if (principalType =? pb.USER)%Z then inr net.PrincipalTypeUser
  else if (principalType =? pb.GUEST)%Z then inr net.PrincipalTypeGuest
  else inl ("failed to map the proto principal type to a net principal type: "
              +:+ pb_enum_String "Principal_PrincipalType" principalType).

Definition protoToNetPrincipal {W} (principal : option pb.Principal) : go W string net.Principal :=
  principal ← deref principal;
  principalId ← lift (uuid_Parse (pb.Principal_PrincipalId principal))
    or_return λ err, "failed to parse principalId: " +:+ pb.Principal_PrincipalId principal
                       +:+ " with error: " +:+ err;
  principalType ← lift (protoToNetPrincipalType (pb.Principal_PrincipalType principal));
  mret (net.mkPrincipal principalId principalType).

Definition protoToNetPermission {W} (permission : option pb.Permission) : go W string net.Permission :=
  permission ← deref permission;
  createdBy ← lift (uuid_Parse (pb.Permission_CreatedBy permission))
    or_return λ err, "failed to parse the created by field of the permission: "
                       +:+ uuid_String (uuid_Parse_read (pb.Permission_CreatedBy permission)) +:+ " with error: " +:+ err;
  documentId ← lift (uuid_Parse (pb.Permission_DocumentId permission))
    or_return λ err, "failed to parse the document if of the permission: "
                       +:+ uuid_String (uuid_Parse_read (pb.Permission_DocumentId permission)) +:+ " with error: " +:+ err;
  permissionLevel ← lift (protoToNetPermissionLevel (pb.Permission_PermissionLevel permission))
    or_return λ err, "failed to parse permission: " +:+ err;
  principal ← protoToNetPrincipal (pb.Permission_Recipient permission)
    or_return λ err, "failed to parse permission: " +:+ err;
  createdAt ← deref (pb.Permission_CreatedAt permission);
  lastModifiedAt ← deref (pb.Permission_LastModifiedAt permission);
  mret (net.mkPermission (Seconds createdAt) createdBy documentId (Seconds lastModifiedAt)
          permissionLevel principal).

(** [make], then a loop that fills the slice or returns the first error *)
Fixpoint fill {W E A B} (f : A → go W E B) (l : list A) : go W E (list B) :=
  match l with
  | [] => mret []
  | x :: l' => y ← f x; ys ← fill f l'; mret (y :: ys)
  end.

Definition protoToNetPermissions {W} (permissions : list pb.Permission)
    : go W string (list net.Permission) :=
  fill (λ permission, protoToNetPermission (Some permission)
    or_return λ err, "failed to parse array of permissions: " +:+ err) permissions.

(** ** Handlers *)
Context {W : Type} {users : user_pb.UserServiceServer W} {documents : DocumentServiceStub W}.
Context `{Clock W} `{Jwt} {jwtSecretKey : GatewayConfig}.

(** a client error is proxied *)
Definition proxy (err : client_error) : Z * string :=
  (GrpcToHttpStatus err, client_error_Error err).

(** *** auth.go *)
Definition PostAuthLogin `{JsonDecode net.PostAuthLoginBody} (_ : Request) : handler W :=
  reqBody ← Decode net.PostAuthLoginBody
    or_send λ err, (400%Z, "error decoding request body: " +:+ err);
  answer ← on_world (UserServiceClient.ValidatePassword (net.Login_UserName reqBody)
                       (net.Login_Password reqBody))
    or_send λ err,
      match err with
      | RpcError (mkStatus NotFound_ _) =>
          (404%Z, "no user found with username: " +:+ net.Login_UserName reqBody)
      | _ => proxy err
      end;
  _ ← return_send (negb answer.2) 401 "the provided username and password did not match";
  issuedAt ← time_now;
  expiresAt ← time_now;
  let claims := mkCustomClaims (net.Login_UserName reqBody) "reed" (uuid_String answer.1)
                  (Some (jwt_NewNumericDate issuedAt))
                  (Some (jwt_NewNumericDate (expiresAt + 3600 * 10 ^ 9)%Z)) in
  signedToken ← lift (jwt_SignedString "HS256" JWTSecretKey claims) or_send λ err, (500%Z, err);
  SendJsonResponse 200 (net.LoginResponse (60 * 60) signedToken).

(** *** auth_middleware.go *)
Definition TrimPrefix (s prefix : string) : string :=
  if String.prefix prefix s
  then String.substring (String.length prefix) (String.length s - String.length prefix) s
  else s.

Definition AuthMiddleware (next : Request → handler W) (r : Request) : handler W :=
  _ ← (if bool_decide (r_Path r = "/auth/login") then serve (next r) else mret ());
  let headerValue := r_Authentication r in
  _ ← return_send (bool_decide (headerValue = EmptyString)) 401
        "Authentication header with JWT bearer token is required";
  let tokenString := TrimPrefix headerValue "Bearer " in
  _ ← return_send (bool_decide (tokenString = headerValue)) 401
        "poorly formatted header value for Authentication header";
  now ← time_now;
  customClaims ← lift (jwt_ParseWithClaims ["ES256"] JWTSecretKey now tokenString)
    or_send λ err, (403%Z, err);
  serve (next (with_claims customClaims r)).

(** *** user.go *)
Definition PostUser `{JsonDecode net.PostUserBody} (_ : Request) : handler W :=
  reqBody ← Decode net.PostUserBody
    or_send λ err, (400%Z, "error decoding request body: " +:+ err);
  _ ← match Validate reqBody with
      | Some err => _ ← SendError 400 err; throw Returned
      | None => mret ()
      end;
  serviceReply ← on_world (UserServiceClient.CreateUser (net.PostUser_UserName reqBody)
      (net.PostUser_UserEmail reqBody) (net.PostUser_Password reqBody)
      (net.PostUser_MaxDocuments reqBody))
    or_send proxy;
  SendJsonResponse 201 (net.CreateUserResponse serviceReply).

Definition DeleteUserUserId (_ : Request) (userId : uuid) : handler W :=
  _ ← on_world (UserServiceClient.DeactivateUser userId) or_send proxy;
  WriteHeader 204.

Definition GetUserUserId (_ : Request) (userId : uuid) : handler W :=
  serviceReply ← on_world (UserServiceClient.GetUser userId) or_send proxy;
  u ← deref (user_pb.UserReply_User serviceReply);
  SendJsonResponse 200 (net.UserResponse (net.mkUser (user_pb.User_Email u)
    (user_pb.User_MaxDocuments u) userId (user_pb.User_UserName u))).

Definition PutUserUserId `{JsonDecode net.PutUserBody} (_ : Request) (userId : uuid) : handler W :=
  reqBody ← Decode net.PutUserBody
    or_send λ err, (400%Z, "error when decoding the request body: " +:+ err);
  _ ← on_world (UserServiceClient.ChangeUserPassword userId (net.PutUser_OldPassword reqBody)
                  (net.PutUser_NewPassword reqBody))
    or_send proxy;
  WriteHeader 204.

(** *** document.go *)
Definition DeleteDocument `{JsonDecode net.DeleteDocumentBody} (r : Request) : handler W :=
  reqBody ← Decode net.DeleteDocumentBody or_send λ err, (400%Z, err);
  claims ← lift (GetClaims r) or_send λ _, (500%Z, "Internal Server Error");
  principalId ← lift (ParsePrincipalId claims) or_send λ err, (400%Z, err);
  let principalType := GetTokenType claims in
  _ ← return_send (negb (is_user claims)) 403
        ("Only user type tokens can delete documents, received token with type: " +:+ principalType);
  _ ← on_world (DocumentServiceClient.DeleteDocuments (net.DeleteBody_DocumentIds reqBody) principalId)
    or_send proxy;
  WriteHeader 204.

Definition GetDocument (r : Request) (params : net.GetDocumentParams) : handler W :=
  claims ← lift (GetClaims r) or_send λ _, (500%Z, "Internal Server Error");
  principalId ← lift (ParsePrincipalId claims) or_send λ err, (400%Z, err);
  cursor ← match net.GetParams_Cursor params with
           | None => mret None
           | Some c => c ← lift (netToProtoCursor c)
                         or_send λ _, (400%Z, "failed to parse the provided cursor");
                       mret (Some c)
           end;
  permissionLevel ← match net.GetParams_PermissionLevel params with
                    | None => mret pb.PERMISSION_OWNER
                    | Some l => lift (netToProtoPermissionLevel l) or_send λ err, (400%Z, err)
                    end;
  reply ← on_world (DocumentServiceClient.ListDocumentsByPrincipal principalId principalId
                      [permissionLevel] cursor (net.GetParams_Limit params))
    or_send proxy;
  respCursor ← lift (protoToNetCursor (pb.ListDocumentsReply_Cursor reply))
    or_send λ _, (500%Z, "internal server error");
  documents ← fill (λ documentPermission,
      protoToNetDocument (pb.DocumentPermission_Document documentPermission))
      (pb.ListDocumentsReply_DocumentPermissions reply)
    or_send λ _ : string, (500%Z, "internal server error");
  SendJsonResponse 200 (net.GetDocumentResponse (Some respCursor) documents).

Definition PostDocument `{JsonDecode net.PostDocumentBody} (r : Request) : handler W :=
  claims ← lift (GetClaims r) or_send λ _, (500%Z, "InternalServerError");
  _ ← return_send (negb (is_user claims)) 403 "must have a user type token to make documents";
  userId ← lift (ParsePrincipalId claims) or_send λ err, (400%Z, err);
  request ← Decode net.PostDocumentBody
    or_send λ err, (400%Z, "failed to parse the request body with error: " +:+ err);
  documentId ← on_world (DocumentServiceClient.CreateDocument userId
                           (net.PostBody_DocumentName request)
                           (net.PostBody_DocumentDescription request))
    or_send proxy;
  SendJsonResponse 200 (net.PostDocumentResponse documentId).

Definition DeleteDocumentDocumentId (r : Request) (documentId : uuid) : handler W :=
  claims ← lift (GetClaims r) or_send λ _, (500%Z, "Internal server error");
  principalId ← lift (ParsePrincipalId claims) or_send λ err, (400%Z, err);
  _ ← return_send (negb (is_user claims)) 403 "must have a user type token to delete documents";
  _ ← on_world (DocumentServiceClient.DeleteDocument documentId principalId) or_send proxy;
  WriteHeader 204.

(** the client is called with the principal where it takes the document *)
Definition GetDocumentDocumentId (r : Request) (documentId : uuid) : handler W :=
  claims ← lift (GetClaims r) or_send λ _, (500%Z, "Internal Server error");
  principalId ← lift (ParsePrincipalId claims) or_send λ err, (400%Z, err);
  result ← on_world (DocumentServiceClient.GetDocument principalId documentId) or_send proxy;
  document ← protoToNetDocument (pb.GetDocumentReply_Document result)
    or_send λ _, (500%Z, "Internal server error, failed to parse document sent from document service");
  SendJsonResponse 200 (net.DocumentResponse document).

(** the first two errors are answered, but the handler does not return *)
Definition PutDocumentDocumentId `{JsonDecode net.PutDocumentBody} (r : Request) (documentId : uuid)
    : handler W :=
  claims ← match GetClaims r with
           | inl _ => _ ← SendError 500 "Internal server error"; mret None
           | inr claims => mret (Some claims)
           end;
  claims ← deref claims;
  principalId ← match ParsePrincipalId claims with
                | inl err => _ ← SendError 400 err; mret uuid_Nil
                | inr principalId => mret principalId
                end;
  body ← Decode net.PutDocumentBody or_send λ err, (400%Z, err);
  _ ← on_world (DocumentServiceClient.UpdateDocument documentId principalId
                  (net.PutBody_DocumentName body) (net.PutBody_DocumentDescription body))
    or_send proxy;
  WriteHeader 204.

(** *** permission.go *)
Definition GetDocumentDocumentIdPermission (r : Request) (documentId : uuid)
    (params : net.GetPermissionParams) : handler W :=
  claims ← lift (GetClaims r) or_send λ _, (500%Z, "Internal server error");
  _ ← return_send (negb (is_user claims)) 403
        "Must have a user type token to list permissions on a document";
  userId ← lift (ParsePrincipalId claims) or_send λ err, (400%Z, err);
  permissionFilter ← match net.PermissionParams_PermissionFilter params with
                     | None => mret []
                     | Some ls => lift (netToProtoPermissionFilter ls) or_send λ err, (400%Z, err)
                     end;
  cursor ← match net.PermissionParams_Cursor params with
           | None => mret None
           | Some c => c ← lift (netToProtoCursor c) or_send λ err, (400%Z, err); mret (Some c)
           end;
  result ← on_world (DocumentServiceClient.ListPermissionsOnDocument documentId userId
                       permissionFilter cursor (net.PermissionParams_Limit params))
    or_send proxy;
  permissions ← protoToNetPermissions (pb.ListPermissionsReply_RecipientPermissions result)
    or_send λ _, (500%Z, "failed to parse permission returned from backend service");
  responseCursor ← lift (protoToNetCursor (pb.ListPermissionsReply_Cursor result))
    or_send λ _, (500%Z, "failed to parse cursor returned from backend service");
  SendJsonResponse 200 (net.ListPermissionsOnDocumentResponse (Some responseCursor) permissions).

Definition PostDocumentDocumentIdPermission `{JsonDecode net.PostPermissionBody}
    (r : Request) (documentId : uuid) : handler W :=
  claims ← lift (GetClaims r) or_send λ _, (500%Z, "Internal Server error");
  principalId ← lift (ParsePrincipalId claims) or_send λ err, (400%Z, err);
  _ ← return_send (negb (is_user claims)) 403
        "must have a user token to create permissions on a document";
  reqBody ← Decode net.PostPermissionBody or_send λ err, (400%Z, err);
  _ ← return_send (bool_decide (net.PostPermission_PermissionLevel reqBody = net.Owner)) 400
        "cannot create permissions at owner level";
  permissionLevel ← lift (netToProtoPermissionLevel (net.PostPermission_PermissionLevel reqBody))
    or_send λ _, (400%Z, "unable to map the given permission level to a valid permission level");
  match net.PostPermission_UserIdToShare reqBody with
  | Some userIdToShare =>
      _ ← on_world (DocumentServiceClient.UpsertPermissionUser userIdToShare principalId documentId
                      permissionLevel)
        or_send proxy;
      SendJsonResponse 200 (net.ShareDocumentResponse None (Some userIdToShare))
  | None =>
      result ← on_world (DocumentServiceClient.CreateGuest documentId principalId permissionLevel)
        or_send proxy;
      guestId ← lift (uuid_Parse (pb.CreateGuestReply_GuestId result))
        or_send λ _, (500%Z, "Internal Server Error");
      SendJsonResponse 200 (net.ShareDocumentResponse (Some guestId) None)
  end.

Definition DeleteDocumentDocumentIdPermissionPrincipalPrincipalId
    (r : Request) (documentId principalId : uuid) : handler W :=
  claims ← lift (GetClaims r) or_send λ _, (500%Z, "Internal server error");
  callingPrincipalId ← lift (ParsePrincipalId claims) or_send λ err, (400%Z, err);
  _ ← return_send (negb (is_user claims)) 403 "only users type tokens can delete permissions";
  _ ← on_world (DocumentServiceClient.DeletePermissionsPrincipal principalId documentId
                  callingPrincipalId)
    or_send proxy;
  WriteHeader 204.

Definition GetDocumentDocumentIdPermissionPrincipalPrincipalId
    (r : Request) (documentId principalId : uuid) : handler W :=
  claims ← lift (GetClaims r) or_send λ _, (500%Z, "Internal Server Error");
  callingPrincipalId ← lift (ParsePrincipalId claims) or_send λ err, (403%Z, err);
  _ ← return_send (is_guest claims && bool_decide (principalId ≠ callingPrincipalId)) 403
        "guests cannot get the permissions of other principals on documents";
  result ← on_world (DocumentServiceClient.GetPermissionsOfPrincipalOnDocument documentId principalId
                       callingPrincipalId)
    or_send proxy;
  permission ← protoToNetPermission (pb.GetPermissionsReply_Permission result)
    or_send λ _, (500%Z, "Internal server error");
  SendJsonResponse 200 (net.PermissionResponse permission).

Definition PutDocumentDocumentIdPermissionPrincipalPrincipalId `{JsonDecode net.PutPermissionBody}
    (r : Request) (documentId principalId : uuid) : handler W :=
  claims ← lift (GetClaims r) or_send λ _, (500%Z, "Internal server error");
  callingPrincipalId ← lift (ParsePrincipalId claims) or_send λ err, (400%Z, err);
  _ ← return_send (is_guest claims) 403 "guests cannot change the permissions of other principals";
  reqBody ← Decode net.PutPermissionBody
    or_send λ err, (400%Z, "failed to parse the request body with error: " +:+ err);
  permissionLevel ← lift (netToProtoPermissionLevel (net.PutPermission_PermissionLevel reqBody))
    or_send λ _, (400%Z, "invalid permission level");
  if bool_decide (net.PutPermission_PrincipalType reqBody = net.PrincipalTypeUser) then
    _ ← on_world (DocumentServiceClient.UpsertPermissionUser principalId callingPrincipalId documentId
                    permissionLevel)
      or_send proxy;
    WriteHeader 204
  else
    _ ← on_world (DocumentServiceClient.UpdatePermissionGuest principalId callingPrincipalId
                    permissionLevel)
      or_send proxy;
    WriteHeader 204.

End gateway.
End Gateway.
