(* ===== verification/Mux.v ===== *)
(** The request multiplexer of net/http ([ServeMux], since Go 1.22): patterns
    of a method, a host and a path, what it means that two of them conflict,
    the search of the routing tree, the canonical form of a path and the
    answers for what has no route.  Patterns are literal segments and wildcards
    that match one segment; the forms [{name...}], [{$}] and a trailing slash,
    which the code does not use, are refused. *)

From Stdlib Require Import Ascii.
From S2P Require Import Prelude GoLib Grpc DocPb DocDomain UserServer Http.

Module Mux.

(** ** Texts *)
Abbreviation slash := "/"%char.

Fixpoint split_on (sep : ascii) (s : string) : list string :=
  match s with
  | EmptyString => [EmptyString]
  | String c s' =>
      if Ascii.eqb c sep then EmptyString :: split_on sep s'
      else match split_on sep s' with
           | [] => [String c EmptyString]
           | p :: ps => String c p :: ps
           end
  end.

Definition has_char (c : ascii) (s : string) : bool :=
  existsb (Ascii.eqb c) (String.list_ascii_of_string s).

(** a slash before each part *)
Definition slashed (parts : list string) : string :=
  foldr (λ p s, "/" +:+ p +:+ s) EmptyString parts.

Definition drop_first (s : string) : string :=
  match s with EmptyString => EmptyString | String _ s' => s' end.

Fixpoint last_char (s : string) : option ascii :=
  match s with
  | EmptyString => None
  | String c EmptyString => Some c
  | String _ s' => last_char s'
  end.

Definition hex_value (c : ascii) : option N :=
  let n := Ascii.N_of_ascii c in
  (if (48 <=? n) && (n <=? 57) then Some (n - 48)
   else if (65 <=? n) && (n <=? 70) then Some (n - 55)
   else if (97 <=? n) && (n <=? 102) then Some (n - 87)
   else None)%N.

(** [url.PathUnescape]; [None] for an invalid escape *)
Fixpoint PathUnescape (s : string) : option string :=
  match s with
  | EmptyString => Some EmptyString
  | String "%" (String a (String b s')) =>
      match hex_value a, hex_value b with
      | Some x, Some y => String (Ascii.ascii_of_N (16 * x + y)) <$> PathUnescape s'
      | _, _ => None
      end
  | String "%" _ => None
  | String c s' => String c <$> PathUnescape s'
  end.

(** an invalidly escaped path is used as it is *)
Definition pathUnescape (s : string) : string := default s (PathUnescape s).

(** ** Paths *)

(** [path.Clean], part by part: the parts kept, last first.  A rooted path has
    no parent above its root. *)
Definition clean_step (rooted : bool) (kept : list string) (part : string) : list string :=
  if bool_decide (part = EmptyString) || bool_decide (part = ".") then kept
  else if bool_decide (part = "..") then
    match kept with
    | [] => if rooted then [] else [part]
    | k :: kept' => if bool_decide (k = "..") then part :: kept else kept'
    end
  else part :: kept.

Definition path_Clean (p : string) : string :=
  let rooted := match p with String "/" _ => true | _ => false end in
  let parts := rev (foldl (clean_step rooted) [] (split_on slash p)) in
  if rooted then if bool_decide (parts = []) then "/" else slashed parts
  else if bool_decide (parts = []) then "." else String.concat "/" parts.

Definition cleanPath (p : string) : string :=
  let p := match p with
           | EmptyString => "/"
           | String c _ => if Ascii.eqb c slash then p else "/" +:+ p
           end in
  let np := path_Clean p in
  if bool_decide (last_char p = Some slash) && bool_decide (np ≠ "/") then np +:+ "/" else np.

(** the segments [firstSegment] takes from a path one after the other,
    unescaped; a trailing slash is the segment [/] *)
Fixpoint segments_of (parts : list string) : list string :=
  match parts with
  | [] => []
  | [p] => [if bool_decide (p = EmptyString) then "/" else pathUnescape p]
  | p :: ps => pathUnescape p :: segments_of ps
  end.

Definition segments (path : string) : list string :=
  match path with
  | EmptyString => []
  | String _ path' => segments_of (split_on slash path')
  end.

(** [stripHostPort], which returns the host as it is when [net.SplitHostPort]
    fails *)
Definition stripHostPort (h : string) : string :=
  match rev (split_on ":" h) with
  | [] | [_] => h
  | port :: hosts =>
      let host := String.concat ":" (rev hosts) in
      match host with
      | String "[" s =>
          match rev (split_on "]" s) with
          | [EmptyString; inside] =>
              if has_char "[" s || has_char "[" port || has_char "]" port then h else inside
          | _ => h
          end
      | _ =>
          if (length hosts =? 1)%nat && negb (has_char "[" h) && negb (has_char "]" h)
          then host else h
      end
  end.

(** ** Patterns *)
Inductive segment := Lit (s : string) | Wild (name : string).
#[global] Instance segment_eq_dec : EqDecision segment.
Proof. solve_decision. Defined.

Record pattern := mkPattern { p_method : string; p_host : string; p_segments : list segment }.

(** a token of RFC 7230 *)
Definition token_char (c : ascii) : bool :=
  let n := Ascii.N_of_ascii c in
  ((48 <=? n) && (n <=? 57) || (65 <=? n) && (n <=? 90) || (97 <=? n) && (n <=? 122))%N
  || has_char c "!#$%&'*+-.^_`|~".
Definition validMethod (m : string) : bool :=
  negb (bool_decide (m = EmptyString)) && forallb token_char (String.list_ascii_of_string m).

(** a Go identifier, of ASCII characters *)
Definition isValidWildcardName (s : string) : bool :=
  let letter c := let n := Ascii.N_of_ascii c in
    ((65 <=? n) && (n <=? 90) || (97 <=? n) && (n <=? 122) || (n =? 95))%N in
  let digit c := let n := Ascii.N_of_ascii c in ((48 <=? n) && (n <=? 57))%N in
  match String.list_ascii_of_string s with
  | [] => false
  | c :: cs => letter c && forallb (λ c, letter c || digit c) cs
  end.

Definition parse_segment (seg : string) : option segment :=
  match seg with
  | EmptyString => None
  | String "{" s =>
      match rev (String.list_ascii_of_string s) with
      | "}"%char :: name =>
          let name := String.string_of_list_ascii (rev name) in
          if isValidWildcardName name then Some (Wild name) else None
      | _ => None
      end
  | _ => let l := pathUnescape seg in
         if has_char "{" seg || bool_decide (l = "/") then None else Some (Lit l)
  end.

Fixpoint wildcards (segs : list segment) : list string :=
  match segs with
  | [] => []
  | Lit _ :: segs' => wildcards segs'
  | Wild n :: segs' => n :: wildcards segs'
  end.

(** [[METHOD ][HOST]/[PATH]]: the method ends at the space, of which there is
    at most one, the host at the first slash *)
Definition parsePattern (s : string) : option pattern :=
  '(method, rest) ← match split_on " " s with
                    | [rest] => Some (EmptyString, rest)
                    | [method; rest] => Some (method, rest)
                    | _ => None
                    end;
  if negb (bool_decide (method = EmptyString)) && negb (validMethod method) then None else
  match split_on slash rest with
  | host :: parts =>
      if bool_decide (parts = []) || has_char "{" host then None else
      if negb (bool_decide (method = EmptyString)) && negb (bool_decide (method = "CONNECT"))
         && negb (bool_decide (slashed parts = cleanPath (slashed parts))) then None else
      segs ← mapM parse_segment parts;
      if bool_decide (NoDup (wildcards segs)) then Some (mkPattern method host segs) else None
  | [] => None
  end.

(** ** Conflicts *)
Inductive relationship := Equivalent | MoreGeneral | MoreSpecific | Disjoint | Overlaps.
#[global] Instance relationship_eq_dec : EqDecision relationship.
Proof. solve_decision. Defined.

Definition combineRelationships (r1 r2 : relationship) : relationship :=
  match r1, r2 with
  | Equivalent, r => r
  | r, Equivalent => r
  | Disjoint, _ | _, Disjoint => Disjoint
  | Overlaps, _ | _, Overlaps => Overlaps
  | MoreGeneral, MoreGeneral => MoreGeneral
  | MoreSpecific, MoreSpecific => MoreSpecific
  | _, _ => Overlaps
  end.

Definition compareMethods (m1 m2 : string) : relationship :=
  if bool_decide (m1 = m2) then Equivalent
  else if bool_decide (m1 = EmptyString) then MoreGeneral
  else if bool_decide (m2 = EmptyString) then MoreSpecific
  else if bool_decide (m1 = "GET") && bool_decide (m2 = "HEAD") then MoreGeneral
  else if bool_decide (m2 = "GET") && bool_decide (m1 = "HEAD") then MoreSpecific
  else Disjoint.

Definition compareSegments (s1 s2 : segment) : relationship :=
  match s1, s2 with
  | Wild _, Wild _ => Equivalent
  | Wild _, Lit l => if bool_decide (l = "/") then Disjoint else MoreGeneral
  | Lit l, Wild _ => if bool_decide (l = "/") then Disjoint else MoreSpecific
  | Lit l1, Lit l2 => if bool_decide (l1 = l2) then Equivalent else Disjoint
  end.

Fixpoint comparePaths (p1 p2 : list segment) : relationship :=
  match p1, p2 with
  | [], [] => Equivalent
  | s1 :: p1', s2 :: p2' => combineRelationships (compareSegments s1 s2) (comparePaths p1' p2')
  | _, _ => Disjoint
  end.

(** patterns with different hosts never conflict: the one with a host wins *)
Definition conflictsWith (p1 p2 : pattern) : bool :=
  if bool_decide (p_host p1 = p_host p2) then
    match combineRelationships (compareMethods (p_method p1) (p_method p2))
            (comparePaths (p_segments p1) (p_segments p2)) with
    | Equivalent | Overlaps => true
    | _ => false
    end
  else false.

(** ** The tree

    The registered routes; a node of the routing tree is the list of what is
    left of the patterns that lead to it. *)
Abbreviation routes A := (list (pattern * A)).

Section mux.
Context {A : Type}.

(** [mux.Handle]: [None] where it panics *)
Definition register (mux : routes A) (pat : string) (handler : A) : option (routes A) :=
  p ← parsePattern pat;
  if existsb (λ r, conflictsWith p r.1) mux then None else Some (mux ++ [(p, handler)]).

(** the child of a node for a literal segment, and the one for a wildcard *)
Definition findChild (seg : string) (node : list (list segment * (pattern * A)))
    : list (list segment * (pattern * A)) :=
  omap (λ e, match e with
             | (Lit l :: segs, x) => if bool_decide (l = seg) then Some (segs, x) else None
             | _ => None
             end) node.
Definition emptyChild (node : list (list segment * (pattern * A)))
    : list (list segment * (pattern * A)) :=
  omap (λ e, match e with
             | (Wild _ :: segs, x) => Some (segs, x)
             | _ => None
             end) node.
(** the pattern that ends at the node *)
Definition leaf (node : list (list segment * (pattern * A))) : option (pattern * A) :=
  head (omap (λ e, match e with ([], x) => Some x | _ => None end) node).

(** literals first, then the wildcard, which no trailing slash matches; an
    empty segment has the wildcard for its literal child *)
Fixpoint matchPath (path : list string) (node : list (list segment * (pattern * A)))
    (matches : list string) : option ((pattern * A) * list string) :=
  match path with
  | [] => (λ x, (x, matches)) <$> leaf node
  | seg :: rest =>
      let literal := if bool_decide (seg = EmptyString) then emptyChild node
                     else findChild seg node in
      match matchPath rest literal matches with
      | Some found => Some found
      | None => if bool_decide (seg = "/") then None
                else matchPath rest (emptyChild node) (matches ++ [seg])
      end
  end.

(** the routes of a host, those of a method *)
Definition on_host (host : string) (mux : routes A) : routes A :=
  filter (λ r, p_host r.1 = host) mux.
Definition on_method (method : string) (mux : routes A) : list (list segment * (pattern * A)) :=
  (λ r, (p_segments r.1, r)) <$> filter (λ r, p_method r.1 = method) mux.

(** the method itself, GET for HEAD, then the patterns with no method *)
Definition matchMethodAndPath (method : string) (path : list string) (mux : routes A)
    : option ((pattern * A) * list string) :=
  match matchPath path (on_method method mux) [] with
  | Some found => Some found
  | None =>
      match (if bool_decide (method = "HEAD") then matchPath path (on_method "GET" mux) [] else None) with
      | Some found => Some found
      | None => matchPath path (on_method EmptyString mux) []
      end
  end.

(** the routes of the host first, then those for every host *)
Definition match_route (host method : string) (path : list string) (mux : routes A)
    : option ((pattern * A) * list string) :=
  match (if bool_decide (host = EmptyString) then None
         else matchMethodAndPath method path (on_host host mux)) with
  | Some found => Some found
  | None => matchMethodAndPath method path (on_host EmptyString mux)
  end.

(** is there a route of the path for some method? *)
Definition any_method (path : list string) (mux : routes A) : bool :=
  existsb (λ r, negb (bool_decide (p_method r.1 = EmptyString)) &&
                bool_decide (is_Some (matchPath path (on_method (p_method r.1) mux) []))) mux.
Definition matchingMethods (host : string) (path : list string) (mux : routes A) : bool :=
  (negb (bool_decide (host = EmptyString)) && any_method path (on_host host mux))
  || any_method path (on_host EmptyString mux).

End mux.
(** ** Serving *)
Section serving.
Context {W : Type}.

(** [mux.ServeHTTP].  A redirect to a path with a trailing slash needs a
    pattern with one, and a CONNECT request is not canonicalised; the request
    of [*] has no path. *)
Definition ServeHTTP (mux : routes (Request → handler W)) (r : Request) : handler W :=
  let connect := bool_decide (r_Method r = "CONNECT") in
  let host := if connect then r_Host r else stripHostPort (r_Host r) in
  let path := if connect then r_EscapedPath r else cleanPath (r_EscapedPath r) in
  if bool_decide (r_EscapedPath r = "*") then WriteHeader 400
  else if negb (bool_decide (path = r_EscapedPath r)) then Redirect path 301
  else match match_route host (r_Method r) (segments path) mux with
       | Some ((p, handler), matches) =>
           handler (with_matches (zip (wildcards (p_segments p)) matches) r)
       | None =>
           if matchingMethods host (segments path) mux
           then http_Error "Method Not Allowed" 405
           else http_Error "404 page not found" 404
       end.

End serving.

(** ** What a template matches *)

(** the values of the wildcards; a slash alone, which is what [%2F] stands
    for, is taken for a trailing slash *)
Fixpoint template_match (template : list segment) (path : list string) : option (list string) :=
  match template, path with
  | [], [] => Some []
  | Lit l :: template', seg :: path' =>
      if bool_decide (l = seg) then template_match template' path' else None
  | Wild _ :: template', seg :: path' =>
      if bool_decide (seg = "/") then None else (seg ::.) <$> template_match template' path'
  | _, _ => None
  end.

(** the first template that matches *)
Definition first_match {A} (path : list string) (node : list (list segment * A))
    : option (A * list string) :=
  head (omap (λ e, (λ vals, (e.2, vals)) <$> template_match e.1 path) node).

(** ** Facts *)

(** patterns the multiplexer calls disjoint have no path in common *)
Lemma comparePaths_disjoint t1 t2 path v1 v2 :
  comparePaths t1 t2 = Disjoint →
  template_match t1 path = Some v1 → template_match t2 path = Some v2 → False.
Proof.
  revert t2 path v1 v2. induction t1 as [|s1 t1 IH]; intros [|s2 t2] [|seg path] v1 v2; simpl; try done.
  all: try by destruct s1. all: try by destruct s2.
  intros Hd M1 M2.
  assert (compareSegments s1 s2 = Disjoint ∨ comparePaths t1 t2 = Disjoint) as [Hs|Hp].
  { destruct (compareSegments s1 s2), (comparePaths t1 t2); simpl in Hd; auto; done. }
  - destruct s1, s2; simpl in Hs; repeat case_bool_decide; simplify_eq.
  - destruct s1, s2; repeat case_bool_decide; simplify_option_eq; by eapply IH.
Qed.

Section facts.
Context {A : Type}.
Implicit Type node : list (list segment * (pattern * A)).

Lemma elem_findChild seg node t x : (t, x) ∈ findChild seg node ↔ (Lit seg :: t, x) ∈ node.
Proof.
  unfold findChild. rewrite list_elem_of_omap. split.
  - intros ([[|[l|n] segs] y] & Hin & Heq); try done. case_bool_decide; by simplify_eq.
  - intros Hin. eexists. split; [done|]. simpl. by rewrite bool_decide_true.
Qed.
Lemma elem_emptyChild node t x : (t, x) ∈ emptyChild node ↔ ∃ n, (Wild n :: t, x) ∈ node.
Proof.
  unfold emptyChild. rewrite list_elem_of_omap. split.
  - intros ([[|[l|n] segs] y] & Hin & Heq); try done. simplify_eq. eauto.
  - intros [n Hin]. by eexists.
Qed.
Lemma leaf_Some node x : leaf node = Some x → ([], x) ∈ node.
Proof.
  unfold leaf. intros Hx%head_Some_elem_of. apply list_elem_of_omap in Hx as ([[|s t] y] & Hin & Heq);
    by simplify_eq.
Qed.
Lemma leaf_is_Some node x : ([], x) ∈ node → is_Some (leaf node).
Proof.
  intros Hin. unfold leaf.
  assert (x ∈ omap (λ e : list segment * (pattern * A), match e with ([], x) => Some x | _ => None end) node)
    as Hx by (apply list_elem_of_omap; by exists ([], x)).
  destruct (omap _ node); [by apply not_elem_of_nil in Hx|by eexists].
Qed.

(** what the tree finds is a pattern that matches, with its values *)
Lemma matchPath_sound path node ms x vs :
  EmptyString ∉ path → matchPath path node ms = Some (x, vs) →
  ∃ t vals, (t, x) ∈ node ∧ template_match t path = Some vals ∧ vs = ms ++ vals.
Proof.
  revert node ms. induction path as [|seg path IH]; intros node ms Hne; simpl.
  - intros Hx. destruct (leaf node) eqn:Hl; [|done]. simplify_eq/=.
    exists [], []. rewrite app_nil_r. by split_and!; [apply leaf_Some| |].
  - apply not_elem_of_cons in Hne as [Hs Hne]. rewrite bool_decide_false by done.
    destruct (matchPath path (findChild seg node) ms) as [[y ws]|] eqn:Hl.
    + intros [= -> ->]. destruct (IH _ _ Hne Hl) as (t & vals & Hin & Hm & ->).
      exists (Lit seg :: t), vals. split_and!; [by apply elem_findChild| |done].
      simpl. by rewrite bool_decide_true.
    + case_bool_decide; [done|]. intros Hx. destruct (IH _ _ Hne Hx) as (t & vals & Hin & Hm & ->).
      apply elem_emptyChild in Hin as [n Hin]. exists (Wild n :: t), (seg :: vals).
      split_and!; [done| |by rewrite <- app_assoc]. simpl. rewrite bool_decide_false by done.
      by rewrite Hm.
Qed.

(** a pattern that matches is not missed *)
Lemma matchPath_complete path node ms t x vals :
  EmptyString ∉ path → (t, x) ∈ node → template_match t path = Some vals →
  is_Some (matchPath path node ms).
Proof.
  revert node ms t vals. induction path as [|seg path IH]; intros node ms t vals Hne Hin Hm; simpl.
  - destruct t as [|[] t]; [|done..]. destruct (leaf_is_Some node x Hin) as [y ->]. by eexists.
  - apply not_elem_of_cons in Hne as [Hs Hne]. rewrite bool_decide_false by done.
    destruct t as [|[l|n] t]; [done|..]; simpl in Hm.
    + case_bool_decide; [subst l|done].
      by destruct (IH (findChild seg node) ms t vals Hne) as [f ->]; [apply elem_findChild|..].
    + case_bool_decide; [done|]. destruct (template_match t path) as [vs|] eqn:Hv; [|done].
      destruct (matchPath path (findChild seg node) ms); [done|].
      eapply IH; [done| |done]. apply elem_emptyChild. eauto.
Qed.

(** where the patterns are pairwise disjoint, the tree finds the first one that
    matches *)
Lemma matched_once path node t1 t2 x1 x2 v1 v2 :
  ForallOrdPairs (λ e1 e2, comparePaths e1.1 e2.1 = Disjoint) node →
  (t1, x1) ∈ node → (t2, x2) ∈ node →
  template_match t1 path = Some v1 → template_match t2 path = Some v2 → (t1, x1) = (t2, x2).
Proof.
  intros Hn In1 In2 M1 M2. induction Hn as [|e node Hall Hn IH]; [by apply not_elem_of_nil in In1|].
  apply elem_of_cons in In1 as [<-|In1], In2 as [<-|In2]; [done|..|by apply IH].
  - rewrite Forall_forall in Hall. pose proof (Hall _ In2) as Hd. by edestruct comparePaths_disjoint.
  - rewrite Forall_forall in Hall. pose proof (Hall _ In1) as Hd. by edestruct comparePaths_disjoint.
Qed.

Lemma first_match_Some path node x vs :
  first_match path node = Some (x, vs) → ∃ t, (t, x) ∈ node ∧ template_match t path = Some vs.
Proof.
  unfold first_match. intros Hf%head_Some_elem_of. apply list_elem_of_omap in Hf as ([t y] & Hin & Heq).
  simpl in Heq. destruct (template_match t path) eqn:Ht; simplify_eq/=. eauto.
Qed.
Lemma first_match_None path node t x :
  first_match path node = None → (t, x) ∈ node → template_match t path = None.
Proof.
  unfold first_match. intros Hf Hin. destruct (template_match t path) as [vs|] eqn:Ht; [|done].
  assert ((x, vs) ∈ omap (λ e : list segment * (pattern * A),
    (λ vals, (e.2, vals)) <$> template_match e.1 path) node) as Hom.
  { apply list_elem_of_omap. exists (t, x). simpl. by rewrite Ht. }
  destruct (omap _ node); [by apply not_elem_of_nil in Hom|done].
Qed.

Lemma matchPath_first path node :
  EmptyString ∉ path → ForallOrdPairs (λ e1 e2, comparePaths e1.1 e2.1 = Disjoint) node →
  matchPath path node [] = first_match path node.
Proof.
  intros Hne Hdis. destruct (first_match path node) as [[y ws]|] eqn:Hf.
  - apply first_match_Some in Hf as (t & Hin & Ht).
    destruct (matchPath_complete path node [] t y ws Hne Hin Ht) as [[x vs] Hx]. rewrite Hx.
    apply matchPath_sound in Hx as (t2 & vals & Hin2 & Hm2 & ->); [|done].
    pose proof (matched_once _ _ _ _ _ _ _ _ Hdis Hin Hin2 Ht Hm2). by simplify_eq/=.
  - destruct (matchPath path node []) as [[x vs]|] eqn:Hx; [|done].
    apply matchPath_sound in Hx as (t & vals & Hin & Hm & _); [|done].
    by rewrite (first_match_None _ _ _ _ Hf Hin) in Hm.
Qed.

(** the patterns of a method *)
Definition unambiguous (mux : routes A) : Prop :=
  ForallOrdPairs (λ r1 r2, p_method r1.1 = p_method r2.1 →
    comparePaths (p_segments r1.1) (p_segments r2.1) = Disjoint) mux.

Lemma on_method_disjoint m (mux : routes A) :
  unambiguous mux → ForallOrdPairs (λ e1 e2, comparePaths e1.1 e2.1 = Disjoint) (on_method m mux).
Proof.
  unfold unambiguous, on_method. induction 1 as [|r mux Hall Hn IH]; [constructor|].
  rewrite filter_cons. case_decide as Hm; [|done]. rewrite fmap_cons. constructor; [|done].
  rewrite Forall_fmap, Forall_forall. intros r2 [Hm2 Hin]%list_elem_of_filter. simpl.
  rewrite Forall_forall in Hall. apply Hall; [done|congruence].
Qed.

Lemma matchPath_on_method m path (mux : routes A) :
  EmptyString ∉ path → unambiguous mux →
  matchPath path (on_method m mux) [] = first_match path (on_method m mux).
Proof. intros Hne Hmux. apply matchPath_first; [done|by apply on_method_disjoint]. Qed.

(** what is found was registered, for the host or for every host *)
Lemma matchPath_in path (node : list (list segment * (pattern * A))) ms x vs :
  matchPath path node ms = Some (x, vs) → ∃ t, (t, x) ∈ node.
Proof.
  revert node ms. induction path as [|seg path IH]; intros node ms; simpl.
  - intros Hx. destruct (leaf node) eqn:Hl; [|done]. simplify_eq/=. exists []. by apply leaf_Some.
  - set (literal := if bool_decide (seg = EmptyString) then emptyChild node else findChild seg node).
    destruct (matchPath path literal ms) as [[y ws]|] eqn:Hl.
    + intros [= -> ->]. apply IH in Hl as [t Hin]. subst literal. case_bool_decide.
      * apply elem_emptyChild in Hin as [n Hin]. eauto.
      * apply elem_findChild in Hin. eauto.
    + case_bool_decide; [done|]. intros [t Hin]%IH. apply elem_emptyChild in Hin as [n Hin]. eauto.
Qed.
Lemma match_route_in host m path (mux : routes A) x vs :
  match_route host m path mux = Some (x, vs) → x ∈ mux ∧ (p_host x.1 = host ∨ p_host x.1 = EmptyString).
Proof.
  assert (∀ host', matchMethodAndPath m path (on_host host' mux) = Some (x, vs) →
    x ∈ mux ∧ p_host x.1 = host') as Hin.
  { intros host' Hx. assert (∃ m' t, (t, x) ∈ on_method m' (on_host host' mux)) as (m' & t & Ht).
    { unfold matchMethodAndPath in Hx.
      repeat case_match; simplify_eq; eauto using matchPath_in. }
    apply list_elem_of_fmap in Ht as (r & [= _ ->] & Hr). apply list_elem_of_filter in Hr as [_ Hr].
    by apply list_elem_of_filter in Hr as [??]. }
  unfold match_route. case_bool_decide; [intros []%Hin; auto|].
  destruct (matchMethodAndPath m path (on_host host mux)) as [[y ws]|] eqn:Hy.
  - intros [= -> ->]. apply Hin in Hy as []. auto.
  - intros []%Hin. auto.
Qed.

End facts.

(** *** Paths in canonical form *)

(** the parts of a path that cleaning leaves alone *)
Definition plain_part (p : string) : bool :=
  negb (has_char slash p) && negb (bool_decide (p ∈ [EmptyString; "."; ".."])).

Lemma string_app_nil p : p +:+ EmptyString = p.
Proof. induction p as [|c p IH]; [done|]. exact (f_equal (String c) IH). Qed.

Lemma split_on_plain sep p rest :
  has_char sep p = false → split_on sep (p +:+ String sep rest) = p :: split_on sep rest.
Proof.
  unfold has_char. induction p as [|c p IH]; simpl; intros Hp.
  - by rewrite Ascii.eqb_refl.
  - apply orb_false_iff in Hp as [Hc Hp]. rewrite Ascii.eqb_sym, Hc. by rewrite IH.
Qed.
Lemma split_on_last sep p : has_char sep p = false → split_on sep p = [p].
Proof.
  unfold has_char. induction p as [|c p IH]; simpl; intros Hp; [done|].
  apply orb_false_iff in Hp as [Hc Hp]. rewrite Ascii.eqb_sym, Hc. by rewrite IH.
Qed.

Lemma split_slashed parts :
  forallb plain_part parts = true → split_on slash (slashed parts) = EmptyString :: parts.
Proof.
  assert (∀ p, plain_part p = true → has_char slash p = false) as Hplain.
  { intros p. unfold plain_part. rewrite andb_true_iff, negb_true_iff. by intros []. }
  intros Hps. destruct parts as [|p parts]; [done|]. simpl. f_equal.
  revert p Hps. induction parts as [|q parts IH]; intros p [Hp Hps]%andb_true_iff.
  - change (split_on slash (p +:+ EmptyString) = [p]). rewrite string_app_nil. apply split_on_last. by apply Hplain.
  - change (split_on slash (p +:+ String slash (q +:+ slashed parts)) = p :: q :: parts).
    rewrite split_on_plain by by apply Hplain. f_equal. by apply IH.
Qed.

Lemma clean_step_plain rooted kept p :
  plain_part p = true → clean_step rooted kept p = p :: kept.
Proof.
  unfold plain_part, clean_step. rewrite andb_true_iff, !negb_true_iff. intros [_ Hp].
  apply bool_decide_eq_false in Hp. rewrite !elem_of_cons in Hp.
  by rewrite !bool_decide_false by naive_solver.
Qed.
Lemma clean_plain rooted parts kept :
  forallb plain_part parts = true → foldl (clean_step rooted) kept parts = rev parts ++ kept.
Proof.
  revert kept. induction parts as [|p parts IH]; intros kept; [done|]. simpl.
  intros [Hp Hps]%andb_true_iff. rewrite clean_step_plain by done. rewrite IH by done.
  by rewrite <- app_assoc.
Qed.

Lemma last_char_app s c t : last_char (s +:+ String c t) = last_char (String c t).
Proof.
  induction s as [|d s IH]; [done|]. simpl String.app. transitivity (last_char (s +:+ String c t)); [|done].
  simpl. by destruct s.
Qed.
Lemma last_char_plain p c : plain_part p = true → last_char (p) = Some c → c ≠ slash.
Proof.
  unfold plain_part, has_char. rewrite andb_true_iff, !negb_true_iff. intros [Hp _] Hl ->.
  revert Hl. induction p as [|d p IH]; [done|]. simpl in Hp |- *.
  apply orb_false_iff in Hp as [Hd Hp]. destruct p; [|by apply IH]. intros [= ->]. done.
Qed.

(** such a path is clean *)
Lemma clean_slashed parts :
  parts ≠ [] → forallb plain_part parts = true → cleanPath (slashed parts) = slashed parts.
Proof.
  intros Hne Hps. destruct parts as [|p parts]; [done|].
  transitivity (let np := path_Clean (slashed (p :: parts)) in
    if bool_decide (last_char (slashed (p :: parts)) = Some slash) && bool_decide (np ≠ "/")
    then np +:+ "/" else np); [done|]. cbv zeta.
  assert (path_Clean (slashed (p :: parts)) = slashed (p :: parts)) as Hc.
  { change (path_Clean (slashed (p :: parts))) with
      (let ps := rev (foldl (clean_step true) [] (split_on slash (slashed (p :: parts)))) in
       if bool_decide (ps = []) then "/" else slashed ps). cbv zeta.
    rewrite split_slashed by done.
    change (foldl (clean_step true) [] (EmptyString :: p :: parts)) with
      (foldl (clean_step true) [] (p :: parts)).
    rewrite clean_plain by done. rewrite app_nil_r, rev_involutive. by rewrite bool_decide_false by done. }
  rewrite Hc. rewrite (bool_decide_false (last_char _ = _)); [done|].
  clear Hc Hne. intros Hl. revert p Hps Hl. induction parts as [|q parts IH]; intros p Hps Hl.
  - simpl in Hps. rewrite andb_true_r in Hps.
    change (last_char (String slash (p +:+ EmptyString)) = Some slash) in Hl.
    rewrite string_app_nil in Hl. simpl in Hl.
    destruct p as [|d p]; [done|]. by eapply last_char_plain.
  - simpl in Hps. apply andb_true_iff in Hps as [Hp Hps]. apply (IH q Hps). rewrite <- Hl.
    change (slashed (p :: q :: parts)) with ((String slash p) +:+ slashed (q :: parts)).
    change (slashed (q :: parts)) with (String slash (q +:+ slashed parts)).
    by rewrite last_char_app.
Qed.

Lemma PathUnescape_nonempty p u : PathUnescape p = Some u → p ≠ EmptyString → u ≠ EmptyString.
Proof.
  intros Hu Hp ->. destruct p as [|c p]; [done|]. simpl in Hu.
  repeat case_match; try done; by apply fmap_Some in Hu as (? & _ & ?).
Qed.

Lemma segments_plain parts :
  forallb plain_part parts = true → segments (slashed parts) = pathUnescape <$> parts.
Proof.
  intros Hps. destruct parts as [|p parts]; [done|].
  transitivity (segments_of (tail (split_on slash (slashed (p :: parts))))); [done|].
  rewrite split_slashed by done. simpl tail.
  revert p Hps. induction parts as [|q parts IH]; intros p Hps.
  - simpl in Hps. rewrite andb_true_r in Hps. simpl. rewrite bool_decide_false; [done|].
    by intros ->.
  - simpl in Hps. apply andb_true_iff in Hps as [_ Hps]. change (segments_of (p :: q :: parts))
      with (pathUnescape p :: segments_of (q :: parts)). by rewrite IH.
Qed.

Lemma segments_nonempty parts :
  forallb plain_part parts = true → EmptyString ∉ pathUnescape <$> parts.
Proof.
  intros Hps (p & He & Hin)%list_elem_of_fmap. rewrite forallb_forall in Hps.
  apply list_elem_of_In in Hin. specialize (Hps p Hin). unfold pathUnescape in He.
  assert (p ≠ EmptyString) as Hp by by intros ->.
  destruct (PathUnescape p) as [u|] eqn:Hu; simpl in He; [|done].
  by eapply PathUnescape_nonempty.
Qed.

End Mux.
