(* ===== verification/Router.v ===== *)
(** The generated router of the API gateway
    (api_gateway/internal/server/api_gateway.gen.go): the errors of its
    parameters, [ServerInterface], one wrapper per operation that reads the
    parameters and applies the middlewares, the registration of the routes and
    the embedded specification; and the handler that main.go serves. *)

From S2P Require Import Prelude GoLib Grpc DocPb DocDomain UserServer DocClient Config Http Gateway Mux.

(** Package oapi-codegen/runtime, a parameter: how a parameter of the path and
    one of the query are read; errors are their texts *)
Class RuntimeBinding := {
  BindStyledParameter_uuid : string → string → string + uuid;
  BindQueryParameter_string : string → Values → string + option string;
  BindQueryParameter_int : string → Values → string + option Z;
  BindQueryParameter_strings : string → Values → string + option (list string);
}.

(** Packages kin-openapi and nethttp-middleware, parameters: the loader of a
    specification, given the reader of external references, and the validator
    of requests; the contents of [swaggerSpec] and the decoding of base64 and
    gzip (the reader, then what it reads) *)
Class OpenApi (W : Type) := {
  openapi3_T : Type;
  openapi3_LoadFromData : (string → string + list Byte.byte) → list Byte.byte → string + openapi3_T;
  OapiRequestValidator : openapi3_T → (Request → handler W) → Request → handler W;
  swaggerSpec : list string;
  base64_StdEncoding_DecodeString : string → string + list Byte.byte;
  gzip_NewReader : list Byte.byte → string + (string + list Byte.byte);
}.

(** The validator passes a request on as it is, or answers it with a line of
    text and asks nobody. *)
Class OpenApiLaws (W : Type) `{OpenApi W} : Prop := {
  validator_verdict spec next r h :
    OapiRequestValidator spec next r h = serve (next r) h ∨
    ∃ text code, (400 ≤ code < 600)%Z ∧
      OapiRequestValidator spec next r h = http_Error text code h;
}.

(** Package grpc, a parameter: a connection to an address, and the generated
    stubs on a connection *)
Class Dial (W : Type) := {
  ClientConn : Type;
  grpc_NewClient : string → string + ClientConn;
  user_stub : ClientConn → user_pb.UserServiceServer W;
  document_stub : ClientConn → DocumentServiceStub W;
}.

Module Router.

(** ** Errors of parameters *)
Inductive param_error :=
  | UnescapedCookieParamError (ParamName Err : string)
  | UnmarshalingParamError (ParamName Err : string)
  | RequiredParamError (ParamName : string)
  | RequiredHeaderError (ParamName Err : string)
  | InvalidParamFormatError (ParamName Err : string)
  | TooManyValuesForParamError (ParamName : string) (Count : Z).

(** [%d], a parameter in other files; a count is printed by [pretty] *)
Definition param_error_Error (e : param_error) : string :=
  match e with
  | UnescapedCookieParamError p _ => "error unescaping cookie parameter '" +:+ p +:+ "'"
  | UnmarshalingParamError p err => "Error unmarshaling parameter " +:+ p +:+ " as JSON: " +:+ err
  | RequiredParamError p => "Query argument " +:+ p +:+ " is required, but not found"
  | RequiredHeaderError p _ => "Header parameter " +:+ p +:+ " is required, but not found"
  | InvalidParamFormatError p err => "Invalid format for parameter " +:+ p +:+ ": " +:+ err
  | TooManyValuesForParamError p n => "Expected one value for " +:+ p +:+ ", got " +:+ pretty.pretty n
  end.

(** [Unwrap], of the errors that have it *)
Definition param_error_Unwrap (e : param_error) : option string :=
  match e with
  | UnescapedCookieParamError _ err | UnmarshalingParamError _ err
  | RequiredHeaderError _ err | InvalidParamFormatError _ err => Some err
  | RequiredParamError _ | TooManyValuesForParamError _ _ => None
  end.

Section router.
Context {W : Type}.

Definition MiddlewareFunc : Type := (Request → handler W) → Request → handler W.

Record ServerInterface := mkServerInterface {
  si_PostAuthLogin : Request → handler W;
  si_DeleteDocument : Request → handler W;
  si_GetDocument : Request → net.GetDocumentParams → handler W;
  si_PostDocument : Request → handler W;
  si_DeleteDocumentDocumentId : Request → uuid → handler W;
  si_GetDocumentDocumentId : Request → uuid → handler W;
  si_PutDocumentDocumentId : Request → uuid → handler W;
  si_GetDocumentDocumentIdPermission : Request → uuid → net.GetPermissionParams → handler W;
  si_PostDocumentDocumentIdPermission : Request → uuid → handler W;
  si_DeleteDocumentDocumentIdPermissionPrincipalPrincipalId : Request → uuid → uuid → handler W;
  si_GetDocumentDocumentIdPermissionPrincipalPrincipalId : Request → uuid → uuid → handler W;
  si_PutDocumentDocumentIdPermissionPrincipalPrincipalId : Request → uuid → uuid → handler W;
  si_PostUser : Request → handler W;
  si_DeleteUserUserId : Request → uuid → handler W;
  si_GetUserUserId : Request → uuid → handler W;
  si_PutUserUserId : Request → uuid → handler W;
}.

Record ServerInterfaceWrapper := mkServerInterfaceWrapper {
  Handler : ServerInterface;
  HandlerMiddlewares : list MiddlewareFunc;
  ErrorHandlerFunc : Request → param_error → handler W;
}.

(** ** The wrappers

    The list of scopes that the wrappers put in the context under
    [BearerAuthScopes] is read by nobody and is left out of the request. *)
Section wrappers.
Context `{RuntimeBinding} (siw : ServerInterfaceWrapper).

(** [for _, middleware := range siw.HandlerMiddlewares { handler =
    middleware(handler) }; handler.ServeHTTP(w, r)]: the last middleware is
    the first to see the request *)
Definition wrapped (handler : Request → handler W) (r : Request) : Http.handler W :=
  serve (foldl (λ handler middleware, middleware handler) handler (HandlerMiddlewares siw) r).

(** [if err != nil { siw.ErrorHandlerFunc(w, r, &InvalidParamFormatError{...});
    return }] *)
Definition bound {A} (r : Request) (name : string) (b : string + A) : go (Http W) returned A :=
  match b with
  | inr a => mret a
  | inl err => _ ← serve (ErrorHandlerFunc siw r (InvalidParamFormatError name err)); throw Returned
  end.

(** [BindStyledParameterWithOptions("simple", name, r.PathValue(name), &v,
    ...)] *)
Definition path_param (r : Request) (name : string) : go (Http W) returned uuid :=
  bound r name (BindStyledParameter_uuid name (PathValue r name)).

Definition PostAuthLogin (r : Request) : Http.handler W :=
  wrapped (si_PostAuthLogin (Handler siw)) r.

Definition DeleteDocument (r : Request) : Http.handler W :=
  wrapped (si_DeleteDocument (Handler siw)) r.

Definition GetDocument (r : Request) : Http.handler W :=
  cursor ← bound r "cursor" (BindQueryParameter_string "cursor" (r_Query r));
  limit ← bound r "limit" (BindQueryParameter_int "limit" (r_Query r));
  permissionLevel ← bound r "permissionLevel" (BindQueryParameter_string "permissionLevel" (r_Query r));
  wrapped (λ r, si_GetDocument (Handler siw) r (net.mkGetDocumentParams cursor limit permissionLevel)) r.

Definition PostDocument (r : Request) : Http.handler W :=
  wrapped (si_PostDocument (Handler siw)) r.

Definition DeleteDocumentDocumentId (r : Request) : Http.handler W :=
  documentId ← path_param r "documentId";
  wrapped (λ r, si_DeleteDocumentDocumentId (Handler siw) r documentId) r.

Definition GetDocumentDocumentId (r : Request) : Http.handler W :=
  documentId ← path_param r "documentId";
  wrapped (λ r, si_GetDocumentDocumentId (Handler siw) r documentId) r.

Definition PutDocumentDocumentId (r : Request) : Http.handler W :=
  documentId ← path_param r "documentId";
  wrapped (λ r, si_PutDocumentDocumentId (Handler siw) r documentId) r.

Definition GetDocumentDocumentIdPermission (r : Request) : Http.handler W :=
  documentId ← path_param r "documentId";
  cursor ← bound r "cursor" (BindQueryParameter_string "cursor" (r_Query r));
  limit ← bound r "limit" (BindQueryParameter_int "limit" (r_Query r));
  permissionFilter ← bound r "permissionFilter"
    (BindQueryParameter_strings "permissionFilter" (r_Query r));
  wrapped (λ r, si_GetDocumentDocumentIdPermission (Handler siw) r documentId
                  (net.mkGetPermissionParams cursor limit permissionFilter)) r.

Definition PostDocumentDocumentIdPermission (r : Request) : Http.handler W :=
  documentId ← path_param r "documentId";
  wrapped (λ r, si_PostDocumentDocumentIdPermission (Handler siw) r documentId) r.

Definition DeleteDocumentDocumentIdPermissionPrincipalPrincipalId (r : Request) : Http.handler W :=
  documentId ← path_param r "documentId";
  principalId ← path_param r "principalId";
  wrapped (λ r, si_DeleteDocumentDocumentIdPermissionPrincipalPrincipalId (Handler siw) r
                  documentId principalId) r.

Definition GetDocumentDocumentIdPermissionPrincipalPrincipalId (r : Request) : Http.handler W :=
  documentId ← path_param r "documentId";
  principalId ← path_param r "principalId";
  wrapped (λ r, si_GetDocumentDocumentIdPermissionPrincipalPrincipalId (Handler siw) r
                  documentId principalId) r.

Definition PutDocumentDocumentIdPermissionPrincipalPrincipalId (r : Request) : Http.handler W :=
  documentId ← path_param r "documentId";
  principalId ← path_param r "principalId";
  wrapped (λ r, si_PutDocumentDocumentIdPermissionPrincipalPrincipalId (Handler siw) r
                  documentId principalId) r.

Definition PostUser (r : Request) : Http.handler W :=
  wrapped (si_PostUser (Handler siw)) r.

Definition DeleteUserUserId (r : Request) : Http.handler W :=
  userId ← path_param r "userId";
  wrapped (λ r, si_DeleteUserUserId (Handler siw) r userId) r.

Definition GetUserUserId (r : Request) : Http.handler W :=
  userId ← path_param r "userId";
  wrapped (λ r, si_GetUserUserId (Handler siw) r userId) r.

Definition PutUserUserId (r : Request) : Http.handler W :=
  userId ← path_param r "userId";
  wrapped (λ r, si_PutUserUserId (Handler siw) r userId) r.

End wrappers.

(** ** Registration *)
Abbreviation ServeMux := (Mux.routes (Request → Http.handler W)).

(** a [nil] router is replaced by a new one, a [nil] handler of errors by
    [http.Error] *)
Record StdHTTPServerOptions := mkStdHTTPServerOptions {
  BaseURL : string;
  BaseRouter : option ServeMux;
  Middlewares : list MiddlewareFunc;
  Options_ErrorHandlerFunc : option (Request → param_error → handler W);
}.

(** the patterns and the handlers of the routes *)
Definition registrations `{RuntimeBinding} (BaseURL : string) (wrapper : ServerInterfaceWrapper)
    : list (string * (Request → handler W)) := [
  ("POST " +:+ BaseURL +:+ "/auth/login", PostAuthLogin wrapper);
  ("DELETE " +:+ BaseURL +:+ "/document", DeleteDocument wrapper);
  ("GET " +:+ BaseURL +:+ "/document", GetDocument wrapper);
  ("POST " +:+ BaseURL +:+ "/document", PostDocument wrapper);
  ("DELETE " +:+ BaseURL +:+ "/document/{documentId}", DeleteDocumentDocumentId wrapper);
  ("GET " +:+ BaseURL +:+ "/document/{documentId}", GetDocumentDocumentId wrapper);
  ("PUT " +:+ BaseURL +:+ "/document/{documentId}", PutDocumentDocumentId wrapper);
  ("GET " +:+ BaseURL +:+ "/document/{documentId}/permission", GetDocumentDocumentIdPermission wrapper);
  ("POST " +:+ BaseURL +:+ "/document/{documentId}/permission", PostDocumentDocumentIdPermission wrapper);
  ("DELETE " +:+ BaseURL +:+ "/document/{documentId}/permission/principal/{principalId}",
   DeleteDocumentDocumentIdPermissionPrincipalPrincipalId wrapper);
  ("GET " +:+ BaseURL +:+ "/document/{documentId}/permission/principal/{principalId}",
   GetDocumentDocumentIdPermissionPrincipalPrincipalId wrapper);
  ("PUT " +:+ BaseURL +:+ "/document/{documentId}/permission/principal/{principalId}",
   PutDocumentDocumentIdPermissionPrincipalPrincipalId wrapper);
  ("POST " +:+ BaseURL +:+ "/user", PostUser wrapper);
  ("DELETE " +:+ BaseURL +:+ "/user/{userId}", DeleteUserUserId wrapper);
  ("GET " +:+ BaseURL +:+ "/user/{userId}", GetUserUserId wrapper);
  ("PUT " +:+ BaseURL +:+ "/user/{userId}", PutUserUserId wrapper)
].

(** [m.HandleFunc], one registration after the other; [None] is a panic *)
Fixpoint HandleFuncs (m : ServeMux) (l : list (string * (Request → handler W))) : option ServeMux :=
  match l with
  | [] => Some m
  | (pattern, handler) :: l' => m ← Mux.register m pattern handler; HandleFuncs m l'
  end.

Definition HandlerWithOptions `{RuntimeBinding} (si : ServerInterface) (options : StdHTTPServerOptions)
    : option ServeMux :=
  let m := match BaseRouter options with None => [] | Some m => m end in
  let ErrorHandlerFunc := match Options_ErrorHandlerFunc options with
                          | None => λ _ err, http_Error (param_error_Error err) 400
                          | Some f => f
                          end in
  let wrapper := mkServerInterfaceWrapper si (Middlewares options) ErrorHandlerFunc in
  HandleFuncs m (registrations (BaseURL options) wrapper).

Definition Handler_of `{RuntimeBinding} (si : ServerInterface) : option ServeMux :=
  HandlerWithOptions si (mkStdHTTPServerOptions EmptyString None [] None).
Definition HandlerFromMux `{RuntimeBinding} (si : ServerInterface) (m : ServeMux) : option ServeMux :=
  HandlerWithOptions si (mkStdHTTPServerOptions EmptyString (Some m) [] None).
Definition HandlerFromMuxWithBaseURL `{RuntimeBinding} (si : ServerInterface) (m : ServeMux)
    (baseURL : string) : option ServeMux :=
  HandlerWithOptions si (mkStdHTTPServerOptions baseURL (Some m) [] None).

(** *** error_handling.go *)
Definition server_ErrorHandlerFunc (_ : Request) (err : param_error) : handler W :=
  http_Error (param_error_Error err) 400.

End router.
Arguments ServerInterface : clear implicits.
Arguments StdHTTPServerOptions : clear implicits.

(** ** The embedded specification; errors are their texts *)
Section swagger.
Context {W : Type} `{OpenApi W}.

Definition decodeSpec : string + list Byte.byte :=
  match base64_StdEncoding_DecodeString (String.concat EmptyString swaggerSpec) with
  | inl err => inl ("error base64 decoding spec: " +:+ err)
  | inr zipped =>
      match gzip_NewReader zipped with
      | inl err => inl ("error decompressing spec: " +:+ err)
      | inr (inl err) => inl ("error decompressing spec: " +:+ err)
      | inr (inr buf) => inr buf
      end
  end.

(** [decodeSpecCached()], called once: a function that returns what it found *)
Definition rawSpec : unit → string + list Byte.byte :=
  let data := decodeSpec in λ _, data.

Definition PathToRawSpec (pathToFile : string) : gmap string (unit → string + list Byte.byte) :=
  if (0 <? String.length pathToFile)%nat then {[ pathToFile := rawSpec ]} else ∅.

Definition GetSwagger : string + openapi3_T :=
  let resolvePath := PathToRawSpec EmptyString in
  let ReadFromURIFunc url :=
    let pathToFile := Mux.path_Clean url in
    match resolvePath !! pathToFile with
    | None => inl ("path not found: " +:+ pathToFile)
    | Some getSpec => getSpec ()
    end in
  match rawSpec () with
  | inl err => inl err
  | inr specData => openapi3_LoadFromData ReadFromURIFunc specData
  end.

(** *** request_validation.go: the left is a panic *)
Definition RequestValidationMiddleware : string + MiddlewareFunc :=
  match GetSwagger with
  | inl err => inl err
  | inr spec => inr (OapiRequestValidator spec)
  end.

End swagger.

(** ** The service and the program *)
Section program.
Context `{UuidLib} `{ErrorText} `{GrpcText} `{CursorCodec}.
Context {W : Type} `{Clock W} `{Jwt} {jwtSecretKey : GatewayConfig}.
Context `{JsonDecode net.PostAuthLoginBody} `{JsonDecode net.PostUserBody} `{JsonDecode net.PutUserBody}
  `{JsonDecode net.DeleteDocumentBody} `{JsonDecode net.PostDocumentBody} `{JsonDecode net.PutDocumentBody}
  `{JsonDecode net.PostPermissionBody} `{JsonDecode net.PutPermissionBody}.

(** server.go: the service on the clients implements the interface *)
Definition NewService (usClient : user_pb.UserServiceServer W) (dsClient : DocumentServiceStub W)
    : ServerInterface W := {|
  si_PostAuthLogin := Gateway.PostAuthLogin;
  si_DeleteDocument := Gateway.DeleteDocument;
  si_GetDocument := Gateway.GetDocument;
  si_PostDocument := Gateway.PostDocument;
  si_DeleteDocumentDocumentId := Gateway.DeleteDocumentDocumentId;
  si_GetDocumentDocumentId := Gateway.GetDocumentDocumentId;
  si_PutDocumentDocumentId := Gateway.PutDocumentDocumentId;
  si_GetDocumentDocumentIdPermission := Gateway.GetDocumentDocumentIdPermission;
  si_PostDocumentDocumentIdPermission := Gateway.PostDocumentDocumentIdPermission;
  si_DeleteDocumentDocumentIdPermissionPrincipalPrincipalId :=
    Gateway.DeleteDocumentDocumentIdPermissionPrincipalPrincipalId;
  si_GetDocumentDocumentIdPermissionPrincipalPrincipalId :=
    Gateway.GetDocumentDocumentIdPermissionPrincipalPrincipalId;
  si_PutDocumentDocumentIdPermissionPrincipalPrincipalId :=
    Gateway.PutDocumentDocumentIdPermissionPrincipalPrincipalId;
  si_PostUser := Gateway.PostUser;
  si_DeleteUserUserId := Gateway.DeleteUserUserId;
  si_GetUserUserId := Gateway.GetUserUserId;
  si_PutUserUserId := Gateway.PutUserUserId;
|}.

End program.

Section main.
Context `{UuidLib} `{ErrorText} `{GrpcText} `{CursorCodec} `{RuntimeBinding}.
Context {W : Type} `{Clock W} `{Jwt} `{OpenApi W} `{Environment} `{Dial W}.
Context `{JsonDecode net.PostAuthLoginBody} `{JsonDecode net.PostUserBody} `{JsonDecode net.PutUserBody}
  `{JsonDecode net.DeleteDocumentBody} `{JsonDecode net.PostDocumentBody} `{JsonDecode net.PutDocumentBody}
  `{JsonDecode net.PostPermissionBody} `{JsonDecode net.PutPermissionBody}.

(** [config.JWTSecretKey] *)
#[local] Instance main_key : GatewayConfig := gateway_config.JWTSecretKey.

(** the constructors of the two client packages *)
Definition NewUserServiceClient (addr : string) : string + user_pb.UserServiceServer W :=
  match grpc_NewClient addr with
  | inl err => inl ("failed to create a connection: " +:+ err)
  | inr conn => inr (user_stub conn)
  end.
Definition NewDocumentServiceClient (addr : string) : string + DocumentServiceStub W :=
  match grpc_NewClient addr with
  | inl err => inl ("failed to create a connection: " +:+ err)
  | inr conn => inr (document_stub conn)
  end.

(** the options of main.go *)
Definition main_options (validationMiddleware : MiddlewareFunc) : StdHTTPServerOptions W :=
  mkStdHTTPServerOptions "todo" None [Gateway.AuthMiddleware; validationMiddleware]
    (Some server_ErrorHandlerFunc).

(** [main]: the address and the handler of the server, or the text of the
    fatal error or of the panic that ends the program *)
Definition main : string + string * Mux.routes (Request → handler W) :=
  match NewUserServiceClient gateway_config.UserServiceAddr with
  | inl err => inl ("failed to create a user service client with error: " +:+ err)
  | inr userServiceClient =>
  match NewDocumentServiceClient gateway_config.DocumentServiceAddr with
  | inl err => inl ("failed to create a document service client with error: " +:+ err)
  | inr documentServiceClient =>
  let service := NewService userServiceClient documentServiceClient in
  match RequestValidationMiddleware with
  | inl err => inl err
  | inr validationMiddleware =>
  match HandlerWithOptions service (main_options validationMiddleware) with
  | None => inl "a pattern is invalid or conflicts with another"
  | Some h => inr ("0.0.0.0:8000", h)
  end end end end.

End main.
End Router.
