(* ===== verification/GatewayRules.v ===== *)
(** Reasoning about the handlers of the API gateway: how each part of a handler
    touches the response, the list of the operations, and the rules by which
    the theorems step through a handler. *)

From S2P Require Import Prelude GoLib Grpc DocPb DocDomain UserServer DocClient Http Gateway.

Module Rules.

(** ** Operations *)
Inductive operation :=
  | OLogin
  | OPostUser
  | ODeleteUser (userId : uuid)
  | OGetUser (userId : uuid)
  | OPutUser (userId : uuid)
  | ODeleteDocuments
  | OListDocuments (params : net.GetDocumentParams)
  | OPostDocument
  | ODeleteDocument (documentId : uuid)
  | OGetDocument (documentId : uuid)
  | OPutDocument (documentId : uuid)
  | OListPermissions (documentId : uuid) (params : net.GetPermissionParams)
  | OPostPermission (documentId : uuid)
  | ODeletePermission (documentId principalId : uuid)
  | OGetPermission (documentId principalId : uuid)
  | OPutPermission (documentId principalId : uuid).

(** the decoders of all request bodies *)
Class Bodies := {
  #[global] body_login :: JsonDecode net.PostAuthLoginBody;
  #[global] body_post_user :: JsonDecode net.PostUserBody;
  #[global] body_put_user :: JsonDecode net.PutUserBody;
  #[global] body_delete_documents :: JsonDecode net.DeleteDocumentBody;
  #[global] body_post_document :: JsonDecode net.PostDocumentBody;
  #[global] body_put_document :: JsonDecode net.PutDocumentBody;
  #[global] body_post_permission :: JsonDecode net.PostPermissionBody;
  #[global] body_put_permission :: JsonDecode net.PutPermissionBody;
}.

(** ** Responses *)

(** exactly one status was sent, with one JSON value, or the status 204 with
    none *)
Definition replied (status : Z) (body : list net.payload) (w : Response) : Prop :=
  w_superfluous w = [] ∧ w_body w = body ∧
  ((∃ p, body = [p] ∧ w_sent w = Some (status, Some "application/json")) ∨
   (body = [] ∧ status = 204%Z ∧ w_sent w = Some (status, None))).
Definition replied_once (w : Response) : Prop := ∃ status body, replied status body w.

Lemma send_json p code :
  body_allowed code = true →
  replied code [p] (write_json p (write_header code (set_content_type "application/json" no_response))).
Proof. intros Hc. unfold write_json. simpl. rewrite Hc. split_and!; simpl; eauto. Qed.

Lemma GrpcToHttpStatus_allowed err : body_allowed (GrpcToHttpStatus err) = true.
Proof. destruct err as [[c m]|]; [by destruct c|done]. Qed.

Section rules.
Context {W : Type}.

(** ** One response

    A guarded part of a handler either goes on without having touched the
    response, or has answered and returned. *)
Definition guarded {A} (m : go (Http W) returned A) : Prop :=
  ∀ h, h_response h = no_response →
       match m h with
       | (Err _, h') => replied_once (h_response h')
       | (_, h') => h_response h' = no_response
       end.

Definition once (m : handler W) : Prop :=
  ∀ h, h_response h = no_response →
       match m h with
       | (Panic _, h') => h_response h' = no_response
       | (_, h') => replied_once (h_response h')
       end.

(** what does not touch the response *)
Definition quiet {E A} (m : go (Http W) E A) : Prop :=
  ∀ h, h_response (m h).2 = h_response h.

Lemma quiet_ret {E A} (a : A) : quiet (mret a : go (Http W) E A).
Proof. by intros h. Qed.
Lemma quiet_lift {E A} (r : E + A) : quiet (lift r).
Proof. intros h. by destruct r. Qed.
Lemma quiet_deref {E A} (p : option A) : quiet (deref (E:=E) p).
Proof. intros h. by destruct p. Qed.
Lemma quiet_on_world {E A} (m : go W E A) : quiet (on_world m).
Proof. intros h. unfold on_world. by destruct (m (h_world h)). Qed.
Lemma quiet_Decode {A} `{JsonDecode A} : quiet (Decode A).
Proof. intros h. unfold Decode. by destruct (json_Decode (h_body h)) as [[] ?]. Qed.
Lemma quiet_map_err {E1 E2 A} (m : go (Http W) E1 A) (f : E1 → E2) : quiet m → quiet (map_err m f).
Proof. intros Hm h. specialize (Hm h). unfold map_err. by destruct (m h) as [[]]. Qed.
Lemma quiet_bind {E A B} (m : go (Http W) E A) (k : A → go (Http W) E B) :
  quiet m → (∀ a, quiet (k a)) → quiet (m ≫= k).
Proof.
  intros Hm Hk h. specialize (Hm h). unfold mbind, go_bind.
  destruct (m h) as [[a|e|p] h']; simpl in *; [by rewrite Hk|done..].
Qed.
Lemma quiet_fill {E A B} (f : A → go (Http W) E B) l : (∀ x, quiet (f x)) → quiet (Gateway.fill f l).
Proof.
  intros Hf. induction l as [|x l IH]; [apply quiet_ret|].
  apply quiet_bind; [done|]. intros y. apply quiet_bind; [done|]. intros ys. apply quiet_ret.
Qed.

Lemma guarded_answer_error {E A} (m : go (Http W) E A) f :
  quiet m → (∀ e, body_allowed (f e).1 = true) → guarded (answer_error m f).
Proof.
  intros Hm Hf h Hh. specialize (Hm h). unfold answer_error. destruct (m h) as [[a|e|p] h'];
    simpl in Hm |- *; rewrite Hh in Hm; [done| |done].
  rewrite Hm. exists (f e).1, [net.Error (f e).2]. by apply send_json.
Qed.
Lemma guarded_return_send b code msg : body_allowed code = true → guarded (return_send b code msg).
Proof.
  intros Hc h Hh. unfold return_send. destruct b; [|done]. simpl. rewrite Hh.
  exists code, [net.Error msg]. by apply send_json.
Qed.
Lemma guarded_send code msg :
  body_allowed code = true → guarded (_ ← SendError code msg; throw Returned : go _ _ unit).
Proof. apply (guarded_return_send true). Qed.
Lemma guarded_ret {A} (a : A) : guarded (mret a).
Proof. by intros h. Qed.
Lemma guarded_deref {A} (p : option A) : guarded (deref p).
Proof. intros h. by destruct p. Qed.
Lemma guarded_now `{Clock W} : guarded time_now.
Proof.
  intros h Hh. unfold time_now, map_err, on_world.
  by destruct (Now Empty_set (h_world h)) as [[?|[]|?] ?].
Qed.
Lemma guarded_bind {A B} (m : go (Http W) returned A) (k : A → go (Http W) returned B) :
  guarded m → (∀ a, guarded (k a)) → guarded (m ≫= k).
Proof.
  intros Hm Hk h Hh. specialize (Hm h Hh). unfold mbind, go_bind.
  destruct (m h) as [[a|e|p] h']; [by apply Hk|done..].
Qed.

Lemma once_bind {A} (m : go (Http W) returned A) (k : A → handler W) :
  guarded m → (∀ a, once (k a)) → once (m ≫= k).
Proof.
  intros Hm Hk h Hh. specialize (Hm h Hh). unfold mbind, go_bind.
  destruct (m h) as [[a|e|p] h']; [by apply Hk|done..].
Qed.
Lemma once_json code p : body_allowed code = true → once (SendJsonResponse code p).
Proof. intros Hc h Hh. simpl. rewrite Hh. exists code, [p]. by apply send_json. Qed.
Lemma once_204 : once (WriteHeader 204).
Proof. intros h Hh. simpl. rewrite Hh. exists 204%Z, []. split_and!; simpl; auto. Qed.

End rules.

Create HintDb gateway.
#[export] Hint Resolve quiet_ret quiet_lift quiet_deref quiet_on_world quiet_Decode quiet_map_err
  quiet_bind quiet_fill guarded_answer_error guarded_return_send guarded_ret guarded_deref guarded_now
  guarded_bind once_bind once_json once_204 GrpcToHttpStatus_allowed : gateway.

(** steps through a handler *)
Ltac walk := repeat match goal with
  | |- once (_ ≫= _) => apply once_bind
  | |- once (if _ then _ else _) => case_match
  | |- once (match _ with _ => _ end) => case_match
  | |- once _ => first [by apply once_json|apply once_204]
  | |- guarded (answer_error _ _) => apply guarded_answer_error
  | |- guarded (match ?x with _ => _ end) => destruct x
  | |- guarded (SendError _ _ ≫= _) => apply guarded_send
  | |- guarded (_ ≫= _) => apply guarded_bind
  | |- guarded _ => first [by apply guarded_return_send|apply guarded_ret|apply guarded_deref|apply guarded_now]
  | |- quiet (_ ≫= _) => apply quiet_bind
  | |- quiet (map_err _ _) => apply quiet_map_err
  | |- quiet (Gateway.fill _ _) => apply quiet_fill
  | |- quiet _ => first [apply quiet_ret|apply quiet_lift|apply quiet_deref|apply quiet_on_world|apply quiet_Decode]
  | |- ∀ _, _ => intros ?
  | |- body_allowed _ = true => first [done|apply GrpcToHttpStatus_allowed|repeat case_match; try done; apply GrpcToHttpStatus_allowed]
  end.

Section stepping.
Context {W : Type} `{UuidLib}.
Import Gateway.

(** ** Stepping through a handler *)
Lemma wp_on_world {E A} (m : go W E A) (Q : outcome E A → Http W → Prop) h :
  wp m (λ o w', Q o (mkHttp w' (h_body h) (h_response h))) (h_world h) → wp (on_world m) Q h.
Proof. unfold wp, on_world. by destruct (m (h_world h)). Qed.

Lemma wp_or_send {E A} (m : go (Http W) E A) f Q h :
  wp m (λ o h', match o with
                | Ret a => Q (Ret a) h'
                | Err e => wp (SendError (E:=returned) (f e).1 (f e).2) (λ _ h2, Q (Err Returned) h2) h'
                | Panic p => Q (Panic p) h'
                end) h →
  wp (answer_error m f) Q h.
Proof. unfold wp, answer_error. destruct (m h) as [[a|e|p] h']; done. Qed.

(** the principal of a request *)
Lemma wp_claims {A} r c code msg (k : CustomClaims → go (Http W) returned A) Q h :
  r_claims r = Some c → wp (k c) Q h →
  wp ((lift (GetClaims r) or_send λ _, (code, msg)) ≫= k) Q h.
Proof. unfold GetClaims. by intros ->. Qed.

Lemma wp_principal {A} c p f (k : uuid → go (Http W) returned A) Q h :
  ParsePrincipalId c = inr p → wp (k p) Q h →
  wp ((lift (ParsePrincipalId c) or_send f) ≫= k) Q h.
Proof. by intros ->. Qed.

(** where a run ends *)
Lemma wp_snd {E A} (P : Http W → Prop) (m : go (Http W) E A) h :
  wp m (λ _ h', P h') h → P (m h).2.
Proof. unfold wp. by destruct (m h). Qed.

(** the body of a request *)
Lemma wp_Decode {A B} `{JsonDecode A} v rest f (k : A → go (Http W) returned B) Q h :
  json_Decode (h_body h) = (inr v, rest) →
  wp (k v) Q (mkHttp (h_world h) rest (h_response h)) → wp ((Decode A or_send f) ≫= k) Q h.
Proof.
  intros Hv Hk. apply wp_bind, wp_or_send. unfold wp at 1, Decode at 1. by rewrite Hv.
Qed.

End stepping.

Section operations.
Context `{UuidLib} `{ErrorText} `{GrpcText} `{CursorCodec}.
Context {W : Type} {users : user_pb.UserServiceServer W} {documents : DocumentServiceStub W}.
Context `{Clock W} `{Jwt} {jwtSecretKey : GatewayConfig} `{Bodies}.
Import Gateway.

Definition run_operation (op : operation) (r : Request) : handler W :=
  match op with
  | OLogin => PostAuthLogin r
  | OPostUser => PostUser r
  | ODeleteUser u => DeleteUserUserId r u
  | OGetUser u => GetUserUserId r u
  | OPutUser u => PutUserUserId r u
  | ODeleteDocuments => DeleteDocument r
  | OListDocuments params => GetDocument r params
  | OPostDocument => PostDocument r
  | ODeleteDocument d => DeleteDocumentDocumentId r d
  | OGetDocument d => GetDocumentDocumentId r d
  | OPutDocument d => PutDocumentDocumentId r d
  | OListPermissions d params => GetDocumentDocumentIdPermission r d params
  | OPostPermission d => PostDocumentDocumentIdPermission r d
  | ODeletePermission d p => DeleteDocumentDocumentIdPermissionPrincipalPrincipalId r d p
  | OGetPermission d p => GetDocumentDocumentIdPermissionPrincipalPrincipalId r d p
  | OPutPermission d p => PutDocumentDocumentIdPermissionPrincipalPrincipalId r d p
  end.

(** the principal of the request is known *)
Definition principal_known (r : Request) : Prop :=
  ∃ c p, r_claims r = Some c ∧ ParsePrincipalId c = inr p.

Lemma once_operation op r :
  (∀ d, op = OPutDocument d → principal_known r) → once (run_operation op r).
Proof.
  intros Hput. destruct op; simpl.
  11:{ destruct (Hput _ eq_refl) as (c & p & Hc & Hp).
       unfold PutDocumentDocumentId, GetClaims. rewrite Hc.
       intros h Hh. unfold mbind at 1, go_bind at 1. simpl.
       unfold mbind at 1, go_bind at 1. simpl. rewrite Hp. revert h Hh.
       change (once (principalId ← mret p;
         body ← Decode net.PutDocumentBody or_send λ err, (400%Z, err);
         _ ← on_world (DocumentServiceClient.UpdateDocument documentId principalId
                  (net.PutBody_DocumentName body) (net.PutBody_DocumentDescription body))
           or_send proxy;
         WriteHeader 204)). walk. }
  all: unfold PostAuthLogin, PostUser, DeleteUserUserId, GetUserUserId, PutUserUserId, DeleteDocument,
    GetDocument, PostDocument, DeleteDocumentDocumentId, GetDocumentDocumentId,
    GetDocumentDocumentIdPermission, PostDocumentDocumentIdPermission,
    DeleteDocumentDocumentIdPermissionPrincipalPrincipalId,
    GetDocumentDocumentIdPermissionPrincipalPrincipalId,
    PutDocumentDocumentIdPermissionPrincipalPrincipalId, protoToNetDocument, protoToNetPermissions,
    protoToNetPermission, protoToNetPrincipal.
  all: walk.
Qed.

(** the middleware lets no token through *)
Lemma token_refused `{!JwtLaws} (next : Request → handler W) r (h : Http W) :
  (∀ E w, ∃ t w', Now E w = (Ret t, w')) →
  r_Path r ≠ "/auth/login" → h_response h = no_response →
  wp (AuthMiddleware next r) (λ o h',
    o = Err Returned ∧ h_body h' = h_body h ∧
    (h_world h' = h_world h ∨ ∃ t, Now Empty_set (h_world h) = (Ret t, h_world h')) ∧
    ∃ code msg, replied code [net.Error msg] (h_response h') ∧ (code = 401 ∨ code = 403)%Z) h.
Proof.
  intros Hnow Hpath Hh. unfold AuthMiddleware. rewrite (bool_decide_false _ Hpath).
  unfold wp, mbind, go_bind, return_send. simpl.
  destruct (bool_decide (r_Authentication r = EmptyString)).
  { simpl. rewrite Hh. split_and!; eauto. eexists _, _. split; [by apply send_json|eauto]. }
  simpl. destruct (bool_decide (TrimPrefix _ _ = _)).
  { simpl. rewrite Hh. split_and!; eauto. eexists _, _. split; [by apply send_json|eauto]. }
  simpl. unfold time_now, map_err, on_world, answer_error.
  destruct (Hnow Empty_set (h_world h)) as (t & w' & Ht). rewrite Ht. simpl.
  destruct (ES256_needs_ecdsa_key JWTSecretKey t (TrimPrefix (r_Authentication r) "Bearer "))
    as [err ->]. simpl. rewrite Hh. split_and!; eauto.
  eexists _, _. split; [by apply send_json|eauto].
Qed.

End operations.
End Rules.
