(* ===== verification/RouterRules.v ===== *)
(** The API the router is meant to serve, as a table of methods, templates and
    operations, and the lemmas that relate the registered routes to it. *)

From S2P Require Import Prelude GoLib Grpc DocPb DocDomain UserServer DocClient Config Http Gateway.
From S2P Require Import GatewayRules Mux Router.
Import Rules Mux Router.

Module RouterRules.

(** ** The API *)
Section api.
Context `{RuntimeBinding}.

(** a parameter that was read, or what is wrong with it *)
Definition named {A} (name : string) (b : string + A) : param_error + A :=
  match b with inl err => inl (InvalidParamFormatError name err) | inr a => inr a end.
Definition and_then {A B} (m : param_error + A) (k : A → param_error + B) : param_error + B :=
  match m with inl e => inl e | inr a => k a end.
Definition id_param (name : string) (r : Request) : param_error + uuid :=
  named name (BindStyledParameter_uuid name (PathValue r name)).

Definition with_id (name : string) (op : uuid → operation) (r : Request) : param_error + operation :=
  and_then (id_param name r) (λ i, inr (op i)).
Definition with_document_and_principal (op : uuid → uuid → operation) (r : Request)
    : param_error + operation :=
  and_then (id_param "documentId" r) (λ d, and_then (id_param "principalId" r) (λ p, inr (op d p))).

Definition list_documents (r : Request) : param_error + operation :=
  and_then (named "cursor" (BindQueryParameter_string "cursor" (r_Query r))) (λ cursor,
  and_then (named "limit" (BindQueryParameter_int "limit" (r_Query r))) (λ limit,
  and_then (named "permissionLevel" (BindQueryParameter_string "permissionLevel" (r_Query r))) (λ level,
  inr (OListDocuments (net.mkGetDocumentParams cursor limit level))))).
Definition list_permissions (r : Request) : param_error + operation :=
  and_then (id_param "documentId" r) (λ d,
  and_then (named "cursor" (BindQueryParameter_string "cursor" (r_Query r))) (λ cursor,
  and_then (named "limit" (BindQueryParameter_int "limit" (r_Query r))) (λ limit,
  and_then (named "permissionFilter" (BindQueryParameter_strings "permissionFilter" (r_Query r)))
    (λ levels, inr (OListPermissions d (net.mkGetPermissionParams cursor limit levels)))))).

Definition document_path : list segment := [Lit "document"; Wild "documentId"].
Definition permission_path : list segment := document_path ++ [Lit "permission"].
Definition principal_path : list segment :=
  permission_path ++ [Lit "principal"; Wild "principalId"].
Definition user_path : list segment := [Lit "user"; Wild "userId"].

Definition api : list ((string * list segment) * (Request → param_error + operation)) := [
  (("POST", [Lit "auth"; Lit "login"]), λ _, inr OLogin);
  (("DELETE", [Lit "document"]), λ _, inr ODeleteDocuments);
  (("GET", [Lit "document"]), list_documents);
  (("POST", [Lit "document"]), λ _, inr OPostDocument);
  (("DELETE", document_path), with_id "documentId" ODeleteDocument);
  (("GET", document_path), with_id "documentId" OGetDocument);
  (("PUT", document_path), with_id "documentId" OPutDocument);
  (("GET", permission_path), list_permissions);
  (("POST", permission_path), with_id "documentId" OPostPermission);
  (("DELETE", principal_path), with_document_and_principal ODeletePermission);
  (("GET", principal_path), with_document_and_principal OGetPermission);
  (("PUT", principal_path), with_document_and_principal OPutPermission);
  (("POST", [Lit "user"]), λ _, inr OPostUser);
  (("DELETE", user_path), with_id "userId" ODeleteUser);
  (("GET", user_path), with_id "userId" OGetUser);
  (("PUT", user_path), with_id "userId" OPutUser)
].

(** the first entry of the method whose template matches the segments of the
    path, with the values of its wildcards by name *)
Definition entry_of {B} (m : string) (path : list string) (entries : list ((string * list segment) * B))
    : option (B * list (string * string)) :=
  head (omap (λ e, if bool_decide (e.1.1 = m)
                   then (λ vals, (e.2, zip (wildcards e.1.2) vals)) <$> template_match e.1.2 path
                   else None) entries).

(** HEAD asks for what GET asks for *)
Definition api_lookup (m : string) (path : list string)
    : option ((Request → param_error + operation) * list (string * string)) :=
  match entry_of m path api with
  | Some found => Some found
  | None => if bool_decide (m = "HEAD") then entry_of "GET" path api else None
  end.

Definition api_knows (path : list string) : bool :=
  existsb (λ e, bool_decide (is_Some (template_match e.1.2 path))) api.

End api.

(** ** Registered routes *)
Section routes.
Context {F : Type}.

Definition routes_of (host : string) (entries : list ((string * list segment) * F)) : routes F :=
  (λ e, (mkPattern e.1.1 host e.1.2, e.2)) <$> entries.

Lemma on_its_host host (entries : list ((string * list segment) * F)) :
  on_host host (routes_of host entries) = routes_of host entries.
Proof. apply list_filter_all. unfold routes_of. rewrite Forall_fmap. by apply Forall_true. Qed.
Lemma on_other_host host host' (entries : list ((string * list segment) * F)) :
  host ≠ host' → on_host host' (routes_of host entries) = [].
Proof. intros Hh. apply list_filter_none. unfold routes_of. rewrite Forall_fmap. by apply Forall_true. Qed.

Lemma lookup_entry host m path (entries : list ((string * list segment) * F)) :
  (λ x, (x.1.2, zip (wildcards (p_segments x.1.1)) x.2)) <$>
    first_match path (on_method m (routes_of host entries)) = entry_of m path entries.
Proof.
  unfold first_match, entry_of, on_method, routes_of. induction entries as [|[[m' t] f] es IH]; [done|].
  rewrite fmap_cons, filter_cons. simpl p_method. case_decide as Hm.
  - rewrite fmap_cons. cbn -[zip]. rewrite bool_decide_true by done.
    destruct (template_match t path); [done|]. exact IH.
  - cbn -[zip]. rewrite bool_decide_false by done. exact IH.
Qed.

(** the tree finds the entry of the method, or that of GET for HEAD *)
Lemma match_entry host m path (entries : list ((string * list segment) * F)) :
  host ≠ EmptyString → EmptyString ∉ path → unambiguous (routes_of host entries) →
  Forall (λ e, e.1.1 ≠ EmptyString) entries →
  (λ x, (x.1.2, zip (wildcards (p_segments x.1.1)) x.2)) <$>
    match_route host m path (routes_of host entries) =
  match entry_of m path entries with
  | Some found => Some found
  | None => if bool_decide (m = "HEAD") then entry_of "GET" path entries else None
  end.
Proof.
  intros Hhost Hne Hun Hm. unfold match_route. rewrite bool_decide_false by done.
  rewrite on_its_host, on_other_host by done.
  assert (on_method EmptyString (routes_of host entries) = []) as Hempty.
  { unfold on_method. rewrite list_filter_none; [done|]. unfold routes_of. by rewrite Forall_fmap. }
  unfold matchMethodAndPath. rewrite Hempty, !matchPath_on_method by done.
  assert (∀ m', matchPath path (on_method m' ([] : routes F)) [] = None) as Hnil.
  { intros m'. clear. generalize (@nil string). unfold on_method. change (filter _ []) with (@nil (pattern * F)).
    rewrite fmap_nil. induction path as [|seg path IH]; intros ms; [done|]. simpl.
    destruct (bool_decide (seg = EmptyString)).
    all: change (emptyChild []) with (@nil (list segment * (pattern * F)));
      try change (findChild seg []) with (@nil (list segment * (pattern * F))).
    all: rewrite IH; by case_bool_decide. }
  assert (matchPath path [] [] = (None : option ((pattern * F) * list string))) as Hnil' by apply (Hnil m).
  rewrite <- !lookup_entry with (host := host). rewrite Hnil', !Hnil.
  destruct (first_match path (on_method m (routes_of host entries))); [done|]. simpl.
  case_bool_decide; [|done]. by destruct (first_match path (on_method "GET" (routes_of host entries))).
Qed.

Lemma knows_entry host path (entries : list ((string * list segment) * F)) :
  host ≠ EmptyString → EmptyString ∉ path → Forall (λ e, e.1.1 ≠ EmptyString) entries →
  matchingMethods host path (routes_of host entries) =
  existsb (λ e, bool_decide (is_Some (template_match e.1.2 path))) entries.
Proof.
  intros Hhost Hne Hm. unfold matchingMethods.
  rewrite on_its_host, on_other_host by done.
  rewrite bool_decide_false by done. rewrite orb_false_r. simpl negb. rewrite andb_true_l.
  unfold any_method. apply eq_bool_prop_intro. rewrite !Is_true_true, !existsb_exists. split.
  - intros (r & Hin & Hr). apply andb_true_iff in Hr as [_ Hr]. apply bool_decide_eq_true in Hr as [[x vs] Hx].
    apply matchPath_sound in Hx as (t & vals & Hin2 & Ht & _); [|done].
    unfold on_method in Hin2. apply list_elem_of_fmap in Hin2 as (r2 & [= -> ->] & Hin2).
    apply list_elem_of_filter in Hin2 as [_ Hin2]. unfold routes_of in Hin2.
    apply list_elem_of_fmap in Hin2 as (e & -> & He). exists e. split; [by apply list_elem_of_In|].
    apply bool_decide_eq_true. simpl in Ht. by rewrite Ht.
  - intros (e & Hin & He). apply bool_decide_eq_true in He as [vals Ht]. rewrite <- list_elem_of_In in Hin.
    exists (mkPattern e.1.1 host e.1.2, e.2).
    assert ((mkPattern e.1.1 host e.1.2, e.2) ∈ routes_of host entries) as Hr.
    { apply list_elem_of_fmap. by exists e. }
    split; [by apply list_elem_of_In|]. rewrite Forall_forall in Hm.
    rewrite bool_decide_false by by apply Hm. simpl. apply bool_decide_eq_true.
    eapply matchPath_complete; [done| |exact Ht]. unfold on_method. apply list_elem_of_fmap.
    eexists. split; [|apply list_elem_of_filter; split; [|exact Hr]]; done.
Qed.

End routes.

(** entries of related tables that are found for the same path are related *)
Lemma related_entry {F B} (R : F → B → Prop) m path
    (fs : list ((string * list segment) * F)) (bs : list ((string * list segment) * B)) :
  Forall2 (λ e a, e.1 = a.1 ∧ R e.2 a.2) fs bs →
  match entry_of m path fs, entry_of m path bs with
  | Some (f, ms), Some (b, ms') => R f b ∧ ms = ms'
  | None, None => True
  | _, _ => False
  end.
Proof.
  unfold entry_of. induction 1 as [|[[m1 t1] f] [[m2 t2] b] fs bs [[= -> ->] HR] _ IH]; [done|].
  cbn -[zip] in *. case_bool_decide; [|done]. by destruct (template_match t2 path).
Qed.
Lemma related_knows {F B} (R : F → B → Prop) path
    (fs : list ((string * list segment) * F)) (bs : list ((string * list segment) * B)) :
  Forall2 (λ e a, e.1 = a.1 ∧ R e.2 a.2) fs bs →
  existsb (λ e, bool_decide (is_Some (template_match e.1.2 path))) fs =
  existsb (λ e, bool_decide (is_Some (template_match e.1.2 path))) bs.
Proof. induction 1 as [|e a fs bs [He _] _ IH]; [done|]. simpl. by rewrite He, IH. Qed.

End RouterRules.
