(* ===== verification/GatewayExamples.v ===== *)
(** Concrete values for the parameters of the gateway, at which its theorems
    are instantiated: JSON bodies, tokens, the codec of cursors, and requests
    of the user alice, of a guest and of a caller without a principal. *)

From S2P Require Import Prelude GoLib Pgx Grpc DocPb DocDomain DocSql DocRepository.
From S2P Require Import UserServer DocClient Http Gateway GatewayRules Examples DocTheorems.
From Stdlib Require Import Strings.Byte.
Import Rules Examples Plan.

Module GatewayPlan.

#[global] Instance status_text : GrpcText := λ st, "rpc error: desc = " +:+ status_Message st.

(** ** A codec for cursors *)
Fixpoint pos_bytes (p : positive) : list byte :=
  match p with
  | xH => [x01]
  | xO p => x00 :: pos_bytes p
  | xI p => x02 :: pos_bytes p
  end.
Fixpoint bytes_pos (l : list byte) : option positive :=
  match l with
  | [x01] => Some xH
  | x00 :: l => xO <$> bytes_pos l
  | x02 :: l => xI <$> bytes_pos l
  | _ => None
  end.

Lemma bytes_pos_bytes p : bytes_pos (pos_bytes p) = Some p.
Proof. induction p as [p IH|p IH|]; simpl; [by rewrite IH..|done]. Qed.

Definition cursor_tuple (c : pb.Cursor) : Z * option (Z * Z) * option string :=
  (pb.Cursor_SortField c, (λ t, (Seconds t, Nanos t)) <$> pb.Cursor_LastSeenTime c,
   pb.Cursor_LastSeenDocumentId c).
Definition tuple_cursor (x : Z * option (Z * Z) * option string) : pb.Cursor :=
  pb.mkCursor x.1.1 ((λ t, mkTimestamp t.1 t.2) <$> x.1.2) x.2.

Lemma tuple_cursor_tuple c : tuple_cursor (cursor_tuple c) = c.
Proof. by destruct c as [f [[s n]|] i]. Qed.

Definition unmarshal (b : list byte) : string + pb.Cursor :=
  match bytes_pos b with
  | None => if decide (b = []) then inr (pb.mkCursor 0%Z None None) else inl "proto: invalid wire-format data"
  | Some p =>
      match decode p with
      | Some x => inr (tuple_cursor x)
      | None => inl "proto: invalid wire-format data"
      end
  end.

#[global] Instance codec : CursorCodec := {|
  base64_EncodeToString := String.string_of_list_byte;
  base64_DecodeString s := inr (String.list_byte_of_string s);
  proto_Marshal c :=
    inr (match c with None => [] | Some c => pos_bytes (encode (cursor_tuple c)) end);
  proto_Unmarshal := unmarshal;
|}.

#[global] Instance codec_laws : CursorCodecLaws.
Proof.
  split; simpl.
  - intros b. by rewrite String.list_byte_of_string_of_list_byte.
  - intros c b [= <-]. unfold unmarshal. rewrite bytes_pos_bytes, decode_encode.
    by rewrite tuple_cursor_tuple.
Qed.

(** ** Tokens *)
#[global] Instance tokens : Jwt := {|
  jwt_NewNumericDate t := (t / 10 ^ 9)%Z;
  jwt_SignedString alg key c := inr (alg +:+ "." +:+ Claims_Subject c);
  jwt_ParseWithClaims methods key now token :=
    if bool_decide (methods = ["ES256"])
    then inl "token is unverifiable: ES256 verify expects *ecdsa.PublicKey"
    else inr (mkCustomClaims "alice" "reed" token None None);
|}.

#[global] Instance tokens_laws : JwtLaws.
Proof. split. intros key now token. by eexists. Qed.

#[global] Instance secret : GatewayConfig := "asdf".

(** ** Bodies: every body that is not empty is the same value *)
Definition body_of {A} (v : A) : JsonDecode A := λ s,
  if bool_decide (s = EmptyString) then (inl "EOF", EmptyString) else (inr v, EmptyString).

#[global] Instance bodies : Bodies := {|
  body_login := body_of (net.mkPostAuthLoginBody "correct horse!" "alice");
  body_post_user := body_of (net.mkPostUserBody None "correct horse!" "alice@example.com" "alice");
  body_put_user := body_of (net.mkPutUserBody "new password!" "correct horse!");
  body_delete_documents := body_of (net.mkDeleteDocumentBody [plan]);
  body_post_document := body_of (net.mkPostDocumentBody None (Some "notes") alice);
  body_put_document := body_of (net.mkPutDocumentBody None (Some "new name"));
  body_post_permission := body_of (net.mkPostPermissionBody net.Viewer (Some bob));
  body_put_permission := body_of (net.mkPutPermissionBody net.Editor net.PrincipalTypeUser);
|}.

(** a user service that knows alice *)
#[global] Instance users : user_pb.UserServiceServer DocWorld := {|
  user_pb.rpc_GetUser _ := throw (mkStatus NotFound_ "no user");
  user_pb.rpc_CreateUser _ := throw (mkStatus AlreadyExists "alice exists");
  user_pb.rpc_DeactivateUser _ := mret ();
  user_pb.rpc_ChangeUserPassword := user_pb.Unimplemented.ChangeUserPassword;
  user_pb.rpc_ValidatePassword _ :=
    mret (user_pb.mkValidatePasswordReply (Some (uuid_String alice)) true);
|}.

(** ** Requests *)
Definition claims_of (name subject : string) : CustomClaims :=
  mkCustomClaims name "reed" subject None None.
Definition request_to (method path authentication : string) (claims : option CustomClaims) : Request :=
  mkRequest method "todo" path path [] [] authentication claims.
Definition request_of (c : CustomClaims) : Request := request_to "POST" "/document" EmptyString (Some c).

Definition by_alice : Request := request_of (claims_of "alice" (uuid_String alice)).
Definition by_mallory : Request := request_of (claims_of "mallory" (uuid_String (id_of 66))).
Definition by_guest : Request := request_of (claims_of EmptyString (uuid_String carol)).
Definition by_nobody : Request := request_of (claims_of "nobody" "not a uuid").

(** the HTTP world: the tables of the document of alice, a body, no response *)
Definition http (body : string) : Http DocWorld := mkHttp world body no_response.

End GatewayPlan.
