(* ===== verification/GatewayTheorems.v ===== *)
(** The correctness theorems of the API gateway: its handlers alone, and with
    the document service behind them. *)

From S2P Require Import Prelude GoLib Pgx Grpc DocPb DocDomain DocService DocServer.
From S2P Require Import DocSql DocRepository DocSpec DocRefine DocLawful DocContract DocRpc.
From S2P Require Import UserServer DocClient Http Gateway GatewayRules Examples DocTheorems GatewayExamples.
Import Gateway Rules.

(** * The gateway alone *)
Section alone.
Context `{UuidLib} `{ErrorText} `{GrpcText} `{CursorCodec}.
Context {W : Type} {users : user_pb.UserServiceServer W} {documents : DocumentServiceStub W}.
Context `{Clock W} `{Jwt} {jwtSecretKey : GatewayConfig} `{Bodies}.

(** C10: Every operation of the API, whatever the services behind it answer,
    sends exactly one status with exactly one JSON value, or the status 204
    with none; if it crashes it has sent nothing. The update of a document is
    the exception: it needs a request whose principal is known. *)
Theorem gateway_answers_once op r (h : Http W) :
  (∀ d, op = OPutDocument d → principal_known r) → h_response h = no_response →
  wp (run_operation op r) (λ o h',
    match o with
    | Panic _ => h_response h' = no_response
    | _ => replied_once (h_response h')
    end) h.
Proof. intros Hput Hh. apply (once_operation op r Hput h Hh). Qed.

(** the operations that only users may call; a guest may look up its own
    permission *)
Definition users_only (op : operation) (own : uuid) : bool :=
  match op with
  | ODeleteDocuments | OPostDocument | ODeleteDocument _ | OListPermissions _ _ | OPostPermission _
  | ODeletePermission _ _ | OPutPermission _ _ => true
  | OGetPermission _ p => bool_decide (p ≠ own)
  | _ => false
  end.

(** the status for a guest; the body of a list of documents to delete is read
    first *)
Definition guest_status (op : operation) (body : string) : Z :=
  match op, (json_Decode body).1 : string + net.DeleteDocumentBody with
  | ODeleteDocuments, inl _ => 400
  | _, _ => 403
  end.

(** C22: A guest that calls an operation meant for users is refused with 403
    before any service is asked; only a request to delete a list of documents
    whose body is not a list of documents is refused with 400. *)
Theorem guests_are_refused op r c p (h : Http W) :
  r_claims r = Some c → Claims_UserName c = EmptyString → ParsePrincipalId c = inr p →
  users_only op p = true → h_response h = no_response →
  wp (run_operation op r) (λ o h',
    o = Err Returned ∧ h_world h' = h_world h ∧
    ∃ msg, replied (guest_status op (h_body h)) [net.Error msg] (h_response h')) h.
Proof.
  intros Hc Hu Hp Hop Hh.
  assert (is_user c = false ∧ is_guest c = true) as [Huser Hguest].
  { unfold is_user, is_guest, GetTokenType. by rewrite Hu. }
  destruct op; try done; simpl in Hop |- *;
    unfold DeleteDocument, PostDocument, DeleteDocumentDocumentId, GetDocumentDocumentIdPermission,
      PostDocumentDocumentIdPermission, DeleteDocumentDocumentIdPermissionPrincipalPrincipalId,
      GetDocumentDocumentIdPermissionPrincipalPrincipalId,
      PutDocumentDocumentIdPermissionPrincipalPrincipalId, GetClaims, wp, mbind, go_bind, answer_error,
      return_send, Decode; rewrite ?Hc.
  1: destruct (json_Decode (h_body h)) as [[err|b] rest].
  all: simpl; rewrite ?Hp, ?Huser, ?Hguest; simpl;
    try (apply bool_decide_eq_true in Hop; rewrite bool_decide_true by exact Hop);
    simpl; rewrite Hh; split_and!; try done; eexists; by apply send_json.
Qed.

(** C31: The authentication accepts no token: it admits only the method ES256
    and offers it a key of bytes, so that every request but one for
    /auth/login is refused with 401 or 403, the next handler is not run, and no
    service is asked. *)
Theorem every_token_is_refused `{!JwtLaws} (next : Request → handler W) r (h : Http W) :
  (∀ E w, ∃ t w', Now E w = (Ret t, w')) →
  r_Path r ≠ "/auth/login" → h_response h = no_response →
  wp (AuthMiddleware next r) (λ o h',
    o = Err Returned ∧ h_body h' = h_body h ∧
    (h_world h' = h_world h ∨ ∃ t, Now Empty_set (h_world h) = (Ret t, h_world h')) ∧
    ∃ code msg, replied code [net.Error msg] (h_response h') ∧ (code = 401 ∨ code = 403)%Z) h.
Proof. apply token_refused. Qed.

(** C37: A login is answered twice: after the login handler has sent its
    response the middleware goes on, and a request without a token gets the
    error of the missing header appended to it. *)
Theorem login_is_answered_twice r (h : Http W) status p :
  r_Path r = "/auth/login" → r_Authentication r = EmptyString → h_response h = no_response →
  body_allowed status = true →
  wp (PostAuthLogin r) (λ o h', (∀ why, o ≠ Panic why) ∧ replied status [p] (h_response h')) h →
  wp (AuthMiddleware PostAuthLogin r) (λ _ h',
    w_sent (h_response h') = Some (status, Some "application/json") ∧
    w_superfluous (h_response h') = [401%Z] ∧
    w_body (h_response h') =
      [p; net.Error "Authentication header with JWT bearer token is required"]) h.
Proof.
  intros Hpath Hauth Hh Hstatus Hlogin. unfold AuthMiddleware, wp, serve, mbind, go_bind in *.
  rewrite (bool_decide_true _ Hpath). destruct (PostAuthLogin r h) as [o h'].
  destruct Hlogin as [Ho (Hsup & Hbody & Hs)].
  assert (w_sent (h_response h') = Some (status, Some "application/json")) as Hsent.
  { by destruct Hs as [(p' & _ & Hsent)|[? _]]. }
  destruct h' as [w b resp]. simpl in *.
  destruct o as [|[]|why]; [| |by destruct (Ho why)]; rewrite Hauth; simpl;
    unfold write_json, write_header; simpl; rewrite ?Hsent; simpl; rewrite ?Hsent; simpl;
    rewrite ?Hstatus; simpl; by rewrite ?Hsup, ?Hbody.
Qed.
End alone.

(** * Instances of the theorems *)
Module GatewayInstances.
Import Examples Plan GatewayPlan.
#[local] Existing Instance direct_stub.

Lemma gateway_answers_once_witness :
  wp (run_operation (OPutDocument plan) by_alice) (λ o h',
    match o with
    | Panic _ => h_response h' = no_response
    | _ => replied_once (h_response h')
    end) (http "{}").
Proof.
  apply (gateway_answers_once (OPutDocument plan) by_alice (http "{}")); [|reflexivity].
  intros d _. exists (claims_of "alice" (uuid_String alice)), alice.
  split; [reflexivity|vm_compute; reflexivity].
Defined.

Lemma guests_are_refused_witness :
  wp (run_operation (ODeleteDocument plan) by_guest) (λ o h',
    o = Err Returned ∧ h_world h' = world ∧
    ∃ msg, replied 403 [net.Error msg] (h_response h')) (http EmptyString) ∧
  wp (run_operation ODeleteDocuments by_guest) (λ o h',
    o = Err Returned ∧ h_world h' = world ∧
    ∃ msg, replied 403 [net.Error msg] (h_response h')) (http "{}").
Proof.
  split.
  - apply (guests_are_refused (ODeleteDocument plan) by_guest
             (claims_of EmptyString (uuid_String carol)) carol (http EmptyString));
      [reflexivity|reflexivity|vm_compute; reflexivity|reflexivity|reflexivity].
  - eapply wp_mono; [apply (guests_are_refused ODeleteDocuments by_guest
      (claims_of EmptyString (uuid_String carol)) carol (http "{}"));
      [reflexivity|reflexivity|vm_compute; reflexivity|reflexivity|reflexivity]|].
    intros o h' Ho. exact Ho.
Defined.

Definition with_token : Request := request_to "POST" "/document" "Bearer abc" None.

Lemma every_token_is_refused_witness :
  wp (AuthMiddleware (run_operation OPostDocument) with_token) (λ o h',
    o = Err Returned ∧ h_body h' = "{}" ∧
    (h_world h' = world ∨ ∃ t, Now Empty_set world = (Ret t, h_world h')) ∧
    ∃ code msg, replied code [net.Error msg] (h_response h') ∧ (code = 401 ∨ code = 403)%Z)
    (http "{}").
Proof.
  apply (every_token_is_refused (run_operation OPostDocument) with_token (http "{}"));
    [|discriminate|reflexivity].
  intros E w. eexists _, _. reflexivity.
Defined.

Definition login_request : Request := request_to "POST" "/auth/login" EmptyString None.

Lemma login_is_answered_twice_witness :
  ∃ token, wp (AuthMiddleware Gateway.PostAuthLogin login_request) (λ _ h',
    w_sent (h_response h') = Some (200%Z, Some "application/json") ∧
    w_superfluous (h_response h') = [401%Z] ∧
    w_body (h_response h') =
      [net.LoginResponse 3600 token;
       net.Error "Authentication header with JWT bearer token is required"]) (http "{}").
Proof.
  eexists. apply (login_is_answered_twice login_request (http "{}") 200%Z
    (net.LoginResponse 3600 ("HS256." +:+ uuid_String alice))); try reflexivity.
  vm_compute. split; [by intros why|]. split; [reflexivity|]. split; [reflexivity|].
  left. eexists. split; reflexivity.
Defined.

End GatewayInstances.
