(* ===== verification/RouterTheorems.v ===== *)
(** The theorems on the program of the API gateway: which operation a request
    runs, and what the deployed configuration lets through. *)

From S2P Require Import Prelude GoLib Pgx Grpc DocPb DocDomain UserServer DocClient Config Http Gateway.
From S2P Require Import DocSql DocRepository Examples DocTheorems.
From S2P Require Import GatewayRules Mux Router RouterRules GatewayExamples.
Import Rules Mux Router RouterRules.

Section program.
Context `{UuidLib} `{ErrorText} `{GrpcText} `{CursorCodec} `{RuntimeBinding}.
Context {W : Type} `{Clock W} `{Jwt} `{OpenApi W} `{Environment} `{Dial W} `{Bodies}.
#[local] Existing Instance main_key | 0.

(** ** The handler that main builds *)
Definition wrapper (us : user_pb.UserServiceServer W) (ds : DocumentServiceStub W)
    (middlewares : list MiddlewareFunc) (onError : Request → param_error → handler W)
    : ServerInterfaceWrapper :=
  mkServerInterfaceWrapper (NewService us ds) middlewares onError.

Definition entries (w : ServerInterfaceWrapper) : list ((string * list segment) * (Request → handler W)) := [
  (("POST", [Lit "auth"; Lit "login"]), PostAuthLogin w);
  (("DELETE", [Lit "document"]), DeleteDocument w);
  (("GET", [Lit "document"]), GetDocument w);
  (("POST", [Lit "document"]), PostDocument w);
  (("DELETE", document_path), DeleteDocumentDocumentId w);
  (("GET", document_path), GetDocumentDocumentId w);
  (("PUT", document_path), PutDocumentDocumentId w);
  (("GET", permission_path), GetDocumentDocumentIdPermission w);
  (("POST", permission_path), PostDocumentDocumentIdPermission w);
  (("DELETE", principal_path), DeleteDocumentDocumentIdPermissionPrincipalPrincipalId w);
  (("GET", principal_path), GetDocumentDocumentIdPermissionPrincipalPrincipalId w);
  (("PUT", principal_path), PutDocumentDocumentIdPermissionPrincipalPrincipalId w);
  (("POST", [Lit "user"]), PostUser w);
  (("DELETE", user_path), DeleteUserUserId w);
  (("GET", user_path), GetUserUserId w);
  (("PUT", user_path), PutUserUserId w)
].

(** no pattern is invalid, none conflicts with another *)
Lemma registered (w : ServerInterfaceWrapper) :
  HandleFuncs [] (registrations "todo" w) = Some (routes_of "todo" (entries w)).
Proof.
  unfold registrations, entries.
  generalize (PostAuthLogin w), (DeleteDocument w), (GetDocument w), (PostDocument w),
    (DeleteDocumentDocumentId w), (GetDocumentDocumentId w), (PutDocumentDocumentId w),
    (GetDocumentDocumentIdPermission w), (PostDocumentDocumentIdPermission w).
  generalize (DeleteDocumentDocumentIdPermissionPrincipalPrincipalId w),
    (GetDocumentDocumentIdPermissionPrincipalPrincipalId w),
    (PutDocumentDocumentIdPermissionPrincipalPrincipalId w), (PostUser w), (DeleteUserUserId w),
    (GetUserUserId w), (PutUserUserId w).
  intros. vm_compute. reflexivity.
Qed.

Lemma routes_unambiguous (w : ServerInterfaceWrapper) : unambiguous (routes_of "todo" (entries w)).
Proof.
  unfold unambiguous, routes_of, entries. cbn [fmap list_fmap].
  repeat (constructor; [repeat (constructor; [first [done|by intros _]|]); constructor|]). constructor.
Qed.

Lemma entries_have_methods (w : ServerInterfaceWrapper) : Forall (λ e, e.1.1 ≠ EmptyString) (entries w).
Proof. by repeat constructor. Qed.

Definition main_wrapper us ds spec : ServerInterfaceWrapper :=
  wrapper us ds [Gateway.AuthMiddleware; OapiRequestValidator spec] server_ErrorHandlerFunc.

Lemma main_runs us ds spec :
  NewUserServiceClient gateway_config.UserServiceAddr = inr us →
  NewDocumentServiceClient gateway_config.DocumentServiceAddr = inr ds →
  GetSwagger = inr spec →
  main = inr ("0.0.0.0:8000", routes_of "todo" (entries (main_wrapper us ds spec))).
Proof.
  intros Hus Hds Hspec. unfold main, RequestValidationMiddleware. rewrite Hus, Hds, Hspec. cbv zeta.
  pose proof (registered (main_wrapper us ds spec)) as Hr.
  match goal with |- context [HandlerWithOptions ?a ?b] =>
    change (HandlerWithOptions a b) with
      (HandleFuncs [] (registrations "todo" (main_wrapper us ds spec))) end.
  by rewrite Hr.
Qed.
Lemma main_inv addr mux :
  main = inr (addr, mux) → ∃ us ds spec, mux = routes_of "todo" (entries (main_wrapper us ds spec)).
Proof.
  destruct (NewUserServiceClient gateway_config.UserServiceAddr) as [|us] eqn:Hus,
    (NewDocumentServiceClient gateway_config.DocumentServiceAddr) as [|ds] eqn:Hds,
    GetSwagger as [|spec] eqn:Hspec.
  8:{ rewrite (main_runs _ _ _ Hus Hds Hspec). intros [= _ <-]. eauto. }
  all: unfold main, RequestValidationMiddleware; by rewrite ?Hus, ?Hds, ?Hspec.
Qed.

(** ** The operation of a request *)

(** an operation behind the middlewares, or what is wrong with a parameter *)
Definition dispatch us ds spec (b : Request → param_error + operation) (r : Request) : handler W :=
  match b r with
  | inl e => http_Error (param_error_Error e) 400
  | inr op =>
      OapiRequestValidator spec
        (Gateway.AuthMiddleware (run_operation (users:=us) (documents:=ds) op)) r
  end.

Lemma serve_serve (m : handler W) h : serve (serve m) h = serve m h.
Proof. unfold serve. by destruct (m h) as [[| []|] ?]. Qed.

Definition serves_as us ds spec (f : Request → handler W) (b : Request → param_error + operation) : Prop :=
  ∀ r h, serve (f r) h = serve (dispatch us ds spec b r) h.

Lemma entries_dispatch us ds spec :
  Forall2 (λ e a, e.1 = a.1 ∧ serves_as us ds spec e.2 a.2)
    (entries (main_wrapper us ds spec)) api.
Proof.
  unfold entries, api.
  repeat (constructor; [split; [done|]; intros r h|]); [..|constructor]; cbn [fst snd].
  all: unfold dispatch, with_id, with_document_and_principal, list_documents, list_permissions, id_param,
    named, and_then.
  all: unfold PostAuthLogin, DeleteDocument, GetDocument, PostDocument, DeleteDocumentDocumentId,
    GetDocumentDocumentId, PutDocumentDocumentId, GetDocumentDocumentIdPermission,
    PostDocumentDocumentIdPermission, DeleteDocumentDocumentIdPermissionPrincipalPrincipalId,
    GetDocumentDocumentIdPermissionPrincipalPrincipalId,
    PutDocumentDocumentIdPermissionPrincipalPrincipalId, PostUser, DeleteUserUserId, GetUserUserId,
    PutUserUserId, path_param.
  all: repeat match goal with
    | |- context [BindStyledParameter_uuid ?n ?v] => destruct (BindStyledParameter_uuid n v); [reflexivity|]
    | |- context [BindQueryParameter_string ?n ?v] => destruct (BindQueryParameter_string n v); [reflexivity|]
    | |- context [BindQueryParameter_int ?n ?v] => destruct (BindQueryParameter_int n v); [reflexivity|]
    | |- context [BindQueryParameter_strings ?n ?v] => destruct (BindQueryParameter_strings n v); [reflexivity|]
    end.
  all: apply serve_serve.
Qed.

(** C5: The program of the gateway serves the API of its document: a request
    for the host of its base URL, whose path has no empty or dotted parts, runs
    the one operation that the API names for its method and path, behind the
    validation and the authentication, with the parameters of its path and
    query; a parameter that cannot be read is answered with 400, a path that
    is known for other methods with 405 and any other with 404. No pattern is
    refused at start-up. *)
Theorem gateway_serves_the_api us ds spec r parts (h : Http W) :
  NewUserServiceClient gateway_config.UserServiceAddr = inr us →
  NewDocumentServiceClient gateway_config.DocumentServiceAddr = inr ds →
  GetSwagger = inr spec →
  stripHostPort (r_Host r) = "todo" → r_Method r ≠ "CONNECT" →
  parts ≠ [] → forallb plain_part parts = true → r_EscapedPath r = slashed parts →
  ∃ addr mux, main = inr (addr, mux) ∧
    serve (ServeHTTP mux r) h = serve
      (match api_lookup (r_Method r) (pathUnescape <$> parts) with
       | Some (b, ms) => dispatch us ds spec b (with_matches ms r)
       | None => if api_knows (pathUnescape <$> parts)
                 then http_Error "Method Not Allowed" 405
                 else http_Error "404 page not found" 404
       end) h.
Proof.
  intros Hus Hds Hspec Hhost Hm Hparts Hplain Hpath. eexists _, _. split; [by apply main_runs|].
  pose proof (segments_nonempty parts Hplain) as Hne.
  pose proof (entries_dispatch us ds spec) as Hrel. set (es := entries (main_wrapper us ds spec)) in *.
  unfold ServeHTTP. rewrite (bool_decide_false (_ = "CONNECT")) by done.
  rewrite Hhost, Hpath, clean_slashed, segments_plain by done.
  rewrite (bool_decide_false (slashed parts = "*")) by (by destruct parts).
  rewrite (bool_decide_true (slashed parts = slashed parts)) by done. simpl negb. cbv iota.
  set (path := (pathUnescape <$> parts : list string)) in *.
  pose proof (match_entry "todo" (r_Method r) path es) as Hmatch.
  specialize (Hmatch ltac:(done) Hne (routes_unambiguous _) (entries_have_methods _)).
  pose proof (related_entry (serves_as us ds spec) (r_Method r) path _ _ Hrel) as Hr1.
  pose proof (related_entry (serves_as us ds spec) "GET" path _ _ Hrel) as Hr2.
  rewrite knows_entry by (done || apply entries_have_methods).
  rewrite (related_knows (serves_as us ds spec) _ _ _ Hrel). unfold api_lookup.
  destruct (match_route _ _ _ _) as [[[p f] vs]|]; simpl in Hmatch.
  - destruct (entry_of (r_Method r) _ es) as [[f' ms']|].
    + destruct (entry_of (r_Method r) _ api) as [[b ms]|]; [|done]. destruct Hr1 as [Hr1 ->].
      injection Hmatch as -> ->. apply Hr1.
    + destruct (entry_of (r_Method r) _ api); [done|]. destruct (bool_decide (_ = "HEAD")); [|done].
      destruct (entry_of "GET" _ es) as [[f' ms']|]; [|done].
      destruct (entry_of "GET" _ api) as [[b ms]|]; [|done]. destruct Hr2 as [Hr2 ->].
      injection Hmatch as -> ->. apply Hr2.
  - destruct (entry_of (r_Method r) _ es) as [[f' ms']|]; [done|].
    destruct (entry_of (r_Method r) _ api); [done|].
    destruct (bool_decide (_ = "HEAD")); [|done].
    destruct (entry_of "GET" _ es); [done|]. by destruct (entry_of "GET" _ api).
Qed.

(** ** What the deployed program lets through *)

(** one answer with an error or a redirect, and nobody was asked anything but
    the time *)
Definition refused (h h' : Http W) : Prop :=
  (h_world h' = h_world h ∨ ∃ t, Now Empty_set (h_world h) = (Ret t, h_world h')) ∧
  w_superfluous (h_response h') = [] ∧
  ∃ code t, w_sent (h_response h') = Some (code, t) ∧ (300 ≤ code < 600)%Z.

Lemma refused_text {E} text code (h : Http W) :
  h_response h = no_response → (300 ≤ code < 600)%Z →
  refused h (http_Error (E:=E) text code h).2.
Proof.
  intros Hh Hc. unfold http_Error, on_response, write_json, write_header. simpl. rewrite Hh. simpl.
  destruct (body_allowed code); (split; [by left|]); split; eauto.
Qed.
Lemma refused_redirect {E} path (h : Http W) :
  h_response h = no_response → refused h (Redirect (E:=E) path 301 h).2.
Proof. intros Hh. unfold Redirect, on_response. simpl. rewrite Hh. split; [by left|]. split; [done|]. eexists _, _. by split. Qed.
Lemma refused_star {E} (h : Http W) :
  h_response h = no_response → refused h (WriteHeader (E:=E) 400 h).2.
Proof. intros Hh. unfold WriteHeader, on_response. simpl. rewrite Hh. split; [by left|]. split; [done|]. eexists _, _. by split. Qed.

Lemma serve_snd (m : handler W) h : (serve m h).2 = (m h).2.
Proof. unfold serve. by destruct (m h) as [[| []|] ?]. Qed.

(** the operations are behind the authentication *)
Lemma dispatch_refused `{!JwtLaws} `{!OpenApiLaws W} us ds spec b r (h : Http W) :
  (∀ E w, ∃ t w', Now E w = (Ret t, w')) → r_Path r ≠ "/auth/login" → h_response h = no_response →
  refused h (dispatch us ds spec b r h).2.
Proof.
  intros Hnow Hpath Hh. unfold dispatch. destruct (b r) as [e|op]; [by apply refused_text|].
  destruct (validator_verdict spec (Gateway.AuthMiddleware (run_operation op)) r h)
    as [->|(text & code & Hcode & ->)]; [|apply refused_text; [done|lia]].
  rewrite serve_snd.
  pose proof (token_refused (run_operation op) r h Hnow Hpath Hh) as Ht. unfold wp in Ht.
  destruct (Gateway.AuthMiddleware _ r h) as [o h']. destruct Ht as (_ & _ & Hw & code & msg & Hr & Hc).
  split; [done|]. destruct Hr as (Hsup & _ & Hsent). split; [done|].
  destruct Hsent as [(p & _ & Hsent)|(_ & -> & Hsent)]; eexists _, _; (split; [done|lia]).
Qed.

(** C17: As it is deployed the gateway is closed: a request for another host
    than the one its base URL names by mistake is answered with 404 or a
    redirect, or with 400 when its target is [*], and asks no service (nothing is
    claimed of CONNECT requests here); and no request for a path other than
    that of the login asks a service. *)
Theorem deployed_gateway_is_closed `{!JwtLaws} `{!OpenApiLaws W} addr mux r (h : Http W) :
  (∀ E w, ∃ t w', Now E w = (Ret t, w')) → main = inr (addr, mux) → h_response h = no_response →
  (r_Path r ≠ "/auth/login" → refused h (ServeHTTP mux r h).2) ∧
  (r_Method r ≠ "CONNECT" → stripHostPort (r_Host r) ≠ "todo" →
   h_world (ServeHTTP mux r h).2 = h_world h ∧
   ∃ code t, w_sent (h_response (ServeHTTP mux r h).2) = Some (code, t) ∧ code ∈ [301; 400; 404]%Z).
Proof.
  intros Hnow (us & ds & spec & ->)%main_inv Hh. split.
  - intros Hpath. unfold ServeHTTP.
    destruct (bool_decide (r_EscapedPath r = "*")); [by apply refused_star|].
    destruct (negb _); [by apply refused_redirect|].
    destruct (match_route _ _ _ _) as [[[p f] vs]|] eqn:Hm;
      [|by destruct (matchingMethods _ _ _); apply refused_text].
    apply match_route_in in Hm as [Hin _]. apply list_elem_of_fmap in Hin as (e & [= -> ->] & He).
    pose proof (entries_dispatch us ds spec) as Hrel.
    apply list_elem_of_lookup in He as [i Hi].
    destruct (Forall2_lookup_l _ _ _ _ _ Hrel Hi) as (a & _ & _ & Ha).
    set (r' := with_matches _ r). rewrite <- serve_snd, Ha, serve_snd. by apply dispatch_refused.
  - intros Hm Hhost. unfold ServeHTTP. rewrite (bool_decide_false _ Hm).
    destruct (bool_decide (r_EscapedPath r = "*"));
      [split; [done|]; eexists _, _; simpl; rewrite Hh; split; [done|set_solver]|].
    destruct (negb _); [split; [done|]; eexists _, _; simpl; rewrite Hh; split; [done|set_solver]|].
    destruct (match_route _ _ _ _) as [[x vs]|] eqn:Hx.
    { apply match_route_in in Hx as [Hin Hx]. apply list_elem_of_fmap in Hin as (e & -> & _).
      by destruct Hx as [Hx|Hx]; simpl in Hx; [rewrite Hx in Hhost|]. }
    assert (matchingMethods (stripHostPort (r_Host r)) (segments (cleanPath (r_EscapedPath r)))
      (routes_of "todo" (entries (main_wrapper us ds spec))) = false) as ->.
    { unfold matchingMethods. rewrite !on_other_host by done. simpl. by rewrite andb_false_r. }
    split; [done|]. eexists _, _. simpl. rewrite Hh. split; [done|set_solver].
Qed.

End program.

Lemma lookup_permissions `{RuntimeBinding} d :
  d ≠ "/" →
  api_lookup "GET" ["document"; d; "permission"] = Some (list_permissions, [("documentId", d)]).
Proof. intros Hd. unfold api_lookup, entry_of, api. simpl. by rewrite (bool_decide_false _ Hd). Qed.

(** * Instances of the theorems *)
Module RouterInstances.
Import Examples Plan GatewayPlan.
#[local] Existing Instance direct_stub.
#[local] Existing Instance main_key | 0.

(** the first value of a name *)
Definition query_value (name : string) (q : Values) : option string :=
  kv ← find (λ kv, bool_decide (kv.1 = name)) q; head kv.2.

#[local] Instance binding : RuntimeBinding := {|
  BindStyledParameter_uuid _ v := uuid_Parse v;
  BindQueryParameter_string name q := inr (query_value name q);
  BindQueryParameter_int name q := inr (query_value name q ≫= Atoi);
  BindQueryParameter_strings name q := inr ((λ v, [v]) <$> query_value name q);
|}.

(** a validator that has nothing to object to but HEAD *)
#[local] Instance openapi : OpenApi DocWorld := {|
  openapi3_T := list Byte.byte;
  openapi3_LoadFromData _ data := inr data;
  OapiRequestValidator _ next r :=
    if bool_decide (r_Method r = "HEAD") then http_Error "method not allowed" 405 else serve (next r);
  swaggerSpec := ["e3"; "0="];
  base64_StdEncoding_DecodeString s := inr (String.list_byte_of_string s);
  gzip_NewReader b := inr (inr b);
|}.
#[local] Instance openapi_laws : OpenApiLaws DocWorld.
Proof.
  split. intros spec next r h. simpl. case_bool_decide; [right|by left].
  eexists _, _. split; [|done]. lia.
Qed.

#[local] Instance nothing_set : Environment := λ _, EmptyString.
#[local] Instance dial : Dial DocWorld := {|
  ClientConn := unit;
  grpc_NewClient _ := inr ();
  user_stub _ := users;
  document_stub _ := direct_stub;
|}.

Definition a_spec : openapi3_T (W:=DocWorld) := String.list_byte_of_string "e30=".

Definition get_plan : Request :=
  let path := "/document/" +:+ uuid_String plan +:+ "/permission" in
  mkRequest "GET" "todo:8000" path path [] [] EmptyString None.

Lemma gateway_serves_the_api_witness :
  ∃ addr mux, main = inr (addr, mux) ∧
    serve (ServeHTTP mux get_plan) (http EmptyString) = serve
      (dispatch users direct_stub a_spec list_permissions
         (with_matches [("documentId", uuid_String plan)] get_plan)) (http EmptyString).
Proof.
  assert (pathUnescape <$> ["document"; uuid_String plan; "permission"] =
    ["document"; uuid_String plan; "permission"]) as Hpath by (vm_compute; reflexivity).
  pose proof (gateway_serves_the_api users direct_stub a_spec get_plan
    ["document"; uuid_String plan; "permission"] (http EmptyString) eq_refl eq_refl eq_refl eq_refl
    ltac:(discriminate) ltac:(discriminate) ltac:(vm_compute; reflexivity)
    ltac:(vm_compute; reflexivity)) as Hserved.
  change (r_Method get_plan) with "GET" in Hserved.
  rewrite Hpath, lookup_permissions in Hserved by discriminate. exact Hserved.
Defined.

Definition elsewhere : Request :=
  mkRequest "POST" "localhost:8000" "/user" "/user" [] [] EmptyString None.

Lemma deployed_gateway_is_closed_witness :
  ∃ mux, main = inr ("0.0.0.0:8000", mux) ∧
  (r_Path elsewhere ≠ "/auth/login" → refused (http "{}") (ServeHTTP mux elsewhere (http "{}")).2) ∧
  (r_Method elsewhere ≠ "CONNECT" → stripHostPort (r_Host elsewhere) ≠ "todo" →
   h_world (ServeHTTP mux elsewhere (http "{}")).2 = h_world (http "{}") ∧
   ∃ code t, w_sent (h_response (ServeHTTP mux elsewhere (http "{}")).2) = Some (code, t) ∧
             code ∈ [301; 400; 404]%Z).
Proof.
  eexists. split; [apply (main_runs users direct_stub a_spec); reflexivity|].
  apply (deployed_gateway_is_closed "0.0.0.0:8000" _ elsewhere (http "{}"));
    [|apply main_runs; reflexivity|reflexivity].
  intros E w. eexists _, _. reflexivity.
Defined.

End RouterInstances.
