(* ===== verification/UserWireTheorems.v ===== *)
(** The theorem on the generated code and the interceptors of the user service. *)

From S2P Require Import Prelude GoLib Pgx Grpc DocDomain UserDomain UserSql UserRepository.
From S2P Require Import UserSpec UserServer UserRpc UserWire Examples GatewayExamples.
Import UserRpc Wire.

Section wire.
Context `{UuidLib} {wire : UserWire} `{!UserWireLaws}.
Context {W : Type} {srv : user_pb.UserServiceServer W} `{!GrpcChain W} `{!GrpcChainLaws W}.

Definition full_method (r : rpc) : string :=
  match r with
  | RGetUser _ => "/api.UserService/GetUser"
  | RCreateUser _ => "/api.UserService/CreateUser"
  | RDeactivateUser _ => "/api.UserService/DeactivateUser"
  | RChangeUserPassword _ => "/api.UserService/ChangeUserPassword"
  | RValidatePassword _ => "/api.UserService/ValidatePassword"
  end.

(** the header that tells a client the trace of its call *)
Definition trace_header (ctx : Context) : string * string :=
  (traceIdKey, match SpanContext_TraceID ctx with Some i => uuid_String i | None => traceIdUnknown end).

(** C24: Calling the user service over the wire is calling it: the generated
    client reaches, by the name of the method, the handler of the service for
    every request, through both interceptors, and gets its answer or its
    status; besides, the reply carries the id of the trace once and the call is
    logged once. Decoding is assumed to invert encoding for every message of the
    model. *)
Theorem user_wire_is_transparent text text' ctx r (c : ServerCall W) :
  serve (H := NewUserServiceClient (connection (UserService_ServiceDesc text) ctx
                (Some server_interceptors)) text') r c =
  match serve (H := srv) r (call_world c) with
  | (o, w') => (o, mkServerCall w' (call_headers c ++ [trace_header ctx])
                     (call_log c ++ ["received a call to method " +:+ full_method r]))
  end.
Proof.
  unfold trace_header, server_interceptors. destruct r as [q|q|q|q|q]; cbn [serve].
  all: unfold NewUserServiceClient, invoke, connection, UserService_ServiceDesc, mbind, go_bind; simpl.
  all: unfold UserService_GetUser_Handler, UserService_CreateUser_Handler, UserService_DeactivateUser_Handler,
    UserService_ChangeUserPassword_Handler, UserService_ValidatePassword_Handler, dec, mbind, go_bind.
  all: rewrite unmarshal_marshal; simpl; rewrite Chain_two.
  all: unfold TraceIdInterceptor, LoggingInterceptor, on_server, mbind, go_bind;
    destruct (SpanContext_TraceID ctx); simpl.
  all: match goal with |- context [?f (call_world ?x)] => destruct (f (call_world x)) as [[]] end; simpl;
    rewrite ?unmarshal_marshal; done.
Qed.
End wire.

(** * An instance of the theorem *)
Module WireInstances.
Import Examples GatewayPlan.

(** a wire format of any countable type *)
#[local] Instance proto_countable {T} `{Countable T} : Proto T := {|
  proto_marshal x := pos_bytes (countable.encode x);
  proto_unmarshal b := bytes_pos b ≫= countable.decode;
|}.
#[local] Instance proto_countable_laws {T} `{Countable T} : ProtoLaws T.
Proof. split. intros x. simpl. rewrite bytes_pos_bytes. apply countable.decode_encode. Qed.

Ltac by_fields f g := refine (inj_countable' f g _); by intros [].

#[local] Instance get_user_dec : EqDecision user_pb.GetUserRequest. Proof. solve_decision. Defined.
#[local] Instance get_user_countable : Countable user_pb.GetUserRequest.
Proof. by_fields user_pb.GetUser_UserId user_pb.mkGetUserRequest. Defined.
#[local] Instance create_dec : EqDecision user_pb.CreateUserRequest. Proof. solve_decision. Defined.
#[local] Instance create_countable : Countable user_pb.CreateUserRequest.
Proof.
  by_fields (λ r, (user_pb.CreateUser_UserName r, user_pb.CreateUser_UserEmail r,
                   user_pb.CreateUser_Password r, user_pb.CreateUser_MaxDocuments r))
    (λ x, match x with (n, e, p, m) => user_pb.mkCreateUserRequest n e p m end).
Defined.
#[local] Instance deactivate_dec : EqDecision user_pb.DeactivateUserRequest. Proof. solve_decision. Defined.
#[local] Instance deactivate_countable : Countable user_pb.DeactivateUserRequest.
Proof. by_fields user_pb.DeactivateUser_UserId user_pb.mkDeactivateUserRequest. Defined.
#[local] Instance change_dec : EqDecision user_pb.ChangeUserPasswordRequest. Proof. solve_decision. Defined.
#[local] Instance change_countable : Countable user_pb.ChangeUserPasswordRequest.
Proof.
  by_fields (λ r, (user_pb.ChangePassword_UserId r, user_pb.ChangePassword_OldPassword r,
                   user_pb.ChangePassword_NewPassword r))
    (λ x, match x with (i, o, n) => user_pb.mkChangeUserPasswordRequest i o n end).
Defined.
#[local] Instance validate_dec : EqDecision user_pb.ValidatePasswordRequest. Proof. solve_decision. Defined.
#[local] Instance validate_countable : Countable user_pb.ValidatePasswordRequest.
Proof.
  by_fields (λ r, (user_pb.ValidatePassword_UserName r, user_pb.ValidatePassword_UserPassword r))
    (λ x, user_pb.mkValidatePasswordRequest x.1 x.2).
Defined.
#[local] Instance user_dec : EqDecision user_pb.User. Proof. solve_decision. Defined.
#[local] Instance user_countable : Countable user_pb.User.
Proof.
  by_fields (λ u, (user_pb.User_UserId u, user_pb.User_UserName u, user_pb.User_Email u,
                   user_pb.User_MaxDocuments u))
    (λ x, match x with (i, n, e, m) => user_pb.mkUser i n e m end).
Defined.
#[local] Instance user_reply_dec : EqDecision user_pb.UserReply. Proof. solve_decision. Defined.
#[local] Instance user_reply_countable : Countable user_pb.UserReply.
Proof. by_fields user_pb.UserReply_User user_pb.mkUserReply. Defined.
#[local] Instance create_reply_dec : EqDecision user_pb.CreateUserReply. Proof. solve_decision. Defined.
#[local] Instance create_reply_countable : Countable user_pb.CreateUserReply.
Proof. by_fields user_pb.CreateUserReply_UserId user_pb.mkCreateUserReply. Defined.
#[local] Instance validate_reply_dec : EqDecision user_pb.ValidatePasswordReply. Proof. solve_decision. Defined.
#[local] Instance validate_reply_countable : Countable user_pb.ValidatePasswordReply.
Proof.
  by_fields (λ r, (user_pb.ValidatePasswordReply_UserId r, user_pb.ValidatePasswordReply_IsValid r))
    (λ x, user_pb.mkValidatePasswordReply x.1 x.2).
Defined.

#[local] Instance wire : UserWire := {}.
#[local] Instance wire_laws : UserWireLaws := {}.

(** a chain of interceptors *)
#[local] Instance chain {W} : GrpcChain W := λ l ctx req m handler,
  foldr (λ (i : UnaryServerInterceptor) (next : UnaryHandler) ctx req, i ctx req m next) handler l ctx req.
#[local] Instance chain_laws {W} : GrpcChainLaws W.
Proof. by split. Qed.

(** a server that counts the users it is asked to deactivate *)
#[local] Instance counting : user_pb.UserServiceServer nat := {|
  user_pb.rpc_GetUser _ := throw (mkStatus NotFound_ "no user");
  user_pb.rpc_CreateUser _ := throw (mkStatus AlreadyExists "a user");
  user_pb.rpc_DeactivateUser _ n := (Ret (), S n);
  user_pb.rpc_ChangeUserPassword := user_pb.Unimplemented.ChangeUserPassword;
  user_pb.rpc_ValidatePassword _ := throw (mkStatus NotFound_ "no user");
|}.

Lemma user_wire_is_transparent_witness :
  serve (H := NewUserServiceClient (connection (UserService_ServiceDesc "broken") (mkContext None)
                (Some server_interceptors)) "broken")
    (RDeactivateUser (user_pb.mkDeactivateUserRequest "alice")) (mkServerCall 3 [] []) =
  (Ret PEmpty, mkServerCall 4 [("x-reed-request-id", "unknown")]
                 ["received a call to method /api.UserService/DeactivateUser"]).
Proof.
  exact (user_wire_is_transparent "broken" "broken" (mkContext None)
    (RDeactivateUser (user_pb.mkDeactivateUserRequest "alice")) (mkServerCall 3 [] [])).
Defined.

End WireInstances.
