(* ===== verification/SystemReplies.v ===== *)
(** The API gateway over the document service: what it makes of the replies of
    the service. *)

From S2P Require Import Prelude GoLib Grpc DocPb DocDomain DocService DocServer.
From S2P Require Import Paging DocSpec DocContract DocRpc DocListing.
From S2P Require Import UserServer DocClient Http Gateway GatewayRules.
Import Spec Contract Rpc Gateway Rules.

(** proto.Marshal fails on a text that is not UTF-8; the text of a UUID is
    ASCII *)
Class CursorCodecTotal `{CursorCodec} `{UuidLib} : Prop := {
  Marshal_uuid f t id :
    ∃ b, proto_Marshal (Some (pb.mkCursor f t (Some (uuid_String id)))) = inr b;
}.

Module Replies.

(** ** Translations *)
Definition level_name (l : level) : net.PermissionLevel :=
  match l with LViewer => net.Viewer | LEditor => net.Editor | LOwner => net.Owner end.

(** the JSON value of a document and of a permission: times in seconds *)
Definition shown_document (d : Document) : net.Document :=
  net.mkDocument (Document_CreatedAt d / 10 ^ 9) (Document_Description d) (Document_ID d)
    (Document_Name d) (Document_LastModifiedAt d / 10 ^ 9).
Definition shown_level (l : PermissionLevel) : net.PermissionLevel :=
  if (l =? Owner)%Z then net.Owner else if (l =? Editor)%Z then net.Editor else net.Viewer.
Definition shown_type (t : RecipientType) : net.PrincipalType :=
  if (t =? Guest)%Z then net.PrincipalTypeGuest else net.PrincipalTypeUser.
Definition shown_permission (p : Permission) : net.Permission :=
  net.mkPermission (Permission_CreatedAt p / 10 ^ 9) (Permission_CreatedBy p)
    (Permission_DocumentID p) (Permission_LastModifiedAt p / 10 ^ 9)
    (shown_level (Permission_PermissionLevel p))
    (net.mkPrincipal (Permission_RecipientID p) (shown_type (Permission_RecipientType p))).

(** a document of the abstract state *)
Definition net_document (id : uuid) (a : doc) : net.Document := shown_document (document_view id a).

Section translations.
Context `{UuidLaws} `{ErrorText} `{TimestampLaws} `{CursorCodec} `{!CursorCodecTotal}.

Lemma document_translates {W} d (w : W) :
  protoToNetDocument (Some (DocumentServer.serviceToPbDocument d)) w = (Ret (shown_document d), w).
Proof.
  unfold protoToNetDocument, mbind, go_bind, map_err. simpl. rewrite uuid_Parse_String. simpl.
  by rewrite !Seconds_New.
Qed.

Lemma level_translates l pl :
  DocumentServer.serviceToPbPermissionLevel l = inr pl →
  protoToNetPermissionLevel pl = inr (shown_level l).
Proof.
  unfold DocumentServer.serviceToPbPermissionLevel.
  destruct (Z.eqb_spec l Viewer) as [->|]; [by intros [= <-]|].
  destruct (Z.eqb_spec l Editor) as [->|]; [by intros [= <-]|].
  destruct (Z.eqb_spec l Owner) as [->|]; [by intros [= <-]|done].
Qed.

Lemma type_translates t pt :
  DocumentServer.serviceToPbRecipientType t = inr pt →
  protoToNetPrincipalType pt = inr (shown_type t).
Proof.
  unfold DocumentServer.serviceToPbRecipientType.
  destruct (Z.eqb_spec t Guest) as [->|]; [by intros [= <-]|].
  destruct (Z.eqb_spec t User) as [->|]; [by intros [= <-]|done].
Qed.

Lemma permission_translates {W} p x (w : W) :
  DocumentServer.serviceToPbPermission p = inr x →
  protoToNetPermission (Some x) w = (Ret (shown_permission p), w).
Proof.
  unfold DocumentServer.serviceToPbPermission.
  destruct (DocumentServer.serviceToPbRecipientType _) as [|pt] eqn:Ht; [done|].
  destruct (DocumentServer.serviceToPbPermissionLevel _) as [|pl] eqn:Hl; [done|]. intros [= <-].
  unfold protoToNetPermission, protoToNetPrincipal, mbind, go_bind, map_err. simpl.
  repeat (rewrite uuid_Parse_String; simpl). rewrite (level_translates _ _ Hl). simpl.
  repeat (rewrite uuid_Parse_String; simpl). rewrite (type_translates _ _ Ht). simpl.
  by rewrite !Seconds_New.
Qed.

(** a list that was encoded element by element is translated so *)
Lemma fill_collect {E1 E2 A B C W} (f : A → E1 + B) (g : B → go W E2 C) (h : A → C) l xs (w : W) :
  (∀ a b, f a = inr b → g b w = (Ret (h a), w)) → collect f l = inr xs →
  fill g xs w = (Ret (h <$> l), w).
Proof.
  intros Hfg Hl%collect_inr. induction Hl as [|a b l xs Hab _ IH]; [done|].
  cbn [fill]. unfold mbind, go_bind. by rewrite (Hfg _ _ Hab), IH.
Qed.

Lemma documents_translate {W} l xs (w : W) :
  DocumentServer.serviceToPbDocumentPermissionList l = inr xs →
  fill (λ x, protoToNetDocument (pb.DocumentPermission_Document x)) xs w =
    (Ret (shown_document ∘ DocumentPermission_Document <$> l), w).
Proof.
  apply fill_collect. intros a b. cbv zeta.
  destruct (DocumentServer.serviceToPbPermissionLevel _); [done|]. intros [= <-].
  apply document_translates.
Qed.

Lemma permissions_translate {W} l xs (w : W) :
  DocumentServer.serviceToPbPermissionList l = inr xs →
  protoToNetPermissions xs w = (Ret (shown_permission <$> l), w).
Proof.
  apply fill_collect. intros a b Hb. unfold map_err. by rewrite (permission_translates _ _ _ Hb).
Qed.

Lemma cursor_translates c pc :
  DocumentServer.serviceToPbCursor c = inr pc → ∃ str, protoToNetCursor (Some pc) = inr str.
Proof.
  unfold DocumentServer.serviceToPbCursor, protoToNetCursor.
  destruct (DocumentServer.serviceToPbSortField _) as [|f]; [done|]. intros [= <-].
  destruct (Marshal_uuid f (Some (timestamppb_New (Cursor_LastSeenTime c))) (Cursor_LastSeenID c))
    as [b ->]. by eexists.
Qed.

(** ** What the gateway makes of a reply *)

(** every value of the reply that a handler reads is translated, without an
    error and without following a nil pointer *)
Definition translated (p : reply) : Prop :=
  match p with
  | PEmpty => True
  | PCreateDocument q => ∃ id, uuid_Parse (pb.CreateDocumentReply_DocumentId q) = inr id
  | PGetDocument q => ∃ d, ∀ W (w : W),
      protoToNetDocument (pb.GetDocumentReply_Document q) w = (Ret d, w)
  | PListDocuments q =>
      (∃ str, protoToNetCursor (pb.ListDocumentsReply_Cursor q) = inr str) ∧
      ∃ ds, ∀ W (w : W), fill (λ x, protoToNetDocument (pb.DocumentPermission_Document x))
              (pb.ListDocumentsReply_DocumentPermissions q) w = (Ret ds, w)
  | PGetPermissions q => ∃ x, ∀ W (w : W),
      protoToNetPermission (pb.GetPermissionsReply_Permission q) w = (Ret x, w)
  | PListPermissions q =>
      (∃ str, protoToNetCursor (pb.ListPermissionsReply_Cursor q) = inr str) ∧
      ∃ xs, ∀ W (w : W),
        protoToNetPermissions (pb.ListPermissionsReply_RecipientPermissions q) w = (Ret xs, w)
  | PCreateGuest q => ∃ id, uuid_Parse (pb.CreateGuestReply_GuestId q) = inr id
  end.

Lemma encode_translates c v p : encode c v = inr p → translated p.
Proof.
  destruct v as [|id|d|x|l cur|l cur]; simpl.
  - by intros [= <-].
  - destruct c; intros [= <-]; simpl; rewrite uuid_Parse_String; by eexists.
  - intros [= <-]. simpl. eexists. intros W w. apply document_translates.
  - destruct (DocumentServer.serviceToPbPermission _) as [|y] eqn:Hy; [done|]. intros [= <-]. simpl.
    eexists. intros W w. by apply permission_translates.
  - destruct (DocumentServer.serviceToPbDocumentPermissionList _) as [|xs] eqn:Hxs; [done|].
    destruct cur as [cur|]; [|done]. destruct (DocumentServer.serviceToPbCursor _) as [|y] eqn:Hy; [done|].
    intros [= <-]. simpl. split; [by eapply cursor_translates|].
    eexists. intros W w. by apply documents_translate.
  - destruct (DocumentServer.serviceToPbPermissionList _) as [|xs] eqn:Hxs; [done|].
    destruct cur as [cur|]; [|done]. destruct (DocumentServer.serviceToPbCursor _) as [|y] eqn:Hy; [done|].
    intros [= <-]. simpl. split; [by eapply cursor_translates|].
    eexists. intros W w. by apply permissions_translate.
Qed.

(** every reply of the document service is translated by the gateway *)
Lemma rpc_translates {W} `{LR : LawfulRepository W} r s (w : W) :
  repo_rel w s →
  wp (handle r) (λ o w', (∃ s', repo_rel w' s') ∧
    match o with
    | Ret p => translated p
    | Err _ => True
    | Panic _ => ¬ well_formed r
    end) w.
Proof.
  intros HR. eapply wp_mono; [by apply rpc_outcome|]. intros o w' (s' & HR' & Ho).
  split; [by exists s'|]. destruct (decode r w) as [[c|st|why] w1]; simpl in Ho.
  - destruct Ho as (resp & _ & _ & Ha). destruct resp as [v|k]; simpl in Ha.
    + destruct Ha as (p & Hp & ->). by eapply encode_translates.
    + by destruct Ha as (? & -> & _).
  - by destruct Ho as (-> & _).
  - by destruct Ho as (-> & ? & _).
Qed.

End translations.

End Replies.
