(* ===== verification/SystemSteps.v ===== *)
(** What the API gateway asks of the document service for a request, and what it
    answers: every operation on documents and permissions is refused by the
    gateway itself, or makes the step of the specification that its request
    names and shows the outcome of the step. *)

From S2P Require Import Prelude GoLib Grpc DocPb DocDomain DocService DocServer.
From S2P Require Import Paging DocSpec DocContract DocRpc DocListing.
From S2P Require Import UserServer DocClient Http Gateway GatewayRules SystemReplies.
Import Spec Contract Rpc Gateway Rules Replies.

Module Steps.

(** ** Requests

    A request is refused with a status, or becomes a request of the document
    service. *)
#[local] Instance refuse_ret : MRet (sum Z) := λ A a, inr a.
#[local] Instance refuse_bind : MBind (sum Z) := λ A B k m,
  match m with inl code => inl code | inr a => k a end.

(** [m], or the refusal with a status *)
Definition else_refuse {E A} (m : E + A) (code : Z) : Z + A :=
  match m with inl _ => inl code | inr a => inr a end.
Definition must (b : bool) (code : Z) : Z + unit := if b then inr () else inl code.

Definition on_documents (op : operation) : bool :=
  match op with
  | OLogin | OPostUser | ODeleteUser _ | OGetUser _ | OPutUser _ => false
  | _ => true
  end.

(** a listing that continues from a cursor *)
Definition has_position (op : operation) : Prop :=
  match op with
  | OListDocuments params => is_Some (net.GetParams_Cursor params)
  | OListPermissions _ params => is_Some (net.PermissionParams_Cursor params)
  | _ => True
  end.

Section asked.
Context `{UuidLib} `{ErrorText} `{GrpcText} `{CursorCodec} `{TimestampLib} `{Bodies}.

Definition the_caller (r : Request) : Z + CustomClaims := else_refuse (GetClaims r) 500.
Definition the_body (A : Type) `{JsonDecode A} (body : string) : Z + A :=
  else_refuse (json_Decode body).1 400.
Definition the_cursor (c : option string) : Z + option pb.Cursor :=
  match c with
  | None => inr None
  | Some c => c ← else_refuse (netToProtoCursor c) 400; inr (Some c)
  end.

Definition anyone (p : uuid) : option pb.ClientContext := Some (pb.mkClientContext (uuid_String p) None).
Definition a_user (p : uuid) : option pb.ClientContext :=
  Some (pb.mkClientContext (uuid_String p) (Some pb.USER)).

(** The order of the tests decides which status a request gets that fails
    several of them. *)
Definition asked (op : operation) (r : Request) (body : string) : Z + rpc :=
  match op with
  | ODeleteDocuments =>
      b ← the_body net.DeleteDocumentBody body; c ← the_caller r;
      p ← else_refuse (ParsePrincipalId c) 400; _ ← must (is_user c) 403;
      inr (RDeleteDocuments
             (pb.mkDeleteDocumentsRequest (uuid_String <$> net.DeleteBody_DocumentIds b) (a_user p)))
  | OListDocuments params =>
      c ← the_caller r; p ← else_refuse (ParsePrincipalId c) 400;
      cur ← the_cursor (net.GetParams_Cursor params);
      l ← match net.GetParams_PermissionLevel params with
          | None => inr pb.PERMISSION_OWNER
          | Some l => else_refuse (netToProtoPermissionLevel l) 400
          end;
      inr (RListDocumentsByPrincipal (pb.mkListDocumentByPrincipalRequest (uuid_String p) [l] cur
             (net.GetParams_Limit params) (anyone p)))
  | OPostDocument =>
      c ← the_caller r; _ ← must (is_user c) 403; p ← else_refuse (ParsePrincipalId c) 400;
      b ← the_body net.PostDocumentBody body;
      inr (RCreateDocument (pb.mkCreateDocumentRequest (uuid_String p) (net.PostBody_DocumentName b)
             (net.PostBody_DocumentDescription b) (anyone p)))
  | ODeleteDocument d =>
      c ← the_caller r; p ← else_refuse (ParsePrincipalId c) 400; _ ← must (is_user c) 403;
      inr (RDeleteDocument (pb.mkDeleteDocumentRequest (uuid_String d) (a_user p)))
  | OGetDocument d =>
      c ← the_caller r; p ← else_refuse (ParsePrincipalId c) 400;
      (* the document the caller is, not [d] *)
      inr (RGetDocument (pb.mkGetDocumentRequest (uuid_String p) (anyone d)))
  | OPutDocument d =>
      c ← the_caller r; p ← else_refuse (ParsePrincipalId c) 400;
      b ← the_body net.PutDocumentBody body;
      inr (RUpdateDocument (pb.mkUpdateDocumentRequest (uuid_String d) (net.PutBody_DocumentName b)
             (net.PutBody_DocumentDescription b) (anyone p)))
  | OListPermissions d params =>
      c ← the_caller r; _ ← must (is_user c) 403; p ← else_refuse (ParsePrincipalId c) 400;
      ls ← match net.PermissionParams_PermissionFilter params with
           | None => inr []
           | Some ls => else_refuse (netToProtoPermissionFilter ls) 400
           end;
      cur ← the_cursor (net.PermissionParams_Cursor params);
      inr (RListPermissions (pb.mkListPermissionsOnDocumentRequest (uuid_String d) ls cur
             (net.PermissionParams_Limit params) (anyone p)))
  | OPostPermission d =>
      c ← the_caller r; p ← else_refuse (ParsePrincipalId c) 400; _ ← must (is_user c) 403;
      b ← the_body net.PostPermissionBody body;
      _ ← must (bool_decide (net.PostPermission_PermissionLevel b ≠ net.Owner)) 400;
      l ← else_refuse (netToProtoPermissionLevel (net.PostPermission_PermissionLevel b)) 400;
      inr match net.PostPermission_UserIdToShare b with
          | Some u =>
              RUpsertPermissionUser
                (pb.mkUpsertPermissionUserRequest (uuid_String u) (uuid_String d) l (a_user p))
          | None => RCreateGuest (pb.mkCreateGuestRequest (uuid_String d) l (a_user p))
          end
  | ODeletePermission d q =>
      c ← the_caller r; p ← else_refuse (ParsePrincipalId c) 400; _ ← must (is_user c) 403;
      inr (RDeletePermissions
             (pb.mkDeletePermissionsPrincipalRequest (uuid_String q) (uuid_String d) (a_user p)))
  | OGetPermission d q =>
      c ← the_caller r; p ← else_refuse (ParsePrincipalId c) 403;
      _ ← must (is_user c || bool_decide (q = p)) 403;
      inr (RGetPermissions (pb.mkGetPermissionsRequest (uuid_String d) (uuid_String q) (anyone p)))
  | OPutPermission d q =>
      c ← the_caller r; p ← else_refuse (ParsePrincipalId c) 400; _ ← must (is_user c) 403;
      b ← the_body net.PutPermissionBody body;
      l ← else_refuse (netToProtoPermissionLevel (net.PutPermission_PermissionLevel b)) 400;
      inr (if bool_decide (net.PutPermission_PrincipalType b = net.PrincipalTypeUser)
           then RUpsertPermissionUser
                  (pb.mkUpsertPermissionUserRequest (uuid_String q) (uuid_String d) l (a_user p))
           else RUpdatePermissionGuest
                  (pb.mkUpdatePermissionGuestRequest (uuid_String q) l (a_user p)))
  | _ => inl 501%Z
  end.

(** ** Answers *)
Definition success (op : operation) : Z :=
  match op with
  | ODeleteDocuments | ODeleteDocument _ | OPutDocument _ | ODeletePermission _ _
  | OPutPermission _ _ => 204
  | _ => 200
  end.
Definition failure (k : kind) : Z :=
  match k with
  | KNotFound => 404 | KUniqueConflict => 409 | KInvalidInput => 400 | KRepoImpl | KOther => 500
  end.

(** a cursor as the string the gateway hands out *)
Definition shown_cursor (cur : option Cursor) (str : string) : Prop :=
  ∃ c pc, cur = Some c ∧ DocumentServer.serviceToPbCursor c = inr pc ∧
          protoToNetCursor (Some pc) = inr str.

(** the body of the answer to a call that ended with a value *)
Definition shown (op : operation) (c : call) (v : value) (body : list net.payload) : Prop :=
  match v with
  | VUnit =>
      body = match op, c with
             | OPostPermission _, CUpsertPermissionUser u _ _ =>
                 [net.ShareDocumentResponse None (Some u)]
             | _, _ => []
             end
  | VId id =>
      body = match op with
             | OPostPermission _ => [net.ShareDocumentResponse (Some id) None]
             | _ => [net.PostDocumentResponse id]
             end
  | VDocument d => body = [net.DocumentResponse (shown_document d)]
  | VPermission p => body = [net.PermissionResponse (shown_permission p)]
  | VDocuments l cur => ∃ str, shown_cursor cur str ∧
      body = [net.GetDocumentResponse (Some str) (shown_document ∘ DocumentPermission_Document <$> l)]
  | VPermissions l cur => ∃ str, shown_cursor cur str ∧
      body = [net.ListPermissionsOnDocumentResponse (Some str) (shown_permission <$> l)]
  end.
End asked.

(** ** What a handler does *)
Section steps.
Context `{UuidLaws} `{ErrorText} `{TimestampLaws} `{GrpcText} `{CursorCodec} `{!CursorCodecTotal}.
Context {W : Type} `{LR : LawfulRepository W} {users : user_pb.UserServiceServer W}.
Context `{Jwt} {jwtSecretKey : GatewayConfig} `{Bodies}.
#[local] Existing Instance direct_stub.

Definition refused_with (code : Z) (o : outcome returned unit) (w : Response) : Prop :=
  o = Err Returned ∧ ∃ msg, replied code [net.Error msg] w.
Definition answered_with (code : Z) (body : list net.payload) (o : outcome returned unit) (w : Response)
    : Prop :=
  o = Ret () ∧ replied code body w.

(** the answer to a call of the service, which is a step of the specification *)
Definition call_step (op : operation) (s : state) (w : W) (c : call) (o : outcome returned unit)
    (h' : Http W) (s' : state) : Prop :=
  ∃ resp, service_step (step (repo_drawn w c)) s c resp s' ∧
    (repo_healthy w → repo_healthy (h_world h') ∧ service_step (ok_step (repo_drawn w c)) s c resp s') ∧
    match resp with
    | Done v => ∃ body, shown op c v body ∧ answered_with (success op) body o (h_response h')
    | Failed k => refused_with (failure k) o (h_response h')
    end.

(** what becomes of a request of the document service, from the world [w] in
    the state [s] *)
Definition rpc_step (op : operation) (s : state) (w : W) (rq : rpc) (o : outcome returned unit)
    (h' : Http W) : Prop :=
  ∃ s', repo_rel (h_world h') s' ∧
    match (decode rq w).1 with
    | Ret c => call_step op s w c o h' s'
    | Err _ => s' = s ∧ refused_with 400 o (h_response h')
    | Panic why => o = Panic why ∧ s' = s ∧ h_response h' = no_response ∧ ¬ well_formed rq
    end.

(** what becomes of a request, by what is asked *)
Definition ends (op : operation) (s : state) (w : W) (x : Z + rpc) (o : outcome returned unit)
    (h' : Http W) : Prop :=
  match x with
  | inl code => h_world h' = w ∧ refused_with code o (h_response h')
  | inr rq => rpc_step op s w rq o h'
  end.

Lemma failure_status k msg : GrpcToHttpStatus (RpcError (mkStatus (code_of k) msg)) = failure k.
Proof. by destruct k. Qed.

(** the call of the service in a handler, where [g] is what the client does
    with the reply and [k] the rest of the handler *)
Lemma wp_rpc {A B} op rq (m : go W Status A) (f : A → reply) (cl : go W client_error B)
    (g : A → go W client_error B) (k : B → handler W) s w0 (h : Http W) :
  handle rq = (a ← m; mret (f a)) →
  (∀ w, cl w = ((m or_return RpcError) ≫= g) w) →
  h_world h = w0 → repo_rel w0 s → h_response h = no_response →
  (∀ c a v w', (decode rq w0).1 = Ret c → encode c v = inr (f a) →
     wp ((on_world (g a) or_send proxy) ≫= k) (λ o h', h_world h' = w' ∧
          ∃ body, shown op c v body ∧ answered_with (success op) body o (h_response h'))
       (mkHttp w' (h_body h) no_response)) →
  wp ((on_world cl or_send proxy) ≫= k) (rpc_step op s w0 rq) h.
Proof.
  intros Hm Hcl <- HR Hh Hk. pose proof (rpc_outcome rq s (h_world h) HR) as Hr. rewrite Hm in Hr.
  assert (Hrun : ((on_world cl or_send proxy) ≫= k) h =
    match m (h_world h) with
    | (Ret a, w') => ((on_world (g a) or_send proxy) ≫= k) (mkHttp w' (h_body h) no_response)
    | (Err e, w') => (_ ← SendError (GrpcToHttpStatus (RpcError e)) (client_error_Error (RpcError e));
                      throw Returned) (mkHttp w' (h_body h) no_response)
    | (Panic p, w') => (Panic p, mkHttp w' (h_body h) no_response)
    end).
  { unfold mbind, go_bind, answer_error, on_world. rewrite Hcl. unfold mbind, go_bind, map_err.
    rewrite Hh. by destruct (m (h_world h)) as [[] ?]. }
  unfold wp in *. rewrite Hrun. clear Hrun Hcl. unfold mbind at 1, go_bind at 1 in Hr.
  destruct (m (h_world h)) as [[a|[code msg]|p] w1]; simpl in Hr; destruct Hr as (s' & HR' & Hr).
  - destruct (decode rq (h_world h)) as [[c|st|why] w2] eqn:Hdec; simpl in Hr; [|by destruct Hr..].
    destruct Hr as (resp & Hs & Hok & Ha). destruct resp as [v|kd]; simpl in Ha.
    + destruct Ha as (p & Hp & [= <-]). specialize (Hk c a v w1 eq_refl Hp).
      destruct (((on_world (g a) or_send proxy) ≫= k) _) as [o h'].
      destruct Hk as (Hw & Hbody). exists s'. rewrite Hdec. simpl. rewrite Hw.
      split_and!; [done..|]. exists (Done v). by rewrite Hw.
    + by destruct Ha as (? & ? & _).
  - exists s'. split; [done|]. destruct (decode rq (h_world h)) as [[c|st|why] w2]; simpl in Hr |- *.
    + destruct Hr as (resp & Hs & Hok & Ha). destruct resp as [v|kd]; simpl in Ha.
      { by destruct Ha as (? & ? & ?). }
      destruct Ha as (msg' & [= -> ->] & _). exists (Failed kd). split_and!; [done..|]. split; [done|].
      eexists. rewrite <-(failure_status kd msg'). exact (send_json _ _ (GrpcToHttpStatus_allowed _)).
    + destruct Hr as ([= <-] & Hcode & ->). simpl in Hcode. subst code. split; [done|]. split; [done|].
      eexists. by apply send_json.
    + by destruct Hr.
  - exists s'. split; [done|]. destruct (decode rq (h_world h)) as [[c|st|why] w2]; simpl in Hr |- *.
    + destruct Hr as (resp & _ & _ & Ha).
      destruct resp as [v|kd]; simpl in Ha; [by destruct Ha as (? & ? & ?)|by destruct Ha as (? & ? & _)].
    + by destruct Hr.
    + destruct Hr as ([= ->] & Hwf & ->). by split_and!.
Qed.

(** *** Tests before the call *)
Lemma ends_refused op s w (h : Http W) code msg :
  body_allowed code = true → h_world h = w → h_response h = no_response →
  wp (_ ← SendError code msg; throw Returned) (ends op s w (inl code)) h.
Proof.
  intros Hc <- Hh. unfold wp, mbind, go_bind. simpl. rewrite Hh.
  split; [done|]. split; [done|]. eexists. by apply send_json.
Qed.

Lemma step_lift {E A} op s w (h : Http W) (m : E + A) f code k kx :
  body_allowed code = true → h_world h = w → h_response h = no_response → (∀ e, (f e).1 = code) →
  (∀ a, m = inr a → wp (k a) (ends op s w (kx a)) h) →
  wp ((lift m or_send f) ≫= k) (ends op s w (else_refuse m code ≫= kx)) h.
Proof.
  intros Hc Hw Hh Hf Hk. destruct m as [e|a]; [|by apply Hk].
  pose proof (ends_refused op s w h code (f e).2 Hc Hw Hh) as Hr. rewrite <-(Hf e) in Hr at 1. exact Hr.
Qed.

Lemma step_return op s w (h : Http W) b b' code msg k kx :
  b' = negb b → body_allowed code = true → h_world h = w → h_response h = no_response →
  (b = false → wp (k ()) (ends op s w (kx ())) h) →
  wp ((return_send b code msg) ≫= k) (ends op s w (must b' code ≫= kx)) h.
Proof. intros -> Hc Hw Hh Hk. destruct b; [by apply ends_refused|by apply Hk]. Qed.

Lemma step_Decode {A} `{JsonDecode A} op s w (h : Http W) f k kx :
  h_world h = w → h_response h = no_response → (∀ e, (f e).1 = 400%Z) →
  (∀ v rest, wp (k v) (ends op s w (kx v)) (mkHttp w rest no_response)) →
  wp ((Decode A or_send f) ≫= k) (ends op s w (the_body A (h_body h) ≫= kx)) h.
Proof.
  intros <- Hh Hf Hk. unfold the_body, wp, mbind, go_bind, answer_error, Decode.
  destruct (json_Decode (h_body h)) as [[e|v] rest]; simpl; rewrite Hh.
  - rewrite Hf. split; [done|]. split; [done|]. eexists. by apply send_json.
  - apply Hk.
Qed.

Lemma step_cursor op s w (h : Http W) (c : option string) f k kx :
  h_world h = w → h_response h = no_response → (∀ e, (f e).1 = 400%Z) →
  (∀ cur, (is_Some c → is_Some cur) → wp (k cur) (ends op s w (kx cur)) h) →
  wp ((match c with
       | None => mret None
       | Some c => c ← lift (netToProtoCursor c) or_send f; mret (Some c)
       end) ≫= k) (ends op s w (the_cursor c ≫= kx)) h.
Proof.
  intros Hw Hh Hf Hk. destruct c as [c|]; [|apply (Hk None); by intros []].
  unfold the_cursor. destruct (netToProtoCursor c) as [e|cur].
  - pose proof (ends_refused op s w h 400 (f e).2 eq_refl Hw Hh) as Hr. rewrite <-(Hf e) in Hr at 1. exact Hr.
  - apply (Hk (Some cur)). by eexists.
Qed.

Lemma step_option {A B E} op s w (h : Http W) (x : option A) (d : B) (p : A → E + B) f k kx :
  h_world h = w → h_response h = no_response → (∀ e, (f e).1 = 400%Z) →
  (∀ b, wp (k b) (ends op s w (kx b)) h) →
  wp ((match x with None => mret d | Some a => lift (p a) or_send f end) ≫= k)
    (ends op s w
       ((match x with None => inr d | Some a => else_refuse (p a) 400 end) ≫= kx)) h.
Proof. intros Hw Hh Hf Hk. destruct x; [by apply step_lift|by apply Hk]. Qed.

(** *** The call *)
Lemma encode_unit c v : encode c v = inr PEmpty → v = VUnit.
Proof. intros Hv. destruct v; simpl in Hv; repeat case_match; by simplify_eq. Qed.

Ltac encoded :=
  match goal with |- encode ?c ?v = _ → _ =>
    destruct v; simpl; repeat case_match; intros ?; simplify_eq; eauto 10 end.

Lemma encode_document c v q :
  encode c v = inr (PGetDocument q) →
  ∃ d, v = VDocument d ∧ pb.GetDocumentReply_Document q = Some (DocumentServer.serviceToPbDocument d).
Proof. encoded. Qed.
Lemma encode_created c v q :
  encode c v = inr (PCreateDocument q) →
  ∃ id, v = VId id ∧ pb.CreateDocumentReply_DocumentId q = uuid_String id.
Proof. encoded. Qed.
Lemma encode_guest c v q :
  encode c v = inr (PCreateGuest q) →
  ∃ id, v = VId id ∧ pb.CreateGuestReply_GuestId q = uuid_String id.
Proof. encoded. Qed.
Lemma encode_permission c v q :
  encode c v = inr (PGetPermissions q) →
  ∃ p x, v = VPermission p ∧ DocumentServer.serviceToPbPermission p = inr x ∧
         pb.GetPermissionsReply_Permission q = Some x.
Proof. encoded. Qed.
Lemma encode_documents c v q :
  encode c v = inr (PListDocuments q) →
  ∃ l cur y, v = VDocuments l (Some cur) ∧
    DocumentServer.serviceToPbDocumentPermissionList l =
      inr (pb.ListDocumentsReply_DocumentPermissions q) ∧
    DocumentServer.serviceToPbCursor cur = inr y ∧ pb.ListDocumentsReply_Cursor q = Some y.
Proof. encoded. Qed.
Lemma encode_permissions c v q :
  encode c v = inr (PListPermissions q) →
  ∃ l cur y, v = VPermissions l (Some cur) ∧
    DocumentServer.serviceToPbPermissionList l =
      inr (pb.ListPermissionsReply_RecipientPermissions q) ∧
    DocumentServer.serviceToPbCursor cur = inr y ∧ pb.ListPermissionsReply_Cursor q = Some y.
Proof. encoded. Qed.

Lemma bind_mret {A} (m : go W client_error A) w : m w = (m ≫= mret) w.
Proof. unfold mbind, go_bind. by destruct (m w) as [[] ?]. Qed.

(** a call without a result, answered with 204 or with the user a document is
    shared with *)
Lemma step_unit op rq (m : go W Status ()) body (k : handler W) s w (h : Http W) :
  handle rq = (a ← m; mret PEmpty) → h_world h = w → repo_rel w s → h_response h = no_response →
  (∀ c, (decode rq w).1 = Ret c → shown op c VUnit body) →
  (∀ w', wp k (λ o h', h_world h' = w' ∧ answered_with (success op) body o (h_response h'))
           (mkHttp w' (h_body h) no_response)) →
  wp (_ ← on_world (m or_return RpcError) or_send proxy; k) (ends op s w (inr rq)) h.
Proof.
  intros Hm <- HR Hh Hs Hk. eapply (wp_rpc op rq m (λ _, PEmpty) _ mret); [done|apply bind_mret|done..|].
  intros c [] v w' Hdec ->%encode_unit. specialize (Hs c Hdec). eapply wp_mono; [apply (Hk w')|].
  intros o h' [Hw Hrep]. split; [done|]. by exists body.
Qed.

Lemma sends_204 w' b :
  wp (WriteHeader 204 : handler W) (λ o h', h_world h' = w' ∧ answered_with 204 [] o (h_response h'))
    (mkHttp w' b no_response).
Proof. split; [done|]. split; [done|]. simpl. split_and!; auto. Qed.

Lemma sends_json p w' b :
  wp (SendJsonResponse 200 p : handler W) (λ o h', h_world h' = w' ∧ answered_with 200 [p] o (h_response h'))
    (mkHttp w' b no_response).
Proof. split; [done|]. split; [done|]. by apply send_json. Qed.

(** an answer that is translated *)
Lemma wp_translated {E B} (m : go (Http W) E B) f (k : B → handler W) b Q (h : Http W) :
  m h = (Ret b, h) → wp (k b) Q h → wp ((m or_send f) ≫= k) Q h.
Proof. intros Hm Hk. apply wp_bind, wp_or_send. unfold wp at 1. by rewrite Hm. Qed.

(** a call whose result is translated and sent *)
Lemma step_value {A} op rq (m : go W Status A) (f : A → reply) k s w (h : Http W) :
  handle rq = (a ← m; mret (f a)) → h_world h = w → repo_rel w s → h_response h = no_response →
  success op = 200%Z →
  (∀ c a v w' Q, (decode rq w).1 = Ret c → encode c v = inr (f a) →
     ∃ p, shown op c v [p] ∧ (wp (SendJsonResponse 200 p) Q (mkHttp w' (h_body h) no_response) →
                              wp (k a) Q (mkHttp w' (h_body h) no_response))) →
  wp ((on_world (m or_return RpcError) or_send proxy) ≫= k) (ends op s w (inr rq)) h.
Proof.
  intros Hm <- HR Hh Hop Hk. eapply (wp_rpc op rq m f _ mret); [done|apply bind_mret|done..|].
  intros c a v w' Hdec Henc. destruct (Hk c a v w' (λ o h', h_world h' = w' ∧
    ∃ body, shown op c v body ∧ answered_with (success op) body o (h_response h')) Hdec Henc) as (p & Hs & Hp).
  apply Hp. eapply wp_mono; [apply sends_json|]. intros o h' [Hw Hrep]. rewrite Hop. by eauto 10.
Qed.

Lemma guest_or_user c : is_guest c = negb (is_user c).
Proof. unfold is_guest, is_user, GetTokenType. by destruct (bool_decide (_ ≠ _)). Qed.

(** *** The operations *)

(** the principal of the request is known, for the handler that needs it *)
Definition known_to (op : operation) (r : Request) : Prop :=
  ∀ d, op = OPutDocument d → principal_known r.

Ltac refuse := first
  [ eapply step_lift; [done|done|done|done|intros ? ?]
  | eapply step_return; [by rewrite ?negb_involutive|done|done|done|intros ?]
  | eapply step_Decode; [done|done|done|intros ? ?]
  | eapply step_cursor; [done|done|done|intros ? ?]
  | eapply step_option; [done|done|done|intros ?] ].

Lemma decode_upsert u d l p (w : W) c :
  (decode (RUpsertPermissionUser (pb.mkUpsertPermissionUserRequest (uuid_String u) (uuid_String d) l p)) w).1
    = Ret c → ∃ n, c = CUpsertPermissionUser u d n.
Proof.
  simpl. unfold id_field, level_field, mbind, go_bind, map_err. simpl. rewrite !uuid_Parse_String. simpl.
  destruct (DocumentServer.pbToServicePermissionLevel _); simpl; [done|]. intros [= <-]. by eexists.
Qed.

Ltac answer_unit :=
  eapply (step_unit _ _ _ []); [done|done|done|done|done|intros; apply sends_204].

Lemma operation_contract op r s (h : Http W) :
  on_documents op = true → known_to op r → repo_rel (h_world h) s → h_response h = no_response →
  wp (run_operation op r) (ends op s (h_world h) (asked op r (h_body h))) h.
Proof.
  intros Hop Hput HR Hh. destruct op; try done; cbn [asked run_operation].
  - unfold DeleteDocument. do 4 refuse. answer_unit.
  - unfold GetDocument. do 4 refuse.
    eapply (step_value _ _ _ PListDocuments); [done..|].
    intros cl rep val w' Q _ (l & last_cursor & y & -> & Hl & Hy & Hc)%encode_documents.
    destruct (cursor_translates _ _ Hy) as [str Hstr].
    eexists. split; [exists str; by split; [exists last_cursor, y|]|]. intros HQ.
    eapply wp_translated; [by rewrite Hc, Hstr|]. by eapply wp_translated; [apply documents_translate|].
  - unfold PostDocument. do 4 refuse.
    eapply (wp_rpc _ (RCreateDocument _) _ PCreateDocument); [done|done|done|exact HR|done|].
    intros cl rep val w' _ (id & -> & Hid)%encode_created.
    rewrite Hid. unfold wp, mbind, go_bind, answer_error, on_world, map_err. rewrite uuid_Parse_String.
    split; [done|]. eexists. split; [done|]. split; [done|]. by apply send_json.
  - unfold DeleteDocumentDocumentId. do 3 refuse. answer_unit.
  - unfold GetDocumentDocumentId. do 2 refuse.
    eapply (step_value _ _ _ PGetDocument); [done..|].
    intros cl rep val w' Q _ (x & -> & Hx)%encode_document.
    eexists. split; [done|]. intros HQ. eapply wp_translated; [|exact HQ].
    rewrite Hx. apply document_translates.
  - destruct (Hput _ eq_refl) as (c & p & Hc & Hp).
    assert (the_caller r = inr c) as -> by (unfold the_caller, GetClaims; by rewrite Hc).
    cbn [mbind refuse_bind]. rewrite Hp. cbn [else_refuse mbind refuse_bind].
    unfold PutDocumentDocumentId, GetClaims. rewrite Hc. apply wp_bind, wp_ret, wp_bind, wp_ret. rewrite Hp.
    apply wp_bind, wp_ret. refuse. answer_unit.
  - unfold GetDocumentDocumentIdPermission. do 5 refuse.
    eapply (step_value _ _ _ PListPermissions); [done..|].
    intros cl rep val w' Q _ (l & last_cursor & y & -> & Hl & Hy & Hc)%encode_permissions.
    destruct (cursor_translates _ _ Hy) as [str Hstr].
    eexists. split; [exists str; by split; [exists last_cursor, y|]|]. intros HQ.
    eapply wp_translated; [by apply permissions_translate|].
    by eapply wp_translated; [rewrite Hc, Hstr|].
  - unfold PostDocumentDocumentIdPermission. do 4 refuse.
    eapply step_return; [apply bool_decide_not|done..|intros _]. refuse.
    destruct (net.PostPermission_UserIdToShare _) as [u|].
    + eapply (step_unit _ _ _ [_]); [done..| |intros; apply sends_json].
      by intros c [n ->]%decode_upsert.
    + eapply (step_value _ _ _ PCreateGuest); [done..|].
      intros cl rep val w' Q _ (g & -> & Hg)%encode_guest.
      eexists. split; [done|]. intros HQ. eapply wp_translated; [|exact HQ].
      by rewrite Hg, uuid_Parse_String.
  - unfold DeleteDocumentDocumentIdPermissionPrincipalPrincipalId. do 3 refuse. answer_unit.
  - unfold GetDocumentDocumentIdPermissionPrincipalPrincipalId. do 2 refuse.
    eapply step_return; [|done..|intros _].
    { by rewrite negb_andb, guest_or_user, negb_involutive, bool_decide_not, negb_involutive. }
    eapply (step_value _ _ _ PGetPermissions); [done..|].
    intros cl rep val w' Q _ (x & y & -> & Hx & Hy)%encode_permission.
    eexists. split; [done|]. intros HQ. eapply wp_translated; [|exact HQ].
    rewrite Hy. by apply permission_translates.
  - unfold PutDocumentDocumentIdPermissionPrincipalPrincipalId. do 2 refuse.
    eapply step_return; [by rewrite guest_or_user, negb_involutive|done..|intros _].
    do 2 refuse. destruct (bool_decide _); answer_unit.
Qed.

(** a listing without a cursor is what makes the service crash *)
Lemma asked_bind {A B} (x : Z + A) (k : A → Z + B) b :
  x ≫= k = inr b → ∃ a, x = inr a ∧ k a = inr b.
Proof. destruct x as [code|a]; [done|]. by exists a. Qed.

Lemma cursor_asked c cur : the_cursor c = inr cur → is_Some c → is_Some cur.
Proof. intros Hc [str ->]. apply asked_bind in Hc as (x & _ & [= <-]). by eexists. Qed.

Lemma asked_well_formed op r body rq : asked op r body = inr rq → has_position op → well_formed rq.
Proof.
  intros Hasked Hpos. destruct op; cbn [asked] in Hasked; try done; simpl in Hpos.
  all: repeat match goal with H : _ ≫= _ = inr _ |- _ => apply asked_bind in H as (? & ? & H); simpl in H end.
  all: simplify_eq; repeat case_match; simplify_eq; simpl; try done; try by eexists.
  all: by eapply cursor_asked.
Qed.

Lemma ends_well op s w r body o h' :
  repo_rel w s → has_position op → ends op s w (asked op r body) o h' →
  (∀ why, o ≠ Panic why) ∧ ∃ s', repo_rel (h_world h') s'.
Proof.
  intros HR Hpos. destruct (asked op r body) as [code|rq] eqn:Hasked; simpl.
  { intros (-> & -> & _). split; [done|]. by exists s. }
  apply asked_well_formed in Hasked; [|done].
  intros (s' & HR' & Hend). split; [|by exists s'].
  destruct (decode rq w).1 as [c|e|why]; [|by destruct Hend as (_ & -> & _)|by destruct Hend as (_ & _ & _ & [])].
  destruct Hend as ([v|k] & _ & _ & Ha); [by destruct Ha as (? & _ & -> & _)|by destruct Ha as [-> _]].
Qed.

(** a request asks for a call *)
Definition calls (op : operation) (r : Request) (body : string) (w : W) (c : call) : Prop :=
  ∃ rq, asked op r body = inr rq ∧ (decode rq w).1 = Ret c.

(** the principal of a request, of a user *)
Definition principal_of (r : Request) (p : uuid) : Prop :=
  ∃ c, r_claims r = Some c ∧ ParsePrincipalId c = inr p.
Definition user_token (r : Request) (p : uuid) : Prop :=
  ∃ c, r_claims r = Some c ∧ ParsePrincipalId c = inr p ∧ is_user c = true.

Lemma user_token_principal r p : user_token r p → principal_of r p.
Proof. intros (c & Hc & Hp & _). by exists c. Qed.

Ltac ask_for rq := exists rq; split;
  [ cbn [asked]; unfold the_caller, the_body, GetClaims;
    repeat (match goal with H : ?x = _ |- context [?x] => rewrite H end;
            cbn [else_refuse must mbind refuse_bind fst net.PostPermission_PermissionLevel
                 net.PostPermission_UserIdToShare net.PutPermission_PermissionLevel]); try done
  | simpl; unfold id_field, level_field, mbind, go_bind, map_err; simpl;
    rewrite ?uuid_Parse_String; simpl; try done ].

Ltac ask := let rq := open_constr:(_ : rpc) in ask_for rq.

Lemma calls_get_permission r body w d q p :
  principal_of r p → (q = p ∨ user_token r p) →
  calls (OGetPermission d q) r body w (CGetPermission d q).
Proof.
  intros (c & Hc & Hp) Hq.
  assert (is_user c || bool_decide (q = p) = true) as Hmay.
  { apply orb_true_iff. destruct Hq as [->|(c' & Hc' & _ & Hu)]; [right; by apply bool_decide_true|left; congruence]. }
  ask.
Qed.

Lemma calls_delete_permission r body w d q p :
  user_token r p → calls (ODeletePermission d q) r body w (CDeletePermission q d).
Proof. intros (c & Hc & Hp & Hu). ask. Qed.

Lemma level_asked l :
  ∃ pl, netToProtoPermissionLevel (level_name l) = inr pl ∧
        DocumentServer.pbToServicePermissionLevel pl = inr (level_num l).
Proof. destruct l; by eexists. Qed.

Lemma calls_share r body w d u p l :
  user_token r p → (json_Decode body).1 = inr (net.mkPostPermissionBody (level_name l) (Some u)) →
  l ≠ LOwner → calls (OPostPermission d) r body w (CUpsertPermissionUser u d (level_num l)).
Proof.
  intros (c & Hc & Hp & Hu) Hb Hl. destruct (level_asked l) as (pl & Hpl & Hnum).
  assert (bool_decide (level_name l ≠ net.Owner) = true) as Hne by (by destruct l).
  ask. by rewrite Hnum.
Qed.

Lemma calls_guest r body w d p l :
  user_token r p → (json_Decode body).1 = inr (net.mkPostPermissionBody (level_name l) None) →
  l ≠ LOwner → calls (OPostPermission d) r body w (CCreateGuest p d (level_num l)).
Proof.
  intros (c & Hc & Hp & Hu) Hb Hl. destruct (level_asked l) as (pl & Hpl & Hnum).
  assert (bool_decide (level_name l ≠ net.Owner) = true) as Hne by (by destruct l).
  ask. by rewrite Hnum.
Qed.

Lemma calls_relevel r body w d g p l :
  user_token r p →
  (json_Decode body).1 = inr (net.mkPutPermissionBody (level_name l) net.PrincipalTypeGuest) →
  calls (OPutPermission d g) r body w (CUpdatePermissionGuest g (level_num l)).
Proof.
  intros (c & Hc & Hp & Hu) Hb. destruct (level_asked l) as (pl & Hpl & Hnum).
  ask_for (RUpdatePermissionGuest (pb.mkUpdatePermissionGuestRequest (uuid_String g) pl (a_user p))).
  by rewrite Hnum.
Qed.

(** without faults a call that is not refused is a step without faults *)
Lemma healthy_operation op r s w c body :
  on_documents op = true → known_to op r → repo_rel w s → repo_healthy w →
  calls op r body w c → rejected c = false →
  wp (run_operation op r) (λ o h', ∃ s' now, repo_rel (h_world h') s' ∧ repo_healthy (h_world h') ∧
    ((∃ v shown_body, ok_step (repo_drawn w c) s (forwarded now c) (Done v) s' ∧ shown op c v shown_body ∧
        answered_with (success op) shown_body o (h_response h')) ∨
     (∃ k, ok_step (repo_drawn w c) s (forwarded now c) (Failed k) s' ∧ refused_with (failure k) o (h_response h'))))
    (mkHttp w body no_response).
Proof.
  intros Hop Hput HR Hw (rq & Hasked & Hdec) Hrej.
  eapply wp_mono; [by apply (operation_contract op r s (mkHttp w body no_response))|].
  intros o h'. simpl. rewrite Hasked. simpl. unfold rpc_step. rewrite Hdec.
  intros (s' & HR' & resp & _ & Hh & Ha). destruct (Hh Hw) as [Hw' [_ Hok]]. rewrite Hrej in Hok.
  destruct Hok as [now Hok]. exists s', now. split_and!; [done..|].
  destruct resp as [v|k]; [left|right; by exists k]. destruct Ha as (b & ? & ?). by exists v, b.
Qed.

End steps.
End Steps.
