(* ===== verification/SystemSharing.v ===== *)
(** Sharing a document over HTTP: what an operation on permissions does and
    answers when nothing fails, and requests that follow each other. *)

From S2P Require Import Prelude GoLib Grpc DocPb DocDomain DocService DocServer.
From S2P Require Import Paging DocSpec DocContract DocRpc DocListing.
From S2P Require Import UserServer DocClient Http Gateway GatewayRules SystemReplies SystemSteps.
Import Spec Contract Rpc Gateway Rules Replies Steps.

Module Sharing.
Section sharing.
Context `{UuidLaws} `{ErrorText} `{TimestampLaws} `{GrpcText} `{CursorCodec} `{!CursorCodecTotal}.
Context {W : Type} `{LR : LawfulRepository W} {users : user_pb.UserServiceServer W}.
Context `{Jwt} {jwtSecretKey : GatewayConfig} `{Bodies}.
#[local] Existing Instance direct_stub.

(** a request with a body: the response and the world it leaves *)
Definition send (op : operation) (r : Request) (body : string) (w : W) : Response * W :=
  match run_operation op r (mkHttp w body no_response) with (_, h) => (h_response h, h_world h) end.

(** the system is in the state [s] and nothing fails from here on *)
Definition serves (w : W) (s : state) : Prop := repo_rel w s ∧ repo_healthy w.

(** the request is answered with [code] and [body], and leaves the state [s'] *)
Definition sends (op : operation) (r : Request) (body : string) (w : W) (code : Z)
    (answer : list net.payload) (w' : W) (s' : state) : Prop :=
  ∃ resp, send op r body w = (resp, w') ∧ replied code answer resp ∧ serves w' s'.

Lemma sends_serves op r body w code answer w' s' :
  sends op r body w code answer w' s' → serves w' s'.
Proof. by intros (? & _ & _ & Hs). Qed.

Lemma send_call op r s w c body :
  serves w s → calls op r body w c → on_documents op = true → (∀ d, op ≠ OPutDocument d) →
  rejected c = false →
  ∃ w' s' now,
    (∃ v answer, ok_step (repo_drawn w c) s (forwarded now c) (Done v) s' ∧ shown op c v answer ∧
       sends op r body w (success op) answer w' s') ∨
    (∃ k msg, ok_step (repo_drawn w c) s (forwarded now c) (Failed k) s' ∧
       sends op r body w (failure k) [net.Error msg] w' s').
Proof.
  intros [HR Hw] Hc Hop Hput Hrej.
  pose proof (healthy_operation op r s w c body Hop) as Hwp. unfold sends, send, wp in *.
  destruct (run_operation op r _) as [o h'].
  destruct Hwp as (s' & now & HR' & Hw' & Hend); [|done..|].
  { intros d ->. by destruct (Hput d). }
  exists (h_world h'), s', now.
  destruct Hend as [(v & b & Hok & Hb & _ & Hrep)|(k & Hok & _ & msg & Hrep)].
  - left. exists v, b. split_and!; [done..|]. by exists (h_response h').
  - right. exists k, msg. split; [done|]. by exists (h_response h').
Qed.

(** ** The operations on permissions *)
Ltac sent Hs Hc :=
  destruct (send_call _ _ _ _ _ _ Hs Hc eq_refl ltac:(by intros ?))
    as (w' & s' & now & [(v & b & Hok & Hv & Hsent)|(k & msg & Hok & Hsent)]);
  [try done|inversion Hok; subst; simplify_eq/=..].

Lemma not_owner l : l ≠ LOwner → (level_num l =? Owner)%Z = false.
Proof. by destruct l. Qed.

(** the permission that sharing creates, and what is left when it is deleted *)
Lemma upsert_new u l now a :
  d_perms a !! u = None → d_perms (upsert u l now a) !! u = Some (mkEntry RUser l u now now).
Proof. intros Hu. simpl. by rewrite Hu, lookup_insert_eq. Qed.
Lemma upsert_deleted u l now a :
  d_perms a !! u = None → set_perms (delete u (d_perms (upsert u l now a))) (upsert u l now a) = a.
Proof. intros Hu. unfold upsert, set_perms. simpl. rewrite delete_insert_id by done. by destruct a. Qed.

Lemma send_share r p body s w d u l a :
  serves w s → user_token r p →
  (json_Decode body).1 = inr (net.mkPostPermissionBody (level_name l) (Some u)) → l ≠ LOwner →
  s !! d = Some a →
  ∃ w' now, sends (OPostPermission d) r body w 200 [net.ShareDocumentResponse None (Some u)] w'
              (<[d := upsert u l now a]> s).
Proof.
  intros Hs Hr Hb Hl Ha. pose proof (calls_share r body w d u p l Hr Hb Hl) as Hc.
  sent Hs Hc; rewrite ?level_of_num in *; simplify_eq; [by apply not_owner|].
  by exists w', now0.
Qed.

(** the guest gets the id that is drawn, if no guest and no permission of the
    document has it *)
Lemma send_guest r p body s w d l a :
  serves w s → user_token r p →
  (json_Decode body).1 = inr (net.mkPostPermissionBody (level_name l) None) → l ≠ LOwner →
  s !! d = Some a →
  let g := repo_drawn w (CCreateGuest p d (level_num l)) in
  ∃ w', (unknown_guest g s ∧ d_perms a !! g = None ∧ ∃ now,
           sends (OPostPermission d) r body w 200 [net.ShareDocumentResponse (Some g) None] w'
             (<[d := add_guest g p l now a]> s)) ∨
        (¬ (unknown_guest g s ∧ d_perms a !! g = None) ∧ ∃ msg,
           sends (OPostPermission d) r body w 409 [net.Error msg] w' s).
Proof.
  intros Hs Hr Hb Hl Ha g. pose proof (calls_guest r body w d p l Hr Hb Hl) as Hc.
  sent Hs Hc; rewrite ?level_of_num in *; simplify_eq; [by apply not_owner|exists w'..].
  - left. by eauto.
  - right. by eauto.
Qed.

Lemma send_read r p body s w d q a :
  serves w s → principal_of r p → (q = p ∨ user_token r p) → s !! d = Some a →
  ∃ w', match d_perms a !! q with
        | Some e => sends (OGetPermission d q) r body w 200
                      [net.PermissionResponse (shown_permission (permission_view q d e))] w' s
        | None => ∃ msg, sends (OGetPermission d q) r body w 404 [net.Error msg] w' s
        end.
Proof.
  intros Hs Hr Hq Ha. pose proof (calls_get_permission r body w d q p Hr Hq) as Hc.
  sent Hs Hc.
  - exists w'. by simplify_option_eq.
  - exists w'. by simplify_option_eq; eauto.
Qed.

Lemma send_revoke r p body s w d q a :
  serves w s → user_token r p → s !! d = Some a → is_Some (d_perms a !! q) →
  ∃ w', sends (ODeletePermission d q) r body w 204 [] w'
          (<[d := set_perms (delete q (d_perms a)) a]> s).
Proof.
  intros Hs Hr Ha [e He]. pose proof (calls_delete_permission r body w d q p Hr) as Hc.
  sent Hs Hc; eauto. by simplify_option_eq.
Qed.

(** the guest that was added, on the one document it was added to *)
Lemma add_guest_entry g p l now a :
  d_perms (add_guest g p l now a) !! g = Some (mkEntry RGuest l p now now) ∧
  d_guests (add_guest g p l now a) !! g = Some (mkGuestEntry p now).
Proof. split; apply lookup_insert_eq. Qed.
Lemma guest_on_one g s d b :
  unknown_guest g s →
  ∀ d' a', (<[d := b]> s : state) !! d' = Some a' → is_Some (d_guests a' !! g) → d' = d.
Proof.
  intros Hg d' a' Ha [ge Hge]. destruct (decide (d' = d)) as [|Hne]; [done|].
  rewrite lookup_insert_ne in Ha by done. specialize (Hg d' a' Ha). congruence.
Qed.

(** the document in the path is not looked at *)
Lemma send_relevel r p body s w other d g l a ge e :
  serves w s → user_token r p →
  (json_Decode body).1 = inr (net.mkPutPermissionBody (level_name l) net.PrincipalTypeGuest) →
  l ≠ LOwner → s !! d = Some a → d_guests a !! g = Some ge → d_perms a !! g = Some e →
  e_type e = RGuest → (∀ d' a', s !! d' = Some a' → is_Some (d_guests a' !! g) → d' = d) →
  ∃ w' now, sends (OPutPermission other g) r body w 204 [] w'
              (<[d := set_perms (<[g := relevel l now e]> (d_perms a)) a]> s).
Proof.
  intros Hs Hr Hb Hl Ha Hg He Ht Hone. pose proof (calls_relevel r body w other g p l Hr Hb) as Hc.
  sent Hs Hc; rewrite ?level_of_num in *; simplify_eq; [by apply not_owner| |].
  - match goal with H1 : s !! ?x = Some ?y, H2 : d_guests ?y !! g = Some _ |- _ =>
      assert (x = d) as -> by (eapply Hone; [exact H1|by eexists]) end.
    simplify_eq. by exists w', now0.
  - exfalso. match goal with H : ∀ _ _ _, _ |- _ => by eapply H end.
Qed.
End sharing.
End Sharing.
