(* ===== verification/SystemListing.v ===== *)
(** The API gateway connected to the document service over a direct stub: an
    HTTP client that pages through a listing, asking again with the cursor of the
    last answer. *)

From S2P Require Import Prelude GoLib Pgx Grpc DocPb DocDomain DocService DocServer.
From S2P Require Import Paging DocSql DocRepository DocSpec DocRefine DocLawful DocContract DocRpc DocListing.
From S2P Require Import UserServer DocClient Http Gateway GatewayRules Examples DocTheorems DocRpcTheorems.
From S2P Require Import SystemReplies SystemSteps.
Import Gateway Rules Spec Refine Lawful Contract Rpc Listing Replies Steps.

Module SystemListing.

Section system.
Context `{UuidLaws} `{ErrorText} `{TimestampLib} `{GrpcText} `{CursorCodec}.
Context {users : user_pb.UserServiceServer DocWorld}.
Context `{Jwt} {jwtSecretKey : GatewayConfig} `{Bodies}.

#[local] Existing Instance direct_stub.

(** ** A client that follows the cursors *)

(** one page: the documents and the next cursor, if the answer is a page *)
Definition get_page (r : Request) (level : net.PermissionLevel) (limit : Z) (cursor : string)
    (w : DocWorld) : option (list net.Document * string) * DocWorld :=
  match run_operation (OListDocuments (net.mkGetDocumentParams (Some cursor) (Some limit) (Some level))) r
          (mkHttp w EmptyString no_response) with
  | (_, h) =>
      (match w_sent (h_response h), w_body (h_response h) with
       | Some (200%Z, _), [net.GetDocumentResponse (Some next) ds] => Some (ds, next)
       | _, _ => None
       end, h_world h)
  end.

(** all pages, until one is empty; [None] when an answer is not a page *)
Fixpoint get_all (fuel : nat) (r : Request) (level : net.PermissionLevel) (limit : Z) (cursor : string)
    (w : DocWorld) : option (list net.Document) * DocWorld :=
  match fuel with
  | O => (Some [], w)
  | S fuel' =>
      match get_page r level limit cursor w with
      | (None, w') => (None, w')
      | (Some ([], _), w') => (Some [], w')
      | (Some (ds, next), w') =>
          let (rest, w'') := get_all fuel' r level limit next w' in ((ds ++.) <$> rest, w'')
      end
  end.

Context `{!TimestampLaws} `{!CursorCodecLaws} `{!CursorCodecTotal}.

(** the string of a cursor, which the gateway and the service read back *)
Definition cursor_string (c : Cursor) (str : string) : Prop :=
  ∃ pc, netToProtoCursor str = inr pc ∧
        ∀ w : DocWorld, DocumentServer.parseServiceCursor (Some pc) w = (Ret (Some c), w).

Lemma cursor_string_of c pc str :
  DocumentServer.serviceToPbCursor c = inr pc → protoToNetCursor (Some pc) = inr str →
  cursor_string c str.
Proof.
  intros Hpc Hstr. exists pc. split; [|intros w; by apply parse_serviceToPbCursor].
  revert Hstr. unfold protoToNetCursor, netToProtoCursor.
  destruct (proto_Marshal (Some pc)) as [|wire] eqn:Hm; [done|]. intros [= <-].
  by rewrite DecodeString_Encode, (Unmarshal_Marshal _ _ Hm).
Qed.

Lemma level_of_name l :
  ∃ pl, netToProtoPermissionLevel (level_name l) = inr pl ∧
        DocumentServer.pbToServicePermissionLevelList [pl] = inr [level_num l].
Proof. destruct l; by eexists. Qed.

(** one page through the gateway is the page of the specification *)
Lemma wp_page s (w : DocWorld) r c p lv cur str n l :
  RW w s → healthy w → r_claims r = Some c → ParsePrincipalId c = inr p →
  cursor_string cur str → valid_field (Cursor_SortField cur) = true →
  lists_documents s p [lv] l → (1 <= n <= 100)%Z →
  let pg := page (document_key (Cursor_SortField cur)) (cursor_key cur) (Z.to_nat n) l in
  ∃ next w', get_page r (level_name lv) n str w =
      (Some ((λ x, net_document x.1.1 x.1.2) <$> pg, next), w') ∧ RW w' s ∧ healthy w' ∧
    cursor_string (documents_cursor cur (document_permission_view <$> pg)) next.
Proof.
  intros HR Hw Hc Hp (pc & Hpc & Hparse) Hf Hl Hn pg.
  destruct (level_of_name lv) as (pl & Hpl & Hlist).
  assert (plain [level_num lv] n) as Hplain by done.
  assert (mapM level_of [level_num lv] = Some [lv]) as Hlv by by destruct lv.
  unfold get_page. set (op := OListDocuments _).
  assert (calls op r EmptyString w (CListDocuments p [level_num lv] (Some cur) n)) as Hcalls.
  { eexists. split.
    - cbn [asked op]. unfold the_caller, GetClaims, the_cursor. rewrite Hc.
      cbn [else_refuse mbind refuse_bind]. rewrite Hp. simpl. rewrite Hpc. simpl. by rewrite Hpl.
    - simpl. unfold id_field, levels_field, cursor_field, mbind, go_bind, map_err. simpl.
      rewrite uuid_Parse_String. simpl. rewrite Hlist. simpl. by rewrite Hparse. }
  apply (healthy_operation (LR := lawful) _ _ s) in Hcalls; [|done..].
  unfold wp in Hcalls. destruct (run_operation op r _) as [o h'].
  destruct Hcalls as (s' & now & HR' & Hw' & Hend).
  rewrite forwarded_documents in Hend by done.
  destruct Hend as [(v & b & Hok & Hb & _ & Hrep)|(k & Hok & _)];
    destruct (ok_list_documents _ _ _ _ _ _ _ _ _ _ Hplain Hlv Hf Hl Hok) as [-> Hv]; [|done].
  injection Hv as ->. destruct Hb as (next & (c' & pc' & [= <-] & Hpc' & Hnext) & ->).
  exists next, (h_world h'). destruct Hrep as (_ & Hbody & [(x & [= <-] & Hsent)|[? _]]); [|done].
  rewrite Hsent, Hbody. split_and!; [|done|done|by eapply cursor_string_of].
  by rewrite <-list_fmap_compose.
Qed.

(** following the cursors collects the pages of the specification *)
Lemma get_all_pages fuel s (w : DocWorld) r c p lv cur str n l :
  RW w s → healthy w → r_claims r = Some c → ParsePrincipalId c = inr p →
  cursor_string cur str → valid_field (Cursor_SortField cur) = true →
  lists_documents s p [lv] l → (1 <= n <= 100)%Z →
  ∃ w', get_all fuel r (level_name lv) n str w =
    (Some ((λ x, net_document x.1.1 x.1.2) <$>
       pages (document_key (Cursor_SortField cur)) fuel (cursor_key cur) (Z.to_nat n) l), w') ∧
    RW w' s ∧ healthy w'.
Proof.
  intros HR Hw Hc Hp Hcur Hf Hl Hn. revert cur str w HR Hw Hcur Hf.
  unfold pages. induction fuel as [|fuel IH]; intros cur str w HR Hw Hcur Hf; cbn [get_all pages_by]; [by exists w|].
  destruct (wp_page s w r c p lv cur str n l HR Hw Hc Hp Hcur Hf Hl Hn)
    as (next & w1 & -> & HR1 & Hw1 & Hnext).
  destruct (last (page _ _ _ l)) as [x|] eqn:Hlast.
  - destruct (documents_cursor_key cur _ _ Hlast) as [Hkey Hsort].
    destruct (page _ _ _ l) as [|y pg]; [done|]. cbn [fmap list_fmap] in *.
    destruct (IH _ next w1 HR1 Hw1 Hnext) as (w2 & -> & HR2 & Hw2); [by rewrite Hsort|].
    exists w2. split; [|done]. by rewrite Hkey, Hsort, fmap_app.
  - apply last_None in Hlast. rewrite Hlast. by exists w1.
Qed.

End system.
End SystemListing.
