(* ===== verification/SharingTheorems.v ===== *)
(** The theorems on the operations on documents and permissions over HTTP: the
    gateway with the document service behind it makes the steps of the
    specification, and what users and guests see of them. *)

From S2P Require Import Prelude GoLib Pgx Grpc DocPb DocDomain DocService DocServer.
From S2P Require Import Paging DocSql DocRepository DocSpec DocRefine DocLawful DocContract DocRpc DocListing.
From S2P Require Import UserServer DocClient Http Gateway GatewayRules Examples DocTheorems.
From S2P Require Import SystemReplies SystemSteps SystemSharing GatewayExamples.
Import Gateway Rules Spec Refine Lawful Contract Rpc Replies Steps Sharing.

Section sharing.
Context `{UuidLaws} `{ErrorText} `{TimestampLaws} `{GrpcText} `{CursorCodec} `{!CursorCodecTotal}.
Context {W : Type} `{LR : LawfulRepository W} {users : user_pb.UserServiceServer W}.
Context `{Jwt} {jwtSecretKey : GatewayConfig} `{Bodies}.
#[local] Existing Instance direct_stub.

(** C8: The gateway implements the specification, whatever the database does: a
    request for an operation on documents or permissions is refused with the
    status [asked] computes, without effect; or the request of the document
    service that [asked] computes is carried out as one step of the
    specification, and answered with the value or the status of that step; a
    request that does not decode is answered with 400, without effect. Two
    exceptions: an update of a document by a caller whose principal is not
    known is not described here, and a listing without a cursor may crash the
    document service, which leaves the state as it was and gives no response. *)
Theorem gateway_refines_specification op r s (h : Http W) :
  on_documents op = true → known_to op r → repo_rel (h_world h) s → h_response h = no_response →
  wp (run_operation op r) (λ o h',
    match asked op r (h_body h) with
    | inl code => h_world h' = h_world h ∧ refused_with code o (h_response h')
    | inr rq => ∃ s', repo_rel (h_world h') s' ∧
        match (decode rq (h_world h)).1 with
        | Ret c => call_step op s (h_world h) c o h' s'
        | Err _ => s' = s ∧ refused_with 400 o (h_response h')
        | Panic why =>
            ¬ has_position op ∧ o = Panic why ∧ s' = s ∧ h_response h' = no_response
        end
    end) h.
Proof.
  intros Hop Hk HR Hh. eapply wp_mono; [by apply (operation_contract op r s h)|]. intros o h' Hends.
  unfold ends, rpc_step in Hends. destruct (asked op r (h_body h)) as [code|rq] eqn:Hasked; [done|].
  destruct Hends as (s' & HR' & Hstep). exists s'. split; [done|].
  destruct (decode rq (h_world h)).1 as [c|st|why]; [done..|].
  destruct Hstep as (Ho & Hs & Hr & Hwf). split_and!; [|done..].
  intros Hpos. by eapply Hwf, asked_well_formed.
Qed.

(** C15: Sharing a document with a user, step by step: after the POST the user
    reads a permission at the level of the request, which names the user as its
    creator; after the DELETE reading it is answered with 404, and the state is
    the one before. *)
Theorem sharing_and_revoking alice p reader u body s w d l a :
  serves w s → user_token alice p → principal_of reader u → s !! d = Some a → d_perms a !! u = None →
  (json_Decode body).1 = inr (net.mkPostPermissionBody (level_name l) (Some u)) → l ≠ LOwner →
  ∃ w1 w2 w3 w4 now msg,
    let shared := <[d := upsert u l now a]> s in
    sends (OPostPermission d) alice body w 200 [net.ShareDocumentResponse None (Some u)] w1 shared ∧
    sends (OGetPermission d u) reader EmptyString w1 200
      [net.PermissionResponse (net.mkPermission (now / 10 ^ 9) u d (now / 10 ^ 9) (level_name l)
         (net.mkPrincipal u net.PrincipalTypeUser))] w2 shared ∧
    sends (ODeletePermission d u) alice EmptyString w2 204 [] w3 s ∧
    sends (OGetPermission d u) reader EmptyString w3 404 [net.Error msg] w4 s.
Proof.
  intros Hs Ha Hr Hd Hu Hb Hl.
  destruct (send_share alice p body s w d u l a) as (w1 & now & Hshare); [done..|].
  pose proof (upsert_new u l now a Hu) as Hnew.
  destruct (send_read reader u EmptyString _ w1 d u _ (sends_serves _ _ _ _ _ _ _ _ Hshare) Hr
    (or_introl eq_refl) (lookup_insert_eq _ _ _)) as (w2 & Hread). rewrite Hnew in Hread.
  destruct (send_revoke alice p EmptyString _ w2 d u _ (sends_serves _ _ _ _ _ _ _ _ Hread) Ha
    (lookup_insert_eq _ _ _)) as (w3 & Hrevoke); [by eexists|].
  rewrite upsert_deleted, insert_insert_eq, insert_id in Hrevoke by done.
  destruct (send_read reader u EmptyString _ w3 d u a (sends_serves _ _ _ _ _ _ _ _ Hrevoke) Hr
    (or_introl eq_refl) Hd) as (w4 & Hgone). rewrite Hu in Hgone. destruct Hgone as [msg Hgone].
  exists w1, w2, w3, w4, now, msg. simpl. split_and!; [done| |done|done].
  by destruct l.
Qed.
End sharing.

(** * Over PostgreSQL *)
Section guests.
Context `{UuidLaws} `{ErrorText} `{TimestampLaws} `{GrpcText} `{CursorCodec} `{!CursorCodecTotal}.
Context {users : user_pb.UserServiceServer DocWorld}.
Context `{Jwt} {jwtSecretKey : GatewayConfig} `{Bodies}.
#[local] Existing Instance direct_stub.

(** C16: Sharing a document with a guest, step by step: the guest gets the
    random id that is drawn for it. When no document has a guest of this id and
    the document has no permission for it, the POST makes the guest, with the
    level of the request and the user as creator; the guest reads its own
    permission; and a PUT changes its level on the document it belongs to,
    whatever document the path of the PUT names. When the id is taken, and only
    then, the POST is answered with 409 and nothing changes. *)
Theorem guest_is_shared_with alice p body put_body s (w : DocWorld) d other l l' a :
  serves (LR := lawful) w s → user_token alice p → s !! d = Some a →
  (json_Decode body).1 = inr (net.mkPostPermissionBody (level_name l) None) → l ≠ LOwner →
  (json_Decode put_body).1 = inr (net.mkPutPermissionBody (level_name l') net.PrincipalTypeGuest) →
  l' ≠ LOwner →
  let g := env_uuid (w_env w) (w_tick w) in
  (unknown_guest g s → d_perms a !! g = None →
    ∃ w1 now,
      let shown_at level := [net.PermissionResponse (net.mkPermission (now / 10 ^ 9) p d (now / 10 ^ 9)
                               (level_name level) (net.mkPrincipal g net.PrincipalTypeGuest))] in
      let shared := <[d := add_guest g p l now a]> s in
      sends (LR := lawful) (OPostPermission d) alice body w 200 [net.ShareDocumentResponse (Some g) None] w1 shared ∧
      ∀ guest, principal_of guest g → ∃ w2 w3 w4 s',
        sends (LR := lawful) (OGetPermission d g) guest EmptyString w1 200 (shown_at l) w2 shared ∧
        sends (LR := lawful) (OPutPermission other g) alice put_body w2 204 [] w3 s' ∧
        sends (LR := lawful) (OGetPermission d g) guest EmptyString w3 200 (shown_at l') w4 s' ∧
        ∀ d', d' ≠ d → s' !! d' = s !! d') ∧
  (¬ (unknown_guest g s ∧ d_perms a !! g = None) →
    ∃ w1 msg, sends (LR := lawful) (OPostPermission d) alice body w 409 [net.Error msg] w1 s).
Proof.
  intros Hs Ha Hd Hb Hl Hb' Hl'. cbv zeta.
  destruct (send_guest (LR := lawful) alice p body s w d l a) as (w1 & [(Hg & Hn & now & Hpost)|(Htaken & Hpost)]);
    [done..| |]; change (repo_drawn w _) with (env_uuid (w_env w) (w_tick w)) in *; set (g := env_uuid _ _) in *.
  2:{ split; [by intros ??; destruct Htaken|]. intros _. by exists w1. }
  split; [intros _ _|by intros []]. exists w1, now. split; [done|]. intros guest Hguest.
  destruct (add_guest_entry g p l now a) as [He Hge].
  destruct (send_read guest g EmptyString _ w1 d g _ (sends_serves _ _ _ _ _ _ _ _ Hpost) Hguest
    (or_introl eq_refl) (lookup_insert_eq _ _ _)) as (w2 & Hread). rewrite He in Hread.
  destruct (send_relevel alice p put_body _ w2 other d g l' _ _ _ (sends_serves _ _ _ _ _ _ _ _ Hread)
    Ha Hb' Hl' (lookup_insert_eq _ _ _) Hge He eq_refl (guest_on_one _ _ _ _ Hg)) as (w3 & now' & Hput).
  destruct (send_read guest g EmptyString _ w3 d g _ (sends_serves _ _ _ _ _ _ _ _ Hput) Hguest
    (or_introl eq_refl) (lookup_insert_eq _ _ _)) as (w4 & Hread').
  cbn [d_perms set_perms] in Hread'. rewrite lookup_insert_eq in Hread'.
  exists w2, w3, w4. eexists. split_and!; [by destruct l|exact Hput|by destruct l'|].
  intros d' Hne. by rewrite !lookup_insert_ne.
Qed.
End guests.

(** * Instances of the theorems *)
Module SharingInstances.
Import Examples Plan GatewayPlan.
#[local] Existing Instance direct_stub.

#[local] Instance codec_total : CursorCodecTotal.
Proof. split. intros f t id. by eexists. Qed.

(** bodies: "user" shares with dave, all else with a guest *)
Definition dave : uuid := id_of 9.
#[local] Instance sharing_bodies : Bodies := {|
  body_login := body_login;
  body_post_user := body_post_user;
  body_put_user := body_put_user;
  body_delete_documents := body_delete_documents;
  body_post_document := body_post_document;
  body_put_document := body_put_document;
  body_post_permission s :=
    (inr (net.mkPostPermissionBody net.Viewer (if bool_decide (s = "user") then Some dave else None)),
     EmptyString);
  body_put_permission := body_of (net.mkPutPermissionBody net.Editor net.PrincipalTypeGuest);
|}.

Definition by_dave : Request := request_of (claims_of "dave" (uuid_String dave)).

Lemma serves_world : serves (LR := lawful) world state3.
Proof. split; [exact RW_world|exact healthy_world]. Qed.

Lemma alice_token : user_token by_alice alice.
Proof. exists (claims_of "alice" (uuid_String alice)). by vm_compute. Qed.
Lemma dave_principal : principal_of by_dave dave.
Proof. exists (claims_of "dave" (uuid_String dave)). by vm_compute. Qed.

Lemma gateway_refines_specification_witness :
  wp (run_operation (OGetPermission plan alice) by_alice) (λ o h',
    match asked (OGetPermission plan alice) by_alice EmptyString with
    | inl code => h_world h' = world ∧ refused_with code o (h_response h')
    | inr rq => ∃ s', RW (h_world h') s' ∧
        match (decode rq world).1 with
        | Ret c => call_step (LR := lawful) (OGetPermission plan alice) state3 world c o h' s'
        | Err _ => s' = state3 ∧ refused_with 400 o (h_response h')
        | Panic why => ¬ has_position (OGetPermission plan alice) ∧ o = Panic why ∧ s' = state3 ∧
                       h_response h' = no_response
        end
    end) (http EmptyString).
Proof.
  apply (gateway_refines_specification (LR := lawful) (OGetPermission plan alice) by_alice state3
           (http EmptyString)); [reflexivity|discriminate|exact RW_world|reflexivity].
Defined.

Lemma sharing_and_revoking_witness :
  ∃ w1 w2 w3 w4 now msg,
    let shared := <[plan := upsert dave LViewer now doc3]> state3 in
    sends (LR := lawful) (OPostPermission plan) by_alice "user" world 200
      [net.ShareDocumentResponse None (Some dave)] w1 shared ∧
    sends (LR := lawful) (OGetPermission plan dave) by_dave EmptyString w1 200
      [net.PermissionResponse (net.mkPermission (now / 10 ^ 9) dave plan (now / 10 ^ 9) net.Viewer
         (net.mkPrincipal dave net.PrincipalTypeUser))] w2 shared ∧
    sends (LR := lawful) (ODeletePermission plan dave) by_alice EmptyString w2 204 [] w3 state3 ∧
    sends (LR := lawful) (OGetPermission plan dave) by_dave EmptyString w3 404 [net.Error msg] w4 state3.
Proof.
  apply (sharing_and_revoking (LR := lawful) by_alice alice by_dave dave "user" state3 world plan LViewer doc3);
    [exact serves_world|exact alice_token|exact dave_principal|apply lookup_singleton_eq|
     vm_compute; reflexivity|reflexivity|discriminate].
Defined.

(** the id that is drawn is the one the environment has next: a free one, or
    that of bob; the PUT names another document *)
Definition guest : uuid := id_of 100.
Definition draws_bob : DocWorld :=
  mkWorld db3 None 0 (mkEnv (λ _, bob) (env_now calm) (env_fault calm)).

Lemma guest_is_shared_with_witness :
  unknown_guest guest state3 ∧ d_perms doc3 !! guest = None ∧
  (∃ w1 msg, sends (LR := lawful) (OPostPermission plan) by_alice "guest" draws_bob 409 [net.Error msg]
               w1 state3) ∧
  ∃ w1 now,
    let shown_at level := [net.PermissionResponse (net.mkPermission (now / 10 ^ 9) alice plan (now / 10 ^ 9)
                             (level_name level) (net.mkPrincipal guest net.PrincipalTypeGuest))] in
    let shared := <[plan := add_guest guest alice LViewer now doc3]> state3 in
    sends (LR := lawful) (OPostPermission plan) by_alice "guest" world 200
      [net.ShareDocumentResponse (Some guest) None] w1 shared ∧
    ∀ r, principal_of r guest → ∃ w2 w3 w4 s',
      sends (LR := lawful) (OGetPermission plan guest) r EmptyString w1 200 (shown_at LViewer) w2 shared ∧
      sends (LR := lawful) (OPutPermission dave guest) by_alice "{}" w2 204 [] w3 s' ∧
      sends (LR := lawful) (OGetPermission plan guest) r EmptyString w3 200 (shown_at LEditor) w4 s' ∧
      ∀ d', d' ≠ plan → s' !! d' = state3 !! d'.
Proof.
  assert (unknown_guest guest state3) as Hg.
  { unfold state3. intros d a [<- <-]%lookup_singleton_Some. reflexivity. }
  assert (d_perms doc3 !! guest = None) as Hn by (vm_compute; reflexivity).
  split; [exact Hg|]. split; [exact Hn|]. split.
  { refine (proj2 (guest_is_shared_with by_alice alice "guest" "{}" state3 draws_bob plan dave
      LViewer LEditor doc3 _ _ _ _ _ _ _) _);
      [|exact alice_token|apply lookup_singleton_eq|reflexivity|discriminate|reflexivity|discriminate|].
    - split; [split; [exact (proj1 RW_world)|reflexivity]|intros ??; reflexivity].
    - intros [_ Hbob]. vm_compute in Hbob. discriminate Hbob. }
  refine (proj1 (guest_is_shared_with by_alice alice "guest" "{}" state3 world plan dave
    LViewer LEditor doc3 _ _ _ _ _ _ _) Hg Hn);
    [exact serves_world|exact alice_token|apply lookup_singleton_eq|reflexivity|discriminate|
     reflexivity|discriminate].
Defined.
End SharingInstances.
