(* ===== verification/SystemTheorems.v ===== *)
(** The API gateway connected to the document service over a direct stub: what
    an HTTP request does to the documents. *)

From S2P Require Import Prelude GoLib Pgx Grpc DocPb DocDomain DocService DocServer.
From S2P Require Import Paging DocSql DocRepository DocSpec DocRefine DocLawful DocContract DocRpc DocListing.
From S2P Require Import UserServer DocClient Http Gateway GatewayRules Examples DocTheorems DocRpcTheorems.
From S2P Require Import SystemReplies SystemSteps SystemListing GatewayExamples.
Import Gateway Rules Spec Refine Lawful Contract Rpc Listing Replies Steps SystemListing.

Section system.
Context `{UuidLaws} `{ErrorText} `{TimestampLib} `{GrpcText} `{CursorCodec}.
Context {users : user_pb.UserServiceServer DocWorld}.
Context `{Jwt} {jwtSecretKey : GatewayConfig} `{Bodies}.

#[local] Existing Instance direct_stub.

(** ** One RPC from the client's side *)

(** the outcome of the client for a response of the service *)
Definition client_answered {A} (c : call) (resp : response) (f : A → reply)
    (o : outcome client_error A) : Prop :=
  match resp with
  | Done v => ∃ a, o = Ret a ∧ encode c v = inr (f a)
  | Failed k => ∃ msg, o = Err (RpcError (mkStatus (code_of k) msg))
  end.

Lemma wp_client {A} rq c (m : go DocWorld Status A) (f : A → reply) s (w : DocWorld) :
  handle rq = (a ← m; mret (f a)) →
  (∀ w : DocWorld, decode rq w = (Ret c, w)) → rejected c = false → cursor_valid c →
  RW w s → healthy w →
  wp (m or_return RpcError) (λ o w', ∃ resp s' now, client_answered c resp f o ∧
        RW w' s' ∧ healthy w' ∧ ok_step (drawn w c) s (forwarded now c) resp s') w.
Proof.
  intros Hm Hd Hrej Hc HR Hw. pose proof (handle_decode rq w) as Hh. rewrite Hd in Hh.
  pose proof (service_ok c s w HR Hw Hrej) as Hs. unfold wp in Hs.
  destruct (run_service c w) as [o w']. destruct Hs as (resp & s' & now & Hr & HR' & Hw' & Hok).
  assert (He : ∀ v, resp = Done v → has_cursor v ∧ ∃ p, encode c v = inr p).
  { intros v ->. by eapply encode_done. }
  destruct Hh as [Hw2 Ha].
  { destruct o; [|done..]. injection Hr as <-. by apply He. }
  rewrite Hm in Hw2, Ha. unfold wp, map_err, mbind, go_bind in *.
  destruct (m w) as [o1 w1]. assert (w1 = w') as -> by (destruct o1; done). clear Hw2.
  assert (client_answered c resp f match o1 with
          | Ret a => Ret a | Err e => Err (RpcError e) | Panic why => Panic why end) as Hans.
  { destruct o as [v|e|why]; simpl in Hr; [| |done]; injection Hr as <-; simpl in Ha |- *.
    - destruct (He v eq_refl) as [_ [p Hp]]. rewrite Hp in Ha.
      destruct o1 as [a| |]; [|done..]. exists a. split; [done|]. simpl in Ha. congruence.
    - destruct (grpc_code e) as (msg & Heq & _). rewrite Heq in Ha.
      destruct o1 as [a|e1|]; [done| |done]. exists msg. simpl in Ha. congruence. }
  by destruct o1; exists resp, s', now.
Qed.

(** a call of the document service from a handler *)
Lemma wp_call {A} i c (m : go DocWorld client_error A) (f : A → reply) s
    (h : Http DocWorld) (Q : outcome returned A → Http DocWorld → Prop) :
  wp m (λ o w', ∃ resp s' now, client_answered c resp f o ∧ RW w' s' ∧ healthy w' ∧
          ok_step i s (forwarded now c) resp s') (h_world h) →
  (∀ a v w' s' now, encode c v = inr (f a) → RW w' s' → healthy w' →
     ok_step i s (forwarded now c) (Done v) s' → Q (Ret a) (mkHttp w' (h_body h) (h_response h))) →
  (∀ k msg w' s' now, RW w' s' → healthy w' → ok_step i s (forwarded now c) (Failed k) s' →
     wp (SendError (E:=returned) (GrpcToHttpStatus (RpcError (mkStatus (code_of k) msg)))
           (client_error_Error (RpcError (mkStatus (code_of k) msg))))
       (λ _ h2, Q (Err Returned) h2) (mkHttp w' (h_body h) (h_response h))) →
  wp (on_world m or_send proxy) Q h.
Proof.
  intros Hm Hok Hfail. apply wp_or_send, wp_on_world. eapply wp_mono; [exact Hm|].
  intros o w' (resp & s' & now & Ha & HR & Hw & Hs). destruct resp as [v|k]; simpl in Ha.
  - destruct Ha as (a & -> & Hv). by eapply Hok.
  - destruct Ha as (msg & ->). by eapply Hfail.
Qed.

Lemma named_is_user c : Claims_UserName c ≠ EmptyString → is_user c = true.
Proof. intros Hu. unfold is_user, GetTokenType. by rewrite (bool_decide_true _ Hu). Qed.

(** ** Requests *)

(** C38: Reading a document through the gateway asks the document service for
    the document whose id is that of the caller: unless there is one, every
    such request is answered with 404, also for documents the caller owns. *)
Theorem get_document_is_not_found s (w : DocWorld) r c p d body :
  RW w s → healthy w → r_claims r = Some c → ParsePrincipalId c = inr p → s !! p = None →
  wp (run_operation (OGetDocument d) r) (λ o h',
    o = Err Returned ∧ ∃ msg, replied 404 [net.Error msg] (h_response h'))
    (mkHttp w body no_response).
Proof.
  intros HR Hw Hc Hp Hs. simpl. unfold GetDocumentDocumentId.
  eapply wp_claims; [done|]. eapply wp_principal; [done|]. apply wp_bind.
  eapply (wp_call _ (CGetDocument p) _ PGetDocument s).
  - eapply (wp_client (RGetDocument _)); try done.
    intros w0. simpl. unfold id_field, mbind, go_bind, map_err. simpl. by rewrite uuid_Parse_String.
  - intros a v w' s' now _ _ _ Hok. inversion Hok; subst. congruence.
  - intros k msg w' s' now _ _ Hok. inversion Hok; subst. split; [done|]. eexists. by apply send_json.
Qed.

(** C30: Whoever holds a user token deletes any document: no permission on the
    document is asked for, by the gateway or by the document service. *)
Theorem any_user_deletes_any_document s (w : DocWorld) r c p d body :
  RW w s → healthy w → r_claims r = Some c → Claims_UserName c ≠ EmptyString →
  ParsePrincipalId c = inr p → is_Some (s !! d) →
  wp (run_operation (ODeleteDocument d) r) (λ o h',
    replied 204 [] (h_response h') ∧ RW (h_world h') (delete d s)) (mkHttp w body no_response).
Proof.
  intros HR Hw Hc Hu Hp [a Ha]. simpl. unfold DeleteDocumentDocumentId.
  eapply wp_claims; [done|]. eapply wp_principal; [done|]. rewrite (named_is_user c Hu).
  apply wp_bind, wp_ret, wp_bind.
  eapply (wp_call _ (CDeleteDocument d) _ (λ _, PEmpty) s).
  - eapply (wp_client (RDeleteDocument _)); try done.
    intros w0. simpl. unfold id_field, mbind, go_bind, map_err. simpl. by rewrite uuid_Parse_String.
  - intros x v w' s' now _ HR' _ Hok. inversion Hok; subst.
    split; [|done]. split_and!; simpl; auto.
  - intros k msg w' s' now _ _ Hok. inversion Hok; subst. congruence.
Qed.

(** C39: An update of a document by a caller whose principal id cannot be
    parsed is answered with 400 and carried out all the same. *)
Theorem put_document_reports_400_and_updates s (w : DocWorld) r c err d a b body rest :
  RW w s → healthy w → r_claims r = Some c → ParsePrincipalId c = inl err → s !! d = Some a →
  json_Decode body = (inr b, rest) →
  (net.PutBody_DocumentName b, net.PutBody_DocumentDescription b) ≠ (None, None) →
  wp (run_operation (OPutDocument d) r) (λ o h',
    w_sent (h_response h') = Some (400%Z, Some "application/json") ∧
    w_superfluous (h_response h') = [204%Z] ∧ w_body (h_response h') = [net.Error err] ∧
    RW (h_world h')
      (<[d := update_meta (net.PutBody_DocumentName b) (net.PutBody_DocumentDescription b) a]> s))
    (mkHttp w body no_response).
Proof.
  intros HR Hw Hc Hp Ha Hb Hne. simpl. unfold PutDocumentDocumentId, GetClaims. rewrite Hc.
  apply wp_bind, wp_ret, wp_bind, wp_ret, wp_bind. rewrite Hp.
  apply wp_bind. cbn -[wp mbind]. unfold wp at 1. cbn -[wp mbind].
  apply wp_ret. eapply wp_Decode; [done|].
  apply wp_bind.
  eapply (wp_call _ (CUpdateDocument d _ _) _ (λ _, PEmpty) s).
  - eapply (wp_client (RUpdateDocument _)); try done.
    + intros w0. simpl. unfold id_field, mbind, go_bind, map_err. simpl. by rewrite uuid_Parse_String.
    + simpl. destruct b as [ds [n|]]; [done|]. by destruct ds.
  - intros x v w' s' now _ HR' _ Hok. inversion Hok; subst.
    assert (a0 = a) as -> by congruence. by split_and!.
  - intros k msg w' s' now _ _ Hok. inversion Hok; subst; try congruence.
Qed.

(** C40: The first page of a listing cannot be read: a request without a cursor
    reaches the document service without one, and its handler crashes. *)
Theorem first_page_crashes (w : DocWorld) r c p params l body :
  r_claims r = Some c → ParsePrincipalId c = inr p → net.GetParams_Cursor params = None →
  net.GetParams_PermissionLevel params = None ∨
    (net.GetParams_PermissionLevel params = Some l ∧ netToProtoPermissionLevel l ≠ inl
       "failed to map the permission level to a valid proto type") →
  run_operation (OListDocuments params) r (mkHttp w body no_response) =
    (Panic "invalid memory address or nil pointer dereference", mkHttp w body no_response).
Proof.
  intros Hc Hp Hcur Hl. simpl. unfold GetDocument, GetClaims. rewrite Hc, Hcur.
  unfold mbind at 1, go_bind at 1. simpl. rewrite Hp. unfold mbind, go_bind. simpl.
  assert (∀ lvl, (lvl = 0 ∨ lvl = 1 ∨ lvl = 2)%Z → ∀ lim,
    DocumentServiceClient.ListDocumentsByPrincipal p p [lvl] None lim w =
      (Panic "invalid memory address or nil pointer dereference", w)) as Hcrash.
  { intros lvl Hlvl lim. unfold DocumentServiceClient.ListDocumentsByPrincipal, map_err. simpl.
    unfold DocumentServer.ListDocumentsByPrincipal, mbind, go_bind, map_err. simpl.
    rewrite uuid_Parse_String. simpl. by destruct Hlvl as [->|[->| ->]]. }
  destruct Hl as [->|[-> Hl]]; simpl.
  - unfold answer_error at 1, on_world. simpl. rewrite Hcrash; [done|]. auto.
  - revert Hl. unfold netToProtoPermissionLevel.
    repeat case_bool_decide; intros Hl; try done; simpl;
      unfold answer_error at 1, on_world; simpl; rewrite Hcrash; [done|auto|done|auto|done|auto].
Qed.

(** C14: A document posted by a user gets the random id that is drawn for it.
    When no document has this id, the answer is 200 with the id, and the
    document of this id belongs to that user alone and carries the name and
    description of the request. When a document has the id, and only then, the
    answer is 500 and nothing changes. *)
Theorem post_document_creates s (w : DocWorld) r c p b body rest :
  RW w s → healthy w → r_claims r = Some c → Claims_UserName c ≠ EmptyString →
  ParsePrincipalId c = inr p → json_Decode body = (inr b, rest) →
  wp (run_operation OPostDocument r) (λ o h',
    let id := env_uuid (w_env w) (S (w_tick w)) in
    match s !! id with
    | None => replied 200 [net.PostDocumentResponse id] (h_response h') ∧ ∃ now,
        RW (h_world h') (<[id := new_document p (net.PostBody_DocumentName b)
                                   (net.PostBody_DocumentDescription b) now]> s)
    | Some _ => (∃ msg, replied 500 [net.Error msg] (h_response h')) ∧ RW (h_world h') s
    end) (mkHttp w body no_response).
Proof.
  intros HR Hw Hc Hu Hp Hb. simpl. unfold PostDocument.
  eapply wp_claims; [done|]. rewrite (named_is_user c Hu).
  apply wp_bind, wp_ret. eapply wp_principal; [done|].
  eapply wp_Decode; [done|].
  apply wp_bind, wp_or_send, wp_on_world. unfold DocumentServiceClient.CreateDocument.
  apply wp_bind.
  eapply wp_mono; [eapply (wp_client (RCreateDocument _) (CCreateDocument p _ _) _ PCreateDocument s);
    try done; intros w0; simpl; unfold id_field, mbind, go_bind, map_err; simpl;
    by rewrite uuid_Parse_String|].
  intros o w' (resp & s' & now & Ha & HR' & _ & Hok). simpl in Hok.
  set (id := env_uuid _ _) in *. inversion Hok; subst.
  - destruct Ha as (x & -> & [= <-]). simpl. apply wp_bind, wp_map_err.
    rewrite uuid_Parse_String. match goal with Hf : s !! id = None |- _ => rewrite Hf end.
    split; [by apply send_json|by eexists].
  - destruct Ha as (msg & ->). match goal with Hf : is_Some (s' !! id) |- _ => destruct Hf as [a Hf]; rewrite Hf end.
    split; [|done]. eexists. by apply send_json.
Qed.

Context `{!TimestampLaws} `{!CursorCodecLaws} `{!CursorCodecTotal}.

(** C11: An HTTP client that follows the cursors of GET /document, from any
    cursor the gateway understands and with any limit from 1 to 100, comes to
    an end and has then received every document below the cursor on which the
    caller has the permission asked for, each exactly once and in descending
    order. *)
Theorem http_listing_complete s (w : DocWorld) r c p lv cur str n l fuel :
  RW w s → healthy w → r_claims r = Some c → ParsePrincipalId c = inr p →
  cursor_string cur str → valid_field (Cursor_SortField cur) = true →
  lists_documents s p [lv] l → (1 <= n <= 100)%Z → (length l < fuel)%nat →
  let key := document_key (Cursor_SortField cur) in
  ∃ w', get_all fuel r (level_name lv) n str w =
    (Some ((λ x, net_document x.1.1 x.1.2) <$> order_desc key (below key (cursor_key cur) l)), w') ∧
    RW w' s.
Proof.
  intros HR Hw Hc Hp Hcur Hf Hl Hn Hfuel key.
  destruct (get_all_pages fuel s w r c p lv cur str n l HR Hw Hc Hp Hcur Hf Hl Hn) as (w' & Hall & HR' & _).
  exists w'. split; [|done]. rewrite Hall. unfold key. rewrite pages_complete; [done|..].
  - by eapply document_keys.
  - lia.
  - pose proof (length_filter (λ x, key_ltb (document_key (Cursor_SortField cur) x) (cursor_key cur) = true) l).
    unfold below. lia.
Qed.

(** C28: The cursor of a listing survives the way to the HTTP client and back:
    what the document service decodes from the string the gateway hands out is
    the cursor it returned. *)
Theorem cursor_string_round_trip c pc str (w : DocWorld) :
  DocumentServer.serviceToPbCursor c = inr pc → protoToNetCursor (Some pc) = inr str →
  ∃ pc', netToProtoCursor str = inr pc' ∧
         DocumentServer.parseServiceCursor (Some pc') w = (Ret (Some c), w).
Proof.
  intros Hpc Hstr. destruct (cursor_string_of _ _ _ Hpc Hstr) as (pc' & Hpc' & Hparse). by exists pc'.
Qed.
End system.

(** * Any repository that keeps its contract *)
Section answers.
Context `{UuidLaws} `{ErrorText} `{TimestampLaws} `{GrpcText} `{CursorCodec} `{!CursorCodecTotal}.
Context {W : Type} `{LR : LawfulRepository W} {users : user_pb.UserServiceServer W}.
Context `{Jwt} {jwtSecretKey : GatewayConfig} `{Bodies}.
#[local] Existing Instance direct_stub.

(** C18: What the document service answers is in the form the gateway expects:
    every document, permission, id and cursor of a reply, whatever the request
    and whatever the database did, is translated to a JSON value without an
    error and without following a nil pointer. *)
Theorem replies_are_translated r s (w : W) p w' :
  repo_rel w s → handle r w = (Ret p, w') → translated p.
Proof.
  intros HR Hp. pose proof (rpc_translates r s w HR) as Hr. unfold wp in Hr. rewrite Hp in Hr.
  by destruct Hr.
Qed.

(** C9: Every request for an operation on documents is answered: with the
    document service behind it, whatever the database does, the handler comes
    to an end without a crash, having sent exactly one status, and leaves the
    documents in order. The exceptions are a listing without a cursor and an
    update by a caller whose principal is not known. *)
Theorem document_operations_answer op r s (h : Http W) :
  on_documents op = true → has_position op → (∀ d, op = OPutDocument d → principal_known r) →
  repo_rel (h_world h) s → h_response h = no_response →
  wp (run_operation op r) (λ o h',
    (∀ why, o ≠ Panic why) ∧ replied_once (h_response h') ∧ ∃ s', repo_rel (h_world h') s') h.
Proof.
  intros Hop Hpos Hput HR Hh.
  pose proof (once_operation op r Hput h Hh) as Honce.
  pose proof (operation_contract op r s h Hop Hput HR Hh) as Hends. unfold wp in *.
  destruct (run_operation op r h) as [o h']. apply (ends_well op s) in Hends; [|done..].
  destruct Hends as [Ho Hin]. by destruct o as [| |why]; [| |destruct (Ho why)].
Qed.
End answers.

(** * Instances of the theorems *)
Module SystemInstances.
Import Examples Plan GatewayPlan.
#[local] Existing Instance direct_stub.

Lemma state3_plan : state3 !! plan = Some doc3.
Proof. apply lookup_singleton_eq. Qed.

Lemma get_document_is_not_found_witness :
  wp (run_operation (OGetDocument plan) by_alice) (λ o h',
    o = Err Returned ∧ ∃ msg, replied 404 [net.Error msg] (h_response h')) (http EmptyString).
Proof.
  apply (get_document_is_not_found state3 world by_alice (claims_of "alice" (uuid_String alice))
           alice plan EmptyString); [exact RW_world|exact healthy_world|reflexivity|
                                     vm_compute; reflexivity|].
  apply lookup_singleton_ne. discriminate.
Defined.

(** mallory has no permission on the document *)
Lemma any_user_deletes_any_document_witness :
  d_perms doc3 !! id_of 66 = None ∧
  wp (run_operation (ODeleteDocument plan) by_mallory) (λ o h',
    replied 204 [] (h_response h') ∧ RW (h_world h') (delete plan state3)) (http EmptyString).
Proof.
  split; [vm_compute; reflexivity|].
  apply (any_user_deletes_any_document state3 world by_mallory
           (claims_of "mallory" (uuid_String (id_of 66))) (id_of 66) plan EmptyString);
    [exact RW_world|exact healthy_world|reflexivity|discriminate|vm_compute; reflexivity|].
  exists doc3. exact state3_plan.
Defined.

Lemma put_document_reports_400_and_updates_witness :
  ∃ err, wp (run_operation (OPutDocument plan) by_nobody) (λ o h',
    w_sent (h_response h') = Some (400%Z, Some "application/json") ∧
    w_superfluous (h_response h') = [204%Z] ∧ w_body (h_response h') = [net.Error err] ∧
    RW (h_world h') (<[plan := update_meta (Some "new name") None doc3]> state3)) (http "{}").
Proof.
  eexists. apply (put_document_reports_400_and_updates state3 world by_nobody
    (claims_of "nobody" "not a uuid")
    "failed to parse the principal id from the JWT claims with error: invalid UUID (got a wrong number of bytes)"
    plan doc3 (net.mkPutDocumentBody None (Some "new name")) "{}" EmptyString);
    [exact RW_world|exact healthy_world|reflexivity|vm_compute; reflexivity|exact state3_plan|
     reflexivity|discriminate].
Defined.

Lemma first_page_crashes_witness :
  run_operation (OListDocuments (net.mkGetDocumentParams None None None)) by_alice (http EmptyString) =
    (Panic "invalid memory address or nil pointer dereference", http EmptyString).
Proof.
  apply (first_page_crashes world by_alice (claims_of "alice" (uuid_String alice)) alice
           (net.mkGetDocumentParams None None None) net.Owner EmptyString);
    [reflexivity|vm_compute; reflexivity|reflexivity|left; reflexivity].
Defined.

(** a free id, and one that is taken *)
Lemma post_document_creates_witness :
  wp (run_operation OPostDocument by_alice) (λ o h',
    replied 200 [net.PostDocumentResponse (id_of 101)] (h_response h') ∧ ∃ now,
      RW (h_world h') (<[id_of 101 := new_document alice (Some "notes") None now]> state3))
    (http "{}") ∧
  wp (run_operation OPostDocument by_alice) (λ o h',
    (∃ msg, replied 500 [net.Error msg] (h_response h')) ∧ RW (h_world h') state3)
    (mkHttp collision "{}" no_response).
Proof.
  split.
  - refine (post_document_creates state3 world by_alice (claims_of "alice" (uuid_String alice)) alice
             (net.mkPostDocumentBody None (Some "notes") alice) "{}" EmptyString
             RW_world healthy_world eq_refl _ _ eq_refl);
      [discriminate|vm_compute; reflexivity].
  - refine (post_document_creates state3 collision by_alice (claims_of "alice" (uuid_String alice)) alice
             (net.mkPostDocumentBody None (Some "notes") alice) "{}" EmptyString
             RW_collision healthy_collision eq_refl _ _ eq_refl);
      [discriminate|vm_compute; reflexivity].
Defined.

Definition last_seen : Cursor := mkCursor CreatedAt 5%Z plan.
Definition last_seen_pb : pb.Cursor :=
  pb.mkCursor pb.SORT_FIELD_CREATED_AT (Some (timestamppb_New 5)) (Some (uuid_String plan)).
Definition last_seen_string : string :=
  match protoToNetCursor (Some last_seen_pb) with inr str => str | inl _ => EmptyString end.

Lemma cursor_string_round_trip_witness :
  ∃ pc', netToProtoCursor last_seen_string = inr pc' ∧
         DocumentServer.parseServiceCursor (Some pc') world = (Ret (Some last_seen), world).
Proof.
  apply (cursor_string_round_trip last_seen last_seen_pb last_seen_string world);
    [reflexivity|vm_compute; reflexivity].
Defined.

#[local] Instance codec_total : CursorCodecTotal.
Proof. split. intros f t id. by eexists. Qed.

(** what alice owns, and the string of a cursor above it *)
Lemma alice_owned : lists_documents state3 alice [LOwner] [(plan, doc3, owner)].
Proof.
  destruct alice_documents as [Hnd Hl]. split; [done|]. intros id a e. rewrite Hl. split.
  - intros (Hid & He & _). split_and!; [done..|].
    assert ((id, a, e) ∈ [(plan, doc3, owner)]) as Hin.
    { apply Hl. split_and!; [done..|]. destruct (e_level e); by repeat constructor. }
    apply list_elem_of_singleton in Hin. simplify_eq. by repeat constructor.
  - intros (Hid & He & Hlv). split_and!; [done..|]. apply list_elem_of_singleton in Hlv as ->.
    by repeat constructor.
Qed.

Definition first_pb : pb.Cursor :=
  pb.mkCursor pb.SORT_FIELD_CREATED_AT (Some (timestamppb_New 100)) (Some (uuid_String MaxDocumentID)).
Definition first_string : string :=
  match protoToNetCursor (Some first_pb) with inr str => str | inl _ => EmptyString end.

Lemma first_cursor_string : cursor_string (from_start CreatedAt) first_string.
Proof. by apply (cursor_string_of _ first_pb). Qed.

Lemma http_listing_complete_witness :
  ∃ w', get_all 5 by_alice (level_name LOwner) 10 first_string world =
    (Some ((λ x, net_document x.1.1 x.1.2) <$>
       order_desc (document_key CreatedAt)
         (below (document_key CreatedAt) (cursor_key (from_start CreatedAt)) [(plan, doc3, owner)])), w') ∧
    RW w' state3.
Proof.
  apply (http_listing_complete state3 world by_alice (claims_of "alice" (uuid_String alice)) alice LOwner
           (from_start CreatedAt) first_string 10 [(plan, doc3, owner)] 5 RW_world healthy_world);
    [reflexivity|vm_compute; reflexivity|exact first_cursor_string|reflexivity|exact alice_owned|lia|simpl; lia].
Defined.

Lemma replies_are_translated_witness : translated PlanRpc.long_page.
Proof.
  apply (replies_are_translated (LR := lawful) PlanRpc.long_list state3 world _ (handle PlanRpc.long_list world).2 RW_world).
  vm_compute. reflexivity.
Defined.

Lemma document_operations_answer_witness :
  wp (run_operation (OGetPermission plan alice) by_alice) (λ o h',
    (∀ why, o ≠ Panic why) ∧ replied_once (h_response h') ∧ ∃ s', RW (h_world h') s') (http EmptyString).
Proof.
  apply (document_operations_answer (LR := lawful) (OGetPermission plan alice) by_alice state3 (http EmptyString));
    [reflexivity|exact I|discriminate|exact RW_world|reflexivity].
Defined.

End SystemInstances.
