(* ===== verification/UserSystemTheorems.v ===== *)
(** The API gateway connected to the user service over a direct stub:
    registration and login. *)

From S2P Require Import Prelude GoLib Pgx Grpc DocPb DocDomain UserDomain UserSql UserRepository.
From S2P Require Import UserSpec UserServer UserRpc UserTheorems DocClient Http Gateway GatewayRules.
From S2P Require Import Examples DocTheorems GatewayExamples.
Import Gateway Rules UserSpec UserRpc.

Section user_system.
Context `{ErrorText} `{BcryptLaws} `{UuidLaws} `{GrpcText} `{CursorCodec}.
Context {documents : DocumentServiceStub UserWorld}.
Context `{Jwt} {jwtSecretKey : GatewayConfig} `{Bodies}.








End user_system.

(** * Instances of the theorems *)
Module UserSystemInstances.
Import Examples GatewayPlan UserPlan.

(** a document service that cannot be reached *)
Definition down {A} : go UserWorld Status A := throw (mkStatus Unavailable "connection refused").
#[global] Instance no_documents : DocumentServiceStub UserWorld := {|
  stub_CreateDocument _ := down; stub_GetDocument _ := down; stub_UpdateDocument _ := down;
  stub_DeleteDocument _ := down; stub_DeleteDocuments _ := down;
  stub_ListDocumentsByPrincipal _ := down; stub_GetPermissionsOfPrincipalOnDocument _ := down;
  stub_ListPermissionsOnDocument _ := down; stub_CreateGuest _ := down;
  stub_UpsertPermissionUser _ := down; stub_UpdatePermissionGuest _ := down;
  stub_DeletePermissionsPrincipal _ := down;
|}.



End UserSystemInstances.
